(** * Weather-visualisation backend: a shallow embedding of its job/state core

  The development follows the Python sources of the backend:
  - [app/api/batch.py]            batch status read ([get_batch_status]);
  - [app/core/netcdf_processor.py] bounds, view and tileset naming;
  - [app/core/wind_analyzer.py]   detection of the wind components;
  - [app/core/file_manager.py], [app/api/files.py] deletion of a file;
  - [app/services/processing.py], [app/api/upload.py] batch ingestion;
  - [app/services/background.py]  the publishing orchestrator.

  Python dictionaries are finite maps from string keys to values, the
  in-memory tables of [AppState] are finite maps from ids to such
  dictionaries, exceptions are explicit results, and the remote
  collaborators (tileset publisher, array reader, clock, file system) are
  inputs of the functions that call them.  The code that changes the
  tables, the disk or the list of scheduled tasks is written in a monad of
  state and exceptions over a [World]; requests run one at a time, but
  for a status request placed between two files of an upload.
  Definitions come first, the theorems about them afterwards. *)

From Stdlib Require Import ZArith String Ascii List Bool Floats Lia.
From stdpp Require Import gmap strings list fin_maps.

Set Warnings "-inexact-float".
Open Scope string_scope.

(** ** Python values and dictionaries *)

Module Py.

(** The scalar values held in the records of the application state. *)
Inductive val : Type :=
| VNone
| VBool (b : bool)
| VInt (z : Z)
| VStr (s : string).

#[global] Instance val_eq_dec : EqDecision val.
Proof. solve_decision. Defined.

(** Truth value of a Python object ([if x], [not x], [x and y]). *)
Definition truthy (v : val) : bool :=
  match v with
  | VNone => false
  | VBool b => b
  | VInt z => negb (z =? 0)%Z
  | VStr s => negb (String.eqb s "")
  end.

(** Python [==] on scalars: booleans compare as the integers 0 and 1. *)
Definition py_eq (a b : val) : bool :=
  match a, b with
  | VNone, VNone => true
  | VBool x, VBool y => Bool.eqb x y
  | VInt x, VInt y => (x =? y)%Z
  | VBool x, VInt y | VInt y, VBool x => ((if x then 1 else 0) =? y)%Z
  | VStr x, VStr y => String.eqb x y
  | _, _ => false
  end.

(** [d.get(k)] and [d.get(k, dflt)]: a key that is present wins, also
    when it holds [None]. *)
Definition dict_get (d : gmap string val) (k : string) : val :=
  default VNone (d !! k).

Definition dict_get_or (d : gmap string val) (k : string) (dflt : val) : val :=
  default dflt (d !! k).

(** [d.update(e)]: the keys of [e] overwrite those of [d]. *)
Definition dict_update (d e : gmap string val) : gmap string val := e ∪ d.

(** [str(KeyError(k))] is [repr(k)]; for the keys used here (no quote,
    backslash or control character) that is the key between single
    quotes. *)
Definition key_error (k : string) : string := "'" ++ k ++ "'".

(** An optional string as a Python value. *)
Definition of_opt (o : option string) : val :=
  match o with Some s => VStr s | None => VNone end.

End Py.
Export Py.

(** ** The in-memory application state ([app/dependencies.py]) *)

(** A Batch Record: its scalar fields, and the two lists it owns. *)
Record BatchRecord : Type := mkBatch {
b_fields : gmap string val;
b_files : list (gmap string val);
b_errors : list (gmap string val)
}.

#[global] Instance BatchRecord_eq_dec : EqDecision BatchRecord.
Proof. solve_decision. Defined.

Record AppState : Type := mkAppState {
active_visualizations : gmap string (gmap string val);
active_sessions : gmap string (gmap string val);
batch_jobs : gmap string BatchRecord;
active_datasets : gmap string (gmap string val);
uploaded_files : gmap string (gmap string val)
}.

Definition set_active_visualizations (f : gmap string (gmap string val) -> gmap string (gmap string val))
  (st : AppState) : AppState :=
mkAppState (f (active_visualizations st)) (active_sessions st) (batch_jobs st)
           (active_datasets st) (uploaded_files st).

Definition set_active_sessions (f : gmap string (gmap string val) -> gmap string (gmap string val))
  (st : AppState) : AppState :=
mkAppState (active_visualizations st) (f (active_sessions st)) (batch_jobs st)
           (active_datasets st) (uploaded_files st).

Definition set_batch_jobs (f : gmap string BatchRecord -> gmap string BatchRecord)
  (st : AppState) : AppState :=
mkAppState (active_visualizations st) (active_sessions st) (f (batch_jobs st))
           (active_datasets st) (uploaded_files st).

Definition set_uploaded_files (f : gmap string (gmap string val) -> gmap string (gmap string val))
  (st : AppState) : AppState :=
mkAppState (active_visualizations st) (active_sessions st) (batch_jobs st)
           (active_datasets st) (f (uploaded_files st)).

Definition empty_state : AppState := mkAppState ∅ ∅ ∅ ∅ ∅.

(** [key in table] for a key that is any Python value: the tables are keyed
  by strings, so only a string can be found. *)
Definition table_lookup {A} (t : gmap string A) (k : val) : option A :=
match k with VStr s => t !! s | _ => None end.

(** The outcome of an endpoint: a body, or [HTTPException(code, detail)]. *)
Inductive Response (A : Type) : Type :=
| Ok (body : A)
| HTTPException (code : nat) (detail : string).
Arguments Ok {A} body.
Arguments HTTPException {A} code detail.

(** ** Batch status ([app/api/batch.py]) *)

Module Batch.

(** One turn of the loop over [batch_info['files']]: the counters are
    [(completed, failed, processing)]. *)
Definition count_file (vis : gmap string (gmap string val))
    (acc : nat * nat * nat) (file_info : gmap string val) : nat * nat * nat :=
  let '(completed, failed, processing) := acc in
  let job_id := dict_get file_info "job_id" in
  match table_lookup vis job_id with
  | Some viz =>
      let status := dict_get_or viz "status" (VStr "processing") in
      if py_eq status (VStr "completed") then (S completed, failed, processing)
      else if py_eq status (VStr "failed") then (completed, S failed, processing)
      else (completed, failed, S processing)
  | None => acc
  end.

Definition tally (vis : gmap string (gmap string val))
    (files : list (gmap string val)) : nat * nat * nat :=
  fold_left (count_file vis) files (0, 0, 0).

(** The aggregate status derived from the counters. *)
Definition derive_status (completed failed processing total : nat) : string :=
  if (0 <? processing)%nat then "processing"
  else if (failed =? total)%nat then "failed"
  else if (completed =? total)%nat then "completed"
  else "partial".

(** [get_batch_status]: the Batch Record is a shared object, so the
    recomputed snapshot is both stored and returned. *)
Definition get_batch_status (batch_id : string) (st : AppState)
    : Response BatchRecord * AppState :=
  match batch_jobs st !! batch_id with
  | None => (HTTPException 404 "Batch job not found", st)
  | Some batch_info =>
      let '(completed, failed, processing) :=
        tally (active_visualizations st) (b_files batch_info) in
      let status :=
        derive_status completed failed processing (length (b_files batch_info)) in
      let fields :=
        <["processing_files" := VInt (Z.of_nat processing)]>
          (<["failed_files" := VInt (Z.of_nat failed)]>
            (<["completed_files" := VInt (Z.of_nat completed)]>
              (<["status" := VStr status]> (b_fields batch_info)))) in
      let batch_info' := mkBatch fields (b_files batch_info) (b_errors batch_info) in
      (Ok batch_info', set_batch_jobs (insert batch_id batch_info') st)
  end.

(** The current status of a batch file entry: that of the Visualization
    Record its job id names, if there is one. *)
Definition file_status (vis : gmap string (gmap string val))
    (file_info : gmap string val) : option val :=
  match table_lookup vis (dict_get file_info "job_id") with
  | Some viz => Some (dict_get_or viz "status" (VStr "processing"))
  | None => None
  end.

(** The rule of the data model, in its words: all failed, then all
    completed, then any still processing, otherwise partial. *)
Definition spec_aggregate (statuses : list val) : string :=
  if forallb (py_eq (VStr "failed")) statuses then "failed"
  else if forallb (py_eq (VStr "completed")) statuses then "completed"
  else if existsb (py_eq (VStr "processing")) statuses then "processing"
  else "partial".

(** The three statuses of a Visualization Record. *)
Definition viz_status_ok (s : val) : Prop :=
  s = VStr "processing" \/ s = VStr "completed" \/ s = VStr "failed".

(** A state with one batch of three files whose Visualization Records
    carry the given statuses. *)
Definition entry (job : string) : gmap string val :=
  <["job_id" := VStr job]> (<["success" := VBool true]> ∅).

Definition viz_with (status : string) : gmap string val :=
  <["status" := VStr status]> ∅.

Definition three_files (s0 s1 s2 : string) : AppState :=
  mkAppState
    (<["j0" := viz_with s0]> (<["j1" := viz_with s1]> (<["j2" := viz_with s2]> ∅)))
    ∅
    (<["b" := mkBatch (<["status" := VStr "processing"]> ∅)
                      [entry "j0"; entry "j1"; entry "j2"] []]> ∅)
    ∅ ∅.

(** The status a response carries. *)
Definition response_status (r : Response BatchRecord) : option val :=
  match r with
  | Ok b => b_fields b !! "status"
  | HTTPException _ _ => None
  end.

(** Counting the elements of a list that satisfy a boolean test. *)
Fixpoint countb {A} (p : A -> bool) (l : list A) : nat :=
  match l with
  | [] => 0
  | x :: l' => (if p x then 1 else 0) + countb p l'
  end.

(** A batch of two files that were never registered, and an empty one. *)
Definition orphan_batch : AppState :=
  set_batch_jobs (insert "b" (mkBatch ∅ [entry "j0"; entry "j1"] [])) empty_state.

End Batch.

(** ** Python strings *)

(** A string is the sequence of its characters; the characters modelled are
    the code points U+0000 to U+00FF, one per [ascii] value, with Python's
    [str.isalnum] and [str.lower] on that range. *)

Module PyStr.

Definition chars (s : string) : list ascii := list_ascii_of_string s.
Definition str (l : list ascii) : string := string_of_list_ascii l.

Definition code (c : ascii) : N := N_of_ascii c.

Definition in_range (lo hi : N) (c : ascii) : bool :=
  ((lo <=? code c) && (code c <=? hi))%N.

Definition is_digit (c : ascii) : bool := in_range 48 57 c.
Definition is_ascii_lower (c : ascii) : bool := in_range 97 122 c.
Definition is_ascii_upper (c : ascii) : bool := in_range 65 90 c.
Definition is_ascii (c : ascii) : bool := (code c <? 128)%N.

(** [c.isalnum()]: the ASCII digits and letters, and beyond them the
    letters and numeric characters of the Latin-1 supplement. *)
Definition isalnum (c : ascii) : bool :=
  is_digit c || is_ascii_upper c || is_ascii_lower c
  || in_range 170 170 c || in_range 178 179 c || in_range 181 181 c
  || in_range 185 186 c || in_range 188 190 c
  || in_range 192 214 c || in_range 216 246 c || in_range 248 255 c.

(** [c.lower()]: A-Z, and the capital letters U+00C0 to U+00DE but for the
    multiplication sign, move 32 places up. *)
Definition lower_char (c : ascii) : ascii :=
  if is_ascii_upper c || (in_range 192 222 c && negb (in_range 215 215 c))
  then ascii_of_N (code c + 32)
  else c.

Definition lower (s : list ascii) : list ascii := map lower_char s.

(** The target alphabet of a tileset id: a-z, 0-9, underscore, hyphen. *)
Definition is_id_char (c : ascii) : bool :=
  is_ascii_lower c || is_digit c || Ascii.eqb c "_" || Ascii.eqb c "-".

(** [p in s] for strings. *)
Fixpoint is_prefix (p s : list ascii) : bool :=
  match p, s with
  | [], _ => true
  | _ :: _, [] => false
  | a :: p', b :: s' => Ascii.eqb a b && is_prefix p' s'
  end.

Fixpoint is_sub (p s : list ascii) : bool :=
  is_prefix p s ||
  match s with
  | [] => false
  | _ :: s' => is_sub p s'
  end.

Definition contains (p s : string) : bool := is_sub (chars p) (chars s).

(** [s.endswith(p)]. *)
Definition ends_with (p s : list ascii) : bool := is_prefix (rev p) (rev s).

(** [s.split(sep)]: never empty, a separator at either end gives an empty
    part. *)
Fixpoint split_on (sep : ascii) (s : list ascii) : list (list ascii) :=
  match s with
  | [] => [[]]
  | c :: s' =>
      if Ascii.eqb c sep then [] :: split_on sep s'
      else match split_on sep s' with
           | p :: ps => (c :: p) :: ps
           | [] => [[c]]
           end
  end.

(** [sep.join(parts)]. *)
Fixpoint join (sep : ascii) (parts : list (list ascii)) : list ascii :=
  match parts with
  | [] => []
  | p :: ps =>
      match ps with
      | [] => p
      | _ :: _ => (p ++ sep :: join sep ps)%list
      end
  end.

Definition nonempty (p : list ascii) : bool :=
  match p with [] => false | _ :: _ => true end.

(** [s.split(sep, 1)[-1]]: what follows the first separator, or all of [s]
    when there is none. *)
Fixpoint after_first (sep : ascii) (s : list ascii) : option (list ascii) :=
  match s with
  | [] => None
  | c :: s' => if Ascii.eqb c sep then Some s' else after_first sep s'
  end.

Definition split1_last (sep : ascii) (s : list ascii) : list ascii :=
  default s (after_first sep s).

(** [s.rstrip(c)]. *)
Fixpoint drop_while (p : ascii -> bool) (s : list ascii) : list ascii :=
  match s with
  | [] => []
  | c :: s' => if p c then drop_while p s' else s
  end.

Definition rstrip (c : ascii) (s : list ascii) : list ascii :=
  rev (drop_while (Ascii.eqb c) (rev s)).

(** [s[:n]] for an integer [n] of either sign. *)
Definition slice_to (n : Z) (s : list ascii) : list ascii :=
  if (0 <=? n)%Z then firstn (Z.to_nat n) s
  else firstn (length s - Z.to_nat (- n)) s.

(** Truth value of an optional string: [None] and the empty string are
    false. *)
Definition truthy_opt (o : option string) : bool :=
  match o with
  | Some s => negb (String.eqb s "")
  | None => false
  end.

End PyStr.

(** ** Bounds and view ([app/core/netcdf_processor.py]) *)

(** A call that may raise: its value, or the message of the exception. *)
Inductive Exc (A : Type) : Type :=
| Returns (a : A)
| Raises (msg : string).
Arguments Returns {A} a.
Arguments Raises {A} msg.

Definition exc_bind {A B} (c : Exc A) (k : A -> Exc B) : Exc B :=
  match c with
  | Returns a => k a
  | Raises msg => Raises msg
  end.

(** The array library behind a dataset: [float(a.max())] and
    [float(a.min())] of a coordinate array, either of which may raise. *)
Class ArrayLib (A : Type) : Type := {
  arr_max : A -> Exc float;
  arr_min : A -> Exc float
}.

(** A one-dimensional array of floats without NaN: the reductions keep the
    greatest and least element and raise on an empty array. *)
Definition float_max (a b : float) : float := if (a <? b)%float then b else a.
Definition float_min (a b : float) : float := if (b <? a)%float then b else a.

Definition list_reduce (f : float -> float -> float) (l : list float) : Exc float :=
  match l with
  | [] => Raises "zero-size array to reduction operation"
  | x :: l' => Returns (fold_left f l' x)
  end.

#[global] Instance float_list_lib : ArrayLib (list float) := {
  arr_max := list_reduce float_max;
  arr_min := list_reduce float_min
}.

(** What the readers below use of an opened dataset: the names of its data
    variables in order, and its coordinate arrays by name. *)
Record Dataset (A : Type) : Type := mkDataset {
  data_vars : list string;
  coords : gmap string A
}.
Arguments mkDataset {A} data_vars coords.
Arguments data_vars {A} d.
Arguments coords {A} d.

Module Geo.

Record Bounds : Type := mkBounds {
  north : float;
  south : float;
  east : float;
  west : float
}.

Definition lat_names : list string := ["lat"; "latitude"; "y"; "Y"].
Definition lon_names : list string := ["lon"; "longitude"; "x"; "X"].

(** [for name in names: if name in ds.coords: coord = ds.coords[name]; break] *)
Fixpoint first_present {A} (names : list string) (cs : gmap string A) : option A :=
  match names with
  | [] => None
  | name :: rest =>
      match cs !! name with
      | Some c => Some c
      | None => first_present rest cs
      end
  end.

(** The body of the [try] of [get_dataset_bounds]. *)
Definition get_dataset_bounds_try {A} `{ArrayLib A} (ds : Dataset A) : Exc (option Bounds) :=
  let lat_coord := first_present lat_names (coords ds) in
  let lon_coord := first_present lon_names (coords ds) in
  match lat_coord, lon_coord with
  | Some lat, Some lon =>
      exc_bind (arr_max lat) (fun n =>
      exc_bind (arr_min lat) (fun s =>
      exc_bind (arr_max lon) (fun e =>
      exc_bind (arr_min lon) (fun w =>
      Returns (Some (mkBounds n s e w))))))
  | _, _ => Returns None
  end.

(** [get_dataset_bounds]: the bare [except] turns every exception into
    [None]. *)
Definition get_dataset_bounds {A} `{ArrayLib A} (ds : Dataset A) : option Bounds :=
  match get_dataset_bounds_try ds with
  | Returns r => r
  | Raises _ => None
  end.

(** The alias under which an axis is found: the first of the list that
    names a coordinate. *)
Inductive first_alias {A} (cs : gmap string A) : list string -> A -> Prop :=
| alias_here name rest c :
    cs !! name = Some c -> first_alias cs (name :: rest) c
| alias_later name rest c :
    cs !! name = None -> first_alias cs rest c -> first_alias cs (name :: rest) c.

(** Python's [max(a, b)]: the second argument wins only when it is greater
    than the first. *)
Definition py_max (a b : float) : float := if (a <? b)%float then b else a.

Definition max_diff (b : Bounds) : float :=
  py_max (north b - south b)%float (east b - west b)%float.

(** The ladder of thresholds, in the order the source tests them. *)
Definition zoom_of (d : float) : Z :=
  if (180 <? d)%float then 1
  else if (90 <? d)%float then 2
  else if (45 <? d)%float then 3
  else if (22 <? d)%float then 4
  else if (11 <? d)%float then 5
  else if (5.5 <? d)%float then 6
  else if (2.8 <? d)%float then 7
  else if (1.4 <? d)%float then 8
  else 9.

(** The same ladder as a table of thresholds and zooms. *)
Definition zoom_table : list (float * Z) :=
  [(180%float, 1%Z); (90%float, 2%Z); (45%float, 3%Z); (22%float, 4%Z);
   (11%float, 5%Z); (5.5%float, 6%Z); (2.8%float, 7%Z); (1.4%float, 8%Z)].

(** [calculate_optimal_view]: [(None, None)] without bounds, else the
    centre [[lon, lat]] and the zoom. *)
Definition calculate_optimal_view (bounds : option Bounds) : option (list float) * option Z :=
  match bounds with
  | None => (None, None)
  | Some b =>
      let center_lon := ((east b + west b) / 2)%float in
      let center_lat := ((north b + south b) / 2)%float in
      let lat_diff := (north b - south b)%float in
      let lon_diff := (east b - west b)%float in
      let max_diff := py_max lat_diff lon_diff in
      (Some [center_lon; center_lat], Some (zoom_of max_diff))
  end.

(** A box from pole to pole on one meridian, a box one degree wide, and a
    dataset that has a latitude axis and no longitude axis. *)
Definition pole_to_pole : Bounds := mkBounds 90 (-90) 0 0.
Definition one_degree : Bounds := mkBounds 10 9.5 21 20.

Definition lat_only : Dataset (list float) :=
  mkDataset ["temp"] (<["lat" := [10; 20; 30]%float]> ∅).

Definition lat_lon : Dataset (list float) :=
  mkDataset ["temp"]
    (<["latitude" := [10; 30; 20]%float]> (<["x" := [5; -5]%float]> ∅)).

Definition empty_lon : Dataset (list float) :=
  mkDataset ["temp"] (<["lat" := [10; 20]%float]> (<["lon" := []]> ∅)).

End Geo.

(** ** Wind components ([app/core/wind_analyzer.py]) *)

Module Wind.
Import PyStr.

Definition u_patterns : list string :=
  ["u"; "u10"; "u_wind"; "u_component"; "eastward"; "ugrd"; "u-component"; "uas"].
Definition v_patterns : list string :=
  ["v"; "v10"; "v_wind"; "v_component"; "northward"; "vgrd"; "v-component"; "vas"].

(** [any(p in var_lower for p in patterns)] with [var_lower = var.lower()]. *)
Definition matches (patterns : list string) (var : string) : bool :=
  let var_lower := str (lower (chars var)) in
  existsb (fun p => contains p var_lower) patterns.

(** The result [{"u": u_var, "v": v_var}]. *)
Record WindComponents : Type := mkWind { wc_u : string; wc_v : string }.

(** The loop over [ds.data_vars], with the two variables it assigns. *)
Fixpoint scan_vars (vars : list string) (u_var v_var : option string)
    : option string * option string :=
  match vars with
  | [] => (u_var, v_var)
  | var :: rest =>
      if negb (truthy_opt u_var) && matches u_patterns var
      then scan_vars rest (Some var) v_var
      else if negb (truthy_opt v_var) && matches v_patterns var
      then scan_vars rest u_var (Some var)
      else scan_vars rest u_var v_var
  end.

Definition find_wind_components (vars : list string) : option WindComponents :=
  match scan_vars vars None None with
  | (Some u_var, Some v_var) =>
      if truthy_opt (Some u_var) && truthy_opt (Some v_var)
      then Some (mkWind u_var v_var)
      else None
  | _ => None
  end.

(** The policy in the words of the design: the u axis takes the first
    variable matching a u pattern; the v axis takes the first variable
    matching a v pattern among the others; nothing is returned unless both
    are found. *)
Fixpoint remove_first {A} (p : A -> bool) (l : list A) : list A :=
  match l with
  | [] => []
  | x :: l' => if p x then l' else x :: remove_first p l'
  end.

Definition spec_find_vector_components (vars : list string) : option WindComponents :=
  match find (matches u_patterns) vars,
        find (matches v_patterns) (remove_first (matches u_patterns) vars) with
  | Some u_var, Some v_var => Some (mkWind u_var v_var)
  | _, _ => None
  end.

(** Case, in the words of the design.  A capital letter is one of A to Z
    or, further up in the characters modelled, one of U+00C0 to U+00DE
    other than the multiplication sign; its small letter stands 32 code
    points higher.  Two names are the same up to case when they differ
    only by such pairs, and a name without a capital letter is its own
    lowercased form. *)
Definition is_capital (c : ascii) : bool :=
  let n := code c in
  (((65 <=? n) && (n <=? 90)) || ((192 <=? n) && (n <=? 222) && negb (n =? 215)))%N.

Definition case_pair (x y : ascii) : Prop :=
  x = y \/
  (is_capital x = true /\ code y = (code x + 32)%N) \/
  (is_capital y = true /\ code x = (code y + 32)%N).

Definition same_up_to_case (a b : string) : Prop :=
  Forall2 case_pair (chars a) (chars b).

Definition no_capital (var : string) : Prop :=
  Forall (fun c => is_capital c = false) (chars var).

End Wind.

(** ** Tileset naming ([generate_tileset_id] of [app/core/netcdf_processor.py]) *)

Module Naming.
Import PyStr.

(** The reading of the clock that [datetime.now()] returns; the fields of a
    datetime are below one hundred. *)
Record Clock : Type := mkClock {
  month : nat;
  day : nat;
  hour : nat;
  minute : nat
}.

Definition digit (d : nat) : ascii := ascii_of_nat (48 + d mod 10).
Definition two_digits (n : nat) : list ascii := [digit (n / 10); digit n].

(** [now.strftime("%m%d%H%M")] *)
Definition strftime_mdHM (now : Clock) : list ascii :=
  (two_digits (month now) ++ two_digits (day now)
   ++ two_digits (hour now) ++ two_digits (minute now))%list.

(** [c.isalnum() or c in '-_'] *)
Definition kept (c : ascii) : bool :=
  isalnum c || Ascii.eqb c "-" || Ascii.eqb c "_".

(** The name part before truncation: derived from the file stem when no
    name is supplied, then lowered, with every other character replaced by
    an underscore and the runs of underscores collapsed. *)
Definition sanitized_name (stem : string) (tileset_name : option string) : list ascii :=
  let tileset_name :=
    if negb (truthy_opt tileset_name) then
      let filename := split1_last "_" (chars stem) in
      let short := firstn 20 (List.filter kept filename) in
      if nonempty short then short else chars "weather_data"
    else chars (default "" tileset_name) in
  let tileset_name := lower tileset_name in
  let tileset_name := map (fun c => if kept c then c else "_"%char) tileset_name in
  join "_" (List.filter nonempty (split_on "_" tileset_name)).

(** The prefix before the final clean-up. *)
Definition raw_prefix (batch_id : option string) : list ascii :=
  if truthy_opt batch_id
  then (chars "wxb_" ++ firstn 8 (chars (default "" batch_id)))%list
  else chars "wx".

(** [generate_tileset_id], given the stem of the file path and the clock. *)
Definition generate_tileset_id (stem : string) (tileset_name : option string)
    (batch_id : option string) (now : Clock) : string :=
  let tileset_name := sanitized_name stem tileset_name in
  let timestamp := strftime_mdHM now in
  let prefix := raw_prefix batch_id in
  let max_name_length :=
    (32 - Z.of_nat (length prefix) - Z.of_nat (length timestamp) - 2)%Z in
  let tileset_name :=
    if (max_name_length <? Z.of_nat (length tileset_name))%Z
    then slice_to max_name_length tileset_name
    else tileset_name in
  let tileset_id := (prefix ++ "_"%char :: tileset_name ++ "_"%char :: timestamp)%list in
  let tileset_id := lower tileset_id in
  let tileset_id := List.filter kept tileset_id in
  str (rstrip "_" (firstn 32 tileset_id)).

(** The parts the finished id is made of. *)
Definition clean_prefix (batch_id : option string) : list ascii :=
  List.filter kept (lower (raw_prefix batch_id)).

Definition name_budget (batch_id : option string) : nat :=
  22 - length (raw_prefix batch_id).

Definition name_part (stem : string) (tileset_name : option string)
    (batch_id : option string) : list ascii :=
  firstn (name_budget batch_id) (sanitized_name stem tileset_name).

(** A settled character is kept by the final filter and is its own lower
    case. *)
Definition settled (c : ascii) : Prop := kept c = true /\ lower_char c = c.

(** Strings of ASCII characters. *)
Definition ascii_only (s : string) : Prop := Forall (fun c => is_ascii c = true) (chars s).

Definition ascii_only_opt (o : option string) : Prop :=
  match o with Some s => ascii_only s | None => True end.

(** Sample inputs: a clock reading, and a batch id written in capitals. *)
Definition jan_2nd : Clock := mkClock 1 2 3 4.
Definition capital_batch : string := "ABCDEFGH-0000".

(** The letter e with an acute accent, U+00E9. *)
Definition e_acute : string := String (ascii_of_nat 233) EmptyString.

End Naming.

(** ** The world around the tables: disk, recipe directory, tasks, remote calls *)

(** A background task as [background_tasks.add_task] records it: the
    arguments of [create_mapbox_tileset_background]. *)
Record Task : Type := mkTask {
  task_file_path : string;
  task_job_id : string;
  task_tileset_id : val;
  task_visualization_type : string;
  task_batch_id : option string
}.

(** A call made to the remote publisher, with the file and the tileset id. *)
Inductive RemoteCall : Type :=
| RasterCall (file_path tileset_id : string)
| VectorCall (file_path tileset_id : string).

Record World : Type := mkWorld {
  app : AppState;
  disk : gset string;
  recipes : gmap string (gmap string val);
  scheduled : list Task;
  remote_calls : list RemoteCall
}.

Definition set_app (f : AppState -> AppState) (w : World) : World :=
  mkWorld (f (app w)) (disk w) (recipes w) (scheduled w) (remote_calls w).

Definition set_disk (f : gset string -> gset string) (w : World) : World :=
  mkWorld (app w) (f (disk w)) (recipes w) (scheduled w) (remote_calls w).

Definition set_recipes (f : gmap string (gmap string val) -> gmap string (gmap string val))
    (w : World) : World :=
  mkWorld (app w) (disk w) (f (recipes w)) (scheduled w) (remote_calls w).

Definition set_scheduled (f : list Task -> list Task) (w : World) : World :=
  mkWorld (app w) (disk w) (recipes w) (f (scheduled w)) (remote_calls w).

Definition set_remote_calls (f : list RemoteCall -> list RemoteCall) (w : World) : World :=
  mkWorld (app w) (disk w) (recipes w) (scheduled w) (f (remote_calls w)).

(** The world before any upload. *)
Definition empty_world : World := mkWorld empty_state ∅ ∅ [] [].

(** ** Deleting a file ([app/core/file_manager.py], [app/api/files.py]) *)

Module Files.
Import PyStr.

(** [RECIPE_DIR.glob(f"*{file_id}*.json")] on a file name, for an id
    without wildcard characters: the name ends in .json and the id occurs
    before that ending. *)
Definition glob_id_json (file_id name : string) : bool :=
  ends_with (chars ".json") (chars name)
  && is_sub (chars file_id) (firstn (length (chars name) - 5) (chars name)).

(** The recipe files a delete removes: those the glob finds and whose
    unlink is not refused. *)
Definition recipe_removed (denied : gset string) (file_id name : string) : bool :=
  glob_id_json file_id name && negb (bool_decide (name ∈ denied)).

(** [delete_file_and_cleanup]; [denied] holds the paths whose unlink
    raises. *)
Definition delete_file_and_cleanup (denied : gset string) (file_id : string) (w : World)
    : Exc bool * World :=
  match uploaded_files (app w) !! file_id with
  | None => (Returns false, w)
  | Some file_info =>
      match file_info !! "file_path" with
      | None => (Raises (key_error "file_path"), w)
      | Some (VStr file_path) =>
          if bool_decide (file_path ∈ disk w) && bool_decide (file_path ∈ denied)
          then (Returns false, w)
          else
            let w := set_disk (fun d => d ∖ {[file_path]}) w in
            let w := set_app (set_active_visualizations (delete file_id)) w in
            let w := set_app (set_active_sessions (delete file_id)) w in
            let w :=
              set_recipes
                (filter (fun kv => recipe_removed denied file_id (fst kv) = false)) w in
            let w := set_app (set_uploaded_files (delete file_id)) w in
            (Returns true, w)
      | Some _ => (Raises "expected str, bytes or os.PathLike object", w)
      end
  end.

(** [str(HTTPException(code, detail))] *)
Definition http_exception_str (detail : string) : string := "500: " ++ detail.

(** The endpoint [DELETE /file/{file_id}]. *)
Definition delete_file (denied : gset string) (file_id : string) (w : World)
    : Response (gmap string val) * World :=
  match uploaded_files (app w) !! file_id with
  | None => (HTTPException 404 "File not found", w)
  | Some _ =>
      match delete_file_and_cleanup denied file_id w with
      | (Returns true, w') =>
          (Ok (<["success" := VBool true]>
                 (<["message" := VStr "File deleted successfully"]>
                    (<["file_id" := VStr file_id]> ∅))), w')
      | (Returns false, w') =>
          (HTTPException 500
             ("Failed to delete file: " ++ http_exception_str "Failed to delete file"), w')
      | (Raises msg, w') =>
          (HTTPException 500 ("Failed to delete file: " ++ msg), w')
      end
  end.

(** A single upload as the pipeline leaves it: the file on disk, its three
    records, and the sidecar written when its tileset was published. *)
Definition sample_job : string := "20240101120000".
Definition sample_path : string := "uploads/20240101120000_wind.nc".
Definition sample_tileset : string := "wx_wind_01011200".
Definition sample_recipe : string := "recipe_wx_wind_01011200.json".

Definition published_upload : World :=
  mkWorld
    (mkAppState
       (<[sample_job := <["tileset_id" := VStr sample_tileset]>
                          (<["status" := VStr "completed"]>
                             (<["file_path" := VStr sample_path]> ∅))]> ∅)
       (<[sample_job := <["file_path" := VStr sample_path]> ∅]> ∅)
       ∅ ∅
       (<[sample_job := <["file_path" := VStr sample_path]>
                          (<["tileset_id" := VStr sample_tileset]>
                             (<["processing_status" := VStr "completed"]> ∅))]> ∅))
    {[sample_path]}
    (<[sample_recipe := <["tileset_id" := VStr sample_tileset]>
                          (<["session_id" := VStr sample_job]> ∅)]> ∅)
    [] [].

End Files.

(** ** Settings and effects *)

(** The settings the pipeline reads ([app/config.py]); the directories are
    absolute paths. *)
Record Settings : Type := mkSettings {
  UPLOAD_DIR : string;
  MAPBOX_TOKEN : string;
  MAPBOX_USERNAME : string
}.

(** A computation that reads and changes the world and either returns a
    value or raises; what it changed before raising stays changed. *)
Definition M (A : Type) : Type := World -> Exc A * World.

Definition ret {A} (a : A) : M A := fun w => (Returns a, w).

Definition raise {A} (msg : string) : M A := fun w => (Raises msg, w).

Definition bind {A B} (m : M A) (k : A -> M B) : M B :=
  fun w =>
    match m w with
    | (Returns a, w') => k a w'
    | (Raises msg, w') => (Raises msg, w')
    end.

Notation "'let*' x ':=' m 'in' k" := (bind m (fun x => k))
  (at level 10, x pattern, m at level 100, k at level 200).

(** [try: m  except Exception as e: h(str(e))] *)
Definition try_except {A} (m : M A) (h : string -> M A) : M A :=
  fun w =>
    match m w with
    | (Returns a, w') => (Returns a, w')
    | (Raises msg, w') => h msg w'
    end.

Definition modify (f : World -> World) : M unit := fun w => (Returns tt, f w).

Definition gets {A} (f : World -> A) : M A := fun w => (Returns (f w), w).

Definition lift {A} (e : Exc A) : M A := fun w => (e, w).

(** [d[k]] *)
Definition item (d : gmap string val) (k : string) : M val :=
  match d !! k with
  | Some v => ret v
  | None => raise (key_error k)
  end.

(** What a computation leaves when it is run. *)
Definition outcome {A} (m : M A) (w : World) : Exc A := fst (m w).
Definition world_after {A} (m : M A) (w : World) : World := snd (m w).

(** A computation respects a relation between worlds when the world it
    leaves is related to the one it found, whatever its outcome. *)
Definition respects (R : World -> World -> Prop) {A} (m : M A) : Prop :=
  forall w, R w (world_after m w).

(** ** Updates of the records *)

(** [alter] leaves a table without the key as it is: it is the assignment
    under the guard [if job_id in table]. *)
Definition set_viz (job_id key : string) (v : val) : World -> World :=
  set_app (set_active_visualizations (alter (insert key v) job_id)).

Definition set_uploaded (job_id key : string) (v : val) : World -> World :=
  set_app (set_uploaded_files (alter (insert key v) job_id)).

(** [for x in l: if p(x): f(x); break] *)
Fixpoint update_first {A} (p : A -> bool) (f : A -> A) (l : list A) : list A :=
  match l with
  | [] => []
  | x :: l' => if p x then f x :: l' else x :: update_first p f l'
  end.

(** [file_info.get('job_id') == job_id] *)
Definition is_job (job_id : string) (file_info : gmap string val) : bool :=
  py_eq (dict_get file_info "job_id") (VStr job_id).

(** The update of the batch file entry of a job:
    [if batch_id and batch_id in app_state.batch_jobs:] then the loop over
    the entries that stops at the first one with this job id. *)
Definition set_batch_entry (batch_id : option string) (job_id : string)
    (f : gmap string val -> gmap string val) : World -> World :=
  if PyStr.truthy_opt batch_id then
    set_app (set_batch_jobs
      (alter (fun b => mkBatch (b_fields b)
                               (update_first (is_job job_id) f (b_files b))
                               (b_errors b))
             (default "" batch_id)))
  else fun w => w.

(** The position of the first element that passes a test. *)
Fixpoint first_index {A} (p : A -> bool) (l : list A) : option nat :=
  match l with
  | [] => None
  | x :: l' => if p x then Some 0 else S <$> first_index p l'
  end.

(** The readers of a field of a record. *)
Definition viz_field (w : World) (job_id key : string) : option val :=
  active_visualizations (app w) !! job_id ≫= (fun r => r !! key).

Definition uploaded_field (w : World) (job_id key : string) : option val :=
  uploaded_files (app w) !! job_id ≫= (fun r => r !! key).

(** The field of the batch file entry of a job: of the first entry of the
    batch that carries the job id. *)
Definition batch_entry_field (w : World) (batch_id job_id key : string) : option val :=
  batch_jobs (app w) !! batch_id ≫= (fun b =>
    first_index (is_job job_id) (b_files b) ≫= (fun i =>
      b_files b !! i ≫= (fun e => e !! key))).
(** ** Batch ingestion ([app/services/processing.py], [app/api/upload.py]) *)

Module Ingest.
Import PyStr.

(** An uploaded file: its name and its bytes. *)
Record Upload : Type := mkUpload {
  filename : string;
  content : string
}.

(** What the pipeline asks of its surroundings: the settings, the clock,
    the file system (the exception a write raises for a path, the paths
    whose unlink raises), the reader of NetCDF files, and whether the
    extraction of the wind field for the client gives a result. *)
Record Env (A : Type) : Type := mkEnv {
  settings : Settings;
  now : Naming.Clock;
  write_fails : string -> option string;
  unlink_fails : string -> bool;
  open_dataset : string -> Exc (Dataset A);
  wind_data_found : Dataset A -> Wind.WindComponents -> option Geo.Bounds -> bool
}.
Arguments mkEnv {A} _ _ _ _ _ _.
Arguments settings {A} _.
Arguments now {A} _.
Arguments write_fails {A} _ _.
Arguments unlink_fails {A} _ _.
Arguments open_dataset {A} _ _.
Arguments wind_data_found {A} _ _ _ _.

(** The [results] dictionary of [process_batch_upload]; its keys are
    fixed. *)
Record Results : Type := mkResults {
  r_batch_id : option string;
  total_files : nat;
  processed_files : nat;
  status : string;
  files : list (gmap string val);
  errors : list (gmap string val)
}.

(** The scalar entries of [results], as [update] writes them. *)
Definition results_fields (r : Results) : gmap string val :=
  <["batch_id" := of_opt (r_batch_id r)]> (
  <["total_files" := VInt (Z.of_nat (total_files r))]> (
  <["processed_files" := VInt (Z.of_nat (processed_files r))]> (
  <["status" := VStr (status r)]> ∅))).

(** [Path(name).name]: the last component that is neither empty nor a
    single dot. *)
Definition is_dot (p : list ascii) : bool :=
  match p with
  | ["."%char] => true
  | _ => false
  end.

Definition path_name (s : list ascii) : list ascii :=
  default [] (last (List.filter (fun p => nonempty p && negb (is_dot p)) (split_on "/" s))).

(** [s.rsplit(sep, 1)[0]]: what precedes the last separator, or all of [s]. *)
Definition before_last (sep : ascii) (s : list ascii) : list ascii :=
  match after_first sep (rev s) with
  | Some r => rev r
  | None => s
  end.

(** [c.isalnum() or c in '.-_'] *)
Definition safe_char (c : ascii) : bool :=
  isalnum c || Ascii.eqb c "." || Ascii.eqb c "-" || Ascii.eqb c "_".

Definition safe_filename (name : string) : list ascii :=
  let safe_filename := path_name (chars name) in
  let safe_filename := map (fun c => if safe_char c then c else "_"%char) safe_filename in
  if negb (ends_with (chars ".nc") safe_filename)
  then (before_last "." safe_filename ++ chars ".nc")%list
  else safe_filename.

(** The name of the saved file and the path [UPLOAD_DIR / name]; a job id
    has no slash. *)
Definition saved_name (job_id name : string) : list ascii :=
  (chars job_id ++ "_"%char :: safe_filename name)%list.

Definition saved_path {A} (env : Env A) (job_id name : string) : string :=
  UPLOAD_DIR (settings env) ++ "/" ++ str (saved_name job_id name).

(** [file_path.stem]: the saved name ends in .nc. *)
Definition saved_stem (job_id name : string) : string :=
  let n := saved_name job_id name in str (firstn (length n - 3) n).

(** [async with aiofiles.open(path, 'wb') as f: await f.write(content)] *)
Definition save_upload {A} (env : Env A) (file_path : string) : M unit :=
  match write_fails env file_path with
  | Some msg => raise msg
  | None => modify (set_disk (fun d => {[file_path]} ∪ d))
  end.

(** The message [process_netcdf_file] raises again. *)
Definition error_msg (e : string) : string :=
  if contains "No such file" e
  then "NetCDF file could not be read. Please ensure it's a valid NetCDF format."
  else if contains "decode" e
  then "NetCDF file encoding error. The file may be corrupted."
  else e.

Definition requested_format_of (visualization_type : string) : string :=
  if String.eqb visualization_type "raster-array" then "raster-array" else "vector".

Definition of_zoom (zoom : option Z) : val :=
  match zoom with Some z => VInt z | None => VNone end.

(** [process_netcdf_file] ([app/core/netcdf_processor.py]).  Of the
    Visualization Record and of the result the scalar entries are kept;
    the wind field for the client is kept as whether there is one. *)
Definition process_netcdf_file {A} `{ArrayLib A} (env : Env A)
    (file_path stem job_id : string) (create_tileset : bool)
    (tileset_name : option string) (visualization_type : string)
    (batch_id : option string) : M (gmap string val * bool) :=
  try_except
    (let* ds := lift (open_dataset env file_path) in
     let wind_components := Wind.find_wind_components (data_vars ds) in
     let bounds := Geo.get_dataset_bounds ds in
     let '(center, zoom) :=
       match bounds with
       | Some _ => Geo.calculate_optimal_view bounds
       | None => (None, None)
       end in
     let wind_data :=
       match wind_components with
       | Some wc =>
           if String.eqb visualization_type "raster-array"
              || String.eqb visualization_type "client-side"
           then wind_data_found env ds wc bounds
           else false
       | None => false
       end in
     let tileset_id := Naming.generate_tileset_id stem tileset_name batch_id (now env) in
     let* _ := modify (set_app (set_active_visualizations (insert job_id (
       <["file_path" := VStr file_path]> (
       <["tileset_id" := VStr tileset_id]> (
       <["zoom" := of_zoom zoom]> (
       <["visualization_type" := VStr visualization_type]> (
       <["requested_format" := VStr (requested_format_of visualization_type)]> (
       <["status" := VStr "processing"]> (
       <["session_id" := VStr job_id]> (
       <["batch_id" := of_opt batch_id]> ∅))))))))))) in
     ret (<["success" := VBool true]> (
          <["job_id" := VStr job_id]> (
          <["tileset_id" := VStr tileset_id]> (
          <["zoom" := of_zoom zoom]> (
          <["visualization_type" := VStr visualization_type]> (
          <["requested_format" := VStr (requested_format_of visualization_type)]> (
          <["session_id" := VStr job_id]> (
          <["batch_id" := of_opt batch_id]> ∅))))))), wind_data))
    (fun e => raise (error_msg e)).

(** The body of the [try] of the loop of [process_batch_upload]. *)
Definition ingest_file {A} `{ArrayLib A} (env : Env A) (file : Upload) (job_id : string)
    (create_tileset : bool) (tileset_name : option string) (visualization_type : string)
    (batch_id : option string) (results : Results) : M Results :=
  let file_path := saved_path env job_id (filename file) in
  let* _ := save_upload env file_path in
  let* processed :=
    process_netcdf_file env file_path (saved_stem job_id (filename file)) job_id
      create_tileset tileset_name visualization_type batch_id in
  let result := fst processed in
  let wind_data := snd processed in
  let* result :=
    if wind_data then
      let* _ := modify (set_app (set_active_sessions (insert job_id (
        <["file_path" := VStr file_path]> (
        <["zoom" := dict_get result "zoom"]> (
        <["batch_id" := of_opt batch_id]> ∅)))))) in
      ret (<["session_id" := VStr job_id]> result)
    else ret result in
  let* result :=
    if create_tileset && truthy (VStr (MAPBOX_TOKEN (settings env)))
       && truthy (VStr (MAPBOX_USERNAME (settings env)))
    then
      let* _ := modify (set_scheduled (fun tasks =>
        (tasks ++ [mkTask file_path job_id (dict_get result "tileset_id")
                     visualization_type batch_id])%list)) in
      ret (<["message" := VStr ("File " ++ filename file
                                ++ " uploaded successfully. Creating Mapbox tileset...")]> (
           <["status" := VStr "processing"]> result))
    else ret result in
  ret (mkResults (r_batch_id results) (total_files results)
         (processed_files results + 1) (status results)
         (files results ++ [result ∪ (<["filename" := VStr (filename file)]> (
                                        <["job_id" := VStr job_id]> (
                                        <["success" := VBool true]> ∅)))])%list
         (errors results)).

(** The [except] of the loop: the error is recorded and the saved file, if
    it is there, is removed; an unlink that fails is passed over. *)
Definition on_file_error {A} (env : Env A) (file : Upload) (job_id : string)
    (results : Results) (e : string) : M Results :=
  let file_path := saved_path env job_id (filename file) in
  let* _ := modify (fun w =>
    if bool_decide (file_path ∈ disk w) && negb (unlink_fails env file_path)
    then set_disk (fun d => d ∖ {[file_path]}) w
    else w) in
  ret (mkResults (r_batch_id results) (total_files results) (processed_files results)
         (status results) (files results)
         (errors results ++ [<["filename" := VStr (filename file)]> (
                               <["error" := VStr e]> ∅)])%list).

(** [tileset_names[i] if tileset_names and i < len(tileset_names) else None] *)
Definition name_at (tileset_names : option (list string)) (i : nat) : option string :=
  match tileset_names with
  | Some names => names !! i
  | None => None
  end.

(** The loop [for i, file_data in enumerate(files)], from index [i] on. *)
Fixpoint process_each {A} `{ArrayLib A} (env : Env A) (i : nat) (todo : list Upload)
    (job_ids : list string) (create_tileset : bool) (tileset_names : option (list string))
    (visualization_type : string) (batch_id : option string) (results : Results)
    : M Results :=
  match todo with
  | [] => ret results
  | file :: rest =>
      match job_ids !! i with
      | None => raise "list index out of range"
      | Some job_id =>
          let tileset_name := name_at tileset_names i in
          let* results :=
            try_except
              (ingest_file env file job_id create_tileset tileset_name visualization_type
                 batch_id results)
              (on_file_error env file job_id results) in
          process_each env (S i) rest job_ids create_tileset tileset_names
            visualization_type batch_id results
      end
  end.

(** The overall status, set after the loop. *)
Definition overall_status (processed total : nat) : string :=
  if (processed =? total)%nat then "completed"
  else if (0 <? processed)%nat then "partial"
  else "failed".

Definition close_results (results : Results) : Results :=
  mkResults (r_batch_id results) (total_files results) (processed_files results)
    (overall_status (processed_files results) (total_files results))
    (files results) (errors results).

Definition fresh_results (batch_id : option string) (total : nat) : Results :=
  mkResults batch_id total 0 "processing" [] [].

(** [process_batch_upload] *)
Definition process_batch_upload {A} `{ArrayLib A} (env : Env A) (todo : list Upload)
    (job_ids : list string) (create_tileset : bool) (tileset_names : option (list string))
    (visualization_type : string) (batch_id : option string) : M Results :=
  let* results :=
    process_each env 0 todo job_ids create_tileset tileset_names visualization_type
      batch_id (fresh_results batch_id (length todo)) in
  ret (close_results results).

(** The Batch Record as [upload_netcdf_batch] creates it. *)
Definition new_batch (batch_id : string) (total : nat) : BatchRecord :=
  mkBatch (results_fields (fresh_results (Some batch_id) total)) [] [].

Definition register_batch (batch_id : string) (total : nat) : World -> World :=
  set_app (set_batch_jobs (insert batch_id (new_batch batch_id total))).

(** [app_state.batch_jobs[batch_id].update(result)] *)
Definition batch_update (b : BatchRecord) (result : Results) : BatchRecord :=
  mkBatch (dict_update (b_fields b) (results_fields result)) (files result) (errors result).

(** The loop that fills the file database: the position of a result in
    the list of successes indexes the job ids and the files. *)
Fixpoint record_uploads (i : nat) (file_results : list (gmap string val))
    (todo : list Upload) (job_ids : list string) (upload_dir batch_id : string)
    : M unit :=
  match file_results with
  | [] => ret tt
  | file_result :: rest =>
      let* _ :=
        if truthy (dict_get file_result "success") then
          match job_ids !! i, todo !! i with
          | Some job_id, Some file =>
              modify (set_app (set_uploaded_files (insert job_id (
                <["id" := VStr job_id]> (
                <["filename" := VStr (job_id ++ "_" ++ filename file)]> (
                <["original_filename" := VStr (filename file)]> (
                <["size" := VInt (Z.of_nat (String.length (content file)))]> (
                <["status" := VStr "active"]> (
                <["tileset_id" := dict_get file_result "tileset_id"]> (
                <["job_id" := VStr job_id]> (
                <["processing_status" :=
                    dict_get_or file_result "status" (VStr "processing")]> (
                <["batch_id" := VStr batch_id]> (
                <["file_path" :=
                    VStr (upload_dir ++ "/" ++ job_id ++ "_" ++ filename file)]>
                  ∅)))))))))))))
          | _, _ => raise "list index out of range"
          end
        else ret tt in
      record_uploads (S i) rest todo job_ids upload_dir batch_id
  end.

(** [upload_netcdf_batch], from the creation of the Batch Record on: the
    request has been validated and read, the batch id and the job ids are
    made. *)
Definition upload_netcdf_batch {A} `{ArrayLib A} (env : Env A) (todo : list Upload)
    (job_ids : list string) (create_tileset : bool) (tileset_names : option (list string))
    (visualization_type : string) (batch_id : string) : M Results :=
  let* _ := modify (register_batch batch_id (length todo)) in
  let* result :=
    process_batch_upload env todo job_ids create_tileset tileset_names visualization_type
      (Some batch_id) in
  let* stored := gets (fun w => batch_jobs (app w) !! batch_id) in
  match stored with
  | None => raise (key_error batch_id)
  | Some b =>
      let* _ := modify (set_app (set_batch_jobs (insert batch_id (batch_update b result)))) in
      let* _ := record_uploads 0 (files result) todo job_ids
                  (UPLOAD_DIR (settings env)) batch_id in
      ret result
  end.

(** The world a reader finds once the first [k] files of the batch have
    gone through the loop. *)
Definition between_files {A} `{ArrayLib A} (env : Env A) (k : nat) (todo : list Upload)
    (job_ids : list string) (create_tileset : bool) (tileset_names : option (list string))
    (visualization_type : string) (batch_id : string) (w : World) : World :=
  world_after
    (process_each env 0 (firstn k todo) job_ids create_tileset tileset_names
       visualization_type (Some batch_id) (fresh_results (Some batch_id) (length todo)))
    (register_batch batch_id (length todo) w).

(** The count the pipeline itself has reached by then. *)
Definition processed_between {A} `{ArrayLib A} (env : Env A) (k : nat) (todo : list Upload)
    (job_ids : list string) (create_tileset : bool) (tileset_names : option (list string))
    (visualization_type : string) (batch_id : string) (w : World) : option nat :=
  match
    outcome
      (process_each env 0 (firstn k todo) job_ids create_tileset tileset_names
         visualization_type (Some batch_id) (fresh_results (Some batch_id) (length todo)))
      (register_batch batch_id (length todo) w)
  with
  | Returns results => Some (processed_files results)
  | Raises _ => None
  end.

(** The stored Batch Record, as a reader finds it. *)
Definition stored_batch (w : World) (batch_id : string) : option BatchRecord :=
  batch_jobs (app w) !! batch_id.

(** A status request for a batch ([get_batch_status], [app/api/batch.py])
    that the server handles while an upload awaits a write or a read: the
    handler has no await of its own, so it runs in one piece on the
    tables as they are then. *)
Definition status_request (batch_id : string) : M (Response BatchRecord) :=
  fun w =>
    let '(answer, st) := Batch.get_batch_status batch_id (app w) in
    (Returns answer, set_app (fun _ => st) w).

(** [upload_netcdf_batch] with a status request for its batch handled once
    the first [k] files have gone through the loop: the answer to the
    request, and the result of the upload. *)
Definition upload_netcdf_batch_watched {A} `{ArrayLib A} (env : Env A) (k : nat)
    (todo : list Upload) (job_ids : list string) (create_tileset : bool)
    (tileset_names : option (list string)) (visualization_type : string)
    (batch_id : string) : M (Response BatchRecord * Results) :=
  let* _ := modify (register_batch batch_id (length todo)) in
  let* results :=
    process_each env 0 (firstn k todo) job_ids create_tileset tileset_names
      visualization_type (Some batch_id) (fresh_results (Some batch_id) (length todo)) in
  let* seen := status_request batch_id in
  let* results :=
    process_each env (length (firstn k todo)) (skipn k todo) job_ids create_tileset
      tileset_names visualization_type (Some batch_id) results in
  let result := close_results results in
  let* stored := gets (fun w => batch_jobs (app w) !! batch_id) in
  match stored with
  | None => raise (key_error batch_id)
  | Some b =>
      let* _ := modify (set_app (set_batch_jobs (insert batch_id (batch_update b result)))) in
      let* _ := record_uploads 0 (files result) todo job_ids
                  (UPLOAD_DIR (settings env)) batch_id in
      ret (seen, result)
  end.

(** What a Batch Record shows of the results of the pipeline: the two
    lists, the count of the processed files, the total and the status. *)
Definition shows (b : BatchRecord) (result : Results) : Prop :=
  b_files b = files result /\
  b_errors b = errors result /\
  b_fields b !! "processed_files" = Some (VInt (Z.of_nat (processed_files result))) /\
  b_fields b !! "total_files" = Some (VInt (Z.of_nat (total_files result))) /\
  b_fields b !! "status" = Some (VStr (status result)).

(** What a status request answers for a batch whose record holds no file:
    no file, no error, no processed file, the three counters at zero, and
    the status that the empty list of files gives. *)
Definition shows_nothing (total : nat) (answer : BatchRecord) : Prop :=
  b_files answer = [] /\
  b_errors answer = [] /\
  b_fields answer !! "processed_files" = Some (VInt 0) /\
  b_fields answer !! "total_files" = Some (VInt (Z.of_nat total)) /\
  b_fields answer !! "completed_files" = Some (VInt 0) /\
  b_fields answer !! "failed_files" = Some (VInt 0) /\
  b_fields answer !! "processing_files" = Some (VInt 0) /\
  b_fields answer !! "status" = Some (VStr "failed").

(** The world with other Batch Records, and a computation that neither
    reads nor writes the Batch Records: with other records it has the same
    outcome and leaves the same world but for them. *)
Definition with_batches (records : gmap string BatchRecord) : World -> World :=
  set_app (set_batch_jobs (fun _ => records)).

Definition blind {A} (m : M A) : Prop :=
  forall records w,
    m (with_batches records w) = (fst (m w), with_batches records (snd (m w))).

(** What is in the world besides the Batch Records. *)
Definition same_batches (w w' : World) : Prop :=
  batch_jobs (app w') = batch_jobs (app w).

(** What [n] turns of the loop add to [results]: [n] entries in all, the
    successes at the end of [files] and counted, the failures at the end
    of [errors]; nothing else changes. *)
Definition grown (n : nat) (results results' : Results) : Prop :=
  r_batch_id results' = r_batch_id results /\
  total_files results' = total_files results /\
  status results' = status results /\
  exists successes failures,
    files results' = (files results ++ successes)%list /\
    errors results' = (errors results ++ failures)%list /\
    processed_files results' = processed_files results + length successes /\
    length successes + length failures = n.

(** A sample batch of two files that both go through, with a reader that
    finds a latitude and a longitude axis, the two wind variables and a
    temperature. *)
Definition wind_dataset : Dataset (list float) :=
  mkDataset ["u"; "v"; "temp"]
    (<["lat" := [10; 20]%float]> (<["lon" := [5; 15]%float]> ∅)).

Definition sample_env : Env (list float) :=
  mkEnv (mkSettings "/srv/uploads" "sk.token" "weather") (Naming.mkClock 1 1 12 0)
    (fun _ => None) (fun _ => false)
    (fun _ => Returns wind_dataset) (fun _ _ _ => true).

Definition two_files : list Upload := [mkUpload "a.nc" "CDF"; mkUpload "b.nc" "CDF"].
Definition two_jobs : list string := ["b1_0_20240101120000"; "b1_1_20240101120000"].

End Ingest.
(** ** The publishing orchestrator ([app/services/background.py]) *)

Module Orchestrator.
Import PyStr.

(** The remote publisher behind [MapboxClient]: the construction of the
    client and the two calls that create a tileset, given the path of the
    file and the tileset id.  Each may raise; a call that returns gives the
    result dictionary of the remote service.  [recipe_write_fails] tells
    the sidecar files that cannot be written. *)
Record Publisher : Type := mkPublisher {
  client_init : Exc unit;
  create_raster_tileset : string -> string -> Exc (gmap string val);
  process_netcdf_to_tileset : string -> string -> Exc (gmap string val);
  recipe_write_fails : string -> bool
}.

(** ['raster' in str(v).lower()]: the text of [None], of a boolean and of
    an integer has no such part. *)
Definition mentions_raster (v : val) : bool :=
  match v with
  | VStr s => contains "raster" (str (lower (chars s)))
  | _ => false
  end.

(** [save_recipe_info] ([app/core/recipe_manager.py]), with the scalar
    entries of the sidecar; a failed write is logged and nothing more. *)
Definition save_recipe_info (c : Publisher) (tileset_id : string)
    (result viz_info : gmap string val) : M unit :=
  let recipe_path := "recipe_" ++ tileset_id ++ ".json" in
  let actual_format := dict_get_or result "format" (VStr "vector") in
  let actual_format :=
    if mentions_raster (dict_get_or result "tileset_id" (VStr ""))
       || py_eq (dict_get result "format") (VStr "raster-array")
    then VStr "raster-array" else actual_format in
  let* mapbox_tileset := item result "tileset_id" in
  let recipe_data : gmap string val :=
    <["tileset_id" := VStr tileset_id]> (
    <["mapbox_tileset" := mapbox_tileset]> (
    <["format" := actual_format]> (
    <["actual_format" := actual_format]> (
    <["requested_format" := dict_get_or viz_info "requested_format" (VStr "vector")]> (
    <["source_layer" :=
        dict_get_or result "source_layer"
          (if py_eq actual_format (VStr "vector")
           then VStr "weather_data" else VStr "10winds")]> (
    <["recipe_id" := dict_get result "recipe_id"]> (
    <["publish_job_id" := dict_get result "publish_job_id"]> (
    <["visualization_type" := dict_get_or viz_info "visualization_type" (VStr "vector")]> (
    <["is_raster_array" := VBool (py_eq actual_format (VStr "raster-array"))]> (
    <["use_client_animation" := dict_get_or viz_info "use_client_animation" (VBool false)]> (
    <["session_id" := dict_get viz_info "session_id"]> (
    <["batch_id" := dict_get viz_info "batch_id"]> ∅)))))))))))) in
  if recipe_write_fails c recipe_path then ret tt
  else modify (set_recipes (insert recipe_path recipe_data)).

(** Where the body stands after the raster attempt: it has returned, or it
    goes on with the format decided so far. *)
Inductive Flow : Type :=
| Return
| Continue (actual_format : val).

Definition has_viz (job_id : string) (w : World) : bool :=
  bool_decide (is_Some (active_visualizations (app w) !! job_id)).

Definition has_uploaded (job_id : string) (w : World) : bool :=
  bool_decide (is_Some (uploaded_files (app w) !! job_id)).

(** The two early exits: both records are marked failed with the given
    reason. *)
Definition refuse (job_id reason : string) : World -> World :=
  fun w =>
    let w := set_viz job_id "status" (VStr "failed") w in
    let w := set_viz job_id "error" (VStr reason) w in
    let w := set_uploaded job_id "processing_status" (VStr "failed") w in
    set_uploaded job_id "error" (VStr reason) w.

(** [app_state.active_visualizations[job_id].update(changes)] *)
Definition update_viz (job_id : string) (changes : gmap string val) : World -> World :=
  set_app (set_active_visualizations (alter (fun viz => dict_update viz changes) job_id)).

(** [app_state.active_visualizations[job_id]], read where the record is
    known to be there. *)
Definition viz_of (job_id : string) (w : World) : gmap string val :=
  default ∅ (active_visualizations (app w) !! job_id).

(** The Uploaded File Record after a successful publication. *)
Definition record_uploaded (job_id : string) (result : gmap string val) : M unit :=
  let* present := gets (has_uploaded job_id) in
  if present then
    let* _ := modify (set_uploaded job_id "processing_status" (VStr "completed")) in
    let* mapbox_tileset := item result "tileset_id" in
    modify (set_uploaded job_id "tileset_id" mapbox_tileset)
  else ret tt.

(** The three records after a publication that failed for good. *)
Definition record_failed (job_id : string) (batch_id : option string) (error : val)
    : World -> World :=
  fun w =>
    let w := set_viz job_id "status" (VStr "failed") w in
    let w := set_viz job_id "error" error w in
    let w := set_uploaded job_id "processing_status" (VStr "failed") w in
    let w := set_uploaded job_id "error" error w in
    set_batch_entry batch_id job_id
      (fun file_info => <["error" := error]> (<["status" := VStr "failed"]> file_info)) w.

(** [result.get('fallback_to_vector', False) or result.get('error_code') == 422] *)
Definition tier_limited (result : gmap string val) : bool :=
  truthy (dict_get_or result "fallback_to_vector" (VBool false))
  || py_eq (dict_get result "error_code") (VInt 422).

(** The raster attempt, made when raster-array was requested. *)
Definition raster_stage (s : Settings) (c : Publisher)
    (file_path job_id tileset_id : string) (batch_id : option string)
    (requested_format : val) : M Flow :=
  if py_eq requested_format (VStr "raster-array") && truthy (VStr (MAPBOX_TOKEN s)) then
    let* _ := modify (set_remote_calls (fun l => (l ++ [RasterCall file_path tileset_id])%list)) in
    let* result := lift (create_raster_tileset c file_path tileset_id) in
    let* success := item result "success" in
    if truthy success then
      let* present := gets (has_viz job_id) in
      let* _ :=
        if present then
          let* mapbox_tileset := item result "tileset_id" in
          let* _ := modify (update_viz job_id (
            <["mapbox_tileset" := mapbox_tileset]> (
            <["status" := VStr "completed"]> (
            <["format" := VStr "raster-array"]> (
            <["actual_format" := VStr "raster-array"]> (
            <["requested_format" := VStr "raster-array"]> (
            <["source_layer" := dict_get_or result "source_layer" (VStr "10winds")]> (
            <["recipe_id" := dict_get result "recipe_id"]> (
            <["publish_job_id" := dict_get result "publish_job_id"]> ∅))))))))) in
          let* viz_info := gets (viz_of job_id) in
          save_recipe_info c tileset_id result viz_info
        else ret tt in
      let* _ := record_uploaded job_id result in
      let* _ := modify (set_batch_entry batch_id job_id (insert "status" (VStr "completed"))) in
      ret Return
    else if tier_limited result then
      let* _ := modify (fun w =>
        let w := set_viz job_id "warning"
                   (dict_get_or result "error" (VStr "Falling back to vector format")) w in
        set_viz job_id "use_client_animation" (VBool true) w) in
      ret (Continue (VStr "vector"))
    else
      let* _ := modify (record_failed job_id batch_id (dict_get result "error")) in
      ret Return
  else ret (Continue VNone).

(** The vector path, taken when vector was requested or the raster attempt
    fell back. *)
Definition vector_stage (c : Publisher) (file_path job_id tileset_id : string)
    (batch_id : option string) (requested_format actual_format : val) : M unit :=
  if negb (py_eq actual_format (VStr "raster-array")) then
    let* _ := modify (set_remote_calls (fun l => (l ++ [VectorCall file_path tileset_id])%list)) in
    let* result := lift (process_netcdf_to_tileset c file_path tileset_id) in
    let* success := item result "success" in
    if truthy success then
      let* present := gets (has_viz job_id) in
      let* _ :=
        if present then
          let* mapbox_tileset := item result "tileset_id" in
          let* _ := modify (update_viz job_id (
            <["mapbox_tileset" := mapbox_tileset]> (
            <["status" := VStr "completed"]> (
            <["format" := VStr "vector"]> (
            <["actual_format" := VStr "vector"]> (
            <["source_layer" := dict_get_or result "source_layer" (VStr "weather_data")]> (
            <["recipe_id" := dict_get result "recipe_id"]> (
            <["publish_job_id" := dict_get result "publish_job_id"]> ∅)))))))) in
          let* _ :=
            if py_eq requested_format (VStr "raster-array") then
              modify (fun w =>
                let w := set_viz job_id "format_fallback" (VBool true) w in
                let w := set_viz job_id "warning"
                  (VStr "Created vector format (raster-array requires Pro account)") w in
                set_viz job_id "use_client_animation" (VBool true) w)
            else ret tt in
          let* viz_info := gets (viz_of job_id) in
          save_recipe_info c tileset_id result viz_info
        else ret tt in
      let* _ := record_uploaded job_id result in
      modify (set_batch_entry batch_id job_id (insert "status" (VStr "completed")))
    else
      let error_msg := dict_get_or result "error" (VStr "Unknown error") in
      modify (record_failed job_id batch_id error_msg)
  else ret tt.

(** The body of the [try] of [create_mapbox_tileset_background]. *)
Definition create_tileset_try (s : Settings) (c : Publisher)
    (file_path job_id tileset_id visualization_type : string)
    (batch_id : option string) : M unit :=
  if negb (truthy (VStr (MAPBOX_TOKEN s))) then
    modify (refuse job_id "Mapbox token not configured")
  else
    let* on_disk := gets (fun w => bool_decide (file_path ∈ disk w)) in
    if negb on_disk then modify (refuse job_id "Input file not found")
    else
      let* viz := gets (fun w => active_visualizations (app w) !! job_id) in
      match viz with
      | None => raise (key_error job_id)
      | Some viz =>
          let requested_format := dict_get_or viz "requested_format" (VStr "vector") in
          let* _ := lift (client_init c) in
          let* flow := raster_stage s c file_path job_id tileset_id batch_id
                         requested_format in
          match flow with
          | Return => ret tt
          | Continue actual_format =>
              vector_stage c file_path job_id tileset_id batch_id
                requested_format actual_format
          end
      end.

(** The handler of the top level: [except Exception as e]. *)
Definition on_exception (job_id : string) (batch_id : option string) (e : string)
    : M unit :=
  modify (record_failed job_id batch_id (VStr e)).

(** [create_mapbox_tileset_background] *)
Definition create_mapbox_tileset_background (s : Settings) (c : Publisher)
    (file_path job_id tileset_id visualization_type : string)
    (batch_id : option string) : M unit :=
  try_except
    (create_tileset_try s c file_path job_id tileset_id visualization_type batch_id)
    (on_exception job_id batch_id).

(** Running a task that was scheduled. *)
Definition run_task (s : Settings) (c : Publisher) (t : Task) : M unit :=
  match task_tileset_id t with
  | VStr tileset_id =>
      create_mapbox_tileset_background s c (task_file_path t) (task_job_id t)
        tileset_id (task_visualization_type t) (task_batch_id t)
  | _ => raise "tileset id is not a string"
  end.

(** What one world keeps of another for a job: its records, and the job
    ids of the entries of every batch in their order. *)
Definition job_ids_of (b : BatchRecord) : list val :=
  map (fun file_info => dict_get file_info "job_id") (b_files b).

Definition keeps (job_id : string) (w w' : World) : Prop :=
  (is_Some (active_visualizations (app w) !! job_id) ->
   is_Some (active_visualizations (app w') !! job_id)) /\
  (is_Some (uploaded_files (app w) !! job_id) ->
   is_Some (uploaded_files (app w') !! job_id)) /\
  (forall batch_id b, batch_jobs (app w) !! batch_id = Some b ->
     exists b', batch_jobs (app w') !! batch_id = Some b' /\ job_ids_of b' = job_ids_of b).

(** A computation that keeps them whatever its outcome. *)
Definition preserves {A} (job_id : string) (m : M A) : Prop :=
  respects (keeps job_id) m.

(** Sample runs: a job that asked for raster-array, inside a batch. *)
Definition the_settings : Settings := mkSettings "/srv/uploads" "sk.token" "weather".

Definition job : string := "b1_0_20240101120000".
Definition path : string := "/srv/uploads/b1_0_20240101120000_wind.nc".
Definition tileset : string := "wxb_b1_wind_01011200".

Definition raster_job : World :=
  mkWorld
    (mkAppState
       (<[job := <["requested_format" := VStr "raster-array"]>
                   (<["status" := VStr "processing"]> ∅)]> ∅)
       ∅
       (<["b1" := mkBatch (<["status" := VStr "processing"]> ∅)
                    [<["job_id" := VStr job]> (<["status" := VStr "processing"]> ∅)] []]> ∅)
       ∅
       (<[job := <["processing_status" := VStr "processing"]> ∅]> ∅))
    {[path]} ∅ [] [].

(** A remote service that refuses raster-array for the account tier and
    publishes the vector tileset. *)
Definition tier_limited_remote : Publisher :=
  mkPublisher (Returns tt)
    (fun _ _ => Returns (<["success" := VBool false]>
                           (<["error_code" := VInt 422]>
                              (<["error" := VStr "Raster MTS requires a Pro account"]> ∅))))
    (fun _ tileset_id => Returns (<["success" := VBool true]>
                                    (<["tileset_id" := VStr ("weather." ++ tileset_id)]> ∅)))
    (fun _ => false).

(** A remote service whose raster call fails for another reason. *)
Definition broken_remote : Publisher :=
  mkPublisher (Returns tt)
    (fun _ _ => Returns (<["success" := VBool false]>
                           (<["error_code" := VInt 500]>
                              (<["error" := VStr "Upload to staging failed"]> ∅))))
    (fun _ tileset_id => Returns (<["success" := VBool true]>
                                    (<["tileset_id" := VStr ("weather." ++ tileset_id)]> ∅)))
    (fun _ => false).

(** A remote service whose raster call raises. *)
Definition raising_remote : Publisher :=
  mkPublisher (Returns tt)
    (fun _ _ => Raises "Connection reset by peer")
    (fun _ _ => Raises "Connection reset by peer")
    (fun _ => false).

(** From the upload to the published tileset: a batch of one file that asks
    for raster-array goes through the pipeline, and the task the pipeline
    scheduled is then run against a remote service that refuses
    raster-array for the account tier. *)
Definition uploaded : World :=
  world_after
    (Ingest.upload_netcdf_batch Ingest.sample_env [Ingest.mkUpload "wind.nc" "CDF"] [job]
       true None "raster-array" "b1")
    empty_world.

Definition published : World :=
  match scheduled uploaded with
  | task :: _ =>
      world_after (run_task (Ingest.settings Ingest.sample_env) tier_limited_remote task)
        uploaded
  | [] => uploaded
  end.

End Orchestrator.
(** * Further properties *)

(** ** Batch status: the entries the counters count *)

Module BatchRead.
Import Batch.

(** The entries [get_batch_status] counts under each counter: an entry
    with a Visualization Record counts as completed or failed when the
    record says so and as processing otherwise. *)
Definition counts_completed (vis : gmap string (gmap string val))
    (file_info : gmap string val) : bool :=
  match file_status vis file_info with
  | Some s => py_eq s (VStr "completed")
  | None => false
  end.

Definition counts_failed (vis : gmap string (gmap string val))
    (file_info : gmap string val) : bool :=
  match file_status vis file_info with
  | Some s => negb (py_eq s (VStr "completed")) && py_eq s (VStr "failed")
  | None => false
  end.

Definition counts_processing (vis : gmap string (gmap string val))
    (file_info : gmap string val) : bool :=
  match file_status vis file_info with
  | Some s => negb (py_eq s (VStr "completed")) && negb (py_eq s (VStr "failed"))
  | None => false
  end.

(** The Visualization Record of an entry has the given status. *)
Definition has_status (vis : gmap string (gmap string val)) (status : string)
    (file_info : gmap string val) : Prop :=
  file_status vis file_info = Some (VStr status).

(** The Visualization Record of an entry is neither completed nor
    failed. *)
Definition still_running (vis : gmap string (gmap string val))
    (file_info : gmap string val) : Prop :=
  exists s, file_status vis file_info = Some s
            /\ s <> VStr "completed" /\ s <> VStr "failed".

End BatchRead.
(** ** Validation of an upload ([app/core/validators.py]) *)

Module Validators.
Import PyStr.

(** The answer of a validator: [{'valid': True}], or
    [{'valid': False, 'error': error}]. *)
Inductive Validation : Type :=
| Valid
| Invalid (error : string).

Definition backslash : string := String (ascii_of_nat 92) EmptyString.
Definition double_quote : string := String (ascii_of_nat 34) EmptyString.

Definition invalid_chars : list string :=
  ["/"; backslash; ".."; "~"; "|"; ">"; "<"; ":"; "*"; "?"; double_quote].

(** [validate_netcdf_file], on the name of the file. *)
Definition validate_netcdf_file (filename : string) : Validation :=
  if negb (ends_with (chars ".nc") (chars filename))
  then Invalid "Only NetCDF (.nc) files are allowed"
  else if existsb (fun char => contains char filename) invalid_chars
  then Invalid "Filename contains invalid characters"
  else if (255 <? String.length filename)%nat
  then Invalid "Filename is too long (max 255 characters)"
  else Valid.

(** The replacement the pipeline applies to a character of a name. *)
Definition sanitize (c : ascii) : ascii := if Ingest.safe_char c then c else "_"%char.

End Validators.
(** ** What a run of the orchestrator may touch *)

Module Isolation.
Import Orchestrator.

(** A Batch Record in which nothing changed but the first entry that
    carries the job id, which is still the first such entry. *)
Definition entry_only (job_id : string) (b b' : BatchRecord) : Prop :=
  b_fields b' = b_fields b /\
  b_errors b' = b_errors b /\
  length (b_files b') = length (b_files b) /\
  first_index (is_job job_id) (b_files b') = first_index (is_job job_id) (b_files b) /\
  forall i, first_index (is_job job_id) (b_files b) <> Some i ->
            b_files b' !! i = b_files b !! i.

(** A world that differs from another at most in what belongs to one job:
    its Visualization Record, its Uploaded File Record, its entry in its
    batch, the sidecar of its tileset, and calls added to the log of the
    remote service. *)
Record only_job (job_id tileset_id : string) (batch_id : option string) (w w' : World)
    : Prop := mkOnlyJob {
  same_disk : disk w' = disk w;
  same_scheduled : scheduled w' = scheduled w;
  same_sessions : active_sessions (app w') = active_sessions (app w);
  same_datasets : active_datasets (app w') = active_datasets (app w);
  same_viz_keys : dom (active_visualizations (app w')) = dom (active_visualizations (app w));
  other_viz : forall j, j <> job_id ->
    active_visualizations (app w') !! j = active_visualizations (app w) !! j;
  same_uploaded_keys : dom (uploaded_files (app w')) = dom (uploaded_files (app w));
  other_uploaded : forall j, j <> job_id ->
    uploaded_files (app w') !! j = uploaded_files (app w) !! j;
  other_recipes : forall p, p <> "recipe_" ++ tileset_id ++ ".json" ->
    recipes w' !! p = recipes w !! p;
  calls_added : exists more, remote_calls w' = (remote_calls w ++ more)%list;
  other_batches : forall bid, batch_id <> Some bid ->
    batch_jobs (app w') !! bid = batch_jobs (app w) !! bid;
  batch_entries : forall bid,
    option_Forall2 (entry_only job_id) (batch_jobs (app w) !! bid)
      (batch_jobs (app w') !! bid)
}.

End Isolation.
(** ** What a computation that returns leaves *)

(** [ensures m w Q]: if [m], run in [w], returns, then [Q] holds of the
    value and of the world it leaves. *)
Definition ensures {A} (m : M A) (w : World) (Q : A -> World -> Prop) : Prop :=
  match m w with
  | (Returns a, w') => Q a w'
  | (Raises _, _) => True
  end.

(** [leaves m w Q]: [Q] holds of the outcome of [m], run in [w], and of
    the world it leaves, whether it returns or raises. *)
Definition leaves {A} (m : M A) (w : World) (Q : Exc A -> World -> Prop) : Prop :=
  Q (fst (m w)) (snd (m w)).

(** ** The verdict on a job *)

Module Verdict.

(** The Visualization Record of the job, if there is one, has the status;
    the Uploaded File Record of the job, if there is one, has it as its
    processing status. *)
Definition viz_settled (job_id status : string) (w : World) : Prop :=
  forall viz, active_visualizations (app w) !! job_id = Some viz ->
              viz !! "status" = Some (VStr status).

Definition uploaded_settled (job_id status : string) (w : World) : Prop :=
  forall file_info, uploaded_files (app w) !! job_id = Some file_info ->
                    file_info !! "processing_status" = Some (VStr status).

Definition settled_as (job_id status : string) (w : World) : Prop :=
  viz_settled job_id status w /\ uploaded_settled job_id status w.

(** A sample job that asked for the vector format, outside any batch. *)
Definition vector_job : World :=
  mkWorld
    (mkAppState
       (<[Orchestrator.job := <["requested_format" := VStr "vector"]>
                                (<["status" := VStr "processing"]> ∅)]> ∅)
       ∅ ∅ ∅
       (<[Orchestrator.job := <["processing_status" := VStr "processing"]> ∅]> ∅))
    {[Orchestrator.path]} ∅ [] [].

End Verdict.
(** ** Sample surroundings of an upload *)

Module Uploads.
Import Ingest.

(** Surroundings in which no file can be opened as NetCDF. *)
Definition unreadable_env : Env (list float) :=
  mkEnv (mkSettings "/srv/uploads" "sk.token" "weather") (Naming.mkClock 1 1 12 0)
    (fun _ => None) (fun _ => false)
    (fun _ => Raises "[Errno 2] No such file or directory: b'/srv/uploads/x.nc'")
    (fun _ _ _ => true).

(** Every entry of the list of successes names a Visualization Record
    whose status is processing. *)
Definition all_processing (results : Results) (w : World) : Prop :=
  Forall (BatchRead.has_status (active_visualizations (app w)) "processing") (files results).

(** The guard of [background_tasks.add_task] in the loop: a publication
    is scheduled for a file when the upload asks for a tileset and the
    Mapbox token and user name are set. *)
Definition schedules {A} (env : Env A) (create_tileset : bool) : bool :=
  create_tileset && truthy (VStr (MAPBOX_TOKEN (settings env)))
  && truthy (VStr (MAPBOX_USERNAME (settings env))).

(** No background task is added or removed. *)
Definition same_tasks (w w' : World) : Prop := scheduled w' = scheduled w.

(** Every entry of the list of successes says so. *)
Definition all_successes (results : Results) : Prop :=
  Forall (fun file_result => truthy (dict_get file_result "success") = true) (files results).

(** Surroundings in which the first file of the sample batch cannot be
    written and every file that is written can be read. *)
Definition first_fails_env : Env (list float) :=
  mkEnv (mkSettings "/srv/uploads" "sk.token" "weather") (Naming.mkClock 1 1 12 0)
    (fun file_path =>
       if String.eqb file_path "/srv/uploads/b1_0_20240101120000_a.nc"
       then Some "[Errno 28] No space left on device" else None)
    (fun _ => false)
    (fun _ => Returns wind_dataset) (fun _ _ _ => true).

End Uploads.
(** ** Deleting visualizations, batches and lists of files
    ([app/api/visualization.py], [app/api/batch.py], [app/api/files.py]) *)

Module Deletes.
Import PyStr.

(** [str(n)] for a count. *)
Fixpoint digits_of (fuel n : nat) (acc : list ascii) : list ascii :=
  match fuel with
  | 0 => acc
  | S fuel' =>
      let acc := Naming.digit n :: acc in
      if (n <? 10)%nat then acc else digits_of fuel' (n / 10) acc
  end.

Definition str_nat (n : nat) : string := str (digits_of (S n) n []).

(** [Path(...)] in [app/api/visualization.py] and [app/api/batch.py]:
    neither module imports [Path], so the name is not bound and its
    evaluation raises [NameError] before the argument is looked at. *)
Definition Path_unbound : M string := raise "name 'Path' is not defined".

(** The [try] that is meant to delete the uploaded file, with its
    [except Exception] that logs the error. *)
Definition delete_uploaded_file (viz_info : gmap string val) : M unit :=
  try_except
    (let* file_path := Path_unbound in
     modify (fun w =>
       if bool_decide (file_path ∈ disk w)
       then set_disk (fun d => d ∖ {[file_path]}) w
       else w))
    (fun e => ret tt).

(** The three removals that follow; [del] under [if job_id in table]. *)
Definition forget_job (job_id : string) : M unit :=
  let* _ := modify (set_app (set_active_visualizations (delete job_id))) in
  let* _ := modify (set_app (set_active_sessions (delete job_id))) in
  modify (set_app (set_uploaded_files (delete job_id))).

(** [delete_visualization] *)
Definition delete_visualization (job_id : string) : M (Response (gmap string val)) :=
  let* viz := gets (fun w => active_visualizations (app w) !! job_id) in
  match viz with
  | None => ret (HTTPException 404 "Visualization not found")
  | Some viz_info =>
      let* _ := delete_uploaded_file viz_info in
      let* _ := forget_job job_id in
      ret (Ok (<["success" := VBool true]>
                 (<["message" := VStr "Visualization deleted"]> ∅)))
  end.

(** The loop of [delete_batch] over the entries of the batch;
    [viz] is the record found under
    [if job_id and job_id in app_state.active_visualizations]. *)
Fixpoint delete_entries (entries : list (gmap string val)) (deleted_count : nat) : M nat :=
  match entries with
  | [] => ret deleted_count
  | file_info :: rest =>
      let job_id := dict_get file_info "job_id" in
      let* viz := gets (fun w =>
        if truthy job_id then table_lookup (active_visualizations (app w)) job_id
        else None) in
      match job_id, viz with
      | VStr job, Some viz_info =>
          let* _ := delete_uploaded_file viz_info in
          let* _ := forget_job job in
          delete_entries rest (S deleted_count)
      | _, _ => delete_entries rest deleted_count
      end
  end.

(** [delete_batch] *)
Definition delete_batch (batch_id : string) : M (Response (gmap string val)) :=
  let* batch := gets (fun w => batch_jobs (app w) !! batch_id) in
  match batch with
  | None => ret (HTTPException 404 "Batch not found")
  | Some batch_info =>
      let* deleted_count := delete_entries (b_files batch_info) 0 in
      let* _ := modify (set_app (set_batch_jobs (delete batch_id))) in
      ret (Ok (<["success" := VBool true]>
                 (<["message" := VStr ("Batch deleted. Removed " ++ str_nat deleted_count
                                       ++ " visualizations.")]>
                    (<["deleted_count" := VInt (Z.of_nat deleted_count)]> ∅))))
  end.

(** The answer of [delete_files_batch]. *)
Record BatchDeleteResponse : Type := mkBatchDeleteResponse {
  success : bool;
  deleted : list string;
  errors : list (gmap string val);
  message : string
}.

(** The error entry of a file that the cleanup did not delete. *)
Definition not_found (file_id : string) : gmap string val :=
  <["file_id" := VStr file_id]> (<["error" := VStr "File not found"]> ∅).

(** The loop of [delete_files_batch]; [denied] holds the paths whose
    unlink raises. *)
Fixpoint delete_each (denied : gset string) (file_ids : list string)
    (deleted : list string) (errors : list (gmap string val)) (w : World)
    : list string * list (gmap string val) * World :=
  match file_ids with
  | [] => (deleted, errors, w)
  | file_id :: rest =>
      match Files.delete_file_and_cleanup denied file_id w with
      | (Returns true, w') => delete_each denied rest (deleted ++ [file_id])%list errors w'
      | (Returns false, w') =>
          delete_each denied rest deleted
            (errors ++ [not_found file_id])%list w'
      | (Raises e, w') =>
          delete_each denied rest deleted
            (errors ++ [<["file_id" := VStr file_id]> (<["error" := VStr e]> ∅)])%list w'
      end
  end.

(** [delete_files_batch] *)
Definition delete_files_batch (denied : gset string) (file_ids : list string) (w : World)
    : BatchDeleteResponse * World :=
  let '(deleted, errors, w') := delete_each denied file_ids [] [] w in
  (mkBatchDeleteResponse (0 <? length deleted)%nat deleted errors
     ("Deleted " ++ str_nat (length deleted) ++ " files, " ++ str_nat (length errors)
      ++ " errors"),
   w').

(** What is outside the tables of the jobs: the disk, the sidecars, the
    scheduled tasks, the log of remote calls and the datasets. *)
Definition outside_kept (w w' : World) : Prop :=
  disk w' = disk w /\ recipes w' = recipes w /\ scheduled w' = scheduled w /\
  remote_calls w' = remote_calls w /\
  active_datasets (app w') = active_datasets (app w).

(** An entry of the list names the job: its job id is that string, and
    the string is not empty. *)
Definition names (entries : list (gmap string val)) (job : string) : Prop :=
  job <> "" /\ exists file_info, In file_info entries /\ file_info !! "job_id" = Some (VStr job).

(** A file of which no record is left. *)
Definition removed (file_id : string) (w : World) : Prop :=
  uploaded_files (app w) !! file_id = None /\
  active_visualizations (app w) !! file_id = None /\
  active_sessions (app w) !! file_id = None.

(** A batch whose entries name the job j0 twice, the job j1 and a job
    without records; the job j9 is outside the batch. *)
Definition two_job_batch : World :=
  mkWorld
    (mkAppState
       (<["j0" := <["file_path" := VStr "/srv/uploads/j0_a.nc"]> ∅]>
          (<["j1" := <["file_path" := VStr "/srv/uploads/j1_b.nc"]> ∅]>
             (<["j9" := <["file_path" := VStr "/srv/uploads/j9_z.nc"]> ∅]> ∅)))
       (<["j0" := ∅]> ∅)
       (<["b" := mkBatch ∅ [<["job_id" := VStr "j0"]> ∅; <["job_id" := VStr "j1"]> ∅;
                            <["job_id" := VStr "j0"]> ∅; <["job_id" := VStr "gone"]> ∅] []]> ∅)
       ∅
       (<["j0" := <["file_path" := VStr "/srv/uploads/j0_a.nc"]> ∅]>
          (<["j9" := <["file_path" := VStr "/srv/uploads/j9_z.nc"]> ∅]> ∅)))
    {["/srv/uploads/j0_a.nc"; "/srv/uploads/j1_b.nc"; "/srv/uploads/j9_z.nc"]}
    ∅ [] [].

End Deletes.
(** ** Looking up and deleting sidecars ([app/core/recipe_manager.py]),
    the display form of a tileset id ([app/utils/formatters.py]) *)

Module Recipes.
Import PyStr.

(** [tileset_id.split('.')[-1] if '.' in tileset_id else tileset_id] *)
Definition short_id (tileset_id : string) : string :=
  if contains "." tileset_id
  then str (default [] (last (split_on "." (chars tileset_id))))
  else tileset_id.

(** [format_tileset_id]: [raw_id.split('.', 1)[1]] when there is a dot. *)
Definition format_tileset_id (raw_id : string) : string :=
  if contains "." raw_id
  then str (default [] (after_first "." (chars raw_id)))
  else raw_id.

(** An id that a glob pattern takes literally and within one file name:
    not empty, and without [*], [?], [[] and [/]. *)
Definition literal_char (c : ascii) : bool :=
  negb (Ascii.eqb c "*" || Ascii.eqb c "?" || Ascii.eqb c "[" || Ascii.eqb c "/").

Definition plain_id (id : string) : Prop :=
  id <> "" /\ Forall (fun c => literal_char c = true) (chars id).

(** [list(settings.RECIPE_DIR.glob(f"*{id}*.json"))] for a plain id:
    [listing] is the names of the directory in the order in which the file
    system yields them. *)
Definition glob_recipes (listing : list string) (id : string) : list string :=
  List.filter (Files.glob_id_json id) listing.

(** A listing of the sidecars of a world: every sidecar once. *)
Definition lists (listing : list string) (w : World) : Prop :=
  NoDup listing /\ forall name, In name listing <-> is_Some (recipes w !! name).

(** [get_recipe_info]; [unreadable] holds the files whose opening or
    parsing raises. *)
Definition get_recipe_info (listing : list string) (unreadable : gset string)
    (tileset_id : string) (w : World) : option (gmap string val) :=
  let tileset_short_id := short_id tileset_id in
  match glob_recipes listing tileset_short_id with
  | [] => None
  | recipe_file :: _ =>
      if bool_decide (recipe_file ∈ unreadable) then None
      else recipes w !! recipe_file
  end.

(** The loop of [delete_recipe]; [denied] holds the files whose unlink
    raises, as does the unlink of a file that is not there. *)
Fixpoint unlink_each (denied : gset string) (recipe_files : list string) (deleted : bool)
    (w : World) : bool * World :=
  match recipe_files with
  | [] => (deleted, w)
  | recipe_file :: rest =>
      if bool_decide (recipe_file ∈ denied)
         || negb (bool_decide (is_Some (recipes w !! recipe_file)))
      then unlink_each denied rest deleted w
      else unlink_each denied rest true (set_recipes (delete recipe_file) w)
  end.

(** [delete_recipe] *)
Definition delete_recipe (listing : list string) (denied : gset string)
    (tileset_id : string) (w : World) : bool * World :=
  unlink_each denied (glob_recipes listing tileset_id) false w.

(** The name of the sidecar of a tileset. *)
Definition recipe_name (tileset_id : string) : string :=
  "recipe_" ++ tileset_id ++ ".json".

(** A directory with the sidecars of two tilesets, the id of the first
    being the beginning of the id of the second. *)
Definition two_sidecars : World :=
  mkWorld empty_state ∅
    (<["recipe_wx_a.json" := <["tileset_id" := VStr "wx_a"]> ∅]>
       (<["recipe_wx_ab.json" := <["tileset_id" := VStr "wx_ab"]> ∅]> ∅))
    [] [].

End Recipes.
(** ** What a publication records *)

Module Publish.
Import Orchestrator.

(** The format a sidecar records, as [save_recipe_info] derives it from
    the remote result. *)
Definition recorded_format (result : gmap string val) : val :=
  if mentions_raster (dict_get_or result "tileset_id" (VStr ""))
     || py_eq (dict_get result "format") (VStr "raster-array")
  then VStr "raster-array"
  else dict_get_or result "format" (VStr "vector").

(** A remote service that publishes vector tilesets under an account
    whose name holds the word raster. *)
Definition raster_named_remote : Publisher :=
  mkPublisher (Returns tt)
    (fun _ _ => Raises "not asked")
    (fun _ tileset_id => Returns (<["success" := VBool true]>
                                    (<["tileset_id" := VStr ("rasterlab." ++ tileset_id)]> ∅)))
    (fun _ => false).

End Publish.
(** ** Reloading the file database ([app/core/file_manager.py]) *)

Module FileDatabase.
Import PyStr.

(** What [stat] gives of a file: its size, and its modification time in
    the ISO format. *)
Record Stat : Type := mkStat {
  st_size : Z;
  st_mtime : string
}.

(** [Path(name).stem]: the name up to its last dot, when that dot is
    neither the first nor the last character. *)
Definition stem (name : list ascii) : list ascii :=
  let front := Ingest.before_last "." name in
  if nonempty front && (length front + 1 <? length name)%nat then front else name.

(** [file_path.stem.split('_')[0]] *)
Definition file_id_of (name : string) : string :=
  str (hd [] (split_on "_" (stem (chars name)))).

(** ['_'.join(file_path.stem.split('_')[1:]) + '.nc'] *)
Definition original_filename_of (name : string) : string :=
  str (join "_" (tl (split_on "_" (stem (chars name)))) ++ chars ".nc").

(** The record made for a file of the upload directory, with its scalar
    entries. *)
Definition file_record (upload_dir : string) (vis : gmap string (gmap string val))
    (name : string) (st : Stat) : gmap string val :=
  let file_id := file_id_of name in
  let tileset_id :=
    match vis !! file_id with
    | Some viz_info => dict_get viz_info "tileset_id"
    | None => VNone
    end in
  let processing_status :=
    match vis !! file_id with
    | Some viz_info => dict_get_or viz_info "status" (VStr "unknown")
    | None => VStr "unknown"
    end in
  <["id" := VStr file_id]> (
  <["filename" := VStr name]> (
  <["original_filename" := VStr (original_filename_of name)]> (
  <["size" := VInt (st_size st)]> (
  <["upload_date" := VStr (st_mtime st)]> (
  <["status" := VStr "active"]> (
  <["tileset_id" := tileset_id]> (
  <["job_id" := VStr file_id]> (
  <["processing_status" := processing_status]> (
  <["file_path" := VStr (upload_dir ++ "/" ++ name)]> ∅))))))))).

(** The loop over [settings.UPLOAD_DIR.glob("*.nc")]: [entries] holds the
    names of the directory in the order of the file system, each with what
    its [stat] gives or raises; a file whose [stat] raises is passed
    over. *)
Fixpoint load_entries (upload_dir : string) (vis : gmap string (gmap string val))
    (entries : list (string * Exc Stat)) (uploaded_files : gmap string (gmap string val))
    : gmap string (gmap string val) :=
  match entries with
  | [] => uploaded_files
  | (name, stat) :: rest =>
      if ends_with (chars ".nc") (chars name) then
        match stat with
        | Returns st =>
            load_entries upload_dir vis rest
              (<[file_id_of name := file_record upload_dir vis name st]> uploaded_files)
        | Raises _ => load_entries upload_dir vis rest uploaded_files
        end
      else load_entries upload_dir vis rest uploaded_files
  end.

(** [load_file_database] *)
Definition load_file_database (s : Settings) (entries : list (string * Exc Stat))
    (w : World) : World :=
  set_app (set_uploaded_files (fun _ =>
    load_entries (UPLOAD_DIR s) (active_visualizations (app w)) entries ∅)) w.

(** An entry of the directory that the loop turns into a record. *)
Definition loaded (entry : string * Exc Stat) : Prop :=
  ends_with (chars ".nc") (chars (fst entry)) = true /\ exists st, snd entry = Returns st.

End FileDatabase.
(** ** The upload of a single file ([app/api/upload.py]) *)

Module SingleUpload.
Import PyStr Ingest Validators.

(** [upload_netcdf].  [max_file_size] is [settings.MAX_FILE_SIZE],
    [too_large] the detail made of it
    ([f"File too large. Maximum size is {settings.MAX_FILE_SIZE / 1024 / 1024}MB"]),
    and [job_id] the text [datetime.now().strftime("%Y%m%d%H%M%S")].  An
    [HTTPException] that the endpoint raises is its answer.  The Uploaded
    File Record is stored with its scalar entries, as in
    [Ingest.record_uploads]. *)
Definition upload_netcdf {A} `{ArrayLib A} (env : Env A) (max_file_size : nat)
    (too_large : string) (job_id : string) (file : Upload) (create_tileset : bool)
    (tileset_name : option string) (visualization_type : string)
    : M (Response (gmap string val)) :=
  match validate_netcdf_file (filename file) with
  | Invalid error => ret (HTTPException 400 error)
  | Valid =>
      let file_size := String.length (content file) in
      if (max_file_size <? file_size)%nat then ret (HTTPException 400 too_large)
      else
        let* result :=
          process_batch_upload env [file] [job_id] create_tileset
            (if truthy_opt tileset_name then Some [default "" tileset_name] else None)
            visualization_type None in
        match files result with
        | file_result :: _ =>
            let* _ :=
              if truthy (dict_get file_result "success") then
                modify (set_app (set_uploaded_files (insert job_id (
                  <["id" := VStr job_id]> (
                  <["filename" := VStr (job_id ++ "_" ++ filename file)]> (
                  <["original_filename" := VStr (filename file)]> (
                  <["size" := VInt (Z.of_nat file_size)]> (
                  <["status" := VStr "active"]> (
                  <["tileset_id" := dict_get file_result "tileset_id"]> (
                  <["job_id" := VStr job_id]> (
                  <["processing_status" :=
                      dict_get_or file_result "status" (VStr "processing")]> (
                  <["file_path" :=
                      VStr (UPLOAD_DIR (settings env) ++ "/" ++ job_id ++ "_"
                            ++ filename file)]> ∅))))))))))))
              else ret tt in
            ret (Ok file_result)
        | [] => ret (HTTPException 500 "Failed to process file")
        end
  end.

End SingleUpload.
(** * Facts *)

(** A closed decidable fact, settled by evaluating its decision procedure. *)
Ltac by_decide := apply (bool_decide_unpack _); vm_compute; exact I.

(** ** Effects *)

Module EffectFacts.

(** *** Running a computation *)

Lemma run_bind {A B} (m : M A) (k : A -> M B) w a w' :
  m w = (Returns a, w') -> bind m k w = k a w'.
Proof. intros H. unfold bind. rewrite H. reflexivity. Qed.

Lemma run_bind_raises {A B} (m : M A) (k : A -> M B) w msg w' :
  m w = (Raises msg, w') -> bind m k w = (Raises msg, w').
Proof. intros H. unfold bind. rewrite H. reflexivity. Qed.

Lemma run_item d k v w : d !! k = Some v -> item d k w = (Returns v, w).
Proof. intros H. unfold item. rewrite H. reflexivity. Qed.

(** *** Relations that every step respects *)

Section Respects.
Context (R : World -> World -> Prop) `{!PreOrder R}.

Lemma respects_ret {A} (a : A) : respects R (ret a).
Proof. intros w. reflexivity. Qed.

Lemma respects_raise {A} msg : respects R (@raise A msg).
Proof. intros w. reflexivity. Qed.

Lemma respects_gets {A} (f : World -> A) : respects R (gets f).
Proof. intros w. reflexivity. Qed.

Lemma respects_lift {A} (e : Exc A) : respects R (lift e).
Proof. intros w. reflexivity. Qed.

Lemma respects_item d k : respects R (item d k).
Proof. intros w. unfold item. destruct (d !! k); reflexivity. Qed.

Lemma respects_modify f : (forall w, R w (f w)) -> respects R (modify f).
Proof. intros Hf w. apply Hf. Qed.

Lemma respects_bind {A B} (m : M A) (k : A -> M B) :
  respects R m -> (forall a, respects R (k a)) -> respects R (bind m k).
Proof.
  intros Hm Hk w. unfold world_after, bind. specialize (Hm w). unfold world_after in Hm.
  destruct (m w) as [[a|msg] w1]; cbn [snd] in *; [|exact Hm].
  etransitivity; [exact Hm | apply Hk].
Qed.

Lemma respects_try_except {A} (m : M A) h :
  respects R m -> (forall e, respects R (h e)) -> respects R (try_except m h).
Proof.
  intros Hm Hh w. unfold world_after, try_except. specialize (Hm w).
  unfold world_after in Hm.
  destruct (m w) as [[a|msg] w1]; cbn [snd] in *; [exact Hm|].
  etransitivity; [exact Hm | apply Hh].
Qed.

End Respects.

(** One step of a proof that a computation respects a relation: by the
    shape of the computation. *)
Ltac preorder_found :=
  lazymatch goal with
  | |- PreOrder _ => typeclasses eauto
  | _ => idtac
  end.

Ltac respect_step :=
  lazymatch goal with
  | |- respects _ (if ?b then _ else _) => destruct b
  | |- respects _ (match ?x with _ => _ end) => destruct x
  | |- respects _ (ret _) => apply respects_ret; preorder_found
  | |- respects _ (raise _) => apply respects_raise; preorder_found
  | |- respects _ (gets _) => apply respects_gets; preorder_found
  | |- respects _ (lift _) => apply respects_lift; preorder_found
  | |- respects _ (item _ _) => apply respects_item; preorder_found
  | |- respects _ (bind _ _) => apply respects_bind; preorder_found; [|intros ?]
  | |- respects _ (try_except _ _) =>
      apply respects_try_except; preorder_found; [|intros ?]
  | |- respects _ (modify _) => apply respects_modify; intros ?
  end.

End EffectFacts.

(** * Theorems *)

(** ** Batch status *)

Module BatchFacts.
Import Batch.

Lemma countb_le {A} (p : A -> bool) l : countb p l <= length l.
Proof. induction l as [|x l IH]; simpl; [lia|]. destruct (p x); lia. Qed.

Lemma countb_all {A} (p : A -> bool) l :
  (countb p l =? length l)%nat = forallb p l.
Proof.
  induction l as [|x l IH]; simpl; [reflexivity|].
  pose proof (countb_le p l) as Hle.
  destruct (p x); simpl.
  - exact IH.
  - apply Nat.eqb_neq. lia.
Qed.

Lemma countb_pos {A} (p : A -> bool) l :
  (0 <? countb p l)%nat = existsb p l.
Proof.
  induction l as [|x l IH]; simpl; [reflexivity|].
  destruct (p x); simpl; [reflexivity | exact IH].
Qed.

(** The loop adds to the counters it starts from. *)
Lemma fold_count_shift vis files : forall c f p,
  fold_left (count_file vis) files (c, f, p) =
  let '(c', f', p') := tally vis files in (c + c', f + f', p + p').
Proof.
  unfold tally. induction files as [|e files IH]; intros c f p; cbn [fold_left].
  - f_equal; [f_equal|]; lia.
  - assert (count_file vis (c, f, p) e =
            let '(dc, df, dp) := count_file vis (0, 0, 0) e in (c + dc, f + df, p + dp))
      as ->.
    { unfold count_file.
      destruct (table_lookup vis (dict_get e "job_id")) as [viz|].
      - destruct (py_eq _ (VStr "completed")); [|destruct (py_eq _ (VStr "failed"))];
          f_equal; [f_equal| | f_equal | | f_equal |]; lia.
      - f_equal; [f_equal|]; lia. }
    destruct (count_file vis (0, 0, 0) e) as [[dc df] dp].
    rewrite IH, (IH dc df dp).
    destruct (fold_left (count_file vis) files (0, 0, 0)) as [[c' f'] p'].
    f_equal; [f_equal|]; lia.
Qed.

(** An entry with no Visualization Record leaves the counters alone; one
    with a record increments the counter of its status. *)
Lemma tally_cons vis e files :
  tally vis (e :: files) =
  let '(c, f, p) := tally vis files in
  match file_status vis e with
  | None => (c, f, p)
  | Some s =>
      if py_eq s (VStr "completed") then (S c, f, p)
      else if py_eq s (VStr "failed") then (c, S f, p)
      else (c, f, S p)
  end.
Proof.
  unfold tally at 1. cbn [fold_left]. unfold count_file at 2, file_status.
  destruct (table_lookup vis (dict_get e "job_id")) as [viz|].
  - destruct (py_eq _ (VStr "completed")); [|destruct (py_eq _ (VStr "failed"))];
      rewrite fold_count_shift; destruct (tally vis files) as [[c f] p]; reflexivity.
  - rewrite fold_count_shift. destruct (tally vis files) as [[c f] p]. reflexivity.
Qed.

Lemma tally_skip vis l1 e l2 :
  file_status vis e = None -> tally vis (l1 ++ e :: l2) = tally vis (l1 ++ l2).
Proof.
  intros He. induction l1 as [|x l1 IH]; simpl.
  - rewrite tally_cons, He. destruct (tally vis l2) as [[c f] p]. reflexivity.
  - rewrite !tally_cons, IH. reflexivity.
Qed.

Lemma tally_none vis files :
  Forall (fun e => file_status vis e = None) files -> tally vis files = (0, 0, 0).
Proof.
  induction 1 as [|e files He _ IH]; [reflexivity|].
  rewrite tally_cons, IH, He. reflexivity.
Qed.

(** With a record behind every entry, the counters count the statuses. *)
Lemma tally_statuses vis files :
  Forall (fun e => exists s, file_status vis e = Some s /\ viz_status_ok s) files ->
  exists sts,
    mapM (file_status vis) files = Some sts /\
    Forall viz_status_ok sts /\
    length sts = length files /\
    tally vis files =
      (countb (py_eq (VStr "completed")) sts,
       countb (py_eq (VStr "failed")) sts,
       countb (py_eq (VStr "processing")) sts).
Proof.
  induction 1 as [|e files (s & Hs & Hok) _ (sts & Hm & Hall & Hlen & Ht)].
  - exists []. repeat split. constructor.
  - exists (s :: sts). rewrite tally_cons, Ht, Hs. simpl. rewrite Hs, Hm. simpl.
    repeat split; [constructor; assumption | congruence |].
    destruct Hok as [-> | [-> | ->]]; reflexivity.
Qed.

Lemma counts_total sts :
  Forall viz_status_ok sts ->
  countb (py_eq (VStr "completed")) sts + countb (py_eq (VStr "failed")) sts
    + countb (py_eq (VStr "processing")) sts = length sts.
Proof.
  induction 1 as [|s sts Hok _ IH]; [reflexivity|].
  destruct Hok as [-> | [-> | ->]]; simpl; lia.
Qed.

(** On the statuses of the data model, the status derived from the
    counters is the one the rule gives. *)
Lemma derive_status_spec sts :
  Forall viz_status_ok sts ->
  derive_status (countb (py_eq (VStr "completed")) sts)
                (countb (py_eq (VStr "failed")) sts)
                (countb (py_eq (VStr "processing")) sts) (length sts)
  = spec_aggregate sts.
Proof.
  intros Hall. pose proof (counts_total sts Hall) as Htot.
  unfold derive_status, spec_aggregate.
  rewrite countb_pos, !countb_all.
  destruct (existsb (py_eq (VStr "processing")) sts) eqn:Hp; [|reflexivity].
  rewrite <- countb_pos in Hp. apply Nat.ltb_lt in Hp.
  pose proof (countb_le (py_eq (VStr "completed")) sts).
  pose proof (countb_le (py_eq (VStr "failed")) sts).
  rewrite <- !countb_all.
  replace (countb (py_eq (VStr "failed")) sts =? length sts)%nat with false
    by (symmetry; apply Nat.eqb_neq; lia).
  replace (countb (py_eq (VStr "completed")) sts =? length sts)%nat with false
    by (symmetry; apply Nat.eqb_neq; lia).
  reflexivity.
Qed.

(** C1. When every file entry of a Batch Record has a Visualization
    Record (whose status is one of processing, completed, failed),
    [get_batch_status] answers with, and stores under the batch id, a
    record whose status is the rule applied to the list of per-file
    statuses: all failed gives failed, all completed gives completed, any
    processing gives processing, otherwise partial.  The four sample
    batches of three files give completed, failed, processing and
    partial. *)
Theorem C1_batch_status_rule :
  (forall (st : AppState) (bid : string) (b : BatchRecord),
      batch_jobs st !! bid = Some b ->
      Forall (fun e => exists s,
                  file_status (active_visualizations st) e = Some s /\ viz_status_ok s)
             (b_files b) ->
      exists sts b',
        mapM (file_status (active_visualizations st)) (b_files b) = Some sts /\
        get_batch_status bid st = (Ok b', set_batch_jobs (insert bid b') st) /\
        batch_jobs (snd (get_batch_status bid st)) !! bid = Some b' /\
        b_fields b' !! "status" = Some (VStr (spec_aggregate sts)) /\
        b_files b' = b_files b) /\
  response_status (fst (get_batch_status "b" (three_files "completed" "completed" "completed")))
    = Some (VStr "completed") /\
  response_status (fst (get_batch_status "b" (three_files "failed" "failed" "failed")))
    = Some (VStr "failed") /\
  response_status (fst (get_batch_status "b" (three_files "completed" "processing" "failed")))
    = Some (VStr "processing") /\
  response_status (fst (get_batch_status "b" (three_files "completed" "failed" "completed")))
    = Some (VStr "partial").
Proof.
  split; [|repeat split; vm_compute; reflexivity].
  intros st bid b Hb Hall.
  destruct (tally_statuses _ _ Hall) as (sts & Hm & Hok & Hlen & Ht).
  eexists sts, _. split; [exact Hm|].
  unfold get_batch_status. rewrite Hb, Ht, <- Hlen, (derive_status_spec sts Hok).
  split; [reflexivity|]. simpl.
  split; [apply lookup_insert_eq|].
  split; [|reflexivity].
  rewrite !lookup_insert_ne by discriminate. apply lookup_insert_eq.
Qed.

Lemma C1_batch_status_rule_witness :
  exists sts b',
    mapM (file_status (active_visualizations (three_files "completed" "failed" "completed")))
         (b_files (mkBatch (<["status" := VStr "processing"]> ∅)
                           [entry "j0"; entry "j1"; entry "j2"] [])) = Some sts /\
    get_batch_status "b" (three_files "completed" "failed" "completed")
      = (Ok b', set_batch_jobs (insert "b" b') (three_files "completed" "failed" "completed")) /\
    batch_jobs (snd (get_batch_status "b" (three_files "completed" "failed" "completed"))) !! "b"
      = Some b' /\
    b_fields b' !! "status" = Some (VStr (spec_aggregate sts)) /\
    b_files b' = [entry "j0"; entry "j1"; entry "j2"].
Proof.
  apply (proj1 C1_batch_status_rule (three_files "completed" "failed" "completed") "b").
  - vm_compute. reflexivity.
  - repeat constructor; eexists; (split; [vm_compute; reflexivity|]);
      unfold viz_status_ok; tauto.
Defined.

(** C10. A batch file entry whose job id has no Visualization Record adds
    to none of the three counters; so a batch with a non-empty files
    list none of whose entries has a record is answered 'partial' with
    the three counters at zero, and a batch with an empty files list is
    answered 'failed'. *)
Theorem C10_unknown_jobs_not_counted :
  (forall vis l1 e l2,
      file_status vis e = None -> tally vis (l1 ++ e :: l2) = tally vis (l1 ++ l2)) /\
  (forall (st : AppState) (bid : string) (b : BatchRecord),
      batch_jobs st !! bid = Some b ->
      b_files b <> [] ->
      Forall (fun e => file_status (active_visualizations st) e = None) (b_files b) ->
      exists b',
        get_batch_status bid st = (Ok b', set_batch_jobs (insert bid b') st) /\
        b_fields b' !! "status" = Some (VStr "partial") /\
        b_fields b' !! "completed_files" = Some (VInt 0) /\
        b_fields b' !! "failed_files" = Some (VInt 0) /\
        b_fields b' !! "processing_files" = Some (VInt 0)) /\
  (forall (st : AppState) (bid : string) (b : BatchRecord),
      batch_jobs st !! bid = Some b ->
      b_files b = [] ->
      exists b',
        get_batch_status bid st = (Ok b', set_batch_jobs (insert bid b') st) /\
        b_fields b' !! "status" = Some (VStr "failed")).
Proof.
  split; [exact tally_skip|]. split.
  - intros st bid b Hb Hne Hall. eexists. unfold get_batch_status.
    rewrite Hb, (tally_none _ _ Hall). split; [reflexivity|]. simpl.
    assert (derive_status 0 0 0 (length (b_files b)) = "partial") as ->.
    { destruct (b_files b); [congruence | reflexivity]. }
    repeat split.
    + rewrite !lookup_insert_ne by discriminate. apply lookup_insert_eq.
    + rewrite !lookup_insert_ne by discriminate. apply lookup_insert_eq.
    + rewrite lookup_insert_ne by discriminate. apply lookup_insert_eq.
    + apply lookup_insert_eq.
  - intros st bid b Hb Hnil. eexists. unfold get_batch_status.
    rewrite Hb, Hnil. split; [reflexivity|]. simpl.
    rewrite !lookup_insert_ne by discriminate. apply lookup_insert_eq.
Qed.

Lemma C10_unknown_jobs_not_counted_witness :
  tally (∅ : gmap string (gmap string val)) ([] ++ entry "j0" :: [entry "j1"])
    = tally ∅ ([] ++ [entry "j1"]) /\
  (exists b',
      get_batch_status "b" orphan_batch = (Ok b', set_batch_jobs (insert "b" b') orphan_batch) /\
      b_fields b' !! "status" = Some (VStr "partial") /\
      b_fields b' !! "completed_files" = Some (VInt 0) /\
      b_fields b' !! "failed_files" = Some (VInt 0) /\
      b_fields b' !! "processing_files" = Some (VInt 0)) /\
  (exists b',
      get_batch_status "b" (set_batch_jobs (insert "b" (mkBatch ∅ [] [])) empty_state)
        = (Ok b', set_batch_jobs (insert "b" b')
                    (set_batch_jobs (insert "b" (mkBatch ∅ [] [])) empty_state)) /\
      b_fields b' !! "status" = Some (VStr "failed")).
Proof.
  destruct C10_unknown_jobs_not_counted as (Hskip & Hpartial & Hempty).
  split; [|split].
  - apply Hskip. vm_compute. reflexivity.
  - apply (Hpartial orphan_batch "b" (mkBatch ∅ [entry "j0"; entry "j1"] [])).
    + vm_compute. reflexivity.
    + discriminate.
    + repeat constructor.
  - apply (Hempty _ "b" (mkBatch ∅ [] [])).
    + vm_compute. reflexivity.
    + reflexivity.
Defined.

End BatchFacts.
(** ** Bounds and view *)

Module GeoFacts.
Import Geo.

(** The ladder as a table: the zoom of the first threshold the span
    exceeds, 9 when it exceeds none. *)
Lemma zoom_of_table d :
  zoom_of d =
  match find (fun tz => (fst tz <? d)%float) zoom_table with
  | Some tz => snd tz
  | None => 9%Z
  end.
Proof.
  unfold zoom_of, zoom_table. cbn [find fst snd].
  repeat match goal with |- context [(?t <? d)%float] => destruct (t <? d)%float end;
    reflexivity.
Qed.

(** C4, as the claim states it for a span of exactly 180 degrees, fails: the
    box from pole to pole spans 180 degrees and gets zoom 2, because the
    first rung asks for a span greater than 180. *)
Lemma C4_span_180_counterexample :
  max_diff pole_to_pole = 180%float /\
  snd (calculate_optimal_view (Some pole_to_pole)) = Some 2%Z /\
  snd (calculate_optimal_view (Some pole_to_pole)) <> Some 1%Z.
Proof.
  split; [vm_compute; reflexivity|].
  split; [vm_compute; reflexivity|].
  vm_compute. discriminate.
Qed.

(** C4 (amended). For every bounds record [calculate_optimal_view] returns
    the centre [(east+west)/2, (north+south)/2] and the zoom of the first
    rung of the ladder >180:1, >90:2, >45:3, >22:4, >11:5, >5.5:6, >2.8:7,
    >1.4:8 that max(north-south, east-west) exceeds, 9 if none; a span of
    exactly 180 degrees gets zoom 2, a span of 1.0 degree gets zoom 9, and
    equal bounds give equal results. *)
Theorem C4_optimal_view_ladder :
  forall b : Bounds,
    calculate_optimal_view (Some b) =
      (Some [((east b + west b) / 2)%float; ((north b + south b) / 2)%float],
       Some (zoom_of (py_max (north b - south b)%float (east b - west b)%float))) /\
    zoom_of (max_diff b) =
      match find (fun tz => (fst tz <? max_diff b)%float) zoom_table with
      | Some tz => snd tz
      | None => 9%Z
      end /\
    (max_diff b = 180%float -> snd (calculate_optimal_view (Some b)) = Some 2%Z) /\
    (max_diff b = 1%float -> snd (calculate_optimal_view (Some b)) = Some 9%Z) /\
    (forall b' : Bounds, b' = b -> calculate_optimal_view (Some b') = calculate_optimal_view (Some b)).
Proof.
  intros b. split; [reflexivity|]. split; [apply zoom_of_table|].
  split; [|split].
  - intros Hd. unfold calculate_optimal_view. cbn [snd].
    fold (max_diff b). rewrite Hd. reflexivity.
  - intros Hd. unfold calculate_optimal_view. cbn [snd].
    fold (max_diff b). rewrite Hd. reflexivity.
  - intros b' ->. reflexivity.
Qed.

Lemma C4_optimal_view_ladder_witness :
  max_diff pole_to_pole = 180%float /\
  max_diff one_degree = 1%float /\
  snd (calculate_optimal_view (Some pole_to_pole)) = Some 2%Z /\
  snd (calculate_optimal_view (Some one_degree)) = Some 9%Z.
Proof.
  assert (H180 : max_diff pole_to_pole = 180%float) by (vm_compute; reflexivity).
  assert (H1 : max_diff one_degree = 1%float) by (vm_compute; reflexivity).
  split; [exact H180|]. split; [exact H1|]. split.
  - exact (proj1 (proj2 (proj2 (C4_optimal_view_ladder pole_to_pole))) H180).
  - exact (proj1 (proj2 (proj2 (proj2 (C4_optimal_view_ladder one_degree)))) H1).
Defined.

(** The alias search, as a relation and as its failure. *)
Lemma first_present_alias {A} (cs : gmap string A) names c :
  first_present names cs = Some c <-> first_alias cs names c.
Proof.
  induction names as [|name rest IH]; simpl.
  - split; [discriminate | inversion 1].
  - destruct (cs !! name) as [c'|] eqn:Hc.
    + split.
      * intros [= <-]. apply alias_here. exact Hc.
      * inversion 1; congruence.
    + rewrite IH. split.
      * intros Hr. apply alias_later; assumption.
      * inversion 1; [congruence | assumption].
Qed.

Lemma first_present_none {A} (cs : gmap string A) names :
  first_present names cs = None <-> Forall (fun name => cs !! name = None) names.
Proof.
  induction names as [|name rest IH]; simpl.
  - split; [constructor | reflexivity].
  - destruct (cs !! name) as [c'|] eqn:Hc.
    + split; [discriminate|]. inversion 1; congruence.
    + rewrite IH. split; [constructor; assumption | inversion 1; assumption].
Qed.

(** C9, as the claim states it, fails when exactly one axis is found: a
    dataset with a latitude axis and no longitude axis raises nothing and
    gets no bounds. *)
Lemma C9_one_axis_counterexample :
  first_alias (coords lat_only) lat_names [10; 20; 30]%float /\
  Forall (fun name => coords lat_only !! name = None) lon_names /\
  get_dataset_bounds_try lat_only = Returns None /\
  get_dataset_bounds lat_only = None.
Proof.
  split; [apply alias_here; vm_compute; reflexivity|].
  split; [repeat constructor|].
  split; vm_compute; reflexivity.
Qed.

(** C9 (amended). [get_dataset_bounds] looks for the latitude axis under
    lat, latitude, y, Y and for the longitude axis under lon, longitude, x,
    X, taking the first alias present; it returns None unless both axes are
    found, and when both are found it returns the maximum and minimum of
    the latitude axis as north and south and those of the longitude axis as
    east and west, or None if computing any of them raises. *)
Theorem C9_bounds_need_both_axes :
  forall (A : Type) (L : ArrayLib A) (ds : Dataset A),
    (Forall (fun name => coords ds !! name = None) lat_names \/
     Forall (fun name => coords ds !! name = None) lon_names ->
     get_dataset_bounds ds = None) /\
    (forall lat lon,
        first_alias (coords ds) lat_names lat ->
        first_alias (coords ds) lon_names lon ->
        (forall n s e w,
            arr_max lat = Returns n -> arr_min lat = Returns s ->
            arr_max lon = Returns e -> arr_min lon = Returns w ->
            get_dataset_bounds ds = Some (mkBounds n s e w)) /\
        ((exists m, arr_max lat = Raises m \/ arr_min lat = Raises m \/
                    arr_max lon = Raises m \/ arr_min lon = Raises m) ->
         get_dataset_bounds ds = None)).
Proof.
  intros A L ds. split.
  - intros Hnone. unfold get_dataset_bounds, get_dataset_bounds_try.
    destruct Hnone as [Hlat | Hlon].
    + apply first_present_none in Hlat. rewrite Hlat. reflexivity.
    + apply first_present_none in Hlon. rewrite Hlon.
      destruct (first_present lat_names (coords ds)); reflexivity.
  - intros lat lon Hlat Hlon.
    apply first_present_alias in Hlat. apply first_present_alias in Hlon.
    unfold get_dataset_bounds, get_dataset_bounds_try. rewrite Hlat, Hlon.
    split.
    + intros n s e w -> -> -> ->. reflexivity.
    + intros (m & Hm). unfold exc_bind.
      destruct (arr_max lat) as [n|]; [|reflexivity].
      destruct (arr_min lat) as [s|]; [|reflexivity].
      destruct (arr_max lon) as [e|]; [|reflexivity].
      destruct (arr_min lon) as [w|]; [|reflexivity].
      destruct Hm as [Hm | [Hm | [Hm | Hm]]]; discriminate.
Qed.

Lemma C9_bounds_need_both_axes_witness :
  get_dataset_bounds lat_only = None /\
  get_dataset_bounds lat_lon = Some (mkBounds 30 10 5 (-5)) /\
  get_dataset_bounds empty_lon = None.
Proof.
  split; [|split].
  - apply (proj1 (C9_bounds_need_both_axes _ _ lat_only)).
    right. repeat constructor.
  - apply (proj1 (proj2 (C9_bounds_need_both_axes _ _ lat_lon)
                    [10; 30; 20]%float [5; -5]%float
                    ltac:(apply alias_later; [reflexivity | apply alias_here; reflexivity])
                    ltac:(apply alias_later; [reflexivity |
                          apply alias_later; [reflexivity | apply alias_here; reflexivity]])));
      vm_compute; reflexivity.
  - apply (proj2 (proj2 (C9_bounds_need_both_axes _ _ empty_lon)
                    [10; 20]%float []
                    ltac:(apply alias_here; reflexivity)
                    ltac:(apply alias_here; reflexivity))).
    eexists. right. right. left. reflexivity.
Defined.

End GeoFacts.

(** ** Wind components *)

Module WindFacts.
Import PyStr Wind.

(** A name that matches a pattern list is not the empty string, so the
    truth test the loop applies to an assigned variable succeeds. *)
Lemma matches_truthy pats var :
  matches pats "" = false -> matches pats var = true -> truthy_opt (Some var) = true.
Proof.
  intros Hempty Hm. destruct var as [|c var]; [congruence | reflexivity].
Qed.

Lemma u_truthy var : matches u_patterns var = true -> truthy_opt (Some var) = true.
Proof. apply matches_truthy. reflexivity. Qed.

Lemma v_truthy var : matches v_patterns var = true -> truthy_opt (Some var) = true.
Proof. apply matches_truthy. reflexivity. Qed.

(** Once both variables are assigned the loop changes nothing. *)
Lemma scan_both vars u_var v_var :
  truthy_opt (Some u_var) = true -> truthy_opt (Some v_var) = true ->
  scan_vars vars (Some u_var) (Some v_var) = (Some u_var, Some v_var).
Proof.
  intros Hu Hv. induction vars as [|var rest IH]; [reflexivity|].
  cbn [scan_vars]. rewrite Hu, Hv. exact IH.
Qed.

(** With u assigned, the loop looks for the first v match. *)
Lemma scan_u_known vars u_var :
  truthy_opt (Some u_var) = true ->
  scan_vars vars (Some u_var) None = (Some u_var, find (matches v_patterns) vars).
Proof.
  intros Hu. induction vars as [|var rest IH]; [reflexivity|].
  cbn [scan_vars find]. rewrite Hu. cbn [negb andb truthy_opt].
  destruct (matches v_patterns var) eqn:Hv.
  - apply scan_both; [exact Hu | apply v_truthy; exact Hv].
  - exact IH.
Qed.

(** With v assigned, the loop looks for the first u match. *)
Lemma scan_v_known vars v_var :
  truthy_opt (Some v_var) = true ->
  scan_vars vars None (Some v_var) = (find (matches u_patterns) vars, Some v_var).
Proof.
  intros Hv. induction vars as [|var rest IH]; [reflexivity|].
  cbn [scan_vars find]. rewrite Hv. cbn [negb andb truthy_opt].
  destruct (matches u_patterns var) eqn:Hu.
  - apply scan_both; [apply u_truthy; exact Hu | exact Hv].
  - exact IH.
Qed.

(** From the start: the first u match, and the first v match among the
    other variables. *)
Lemma scan_fresh vars :
  scan_vars vars None None =
  (find (matches u_patterns) vars,
   find (matches v_patterns) (remove_first (matches u_patterns) vars)).
Proof.
  induction vars as [|var rest IH]; [reflexivity|].
  cbn [scan_vars find remove_first truthy_opt negb andb].
  destruct (matches u_patterns var) eqn:Hu.
  - apply scan_u_known, u_truthy, Hu.
  - cbn [find]. destruct (matches v_patterns var) eqn:Hv.
    + apply scan_v_known, v_truthy, Hv.
    + exact IH.
Qed.

Lemma find_some_matches {A} (p : A -> bool) l x :
  find p l = Some x -> x ∈ l /\ p x = true.
Proof.
  induction l as [|y l IH]; [discriminate|]. cbn [find].
  destruct (p y) eqn:Hy.
  - intros [= <-]. split; [left | exact Hy].
  - intros Hf. destruct (IH Hf). split; [right; assumption | assumption].
Qed.

Lemma remove_first_subset {A} (p : A -> bool) l x :
  x ∈ remove_first p l -> x ∈ l.
Proof.
  induction l as [|y l IH]; cbn [remove_first]; [trivial|].
  destruct (p y).
  - intros Hx. right. exact Hx.
  - intros Hx. apply elem_of_cons in Hx as [-> | Hx]; [left | right; auto].
Qed.

(** In a list without repetition, the first match is not among the
    others. *)
Lemma remove_first_drops {A} (p : A -> bool) l x :
  NoDup l -> find p l = Some x -> x ∉ remove_first p l.
Proof.
  induction 1 as [|y l Hy Hnd IH]; [discriminate|].
  cbn [find remove_first]. destruct (p y) eqn:Hpy.
  - intros [= <-]. exact Hy.
  - intros Hf Hx. apply elem_of_cons in Hx as [-> | Hx].
    + apply find_some_matches in Hf as [Hin _]. contradiction.
    + exact (IH Hf Hx).
Qed.

Lemma find_wind_components_spec vars :
  find_wind_components vars = spec_find_vector_components vars.
Proof.
  unfold find_wind_components, spec_find_vector_components.
  rewrite scan_fresh.
  destruct (find (matches u_patterns) vars) as [u_var|] eqn:Hu; [|reflexivity].
  destruct (find (matches v_patterns) (remove_first (matches u_patterns) vars))
    as [v_var|] eqn:Hv; [|reflexivity].
  apply find_some_matches in Hu as [_ Hu]. apply find_some_matches in Hv as [_ Hv].
  rewrite (u_truthy _ Hu), (v_truthy _ Hv). reflexivity.
Qed.

(** A capital letter and its small letter have the same lowercased
    form. *)
Lemma lower_char_capital x y :
  is_capital x = true -> code y = (code x + 32)%N ->
  lower_char x = y /\ lower_char y = y.
Proof.
  intros Hx Hy. rewrite <- (ascii_N_embedding y). unfold code in Hy. rewrite Hy.
  clear Hy. revert Hx.
  destruct x as [[] [] [] [] [] [] [] []]; vm_compute; intros Hx;
    first [discriminate Hx | split; reflexivity].
Qed.

Lemma lower_char_case_pair x y : case_pair x y -> lower_char x = lower_char y.
Proof.
  intros [-> | [[Hx Hy] | [Hy Hx]]]; [reflexivity| |].
  - destruct (lower_char_capital x y Hx Hy) as [-> ->]. reflexivity.
  - destruct (lower_char_capital y x Hy Hx) as [-> ->]. reflexivity.
Qed.

Lemma lower_same_up_to_case a b :
  same_up_to_case a b -> lower (chars a) = lower (chars b).
Proof.
  unfold same_up_to_case, lower. induction 1 as [|x y l l' Hxy _ IH]; [reflexivity|].
  cbn [map]. rewrite (lower_char_case_pair x y Hxy), IH. reflexivity.
Qed.

Lemma lower_char_small c : is_capital c = false -> lower_char c = c.
Proof.
  destruct c as [[] [] [] [] [] [] [] []]; vm_compute; intros Hc;
    first [discriminate Hc | reflexivity].
Qed.

Lemma lower_no_capital var : no_capital var -> str (lower (chars var)) = var.
Proof.
  unfold no_capital, lower, str, chars. intros Hvar.
  rewrite <- (string_of_list_ascii_of_string var) at 2. f_equal.
  induction Hvar as [|c l Hc _ IH]; [reflexivity|].
  cbn [map]. rewrite (lower_char_small c Hc), IH. reflexivity.
Qed.

(** C5. [find_wind_components] gives the u axis the first variable whose
    lowercased name contains a u pattern, gives the v axis the first
    variable, other than that one, whose lowercased name contains a v
    pattern, and returns None when either search finds nothing; the
    variable taken for u is never the one returned for v.  That the match
    is made on the lowercased name means: names that are the same up to
    case match the same patterns, and a name without a capital letter
    matches a pattern exactly when it contains it; the names returned are
    those of the dataset, in their own case.  On u10, v10, temp it
    returns u10 and v10; on temp, pressure it returns None. *)
Theorem C5_find_wind_components :
  (forall vars,
      find_wind_components vars =
      match find (matches u_patterns) vars,
            find (matches v_patterns) (remove_first (matches u_patterns) vars) with
      | Some u_var, Some v_var => Some (mkWind u_var v_var)
      | _, _ => None
      end) /\
  (forall pats a b, same_up_to_case a b -> matches pats a = matches pats b) /\
  (forall pats var,
      no_capital var -> matches pats var = existsb (fun p => contains p var) pats) /\
  (forall vars,
      find (matches u_patterns) vars = None \/
      find (matches v_patterns) (remove_first (matches u_patterns) vars) = None ->
      find_wind_components vars = None) /\
  (forall vars c,
      NoDup vars -> find_wind_components vars = Some c ->
      wc_u c ∈ vars /\ wc_v c ∈ vars /\ wc_u c <> wc_v c) /\
  find_wind_components ["u10"; "v10"; "temp"] = Some (mkWind "u10" "v10") /\
  find_wind_components ["temp"; "pressure"] = None /\
  find_wind_components ["U10"; "V10"; "TEMP"] = Some (mkWind "U10" "V10") /\
  find_wind_components ["Temp"; "Northward_Wind"; "EASTWARD_WIND"]
    = Some (mkWind "EASTWARD_WIND" "Northward_Wind") /\
  find_wind_components ["TEMP"; "PRESSURE"] = None.
Proof.
  split; [exact find_wind_components_spec|].
  split; [|split; [|split; [|split; [|repeat split; vm_compute; reflexivity]]]].
  - intros pats a b Hab. unfold matches. cbv zeta.
    rewrite (lower_same_up_to_case a b Hab). reflexivity.
  - intros pats var Hvar. unfold matches. cbv zeta.
    rewrite (lower_no_capital var Hvar). reflexivity.
  - intros vars Hnone. rewrite find_wind_components_spec.
    unfold spec_find_vector_components.
    destruct Hnone as [-> | ->]; [reflexivity|].
    destruct (find (matches u_patterns) vars); reflexivity.
  - intros vars c Hnd. rewrite find_wind_components_spec.
    unfold spec_find_vector_components.
    destruct (find (matches u_patterns) vars) as [u_var|] eqn:Hu; [|discriminate].
    destruct (find (matches v_patterns) (remove_first (matches u_patterns) vars))
      as [v_var|] eqn:Hv; [|discriminate].
    intros [= <-]. cbn [wc_u wc_v].
    pose proof (remove_first_drops _ _ _ Hnd Hu) as Hout.
    apply find_some_matches in Hu as [Hu _]. apply find_some_matches in Hv as [Hv _].
    split; [exact Hu|]. split; [eapply remove_first_subset; exact Hv|].
    intros ->. contradiction.
Qed.

Lemma C5_find_wind_components_witness :
  find_wind_components ["Temp"; "Pressure"] = None /\
  ("UWND" ∈ ["VWND"; "UWND"; "temp"] /\ "VWND" ∈ ["VWND"; "UWND"; "temp"] /\ "UWND" <> "VWND") /\
  matches u_patterns "UGRD" = matches u_patterns "ugrd" /\
  matches v_patterns "vgrd" = existsb (fun p => contains p "vgrd") v_patterns.
Proof.
  destruct C5_find_wind_components as (_ & Hcase & Hsmall & Hnone & Hdistinct & _).
  split; [|split; [|split]].
  - apply Hnone. right. vm_compute. reflexivity.
  - apply (Hdistinct ["VWND"; "UWND"; "temp"] (mkWind "UWND" "VWND")).
    + apply (bool_decide_unpack (NoDup ["VWND"; "UWND"; "temp"])). vm_compute. reflexivity.
    + vm_compute. reflexivity.
  - apply Hcase. unfold same_up_to_case. cbn.
    repeat (constructor; [right; left; split; vm_compute; reflexivity|]).
    constructor.
  - apply Hsmall. unfold no_capital. cbn.
    repeat (constructor; [vm_compute; reflexivity|]). constructor.
Defined.

End WindFacts.
(** ** Tileset naming *)

Module NamingFacts.
Import PyStr Naming.

(** *** Characters *)

Ltac each_char c :=
  destruct c as [[] [] [] [] [] [] [] []]; vm_compute;
  repeat split; intros; try reflexivity; try discriminate.

Lemma id_char_settled c : is_id_char c = true -> settled c.
Proof. unfold settled. each_char c. Qed.

(** What the sanitising step leaves of a lowered character. *)
Lemma sanitized_settled c :
  settled (if kept (lower_char c) then lower_char c else "_"%char).
Proof. unfold settled. each_char c. Qed.

Lemma sanitized_id_char c :
  is_ascii c = true ->
  is_id_char (if kept (lower_char c) then lower_char c else "_"%char) = true.
Proof. each_char c. Qed.

Lemma lowered_id_char c :
  is_ascii c = true -> kept (lower_char c) = true -> is_id_char (lower_char c) = true.
Proof. each_char c. Qed.

Lemma digit_is_digit n : is_digit (digit n) = true.
Proof.
  unfold digit. pose proof (Nat.mod_upper_bound n 10 ltac:(lia)) as Hk.
  destruct (n mod 10) as [|k]; [reflexivity|].
  do 9 (destruct k as [|k]; [reflexivity|]). lia.
Qed.

Lemma digit_id_char c : is_digit c = true -> is_id_char c = true.
Proof. each_char c. Qed.

Lemma digit_not_underscore c : is_digit c = true -> Ascii.eqb "_" c = false.
Proof. each_char c. Qed.

(** *** Lists of characters *)

Lemma length_str l : String.length (str l) = length l.
Proof. induction l as [|c l IH]; simpl; [reflexivity | f_equal; exact IH]. Qed.

Lemma chars_str l : chars (str l) = l.
Proof. apply list_ascii_of_string_of_list_ascii. Qed.

Lemma Forall_list_filter {A} (P : A -> Prop) (f : A -> bool) l :
  Forall P l -> Forall P (List.filter f l).
Proof.
  induction 1 as [|x l Hx _ IH]; simpl; [constructor|].
  destruct (f x); [constructor; assumption | assumption].
Qed.

Lemma Forall_firstn {A} (P : A -> Prop) n (l : list A) :
  Forall P l -> Forall P (firstn n l).
Proof.
  intros H. revert n. induction H as [|x l Hx _ IH]; intros [|n]; simpl;
    constructor; auto.
Qed.

Lemma Forall_after_first (P : ascii -> Prop) sep s r :
  Forall P s -> after_first sep s = Some r -> Forall P r.
Proof.
  induction 1 as [|c s Hc Hs IH]; simpl; [discriminate|].
  destruct (Ascii.eqb c sep); [intros [= <-]; exact Hs | exact IH].
Qed.

Lemma Forall_split1_last (P : ascii -> Prop) sep s :
  Forall P s -> Forall P (split1_last sep s).
Proof.
  intros Hs. unfold split1_last.
  destruct (after_first sep s) as [r|] eqn:Hr; simpl; [|exact Hs].
  eapply Forall_after_first; eassumption.
Qed.

Lemma Forall_split_on (P : ascii -> Prop) sep s :
  Forall P s -> Forall (Forall P) (split_on sep s).
Proof.
  induction 1 as [|c s Hc _ IH]; simpl; [repeat constructor|].
  destruct (Ascii.eqb c sep); [constructor; [constructor | exact IH]|].
  destruct (split_on sep s) as [|p ps]; [repeat constructor; exact Hc|].
  inversion IH; subst. constructor; [constructor; assumption | assumption].
Qed.

Lemma Forall_join (P : ascii -> Prop) sep parts :
  P sep -> Forall (Forall P) parts -> Forall P (join sep parts).
Proof.
  intros Hsep. induction 1 as [|p ps Hp Hps IH]; simpl; [constructor|].
  destruct ps as [|q qs]; [exact Hp|].
  apply Forall_app. split; [exact Hp | constructor; [exact Hsep | exact IH]].
Qed.

(** Lowering and filtering leave settled characters as they are. *)
Lemma settled_fixed l :
  Forall settled l -> List.filter kept (lower l) = l.
Proof.
  induction 1 as [|c l [Hk Hl] _ IH]; [reflexivity|].
  unfold lower in *. simpl. rewrite Hl, Hk, IH. reflexivity.
Qed.

Lemma length_filter_lower l : length (List.filter kept (lower l)) <= length l.
Proof.
  unfold lower. induction l as [|c l IH]; simpl; [lia|].
  destruct (kept (lower_char c)); simpl; lia.
Qed.

Lemma rstrip_last c Y d :
  Ascii.eqb c d = false -> rstrip c (Y ++ [d]) = (Y ++ [d])%list.
Proof.
  intros Hd. unfold rstrip. rewrite rev_app_distr. simpl. rewrite Hd.
  change (d :: rev Y) with (rev [d] ++ rev Y)%list.
  rewrite <- rev_app_distr. apply rev_involutive.
Qed.

Lemma ends_with_last c Y d :
  Ascii.eqb c d = false -> ends_with [c] (Y ++ [d]) = false.
Proof.
  intros Hd. unfold ends_with. rewrite rev_app_distr. simpl. rewrite Hd. reflexivity.
Qed.

(** *** The parts of an id *)

Lemma timestamp_shape now :
  length (strftime_mdHM now) = 8 /\ Forall (fun c => is_digit c = true) (strftime_mdHM now).
Proof.
  split; [reflexivity|]. unfold strftime_mdHM, two_digits. simpl.
  repeat constructor; apply digit_is_digit.
Qed.

Lemma timestamp_last now :
  exists front d, strftime_mdHM now = (front ++ [d])%list /\ is_digit d = true.
Proof.
  exists (two_digits (month now) ++ two_digits (day now) ++ two_digits (hour now)
          ++ [digit (minute now / 10)])%list, (digit (minute now)).
  split; [reflexivity | apply digit_is_digit].
Qed.

Lemma raw_prefix_length batch_id : length (raw_prefix batch_id) <= 12.
Proof.
  unfold raw_prefix, chars. destruct (truthy_opt batch_id); [|simpl; lia].
  rewrite length_app.
  pose proof (firstn_le_length 8 (list_ascii_of_string (default "" batch_id))).
  change (length (list_ascii_of_string "wxb_")) with 4. lia.
Qed.

Lemma sanitized_name_settled stem tileset_name :
  Forall settled (sanitized_name stem tileset_name).
Proof.
  unfold sanitized_name. apply Forall_join; [split; reflexivity|].
  apply Forall_list_filter, Forall_split_on.
  unfold lower. rewrite map_map. apply Forall_map, Forall_forall.
  intros c _. apply sanitized_settled.
Qed.

Lemma sanitized_name_id_chars stem tileset_name :
  ascii_only stem -> ascii_only_opt tileset_name ->
  Forall (fun c => is_id_char c = true) (sanitized_name stem tileset_name).
Proof.
  intros Hstem Hname. unfold sanitized_name. apply Forall_join; [reflexivity|].
  apply Forall_list_filter, Forall_split_on.
  unfold lower. rewrite map_map. apply Forall_map.
  eapply Forall_impl; [|intros c Hc; apply sanitized_id_char; exact Hc].
  destruct (truthy_opt tileset_name) eqn:Ht; simpl.
  - destruct tileset_name as [name|]; [exact Hname | discriminate].
  - destruct (nonempty _).
    + apply Forall_firstn, Forall_list_filter, Forall_split1_last. exact Hstem.
    + repeat constructor.
Qed.

(** The name the id carries is the sanitised name cut to the budget left
    by the prefix. *)
Lemma truncated_name batch_id (name : list ascii) now :
  let max_name_length :=
    (32 - Z.of_nat (length (raw_prefix batch_id))
       - Z.of_nat (length (strftime_mdHM now)) - 2)%Z in
  (if (max_name_length <? Z.of_nat (length name))%Z
   then slice_to max_name_length name else name)
  = firstn (name_budget batch_id) name.
Proof.
  intros max_name_length. pose proof (raw_prefix_length batch_id) as Hp.
  assert (Hmax : max_name_length = Z.of_nat (name_budget batch_id)).
  { unfold max_name_length, name_budget.
    rewrite (proj1 (timestamp_shape now)). lia. }
  rewrite Hmax. destruct (Z.ltb_spec (Z.of_nat (name_budget batch_id)) (Z.of_nat (length name))).
  - unfold slice_to. destruct (Z.leb_spec 0 (Z.of_nat (name_budget batch_id))); [|lia].
    rewrite Nat2Z.id. reflexivity.
  - symmetry. apply firstn_all2. lia.
Qed.

(** The id is the cleaned prefix, the name and the timestamp, joined by
    underscores: the closing steps change neither name nor timestamp. *)
Lemma generate_tileset_id_parts stem tileset_name batch_id now :
  generate_tileset_id stem tileset_name batch_id now =
  str (clean_prefix batch_id ++ "_"%char :: name_part stem tileset_name batch_id
         ++ "_"%char :: strftime_mdHM now)%list.
Proof.
  unfold generate_tileset_id. cbv zeta. rewrite truncated_name.
  fold (name_part stem tileset_name batch_id).
  assert (Hname : Forall settled (name_part stem tileset_name batch_id))
    by apply Forall_firstn, sanitized_name_settled.
  destruct (timestamp_shape now) as [Hlen Hdigits].
  assert (Hts : Forall settled (strftime_mdHM now)).
  { eapply Forall_impl; [exact Hdigits|].
    intros c Hc. apply id_char_settled, digit_id_char, Hc. }
  assert (Hclean :
    List.filter kept
      (lower (raw_prefix batch_id ++ "_"%char :: name_part stem tileset_name batch_id
                ++ "_"%char :: strftime_mdHM now)%list)
    = (clean_prefix batch_id ++ "_"%char :: name_part stem tileset_name batch_id
         ++ "_"%char :: strftime_mdHM now)%list).
  { unfold lower, clean_prefix. rewrite map_app, List.filter_app. f_equal.
    change (List.filter kept (lower ("_"%char :: name_part stem tileset_name batch_id
                                       ++ "_"%char :: strftime_mdHM now)%list)
            = ("_"%char :: name_part stem tileset_name batch_id
                 ++ "_"%char :: strftime_mdHM now)%list).
    apply settled_fixed. constructor; [split; reflexivity|].
    apply Forall_app. split; [exact Hname|].
    constructor; [split; reflexivity | exact Hts]. }
  rewrite Hclean. f_equal.
  rewrite firstn_all2.
  - destruct (timestamp_last now) as (front & d & -> & Hd).
    change (clean_prefix batch_id ++ "_"%char :: name_part stem tileset_name batch_id
              ++ "_"%char :: front ++ [d])%list
      with (clean_prefix batch_id ++ ("_"%char :: name_part stem tileset_name batch_id
              ++ "_"%char :: front ++ [d]))%list.
    replace (clean_prefix batch_id ++ "_"%char :: name_part stem tileset_name batch_id
               ++ "_"%char :: front ++ [d])%list
      with ((clean_prefix batch_id ++ "_"%char :: name_part stem tileset_name batch_id
               ++ "_"%char :: front) ++ [d])%list.
    + apply rstrip_last, digit_not_underscore, Hd.
    + rewrite <- !app_assoc. simpl. rewrite <- app_assoc. reflexivity.
  - pose proof (raw_prefix_length batch_id) as Hp.
    pose proof (length_filter_lower (raw_prefix batch_id)) as Hc.
    fold (clean_prefix batch_id) in Hc.
    assert (length (name_part stem tileset_name batch_id) <= name_budget batch_id)
      by apply firstn_le_length.
    unfold name_budget in *.
    rewrite length_app. simpl. rewrite length_app. simpl. lia.
Qed.

Lemma cleaned_id_chars l :
  Forall (fun c => is_ascii c = true) l ->
  Forall (fun c => is_id_char c = true) (List.filter kept (lower l)).
Proof.
  unfold lower. induction 1 as [|c l Hc _ IH]; simpl; [constructor|].
  destruct (kept (lower_char c)) eqn:Hk; [|exact IH].
  constructor; [apply lowered_id_char; assumption | exact IH].
Qed.

Lemma raw_prefix_ascii batch_id :
  ascii_only_opt batch_id -> Forall (fun c => is_ascii c = true) (raw_prefix batch_id).
Proof.
  intros Hb. unfold raw_prefix. destruct (truthy_opt batch_id) eqn:Ht.
  - destruct batch_id as [b|]; [|discriminate]. apply Forall_app. split.
    + repeat constructor.
    + apply Forall_firstn. exact Hb.
  - repeat constructor.
Qed.

Lemma clean_prefix_batch b :
  b <> "" ->
  clean_prefix (Some b) = (chars "wxb_" ++ List.filter kept (lower (firstn 8 (chars b))))%list.
Proof.
  intros Hb. unfold clean_prefix, raw_prefix, truthy_opt.
  destruct (String.eqb_spec b ""); [contradiction|]. simpl negb. cbv iota.
  unfold lower. rewrite map_app, List.filter_app. reflexivity.
Qed.

(** C6, as the claim states it for every batch id, fails: the id is
    lowered as a whole, so a batch id written in capitals does not appear in
    it as it was given. *)
Lemma C6_batch_prefix_counterexample :
  generate_tileset_id "20240101_wind" None (Some capital_batch) jan_2nd
    = "wxb_abcdefgh_wind_01020304" /\
  is_prefix (chars "wxb_" ++ firstn 8 (chars capital_batch))
            (chars (generate_tileset_id "20240101_wind" None (Some capital_batch) jan_2nd))
    = false.
Proof. split; vm_compute; reflexivity. Qed.

(** The letter U+00E9 passes [isalnum] and stays in the id. *)
Example accented_letter_survives :
  generate_tileset_id "x" (Some e_acute) None jan_2nd
    = str (chars "wx_" ++ chars e_acute ++ chars "_01020304") /\
  forallb is_id_char (chars (generate_tileset_id "x" (Some e_acute) None jan_2nd)) = false.
Proof. split; vm_compute; reflexivity. Qed.

(** C6 (amended). For a fixed clock reading [generate_tileset_id] is a
    function of the file stem, the optional name and the optional batch id.
    Its result has at most 32 characters, does not end in an underscore, and
    is prefix, name and timestamp joined by underscores, where the prefix is
    wx without a batch id and otherwise wxb_ followed by the first 8
    characters of the batch id lowered and stripped of every character that
    is neither alphanumeric, hyphen nor underscore (the first 8 characters
    themselves when they are in a-z, 0-9, _ and -), the name is the
    sanitised name cut to what the budget of 32 leaves, and the timestamp is
    the 8 digits MMDDHHMM.  When stem, name and batch id are ASCII the
    result contains only a-z, 0-9, _ and -. *)
Theorem C6_tileset_id_shape :
  forall (stem : string) (tileset_name batch_id : option string) (now : Clock),
    (forall stem' name' batch' now',
        stem' = stem -> name' = tileset_name -> batch' = batch_id -> now' = now ->
        generate_tileset_id stem' name' batch' now'
        = generate_tileset_id stem tileset_name batch_id now) /\
    generate_tileset_id stem tileset_name batch_id now =
      str (clean_prefix batch_id ++ "_"%char :: name_part stem tileset_name batch_id
             ++ "_"%char :: strftime_mdHM now)%list /\
    String.length (generate_tileset_id stem tileset_name batch_id now) <= 32 /\
    ends_with (chars "_") (chars (generate_tileset_id stem tileset_name batch_id now)) = false /\
    (truthy_opt batch_id = false -> clean_prefix batch_id = chars "wx") /\
    (forall b, batch_id = Some b -> b <> "" ->
        clean_prefix batch_id
          = (chars "wxb_" ++ List.filter kept (lower (firstn 8 (chars b))))%list /\
        (Forall (fun c => is_id_char c = true) (firstn 8 (chars b)) ->
         clean_prefix batch_id = (chars "wxb_" ++ firstn 8 (chars b))%list)) /\
    (length (strftime_mdHM now) = 8 /\
     Forall (fun c => is_digit c = true) (strftime_mdHM now)) /\
    (length (clean_prefix batch_id) + length (name_part stem tileset_name batch_id) <= 22 /\
     Forall (fun c => kept c = true /\ lower_char c = c) (name_part stem tileset_name batch_id)) /\
    (ascii_only stem -> ascii_only_opt tileset_name -> ascii_only_opt batch_id ->
     Forall (fun c => is_id_char c = true)
            (chars (generate_tileset_id stem tileset_name batch_id now))).
Proof.
  intros stem tileset_name batch_id now.
  pose proof (generate_tileset_id_parts stem tileset_name batch_id now) as Hparts.
  destruct (timestamp_shape now) as [Hlen Hdigits].
  pose proof (raw_prefix_length batch_id) as Hp.
  pose proof (length_filter_lower (raw_prefix batch_id)) as Hc.
  fold (clean_prefix batch_id) in Hc.
  assert (Hn : length (name_part stem tileset_name batch_id) <= name_budget batch_id)
    by apply firstn_le_length.
  unfold name_budget in Hn.
  split; [intros; subst; reflexivity|].
  split; [exact Hparts|].
  split; [|split; [|split; [|split; [|split; [|split]]]]].
  - rewrite Hparts, length_str, length_app. simpl. rewrite length_app. simpl. lia.
  - rewrite Hparts, chars_str. destruct (timestamp_last now) as (front & d & -> & Hd).
    replace (clean_prefix batch_id ++ "_"%char :: name_part stem tileset_name batch_id
               ++ "_"%char :: front ++ [d])%list
      with ((clean_prefix batch_id ++ "_"%char :: name_part stem tileset_name batch_id
               ++ "_"%char :: front) ++ [d])%list
      by (rewrite <- !app_assoc; simpl; rewrite <- app_assoc; reflexivity).
    apply (ends_with_last "_"%char), digit_not_underscore, Hd.
  - intros Ht. unfold clean_prefix, raw_prefix. rewrite Ht. reflexivity.
  - intros b -> Hb. split; [apply clean_prefix_batch, Hb|].
    intros Hid. rewrite (clean_prefix_batch b Hb). f_equal.
    apply settled_fixed. eapply Forall_impl; [exact Hid|].
    intros c. apply id_char_settled.
  - split; assumption.
  - split; [lia|]. apply Forall_firstn, sanitized_name_settled.
  - intros Hstem Hname Hbatch. rewrite Hparts, chars_str.
    apply Forall_app. split.
    + apply cleaned_id_chars, raw_prefix_ascii, Hbatch.
    + constructor; [reflexivity|]. apply Forall_app. split.
      * apply Forall_firstn, sanitized_name_id_chars; assumption.
      * constructor; [reflexivity|].
        eapply Forall_impl; [exact Hdigits|]. intros c. apply digit_id_char.
Qed.

Lemma C6_tileset_id_shape_witness :
  clean_prefix None = chars "wx" /\
  clean_prefix (Some "0a1b2c3d-4e5f") = (chars "wxb_" ++ firstn 8 (chars "0a1b2c3d-4e5f"))%list /\
  Forall (fun c => is_id_char c = true)
         (chars (generate_tileset_id "20240101_Wind Data.v2" (Some "My Tileset!")
                                     (Some "0a1b2c3d-4e5f") jan_2nd)).
Proof.
  pose proof (C6_tileset_id_shape "20240101_wind" None None jan_2nd)
    as (_ & _ & _ & _ & Hwx & _).
  pose proof (C6_tileset_id_shape "20240101_wind" None (Some "0a1b2c3d-4e5f") jan_2nd)
    as (_ & _ & _ & _ & _ & Hbatch & _).
  pose proof (C6_tileset_id_shape "20240101_Wind Data.v2" (Some "My Tileset!")
                (Some "0a1b2c3d-4e5f") jan_2nd)
    as (_ & _ & _ & _ & _ & _ & _ & _ & Hascii).
  split; [apply Hwx; reflexivity|]. split.
  - apply (Hbatch "0a1b2c3d-4e5f" eq_refl).
    + discriminate.
    + vm_compute. repeat constructor.
  - apply Hascii.
    + unfold ascii_only. vm_compute. repeat constructor.
    + unfold ascii_only_opt, ascii_only. vm_compute. repeat constructor.
    + unfold ascii_only_opt, ascii_only. vm_compute. repeat constructor.
Defined.

End NamingFacts.

(** ** Deleting a file *)

Module FilesFacts.
Import PyStr Files.

(** An id without an Uploaded File Record is answered 404 and nothing
    changes. *)
Lemma delete_file_not_found denied file_id w :
  uploaded_files (app w) !! file_id = None ->
  delete_file denied file_id w = (HTTPException 404 "File not found", w).
Proof. intros H. unfold delete_file. rewrite H. reflexivity. Qed.

(** A delete that goes through removes the file, the three records, and
    the recipe files whose name carries the job id before its .json
    ending; every other recipe file stays. *)
Lemma delete_file_cascade denied file_id w file_info file_path :
  uploaded_files (app w) !! file_id = Some file_info ->
  file_info !! "file_path" = Some (VStr file_path) ->
  file_path ∉ denied ->
  exists body w',
    delete_file denied file_id w = (Ok body, w') /\
    (file_path ∉ disk w') /\
    active_visualizations (app w') !! file_id = None /\
    active_sessions (app w') !! file_id = None /\
    uploaded_files (app w') !! file_id = None /\
    (forall name, glob_id_json file_id name = true -> name ∉ denied ->
                  recipes w' !! name = None) /\
    (forall name, glob_id_json file_id name = false ->
                  recipes w' !! name = recipes w !! name) /\
    uploaded_files (app (snd (delete_file denied file_id w'))) = uploaded_files (app w') /\
    fst (delete_file denied file_id w') = HTTPException 404 "File not found".
Proof.
  intros Hfile Hpath Hfree. unfold delete_file, delete_file_and_cleanup.
  rewrite Hfile, Hpath.
  rewrite (bool_decide_eq_false_2 (file_path ∈ denied)) by exact Hfree.
  rewrite andb_false_r. eexists _, _. split; [reflexivity|]. cbn.
  split; [apply not_elem_of_difference; right; apply elem_of_singleton; reflexivity|].
  split; [apply lookup_delete_eq|]. split; [apply lookup_delete_eq|].
  split; [apply lookup_delete_eq|]. split; [|split].
  - intros name Hglob Hname. apply map_lookup_filter_None. right.
    intros x _. cbn. unfold recipe_removed.
    rewrite Hglob, (bool_decide_eq_false_2 (name ∈ denied)) by exact Hname.
    discriminate.
  - intros name Hglob. destruct (recipes w !! name) as [x|] eqn:Hx.
    + apply map_lookup_filter_Some. split; [exact Hx|]. cbn.
      unfold recipe_removed. rewrite Hglob. reflexivity.
    + apply map_lookup_filter_None. left. exact Hx.
  - rewrite lookup_delete_eq. split; reflexivity.
Qed.

(** C7, on a published upload: the delete succeeds, the file and the three
    records are gone, and the sidecar of the tileset, whose name contains
    the tileset id, is still in the recipe directory, because the search
    is made with the job id only. *)
Theorem C7_tileset_sidecar_survives :
  contains sample_tileset sample_recipe = true /\
  active_visualizations (app published_upload) !! sample_job
    = Some (<["tileset_id" := VStr sample_tileset]>
              (<["status" := VStr "completed"]> (<["file_path" := VStr sample_path]> ∅))) /\
  (exists body, fst (delete_file ∅ sample_job published_upload) = Ok body) /\
  (sample_path ∉ disk (snd (delete_file ∅ sample_job published_upload))) /\
  active_visualizations (app (snd (delete_file ∅ sample_job published_upload))) !! sample_job
    = None /\
  uploaded_files (app (snd (delete_file ∅ sample_job published_upload))) !! sample_job
    = None /\
  recipes (snd (delete_file ∅ sample_job published_upload)) !! sample_recipe
    = recipes published_upload !! sample_recipe /\
  is_Some (recipes (snd (delete_file ∅ sample_job published_upload)) !! sample_recipe).
Proof.
  assert (Hglob : glob_id_json sample_job sample_recipe = false) by (vm_compute; reflexivity).
  destruct (delete_file_cascade ∅ sample_job published_upload
              (<["file_path" := VStr sample_path]>
                 (<["tileset_id" := VStr sample_tileset]>
                    (<["processing_status" := VStr "completed"]> ∅)))
              sample_path)
    as (body & w' & Hrun & Hdisk & Hviz & _ & Hup & _ & Hkeep & _).
  { by_decide. }
  { by_decide. }
  { set_solver. }
  rewrite Hrun. cbn [fst snd].
  split; [vm_compute; reflexivity|].
  split; [by_decide|].
  split; [exists body; reflexivity|].
  split; [exact Hdisk|]. split; [exact Hviz|]. split; [exact Hup|].
  split; [apply Hkeep, Hglob|].
  rewrite (Hkeep _ Hglob). by_decide.
Qed.

End FilesFacts.

(** ** Batch ingestion *)

Module IngestFacts.
Import PyStr Ingest EffectFacts.

(** *** The loop leaves the Batch Records alone *)

#[local] Instance same_batches_preorder : PreOrder same_batches.
Proof.
  split; [intros w; reflexivity|].
  intros w1 w2 w3 H12 H23. unfold same_batches in *. congruence.
Qed.

Ltac frame_step :=
  lazymatch goal with
  | |- same_batches _ _ => reflexivity
  | _ => respect_step
  end.

Section Loop.
Context {A : Type} `{ArrayLib A} (env : Env A).
Variables (job_ids : list string) (create_tileset : bool).
Variables (tileset_names : option (list string)) (visualization_type : string).
Variable batch_id : option string.

Lemma save_upload_frame file_path : respects same_batches (save_upload env file_path).
Proof. unfold save_upload. repeat frame_step. Qed.

Lemma process_netcdf_file_frame file_path stem job_id tileset_name :
  respects same_batches
    (process_netcdf_file env file_path stem job_id create_tileset tileset_name
       visualization_type batch_id).
Proof.
  unfold process_netcdf_file. repeat frame_step.
Qed.

Lemma ingest_file_frame file job_id tileset_name results :
  respects same_batches
    (ingest_file env file job_id create_tileset tileset_name visualization_type batch_id
       results).
Proof.
  unfold ingest_file.
  repeat lazymatch goal with
         | |- respects _ (save_upload _ _) => apply save_upload_frame
         | |- respects _ (process_netcdf_file _ _ _ _ _ _ _ _) =>
             apply process_netcdf_file_frame
         | _ => frame_step
         end.
Qed.

Lemma on_file_error_frame file job_id results e :
  respects same_batches (on_file_error env file job_id results e).
Proof.
  unfold on_file_error. repeat frame_step.
  destruct (_ && _); reflexivity.
Qed.

Lemma process_each_frame todo i results :
  respects same_batches
    (process_each env i todo job_ids create_tileset tileset_names visualization_type
       batch_id results).
Proof.
  revert i results. induction todo as [|file rest IH]; intros i results; cbn [process_each].
  - apply respects_ret. typeclasses eauto.
  - destruct (job_ids !! i) as [job_id|]; [|apply respects_raise; typeclasses eauto].
    apply respects_bind; [typeclasses eauto | | intros results'; apply IH].
    apply respects_try_except; [typeclasses eauto | apply ingest_file_frame |].
    intros e. apply on_file_error_frame.
Qed.

(** *** One turn of the loop *)

(** A file adds one entry to the list of successes and one to the count,
    or one entry to the list of errors; the loop goes on in both cases. *)
Lemma turn_returns file job_id tileset_name results w :
  exists results' w',
    try_except
      (ingest_file env file job_id create_tileset tileset_name visualization_type batch_id
         results)
      (on_file_error env file job_id results) w = (Returns results', w') /\
    grown 1 results results'.
Proof.
  unfold try_except.
  destruct (ingest_file env file job_id create_tileset tileset_name visualization_type
              batch_id results w) as [[results'|msg] w'] eqn:Hrun.
  - exists results', w'. split; [reflexivity|].
    unfold ingest_file, bind, modify, ret in Hrun.
    repeat match type of Hrun with
           | context [match ?x with _ => _ end] => destruct x
           end;
      try discriminate; injection Hrun as <- _; repeat split;
      eexists [_], []; cbn; rewrite app_nil_r; repeat split.
  - unfold on_file_error, bind, modify, ret. eexists _, _. split; [reflexivity|].
    repeat split. eexists [], [_]. cbn. rewrite app_nil_r. repeat split. lia.
Qed.

Lemma grown_none results : grown 0 results results.
Proof.
  repeat split. exists [], []. rewrite !app_nil_r. repeat split. cbn. lia.
Qed.

Lemma grown_more n m r1 r2 r3 : grown n r1 r2 -> grown m r2 r3 -> grown (n + m) r1 r3.
Proof.
  intros (Hb & Ht & Hs & fs & es & Hf & He & Hp & Hn)
         (Hb' & Ht' & Hs' & fs' & es' & Hf' & He' & Hp' & Hn').
  repeat split; try congruence.
  exists (fs ++ fs')%list, (es ++ es')%list.
  rewrite Hf', Hf, He', He, Hp', Hp, !length_app, <- !app_assoc.
  repeat split; lia.
Qed.

(** *** The whole loop *)

(** With a job id for every file the loop goes through every file. *)
Lemma process_each_returns todo i results w :
  i + length todo <= length job_ids ->
  exists results' w',
    process_each env i todo job_ids create_tileset tileset_names visualization_type
      batch_id results w = (Returns results', w') /\
    grown (length todo) results results'.
Proof.
  revert i results w. induction todo as [|file rest IH]; intros i results w Hlen;
    cbn [process_each length] in *.
  - exists results, w. split; [reflexivity | apply grown_none].
  - destruct (lookup_lt_is_Some_2 job_ids i) as [job_id Hjob]; [lia|]. rewrite Hjob.
    destruct (turn_returns file job_id (name_at tileset_names i) results w)
      as (r1 & w1 & Hturn & Hgrown).
    rewrite (run_bind _ _ _ _ _ Hturn).
    destruct (IH (S i) r1 w1) as (r2 & w2 & Hrest & Hgrown'); [lia|].
    exists r2, w2. split; [exact Hrest|].
    apply (grown_more 1 (length rest) results r1 r2); assumption.
Qed.

(** The loop over a list is the loop over its first files followed by the
    loop over the others. *)
Lemma process_each_app first others i results w :
  process_each env i (first ++ others) job_ids create_tileset tileset_names
    visualization_type batch_id results w
  = bind (process_each env i first job_ids create_tileset tileset_names
            visualization_type batch_id results)
         (fun results' =>
            process_each env (i + length first) others job_ids create_tileset
              tileset_names visualization_type batch_id results') w.
Proof.
  revert i results w. induction first as [|file rest IH]; intros i results w;
    [|rewrite <- app_comm_cons]; cbn [process_each app length].
  - unfold bind, ret. rewrite Nat.add_0_r. reflexivity.
  - destruct (job_ids !! i) as [job_id|]; [|reflexivity].
    unfold bind at 1 2 3.
    destruct (try_except _ _ w) as [[r1|msg] w1]; [|reflexivity].
    rewrite IH. replace (S i + length rest) with (i + S (length rest)) by lia.
    reflexivity.
Qed.

End Loop.

(** *** The file database *)

Lemma record_uploads_returns file_results i todo job_ids upload_dir batch_id w :
  i + length file_results <= length job_ids ->
  i + length file_results <= length todo ->
  exists w', record_uploads i file_results todo job_ids upload_dir batch_id w
               = (Returns tt, w') /\
             same_batches w w'.
Proof.
  revert i w. induction file_results as [|file_result rest IH]; intros i w Hjobs Htodo;
    cbn [record_uploads length] in *.
  - exists w. split; reflexivity.
  - destruct (lookup_lt_is_Some_2 job_ids i) as [job_id Hjob]; [lia|].
    destruct (lookup_lt_is_Some_2 todo i) as [file Hfile]; [lia|].
    rewrite Hjob, Hfile. unfold bind at 1.
    destruct (truthy (dict_get file_result "success")); unfold modify, ret;
      match goal with
      | |- context [record_uploads (S i) rest todo job_ids upload_dir batch_id ?w1] =>
          destruct (IH (S i) w1) as (w' & Hrun & Hsame); [lia | lia |];
          exists w'; split; [exact Hrun | exact Hsame]
      end.
Qed.

(** *** The batch endpoint *)

Section Batch.
Context {A : Type} `{ArrayLib A} (env : Env A).
Variables (todo : list Upload) (job_ids : list string) (create_tileset : bool).
Variables (tileset_names : option (list string)) (visualization_type : string).
Variables (batch_id : string) (w : World).

Lemma stored_after_register :
  stored_batch (register_batch batch_id (length todo) w) batch_id
  = Some (new_batch batch_id (length todo)).
Proof. unfold stored_batch, register_batch. cbn. apply lookup_insert_eq. Qed.

(** Between any two files a reader finds the Batch Record as it was
    created. *)
Lemma stored_between_files k :
  stored_batch
    (between_files env k todo job_ids create_tileset tileset_names visualization_type
       batch_id w) batch_id
  = Some (new_batch batch_id (length todo)).
Proof.
  unfold between_files, stored_batch.
  rewrite (process_each_frame env job_ids create_tileset tileset_names visualization_type
             (Some batch_id) (firstn k todo) 0 _ _).
  apply stored_after_register.
Qed.

Lemma process_batch_upload_returns w0 :
  length todo <= length job_ids ->
  exists result w1,
    process_batch_upload env todo job_ids create_tileset tileset_names visualization_type
      (Some batch_id) w0 = (Returns result, w1) /\
    same_batches w0 w1 /\
    length (files result) + length (errors result) = length todo /\
    processed_files result = length (files result) /\
    status result = overall_status (length (files result)) (length todo).
Proof.
  intros Hlen. unfold process_batch_upload.
  destruct (process_each_returns env job_ids create_tileset tileset_names
              visualization_type (Some batch_id) todo 0
              (fresh_results (Some batch_id) (length todo)) w0)
    as (r & w1 & Hloop & _ & Htotal & _ & fs & es & Hf & He & Hp & Hn); [lia|].
  pose proof (process_each_frame env job_ids create_tileset tileset_names
                visualization_type (Some batch_id) todo 0
                (fresh_results (Some batch_id) (length todo)) w0) as Hframe.
  unfold world_after in Hframe. rewrite Hloop in Hframe.
  rewrite (run_bind _ _ _ _ _ Hloop). exists (close_results r), w1.
  cbn in Hf, He, Hp, Htotal. cbn. rewrite Hf, He, Hp, Htotal.
  repeat split; [exact Hframe | lia].
Qed.

End Batch.

(** *** The loop neither reads nor writes the Batch Records *)

Lemma blind_ret {B} (b : B) : blind (ret b).
Proof. intros records w. reflexivity. Qed.

Lemma blind_raise {B} msg : blind (@raise B msg).
Proof. intros records w. reflexivity. Qed.

Lemma blind_lift {B} (e : Exc B) : blind (lift e).
Proof. intros records w. reflexivity. Qed.

Lemma blind_modify f :
  (forall records w, f (with_batches records w) = with_batches records (f w)) ->
  blind (modify f).
Proof. intros Hf records w. unfold modify. rewrite Hf. reflexivity. Qed.

Lemma blind_bind {B C} (m : M B) (k : B -> M C) :
  blind m -> (forall b, blind (k b)) -> blind (bind m k).
Proof.
  intros Hm Hk records w. unfold bind. rewrite Hm.
  destruct (m w) as [[b|msg] w1]; cbn [fst snd]; [apply Hk | reflexivity].
Qed.

Lemma blind_try_except {B} (m : M B) h :
  blind m -> (forall e, blind (h e)) -> blind (try_except m h).
Proof.
  intros Hm Hh records w. unfold try_except. rewrite Hm.
  destruct (m w) as [[b|msg] w1]; cbn [fst snd]; [reflexivity | apply Hh].
Qed.

Ltac blind_step :=
  lazymatch goal with
  | |- blind (if ?b then _ else _) => destruct b
  | |- blind (match ?x with _ => _ end) => destruct x
  | |- blind (ret _) => apply blind_ret
  | |- blind (raise _) => apply blind_raise
  | |- blind (lift _) => apply blind_lift
  | |- blind (bind _ _) => apply blind_bind; [|intros ?]
  | |- blind (try_except _ _) => apply blind_try_except; [|intros ?]
  | |- blind (modify _) => apply blind_modify; intros ? ?
  end.

Section Blind.
Context {A : Type} `{ArrayLib A} (env : Env A).
Variables (job_ids : list string) (create_tileset : bool).
Variables (tileset_names : option (list string)) (visualization_type : string).
Variable batch_id : option string.

Lemma ingest_file_blind file job_id tileset_name results :
  blind
    (ingest_file env file job_id create_tileset tileset_name visualization_type batch_id
       results).
Proof.
  unfold ingest_file, save_upload, process_netcdf_file. cbv zeta.
  repeat blind_step; reflexivity.
Qed.

Lemma on_file_error_blind file job_id results e :
  blind (on_file_error env file job_id results e).
Proof.
  unfold on_file_error. cbv zeta. repeat blind_step.
  change (disk (with_batches records w)) with (disk w).
  destruct (_ && _); reflexivity.
Qed.

Lemma process_each_blind todo i results :
  blind
    (process_each env i todo job_ids create_tileset tileset_names visualization_type
       batch_id results).
Proof.
  revert i results. induction todo as [|file rest IH]; intros i results; cbn [process_each].
  - apply blind_ret.
  - destruct (job_ids !! i) as [job_id|]; [|apply blind_raise].
    apply blind_bind; [|intros results'; apply IH].
    apply blind_try_except; [apply ingest_file_blind | intros e; apply on_file_error_blind].
Qed.

End Blind.

(** *** A status request while the record holds no file *)

Lemma status_request_nothing batch_id total w :
  stored_batch w batch_id = Some (new_batch batch_id total) ->
  exists seen,
    status_request batch_id w
    = (Returns (Ok seen), with_batches (<[batch_id := seen]> (batch_jobs (app w))) w) /\
    Batch.get_batch_status batch_id (app w)
    = (Ok seen, set_batch_jobs (insert batch_id seen) (app w)) /\
    shows_nothing total seen.
Proof.
  unfold stored_batch, status_request, Batch.get_batch_status. intros ->.
  cbn. eexists. split; [reflexivity|]. split; [reflexivity|].
  unfold shows_nothing. cbn.
  repeat split; repeat first [rewrite lookup_insert_eq | rewrite lookup_insert_ne by discriminate];
    reflexivity.
Qed.

(** The update after the loop writes the results over whatever the record
    held. *)
Lemma batch_update_shows b result : shows (batch_update b result) result.
Proof.
  unfold shows, batch_update, dict_update, results_fields. cbn.
  repeat split;
    (apply lookup_union_Some_l;
     repeat first [rewrite lookup_insert_eq | rewrite lookup_insert_ne by discriminate];
     reflexivity).
Qed.

(** C8, as the claim states it, fails: in a batch of two files that both
    go through, once the first file is ingested (its Visualization Record
    is there and the pipeline counts one processed file) the stored Batch
    Record still shows no processed file, the status processing and an
    empty list of files. *)
Lemma C8_progress_not_stored_counterexample :
  let w1 := between_files sample_env 1 two_files two_jobs true None "vector" "b1"
              empty_world in
  is_Some (active_visualizations (app w1) !! "b1_0_20240101120000") /\
  processed_between sample_env 1 two_files two_jobs true None "vector" "b1" empty_world
    = Some 1 /\
  (stored_batch w1 "b1" ≫= fun b => b_fields b !! "processed_files") = Some (VInt 0) /\
  (stored_batch w1 "b1" ≫= fun b => b_fields b !! "status") = Some (VStr "processing") /\
  b_files <$> stored_batch w1 "b1" = Some [].
Proof.
  cbv zeta. split; [by_decide|]. split; [by_decide|]. split; [by_decide|].
  split; by_decide.
Qed.

(** C8, as the code has it.  With a job id for every file, the loop goes
    through every file: after any [k] of them the pipeline's own results
    hold [k] entries, the successes in its list of files and counted, the
    failures in its list of errors; yet the pipeline has not written the
    stored Batch Record, which is then still the one created before the
    loop.  A status request handled at that point answers with no file, no
    error, no processed file and the status failed, which the empty list
    of files gives, and stores that answer.  The record is updated once,
    after the last file, with the closing results: the count of the
    successes, both lists, and the status completed, partial or failed;
    with a status request in between the upload returns the same results
    and the record shows them in the end all the same. *)
Theorem C8_batch_record_updated_once {A : Type} `{ArrayLib A} (env : Env A)
    (todo : list Upload) (job_ids : list string) (create_tileset : bool)
    (tileset_names : option (list string)) (visualization_type batch_id : string)
    (w : World) :
  length todo <= length job_ids ->
  let run :=
    upload_netcdf_batch env todo job_ids create_tileset tileset_names visualization_type
      batch_id in
  let fresh := fresh_results (Some batch_id) (length todo) in
  (forall k, k <= length todo ->
     exists results,
       outcome
         (process_each env 0 (firstn k todo) job_ids create_tileset tileset_names
            visualization_type (Some batch_id) fresh)
         (register_batch batch_id (length todo) w) = Returns results /\
       grown k fresh results /\
       stored_batch
         (between_files env k todo job_ids create_tileset tileset_names
            visualization_type batch_id w) batch_id
       = Some (new_batch batch_id (length todo))) /\
  exists result,
    outcome run w = Returns result /\
    length (files result) + length (errors result) = length todo /\
    processed_files result = length (files result) /\
    total_files result = length todo /\
    status result = overall_status (length (files result)) (length todo) /\
    stored_batch (world_after run w) batch_id
    = Some (batch_update (new_batch batch_id (length todo)) result) /\
    shows (batch_update (new_batch batch_id (length todo)) result) result /\
    forall k, k <= length todo ->
      let watched :=
        upload_netcdf_batch_watched env k todo job_ids create_tileset tileset_names
          visualization_type batch_id in
      exists seen,
        fst (Batch.get_batch_status batch_id
               (app (between_files env k todo job_ids create_tileset tileset_names
                       visualization_type batch_id w))) = Ok seen /\
        shows_nothing (length todo) seen /\
        outcome watched w = Returns (Ok seen, result) /\
        stored_batch (world_after watched w) batch_id = Some (batch_update seen result) /\
        shows (batch_update seen result) result.
Proof.
  intros Hlen run fresh. split.
  - intros k Hk.
    destruct (process_each_returns env job_ids create_tileset tileset_names
                visualization_type (Some batch_id) (firstn k todo) 0 fresh
                (register_batch batch_id (length todo) w))
      as (results & w1 & Hloop & Hgrown).
    { rewrite length_firstn. lia. }
    exists results. unfold outcome. rewrite Hloop. split; [reflexivity|].
    rewrite length_firstn, Nat.min_l in Hgrown by exact Hk.
    split; [exact Hgrown | apply stored_between_files].
  - set (w0 := register_batch batch_id (length todo) w).
    destruct (process_each_returns env job_ids create_tileset tileset_names
                visualization_type (Some batch_id) todo 0 fresh w0)
      as (r & w1 & Hloop & _ & Htotal & _ & fs & es & Hf & He & Hp & Hn); [lia|].
    cbn in Hf, He, Hp, Htotal.
    pose proof (process_each_frame env job_ids create_tileset tileset_names
                  visualization_type (Some batch_id) todo 0 fresh w0) as Hframe.
    unfold world_after in Hframe. rewrite Hloop in Hframe. cbn [snd] in Hframe.
    assert (Hstored : batch_jobs (app w1) !! batch_id
                      = Some (new_batch batch_id (length todo))).
    { rewrite Hframe. apply stored_after_register. }
    set (result := close_results r).
    assert (Hfiles : length (files result) <= length todo)
      by (cbn; rewrite Hf; lia).
    destruct (record_uploads_returns (files result) 0 todo job_ids
                (UPLOAD_DIR (settings env)) batch_id
                (set_app (set_batch_jobs
                   (insert batch_id (batch_update (new_batch batch_id (length todo)) result)))
                   w1))
      as (w2 & Hrecord & Hsame2); [lia | lia |].
    assert (Hwhole : run w = (Returns result, w2)).
    { subst run. unfold upload_netcdf_batch, process_batch_upload.
      unfold bind at 1. unfold modify at 1. fold w0.
      unfold bind at 1. rewrite (run_bind _ _ _ _ _ Hloop). unfold ret at 1.
      unfold bind at 1. unfold gets at 1. rewrite Hstored.
      unfold bind at 1. unfold modify at 1. fold result.
      rewrite (run_bind _ _ _ _ _ Hrecord). reflexivity. }
    exists result. unfold outcome, world_after. rewrite Hwhole. cbn [fst snd].
    split; [reflexivity|]. split; [cbn; rewrite Hf, He; lia|].
    split; [cbn; rewrite Hp, Hf; reflexivity|]. split; [exact Htotal|].
    split; [cbn; rewrite Hp, Htotal, Hf; reflexivity|].
    split; [unfold stored_batch; rewrite Hsame2; cbn; apply lookup_insert_eq|].
    split; [apply batch_update_shows|].
    intros k Hk. cbv zeta.
    destruct (process_each_returns env job_ids create_tileset tileset_names
                visualization_type (Some batch_id) (firstn k todo) 0 fresh w0)
      as (rk & wk & Hfirst & _).
    { rewrite length_firstn. lia. }
    assert (Hbetween : between_files env k todo job_ids create_tileset tileset_names
                         visualization_type batch_id w = wk).
    { unfold between_files, world_after. fold fresh w0. rewrite Hfirst. reflexivity. }
    pose proof (stored_between_files env todo job_ids create_tileset tileset_names
                  visualization_type batch_id w k) as Hstored_k.
    rewrite Hbetween in Hstored_k.
    destruct (status_request_nothing batch_id (length todo) wk Hstored_k)
      as (seen & Hrequest & Hread & Hnothing).
    assert (Hothers : process_each env (0 + length (firstn k todo)) (skipn k todo) job_ids
                        create_tileset tileset_names visualization_type (Some batch_id)
                        rk wk = (Returns r, w1)).
    { pose proof (process_each_app env job_ids create_tileset tileset_names
                    visualization_type (Some batch_id) (firstn k todo) (skipn k todo) 0
                    fresh w0) as Happ.
      rewrite firstn_skipn, Hloop in Happ. rewrite (run_bind _ _ _ _ _ Hfirst) in Happ.
      symmetry. exact Happ. }
    cbn [Nat.add] in Hothers.
    destruct (record_uploads_returns (files result) 0 todo job_ids
                (UPLOAD_DIR (settings env)) batch_id
                (set_app (set_batch_jobs (insert batch_id (batch_update seen result)))
                   (with_batches (<[batch_id := seen]> (batch_jobs (app wk))) w1)))
      as (w3 & Hrecord3 & Hsame3); [lia | lia |].
    exists seen. rewrite Hbetween, Hread. split; [reflexivity|]. split; [exact Hnothing|].
    assert (Hwatched :
              upload_netcdf_batch_watched env k todo job_ids create_tileset tileset_names
                visualization_type batch_id w = (Returns (Ok seen, result), w3)).
    { unfold upload_netcdf_batch_watched.
      unfold bind at 1. unfold modify at 1. fold w0 fresh.
      rewrite (run_bind _ _ _ _ _ Hfirst).
      rewrite (run_bind _ _ _ _ _ Hrequest).
      unfold bind at 1.
      rewrite (process_each_blind env job_ids create_tileset tileset_names
                 visualization_type (Some batch_id)), Hothers.
      cbn [fst snd]. fold result.
      unfold bind at 1. unfold gets at 1.
      replace (batch_jobs (app (with_batches (<[batch_id := seen]> (batch_jobs (app wk))) w1))
                 !! batch_id) with (Some seen)
        by (cbn; symmetry; apply lookup_insert_eq).
      unfold bind at 1. unfold modify at 1.
      rewrite (run_bind _ _ _ _ _ Hrecord3). reflexivity. }
    rewrite Hwatched. cbn [fst snd].
    split; [reflexivity|].
    split; [unfold stored_batch; rewrite Hsame3; cbn; apply lookup_insert_eq|].
    apply batch_update_shows.
Qed.

Lemma C8_batch_record_updated_once_witness :
  stored_batch
    (between_files sample_env 1 two_files two_jobs true None "vector" "b1" empty_world)
    "b1"
  = Some (new_batch "b1" 2) /\
  exists seen result,
    fst (Batch.get_batch_status "b1"
           (app (between_files sample_env 1 two_files two_jobs true None "vector" "b1"
                   empty_world))) = Ok seen /\
    b_files seen = [] /\
    b_fields seen !! "status" = Some (VStr "failed") /\
    outcome
      (upload_netcdf_batch_watched sample_env 1 two_files two_jobs true None "vector" "b1")
      empty_world = Returns (Ok seen, result) /\
    status result = "completed" /\
    length (files result) = 2.
Proof.
  destruct (C8_batch_record_updated_once sample_env two_files two_jobs true None "vector"
              "b1" empty_world) as [Hbetween (result & Hrun & _ & _ & _ & Hstatus & _ & _ & Hwatched)];
    [cbn; lia|].
  split.
  - destruct (Hbetween 1) as (results & _ & _ & Hstored); [cbn; lia|]. exact Hstored.
  - destruct (Hwatched 1) as (seen & Hread & Hnothing & Hout & _); [cbn; lia|].
    destruct Hnothing as (Hfiles & _ & _ & _ & _ & _ & _ & Hfailed).
    assert (Hlength :
              match outcome
                      (upload_netcdf_batch sample_env two_files two_jobs true None "vector"
                         "b1") empty_world with
              | Returns r => (length (files r) =? 2)%nat
              | Raises _ => false
              end = true) by (vm_compute; reflexivity).
    rewrite Hrun in Hlength. apply Nat.eqb_eq in Hlength.
    exists seen, result. split; [exact Hread|]. split; [exact Hfiles|].
    split; [exact Hfailed|]. split; [exact Hout|].
    split; [rewrite Hstatus, Hlength; reflexivity | exact Hlength].
Defined.

End IngestFacts.
(** ** The publishing orchestrator *)

Module OrchestratorFacts.
Import PyStr Orchestrator EffectFacts.

(** *** What the body keeps *)

Lemma keeps_refl job_id w : keeps job_id w w.
Proof. repeat split; auto. intros batch_id b Hb. exists b. auto. Qed.

Lemma keeps_trans job_id w1 w2 w3 :
  keeps job_id w1 w2 -> keeps job_id w2 w3 -> keeps job_id w1 w3.
Proof.
  intros (Hv & Hu & Hb) (Hv' & Hu' & Hb'). repeat split; auto.
  intros batch_id b H. destruct (Hb _ _ H) as (b2 & H2 & E2).
  destruct (Hb' _ _ H2) as (b3 & H3 & E3). exists b3. split; [exact H3 | congruence].
Qed.

#[local] Instance keeps_preorder job_id : PreOrder (keeps job_id).
Proof. split; [intros w; apply keeps_refl | intros w1 w2 w3; apply keeps_trans]. Qed.

Lemma is_Some_alter {A} (f : A -> A) (m : gmap string A) i j :
  is_Some (m !! j) -> is_Some (alter f i m !! j).
Proof.
  intros [x Hx]. destruct (decide (i = j)) as [->|Hne].
  - rewrite lookup_alter_eq, Hx. eexists. reflexivity.
  - rewrite lookup_alter_ne by exact Hne. rewrite Hx. eexists. reflexivity.
Qed.

Lemma keeps_viz_alter job_id f j w :
  keeps job_id w (set_app (set_active_visualizations (alter f j)) w).
Proof.
  repeat split; cbn; auto using is_Some_alter. intros batch_id b Hb. exists b. auto.
Qed.

Lemma keeps_uploaded_alter job_id f j w :
  keeps job_id w (set_app (set_uploaded_files (alter f j)) w).
Proof.
  repeat split; cbn; auto using is_Some_alter. intros batch_id b Hb. exists b. auto.
Qed.

Lemma keeps_remote_calls job_id f w : keeps job_id w (set_remote_calls f w).
Proof. repeat split; cbn; auto. intros batch_id b Hb. exists b. auto. Qed.

Lemma keeps_recipes job_id f w : keeps job_id w (set_recipes f w).
Proof. repeat split; cbn; auto. intros batch_id b Hb. exists b. auto. Qed.

(** An update that leaves the job id of an entry alone leaves the job ids
    of the list alone. *)
Lemma map_update_first {A B} (g : A -> B) p f (l : list A) :
  (forall x, g (f x) = g x) -> map g (update_first p f l) = map g l.
Proof.
  intros Hf. induction l as [|x l IH]; [reflexivity|]. cbn [update_first].
  destruct (p x); cbn [map]; [rewrite Hf | rewrite IH]; reflexivity.
Qed.

Lemma keeps_batch_entry job_id batch_id j f w :
  (forall file_info, dict_get (f file_info) "job_id" = dict_get file_info "job_id") ->
  keeps job_id w (set_batch_entry batch_id j f w).
Proof.
  intros Hf. unfold set_batch_entry. destruct (truthy_opt batch_id); [|apply keeps_refl].
  repeat split; cbn; auto. intros bid b Hb.
  destruct (decide (default "" batch_id = bid)) as [->|Hne].
  - rewrite lookup_alter_eq, Hb. eexists. split; [reflexivity|].
    unfold job_ids_of. cbn [b_files]. apply map_update_first. exact Hf.
  - rewrite lookup_alter_ne by exact Hne. exists b. auto.
Qed.

Lemma job_id_after_insert k v (file_info : gmap string val) :
  k <> "job_id" -> dict_get (<[k := v]> file_info) "job_id" = dict_get file_info "job_id".
Proof. intros Hk. unfold dict_get. rewrite lookup_insert_ne by exact Hk. reflexivity. Qed.

Lemma keeps_record_failed job_id j batch_id error w :
  keeps job_id w (record_failed j batch_id error w).
Proof.
  unfold record_failed, set_viz, set_uploaded.
  repeat (eapply keeps_trans; [|first [apply keeps_batch_entry | apply keeps_viz_alter
                                       | apply keeps_uploaded_alter]]).
  - apply keeps_refl.
  - intros file_info. rewrite !job_id_after_insert by discriminate. reflexivity.
Qed.

Lemma keeps_refuse job_id j reason w : keeps job_id w (refuse j reason w).
Proof.
  unfold refuse, set_viz, set_uploaded.
  repeat (eapply keeps_trans; [|first [apply keeps_viz_alter | apply keeps_uploaded_alter]]).
  apply keeps_refl.
Qed.

(** *** Computations that keep the records *)

Ltac keep_step :=
  lazymatch goal with
  | |- keeps _ _ (record_failed _ _ _ _) => apply keeps_record_failed
  | |- keeps _ _ (refuse _ _ _) => apply keeps_refuse
  | |- keeps _ _ (set_remote_calls _ _) => apply keeps_remote_calls
  | |- keeps _ _ (set_recipes _ _) => apply keeps_recipes
  | |- keeps _ _ (set_batch_entry _ _ _ _) =>
      apply keeps_batch_entry; intros ?; rewrite ?job_id_after_insert by discriminate;
      reflexivity
  | |- keeps _ ?w (set_app (set_active_visualizations (alter _ _)) ?w) =>
      apply keeps_viz_alter
  | |- keeps _ ?w (set_app (set_uploaded_files (alter _ _)) ?w) =>
      apply keeps_uploaded_alter
  | |- keeps _ _ (set_app (set_active_visualizations (alter _ _)) _) =>
      eapply keeps_trans; [|apply keeps_viz_alter]
  | _ => respect_step
  end.

Lemma preserves_save_recipe_info job_id c tileset_id result viz_info :
  preserves job_id (save_recipe_info c tileset_id result viz_info).
Proof. unfold preserves, save_recipe_info. repeat keep_step. Qed.

Lemma preserves_record_uploaded job_id j result :
  preserves job_id (record_uploaded j result).
Proof. unfold preserves, record_uploaded, set_uploaded. repeat keep_step. Qed.

Ltac keep_record :=
  lazymatch goal with
  | |- respects _ (save_recipe_info _ _ _ _) => apply preserves_save_recipe_info
  | |- respects _ (record_uploaded _ _) => apply preserves_record_uploaded
  | _ => keep_step
  end.

Lemma preserves_raster_stage job_id s c file_path j tileset_id batch_id requested_format :
  preserves job_id (raster_stage s c file_path j tileset_id batch_id requested_format).
Proof.
  unfold preserves, raster_stage, update_viz, set_viz. repeat keep_record.
Qed.

Lemma preserves_vector_stage job_id c file_path j tileset_id batch_id requested_format
    actual_format :
  preserves job_id
    (vector_stage c file_path j tileset_id batch_id requested_format actual_format).
Proof.
  unfold preserves, vector_stage, update_viz, set_viz. repeat keep_record.
Qed.

Ltac keep_stage :=
  lazymatch goal with
  | |- respects _ (raster_stage _ _ _ _ _ _ _) => apply preserves_raster_stage
  | |- respects _ (vector_stage _ _ _ _ _ _ _) => apply preserves_vector_stage
  | _ => keep_step
  end.

Lemma preserves_create_tileset_try job_id s c file_path j tileset_id visualization_type
    batch_id :
  preserves job_id (create_tileset_try s c file_path j tileset_id visualization_type batch_id).
Proof.
  unfold preserves, create_tileset_try. repeat keep_stage.
Qed.


(** *** The records after a failure *)

Lemma viz_after_record_failed j batch_id error w :
  active_visualizations (app (record_failed j batch_id error w)) =
  alter (insert "error" error) j
    (alter (insert "status" (VStr "failed")) j (active_visualizations (app w))).
Proof. unfold record_failed, set_batch_entry. destruct (truthy_opt batch_id); reflexivity. Qed.

Lemma uploaded_after_record_failed j batch_id error w :
  uploaded_files (app (record_failed j batch_id error w)) =
  alter (insert "error" error) j
    (alter (insert "processing_status" (VStr "failed")) j (uploaded_files (app w))).
Proof. unfold record_failed, set_batch_entry. destruct (truthy_opt batch_id); reflexivity. Qed.

Lemma calls_after_record_failed j batch_id error w :
  remote_calls (record_failed j batch_id error w) = remote_calls w.
Proof. unfold record_failed, set_batch_entry. destruct (truthy_opt batch_id); reflexivity. Qed.

Lemma viz_field_record_failed j batch_id error w :
  is_Some (active_visualizations (app w) !! j) ->
  viz_field (record_failed j batch_id error w) j "status" = Some (VStr "failed") /\
  viz_field (record_failed j batch_id error w) j "error" = Some error.
Proof.
  intros [viz Hviz]. unfold viz_field.
  rewrite viz_after_record_failed, !lookup_alter_eq, Hviz. cbn.
  rewrite lookup_insert_ne by discriminate. rewrite !lookup_insert_eq. split; reflexivity.
Qed.

Lemma uploaded_field_record_failed j batch_id error w :
  is_Some (uploaded_files (app w) !! j) ->
  uploaded_field (record_failed j batch_id error w) j "processing_status"
    = Some (VStr "failed") /\
  uploaded_field (record_failed j batch_id error w) j "error" = Some error.
Proof.
  intros [up Hup]. unfold uploaded_field.
  rewrite uploaded_after_record_failed, !lookup_alter_eq, Hup. cbn.
  rewrite lookup_insert_ne by discriminate. rewrite !lookup_insert_eq. split; reflexivity.
Qed.

(** *** The entry of a job in a batch *)

Lemma first_index_job_ids j (l l' : list (gmap string val)) :
  map (fun file_info => dict_get file_info "job_id") l'
    = map (fun file_info => dict_get file_info "job_id") l ->
  first_index (is_job j) l' = first_index (is_job j) l.
Proof.
  revert l. induction l' as [|x l' IH]; intros [|y l]; cbn [map]; try discriminate;
    [reflexivity|].
  intros [= Hx Hl]. cbn [first_index]. unfold is_job at 1 3. rewrite Hx.
  destruct (py_eq _ _); [reflexivity|]. rewrite (IH _ Hl). reflexivity.
Qed.

Lemma update_first_at {A} p f (l : list A) i :
  first_index p l = Some i -> update_first p f l !! i = f <$> l !! i.
Proof.
  revert i. induction l as [|x l IH]; intros i; cbn [first_index update_first];
    [discriminate|].
  destruct (p x); [intros [= <-]; reflexivity|].
  destruct (first_index p l) as [k|]; [|discriminate].
  intros [= <-]. apply IH. reflexivity.
Qed.

Lemma first_index_update_first {A} p f (l : list A) :
  (forall x, p (f x) = p x) -> first_index p (update_first p f l) = first_index p l.
Proof.
  intros Hf. induction l as [|x l IH]; [reflexivity|]. cbn [first_index update_first].
  destruct (p x) eqn:Hx; cbn [first_index]; [rewrite Hf, Hx | rewrite Hx, IH]; reflexivity.
Qed.

Lemma first_index_lookup {A} p (l : list A) i :
  first_index p l = Some i -> is_Some (l !! i).
Proof.
  revert i. induction l as [|x l IH]; intros i; cbn [first_index]; [discriminate|].
  destruct (p x); [intros [= <-]; eexists; reflexivity|].
  destruct (first_index p l) as [k|]; [|discriminate].
  intros [= <-]. apply IH. reflexivity.
Qed.

Lemma batch_entry_record_failed bid j error w b :
  bid <> "" ->
  batch_jobs (app w) !! bid = Some b ->
  is_Some (first_index (is_job j) (b_files b)) ->
  batch_entry_field (record_failed j (Some bid) error w) bid j "status"
    = Some (VStr "failed") /\
  batch_entry_field (record_failed j (Some bid) error w) bid j "error" = Some error.
Proof.
  intros Hbid Hb [i Hi]. unfold batch_entry_field, record_failed, set_batch_entry, truthy_opt.
  apply String.eqb_neq in Hbid. rewrite Hbid. cbn.
  rewrite lookup_alter_eq, Hb. cbn.
  rewrite first_index_update_first, Hi; cbn.
  - rewrite (update_first_at _ _ _ _ Hi).
    destruct (first_index_lookup _ _ _ Hi) as [e He]. rewrite He. cbn.
    rewrite lookup_insert_ne by discriminate. rewrite !lookup_insert_eq. split; reflexivity.
  - intros x. unfold is_job. rewrite !job_id_after_insert by discriminate. reflexivity.
Qed.

(** C3. The orchestrator never raises; and when its body raises, the
    handler of the top level leaves each of the records that exist for the
    job (the Visualization Record, the Uploaded File Record, the entry of
    the job in its batch) failed, with the message of the exception. *)
Theorem C3_faults_end_failed s c file_path job_id tileset_id visualization_type batch_id :
  let body :=
    create_tileset_try s c file_path job_id tileset_id visualization_type batch_id in
  let run :=
    create_mapbox_tileset_background s c file_path job_id tileset_id visualization_type
      batch_id in
  (forall w, outcome run w = Returns tt) /\
  (forall w e, outcome body w = Raises e ->
     (is_Some (active_visualizations (app w) !! job_id) ->
        viz_field (world_after run w) job_id "status" = Some (VStr "failed") /\
        viz_field (world_after run w) job_id "error" = Some (VStr e)) /\
     (is_Some (uploaded_files (app w) !! job_id) ->
        uploaded_field (world_after run w) job_id "processing_status"
          = Some (VStr "failed") /\
        uploaded_field (world_after run w) job_id "error" = Some (VStr e)) /\
     (forall bid b,
        batch_id = Some bid -> bid <> "" ->
        batch_jobs (app w) !! bid = Some b ->
        is_Some (first_index (is_job job_id) (b_files b)) ->
        batch_entry_field (world_after run w) bid job_id "status" = Some (VStr "failed") /\
        batch_entry_field (world_after run w) bid job_id "error" = Some (VStr e))).
Proof.
  intros body run. split.
  - intros w. unfold outcome, run, create_mapbox_tileset_background, try_except.
    fold body. destruct (body w) as [[[]|msg] w1]; reflexivity.
  - intros w e He.
    pose proof (preserves_create_tileset_try job_id s c file_path job_id tileset_id
                  visualization_type batch_id w) as (Hviz & Hup & Hbatch).
    fold body in Hviz, Hup, Hbatch.
    unfold outcome in He. unfold world_after in *.
    unfold run, create_mapbox_tileset_background, try_except. fold body.
    destruct (body w) as [[[]|msg] w1]; cbn [fst snd] in *; [discriminate|].
    injection He as ->. unfold on_exception, modify. cbn [snd].
    split; [|split].
    + intros H. apply viz_field_record_failed, Hviz, H.
    + intros H. apply uploaded_field_record_failed, Hup, H.
    + intros bid b -> Hbid Hb Hentry.
      destruct (Hbatch _ _ Hb) as (b1 & Hb1 & Hids).
      apply (batch_entry_record_failed bid job_id (VStr e) w1 b1 Hbid Hb1).
      rewrite (first_index_job_ids job_id (b_files b) (b_files b1) Hids). exact Hentry.
Qed.


Lemma C3_faults_end_failed_witness :
  viz_field
    (world_after
       (create_mapbox_tileset_background the_settings raising_remote path job tileset
          "raster-array" (Some "b1")) raster_job) job "status"
  = Some (VStr "failed") /\
  uploaded_field
    (world_after
       (create_mapbox_tileset_background the_settings raising_remote path job tileset
          "raster-array" (Some "b1")) raster_job) job "error"
  = Some (VStr "Connection reset by peer") /\
  batch_entry_field
    (world_after
       (create_mapbox_tileset_background the_settings raising_remote path job tileset
          "raster-array" (Some "b1")) raster_job) "b1" job "status"
  = Some (VStr "failed").
Proof.
  destruct (C3_faults_end_failed the_settings raising_remote path job tileset
              "raster-array" (Some "b1")) as [_ Hfault].
  destruct (Hfault raster_job "Connection reset by peer") as (Hviz & Hup & Hbatch);
    [vm_compute; reflexivity|].
  destruct Hviz as [Hstatus _]; [by_decide|].
  destruct Hup as [_ Herror]; [by_decide|].
  destruct (Hbatch "b1"
              (mkBatch (<["status" := VStr "processing"]> ∅)
                 [<["job_id" := VStr job]> (<["status" := VStr "processing"]> ∅)] []))
    as [Hentry _];
    [reflexivity | discriminate | by_decide | by_decide |].
  exact (conj Hstatus (conj Herror Hentry)).
Defined.

(** *** Steps that leave the Visualization Records and the calls alone *)

Lemma save_recipe_info_runs c tileset_id result viz_info mapbox_tileset w :
  result !! "tileset_id" = Some mapbox_tileset ->
  exists w', save_recipe_info c tileset_id result viz_info w = (Returns tt, w') /\
             app w' = app w /\ remote_calls w' = remote_calls w.
Proof.
  intros Ht. unfold save_recipe_info, bind. rewrite (run_item _ _ _ _ Ht).
  destruct (recipe_write_fails c _); eexists; repeat split.
Qed.

Lemma record_uploaded_runs j result mapbox_tileset w :
  result !! "tileset_id" = Some mapbox_tileset ->
  exists w', record_uploaded j result w = (Returns tt, w') /\
             active_visualizations (app w') = active_visualizations (app w) /\
             batch_jobs (app w') = batch_jobs (app w) /\
             remote_calls w' = remote_calls w.
Proof.
  intros Ht. unfold record_uploaded, bind, gets, modify.
  destruct (has_uploaded j w); [rewrite (run_item _ _ _ _ Ht)|];
    eexists; repeat split.
Qed.

Lemma viz_after_set_batch_entry batch_id j f w :
  active_visualizations (app (set_batch_entry batch_id j f w))
    = active_visualizations (app w) /\
  remote_calls (set_batch_entry batch_id j f w) = remote_calls w.
Proof. unfold set_batch_entry. destruct (truthy_opt batch_id); split; reflexivity. Qed.

Lemma record_uploaded_calls j result w :
  remote_calls (world_after (record_uploaded j result) w) = remote_calls w.
Proof.
  unfold world_after, record_uploaded, bind, gets, modify, item, ret, raise.
  destruct (has_uploaded j w); [|reflexivity].
  destruct (result !! "tileset_id"); reflexivity.
Qed.

(** Whatever the remote service answers, the vector path makes one call
    and no other. *)
Lemma vector_stage_calls c file_path j tileset_id batch_id requested_format w :
  remote_calls
    (world_after
       (vector_stage c file_path j tileset_id batch_id requested_format (VStr "vector")) w)
  = (remote_calls w ++ [VectorCall file_path tileset_id])%list.
Proof.
  unfold world_after, vector_stage.
  change (py_eq (VStr "vector") (VStr "raster-array")) with false.
  cbv beta iota delta [bind modify lift gets ret raise item negb].
  destruct (process_netcdf_to_tileset c file_path tileset_id) as [result|msg];
    [|reflexivity].
  destruct (result !! "success") as [success|]; [|reflexivity].
  destruct (truthy success); [|apply calls_after_record_failed].
  destruct (has_viz j _).
  - destruct (result !! "tileset_id") as [mapbox_tileset|] eqn:Ht; [|reflexivity].
    destruct (py_eq requested_format (VStr "raster-array")); cbv beta iota;
      match goal with
      | |- context [save_recipe_info c tileset_id result ?vi ?w] =>
          destruct (save_recipe_info_runs c tileset_id result vi mapbox_tileset w Ht)
            as (w2 & -> & _ & Hcalls)
      end;
      destruct (record_uploaded_runs j result mapbox_tileset w2 Ht)
        as (w3 & -> & _ & _ & Hcalls3);
      cbn [snd]; rewrite (proj2 (viz_after_set_batch_entry _ _ _ _)), Hcalls3, Hcalls;
      reflexivity.
  - match goal with
    | |- context [record_uploaded j result ?w] =>
        pose proof (record_uploaded_calls j result w) as Hcalls;
        unfold world_after in Hcalls;
        destruct (record_uploaded j result w) as [[[]|msg] w3]
    end; cbn [snd] in *;
      rewrite ?(proj2 (viz_after_set_batch_entry _ _ _ _)); exact Hcalls.
Qed.

(** *** A raster attempt that fails *)

Section RasterFails.
Variables (s : Settings) (c : Publisher).
Variables (file_path job_id tileset_id visualization_type : string).
Variable batch_id : option string.
Variables (w : World) (viz result : gmap string val) (success : val).

Hypothesis token : truthy (VStr (MAPBOX_TOKEN s)) = true.
Hypothesis on_disk : file_path ∈ disk w.
Hypothesis registered : active_visualizations (app w) !! job_id = Some viz.
Hypothesis requested : viz !! "requested_format" = Some (VStr "raster-array").
Hypothesis client : client_init c = Returns tt.
Hypothesis raster : create_raster_tileset c file_path tileset_id = Returns result.
Hypothesis answered : result !! "success" = Some success.
Hypothesis failed : truthy success = false.

Let called : World :=
  set_remote_calls (fun l => (l ++ [RasterCall file_path tileset_id])%list) w.

Let fallen_back : World :=
  set_viz job_id "use_client_animation" (VBool true)
    (set_viz job_id "warning"
       (dict_get_or result "error" (VStr "Falling back to vector format")) called).

Lemma raster_stage_falls_back :
  tier_limited result = true ->
  raster_stage s c file_path job_id tileset_id batch_id (VStr "raster-array") w
  = (Returns (Continue (VStr "vector")), fallen_back).
Proof.
  intros Htier. unfold raster_stage. rewrite token.
  change (py_eq (VStr "raster-array") (VStr "raster-array")) with true.
  cbv beta iota delta [bind modify lift gets ret item andb]. rewrite raster.
  cbv beta iota. rewrite answered. cbv beta iota. rewrite failed, Htier. reflexivity.
Qed.

Lemma raster_stage_fails :
  tier_limited result = false ->
  raster_stage s c file_path job_id tileset_id batch_id (VStr "raster-array") w
  = (Returns Return, record_failed job_id batch_id (dict_get result "error") called).
Proof.
  intros Htier. unfold raster_stage. rewrite token.
  change (py_eq (VStr "raster-array") (VStr "raster-array")) with true.
  cbv beta iota delta [bind modify lift gets ret item andb]. rewrite raster.
  cbv beta iota. rewrite answered. cbv beta iota. rewrite failed, Htier. reflexivity.
Qed.

(** The body up to the end of the raster attempt. *)
Lemma body_after_raster :
  create_tileset_try s c file_path job_id tileset_id visualization_type batch_id w =
  match raster_stage s c file_path job_id tileset_id batch_id (VStr "raster-array") w with
  | (Returns Return, w') => (Returns tt, w')
  | (Returns (Continue actual_format), w') =>
      vector_stage c file_path job_id tileset_id batch_id (VStr "raster-array")
        actual_format w'
  | (Raises msg, w') => (Raises msg, w')
  end.
Proof.
  unfold create_tileset_try. rewrite token. cbn [negb].
  unfold bind at 1. unfold gets at 1.
  rewrite (bool_decide_eq_true_2 _ on_disk). cbn [negb].
  unfold bind at 1. unfold gets at 1. rewrite registered.
  unfold dict_get_or. rewrite requested. cbn [default].
  unfold bind at 1. unfold lift at 1. rewrite client.
  unfold bind at 1.
  destruct (raster_stage _ _ _ _ _ _ _ w) as [[[|actual_format]|msg] w']; reflexivity.
Qed.

(** The vector attempt that follows, when the remote service publishes the
    tileset. *)
Lemma vector_stage_publishes w0 v0 vresult vsuccess mapbox_tileset :
  active_visualizations (app w0) !! job_id = Some v0 ->
  process_netcdf_to_tileset c file_path tileset_id = Returns vresult ->
  vresult !! "success" = Some vsuccess -> truthy vsuccess = true ->
  vresult !! "tileset_id" = Some mapbox_tileset ->
  exists w1 v1,
    vector_stage c file_path job_id tileset_id batch_id (VStr "raster-array")
      (VStr "vector") w0 = (Returns tt, w1) /\
    remote_calls w1 = (remote_calls w0 ++ [VectorCall file_path tileset_id])%list /\
    active_visualizations (app w1) !! job_id = Some v1 /\
    v1 !! "status" = Some (VStr "completed") /\
    v1 !! "actual_format" = Some (VStr "vector") /\
    v1 !! "format" = Some (VStr "vector") /\
    v1 !! "mapbox_tileset" = Some mapbox_tileset /\
    v1 !! "warning"
      = Some (VStr "Created vector format (raster-array requires Pro account)") /\
    v1 !! "format_fallback" = Some (VBool true) /\
    v1 !! "use_client_animation" = Some (VBool true).
Proof.
  intros Hv0 Hvector Hsuccess Htruthy Htileset.
  unfold vector_stage.
  change (py_eq (VStr "vector") (VStr "raster-array")) with false.
  change (py_eq (VStr "raster-array") (VStr "raster-array")) with true.
  cbv beta iota delta [bind modify lift gets ret item negb]. rewrite Hvector.
  cbv beta iota. rewrite Hsuccess. cbv beta iota. rewrite Htruthy.
  unfold has_viz. cbn [app set_remote_calls].
  rewrite (bool_decide_eq_true_2 _ (mk_is_Some _ _ Hv0)).
  rewrite Htileset. cbv beta iota.
  match goal with
  | |- context [save_recipe_info c tileset_id vresult ?vi ?w] =>
      destruct (save_recipe_info_runs c tileset_id vresult vi mapbox_tileset w Htileset)
        as (w2 & -> & Happ & Hcalls)
  end.
  destruct (record_uploaded_runs job_id vresult mapbox_tileset w2 Htileset)
    as (w3 & -> & Hviz3 & _ & Hcalls3).
  eexists _, _. split; [reflexivity|].
  destruct (viz_after_set_batch_entry batch_id job_id (insert "status" (VStr "completed")) w3)
    as [-> ->].
  rewrite Hcalls3, Hcalls, Hviz3, Happ. split; [reflexivity|].
  split.
  { unfold set_viz, update_viz. cbn. rewrite !lookup_alter_eq, Hv0. reflexivity. }
  unfold dict_update.
  repeat split;
    repeat first [rewrite lookup_insert_eq | rewrite lookup_insert_ne by discriminate];
    try reflexivity;
    apply lookup_union_Some_l;
    repeat first [rewrite lookup_insert_eq | rewrite lookup_insert_ne by discriminate];
    reflexivity.
Qed.

End RasterFails.

(** C2. A job that asked for raster-array, whose raster attempt comes back
    failed.  When the failure carries the fallback flag or the error code
    422, the raster stage leaves the status of the record as it was, the
    vector call is made, and if it publishes the tileset the record ends
    completed, in format vector, with a warning, format_fallback and
    use_client_animation.  Any other failure ends the record failed with
    the error of the remote service as it came, and no vector call is
    made. *)
Theorem C2_raster_failure_paths s c file_path job_id tileset_id visualization_type
    batch_id w viz result success :
  truthy (VStr (MAPBOX_TOKEN s)) = true ->
  file_path ∈ disk w ->
  active_visualizations (app w) !! job_id = Some viz ->
  viz !! "requested_format" = Some (VStr "raster-array") ->
  client_init c = Returns tt ->
  create_raster_tileset c file_path tileset_id = Returns result ->
  result !! "success" = Some success ->
  truthy success = false ->
  let run :=
    create_mapbox_tileset_background s c file_path job_id tileset_id visualization_type
      batch_id in
  let raster :=
    raster_stage s c file_path job_id tileset_id batch_id (VStr "raster-array") in
  (tier_limited result = true ->
     outcome raster w = Returns (Continue (VStr "vector")) /\
     viz_field (world_after raster w) job_id "status" = viz !! "status" /\
     remote_calls (world_after run w)
       = (remote_calls w ++ [RasterCall file_path tileset_id;
                             VectorCall file_path tileset_id])%list /\
     (forall vresult vsuccess mapbox_tileset,
        process_netcdf_to_tileset c file_path tileset_id = Returns vresult ->
        vresult !! "success" = Some vsuccess -> truthy vsuccess = true ->
        vresult !! "tileset_id" = Some mapbox_tileset ->
        outcome run w = Returns tt /\
        viz_field (world_after run w) job_id "status" = Some (VStr "completed") /\
        viz_field (world_after run w) job_id "actual_format" = Some (VStr "vector") /\
        viz_field (world_after run w) job_id "warning"
          = Some (VStr "Created vector format (raster-array requires Pro account)") /\
        viz_field (world_after run w) job_id "format_fallback" = Some (VBool true) /\
        viz_field (world_after run w) job_id "use_client_animation" = Some (VBool true))) /\
  (tier_limited result = false ->
     outcome raster w = Returns Return /\
     outcome run w = Returns tt /\
     remote_calls (world_after run w)
       = (remote_calls w ++ [RasterCall file_path tileset_id])%list /\
     viz_field (world_after run w) job_id "status" = Some (VStr "failed") /\
     viz_field (world_after run w) job_id "error" = Some (dict_get result "error")).
Proof.
  intros Htoken Hdisk Hviz Hreq Hclient Hraster Hanswer Hfailed run raster. subst run raster.
  pose proof (body_after_raster s c file_path job_id tileset_id visualization_type
                batch_id w viz Htoken Hdisk Hviz Hreq Hclient) as Hbody.
  split; intros Htier.
  - pose proof (raster_stage_falls_back s c file_path job_id tileset_id batch_id w result
                  success Htoken Hraster Hanswer Hfailed Htier) as Hstage.
    rewrite Hstage in Hbody.
    unfold outcome, world_after. rewrite Hstage. cbn [fst snd].
    split; [reflexivity|]. split.
    { unfold viz_field, set_viz. cbn. rewrite !lookup_alter_eq, Hviz. cbn.
      rewrite !lookup_insert_ne by discriminate. reflexivity. }
    split.
    { unfold create_mapbox_tileset_background, try_except. rewrite Hbody.
      match goal with
      | |- context [vector_stage c file_path job_id tileset_id batch_id ?rf _ ?w0] =>
          pose proof (vector_stage_calls c file_path job_id tileset_id batch_id rf w0)
            as Hcalls;
          unfold world_after in Hcalls;
          destruct (vector_stage c file_path job_id tileset_id batch_id rf _ w0)
            as [[[]|msg] w1]
      end; cbn [snd] in *.
      - rewrite Hcalls. cbn. rewrite <- app_assoc. reflexivity.
      - unfold on_exception, modify. cbn [snd].
        rewrite calls_after_record_failed, Hcalls. cbn. rewrite <- app_assoc. reflexivity. }
    intros vresult vsuccess mapbox_tileset Hvector Hvs Hvt Htileset.
    match type of Hbody with
    | _ = vector_stage _ _ _ _ _ _ _ ?w0 =>
        destruct (vector_stage_publishes c file_path job_id tileset_id batch_id w0
                    (<["use_client_animation" := VBool true]>
                       (<["warning" := dict_get_or result "error"
                                         (VStr "Falling back to vector format")]> viz))
                    vresult vsuccess mapbox_tileset)
          as (w1 & v1 & Hrun & _ & Hv1 & Hstatus & Hactual & _ & _ & Hwarn & Hfb & Huca);
          auto
    end.
    { unfold set_viz. cbn. rewrite !lookup_alter_eq, Hviz. reflexivity. }
    unfold create_mapbox_tileset_background, try_except.
    rewrite Hbody, Hrun. cbn [fst snd]. unfold viz_field. rewrite Hv1. cbn.
    repeat split; assumption.
  - pose proof (raster_stage_fails s c file_path job_id tileset_id batch_id w result
                  success Htoken Hraster Hanswer Hfailed Htier) as Hstage.
    rewrite Hstage in Hbody.
    unfold outcome, world_after, create_mapbox_tileset_background, try_except.
    rewrite Hstage, Hbody. cbn [fst snd].
    split; [reflexivity|]. split; [reflexivity|].
    split; [rewrite calls_after_record_failed; reflexivity|].
    apply viz_field_record_failed. cbn. rewrite Hviz. eexists. reflexivity.
Qed.


Lemma C2_raster_failure_paths_witness :
  viz_field
    (world_after
       (create_mapbox_tileset_background the_settings tier_limited_remote path job tileset
          "raster-array" (Some "b1")) raster_job) job "status"
  = Some (VStr "completed") /\
  viz_field
    (world_after
       (create_mapbox_tileset_background the_settings broken_remote path job tileset
          "raster-array" (Some "b1")) raster_job) job "error"
  = Some (VStr "Upload to staging failed").
Proof.
  split.
  - destruct (C2_raster_failure_paths the_settings tier_limited_remote path job tileset
                "raster-array" (Some "b1") raster_job
                (<["requested_format" := VStr "raster-array"]>
                   (<["status" := VStr "processing"]> ∅))
                (<["success" := VBool false]>
                   (<["error_code" := VInt 422]>
                      (<["error" := VStr "Raster MTS requires a Pro account"]> ∅)))
                (VBool false)) as [Hfall _];
      [reflexivity | by_decide | by_decide | by_decide | reflexivity | reflexivity
      | by_decide | reflexivity |].
    destruct Hfall as (_ & _ & _ & Hpublished); [vm_compute; reflexivity|].
    destruct (Hpublished
                (<["success" := VBool true]>
                   (<["tileset_id" := VStr ("weather." ++ tileset)]> ∅))
                (VBool true) (VStr ("weather." ++ tileset)))
      as (_ & Hstatus & _);
      [reflexivity | by_decide | reflexivity | by_decide |].
    exact Hstatus.
  - destruct (C2_raster_failure_paths the_settings broken_remote path job tileset
                "raster-array" (Some "b1") raster_job
                (<["requested_format" := VStr "raster-array"]>
                   (<["status" := VStr "processing"]> ∅))
                (<["success" := VBool false]>
                   (<["error_code" := VInt 500]>
                      (<["error" := VStr "Upload to staging failed"]> ∅)))
                (VBool false)) as [_ Hfail];
      [reflexivity | by_decide | by_decide | by_decide | reflexivity | reflexivity
      | by_decide | reflexivity |].
    destruct Hfail as (_ & _ & _ & _ & Herror); [vm_compute; reflexivity|].
    exact Herror.
Defined.

(** The whole path on a file with the variables u, v and temp and both
    axes: the upload leaves the record processing with raster-array
    requested, and the run of the scheduled task ends it completed in
    vector format, with the warning and the client animation; the
    Uploaded File Record and the entry of the batch follow. *)
Example upload_then_fallback :
  viz_field uploaded job "status" = Some (VStr "processing") /\
  viz_field uploaded job "requested_format" = Some (VStr "raster-array") /\
  viz_field published job "status" = Some (VStr "completed") /\
  viz_field published job "actual_format" = Some (VStr "vector") /\
  viz_field published job "warning"
    = Some (VStr "Created vector format (raster-array requires Pro account)") /\
  viz_field published job "use_client_animation" = Some (VBool true) /\
  uploaded_field published job "processing_status" = Some (VStr "completed") /\
  batch_entry_field published "b1" job "status" = Some (VStr "completed").
Proof. repeat split; by_decide. Qed.

End OrchestratorFacts.
(** ** Batch status, read again *)

Module BatchReadFacts.
Import Batch BatchFacts BatchRead.

Lemma py_eq_str s x : py_eq s (VStr x) = true <-> s = VStr x.
Proof.
  destruct s as [|b|z|y]; cbn; try (split; [discriminate | discriminate]).
  rewrite String.eqb_eq. split; [intros ->; reflexivity | intros [= ->]; reflexivity].
Qed.

Lemma py_eq_str_false s x : py_eq s (VStr x) = false <-> s <> VStr x.
Proof.
  rewrite <- py_eq_str. destruct (py_eq s (VStr x)); split; congruence.
Qed.

(** The counters count the entries, each under one heading at most. *)
Lemma tally_counts vis files :
  tally vis files =
  (countb (counts_completed vis) files, countb (counts_failed vis) files,
   countb (counts_processing vis) files).
Proof.
  induction files as [|e files IH]; [reflexivity|].
  rewrite tally_cons, IH. cbn [countb].
  unfold counts_completed, counts_failed, counts_processing.
  destruct (file_status vis e) as [s|]; [|reflexivity].
  destruct (py_eq s (VStr "completed")); [reflexivity|].
  destruct (py_eq s (VStr "failed")); reflexivity.
Qed.

Lemma counts_completed_spec vis e : counts_completed vis e = true <-> has_status vis "completed" e.
Proof.
  unfold counts_completed, has_status. destruct (file_status vis e) as [s|].
  - rewrite py_eq_str. split; [intros ->; reflexivity | intros [= ->]; reflexivity].
  - split; discriminate.
Qed.

Lemma counts_failed_spec vis e : counts_failed vis e = true <-> has_status vis "failed" e.
Proof.
  unfold counts_failed, has_status. destruct (file_status vis e) as [s|].
  - rewrite andb_true_iff, negb_true_iff, py_eq_str, py_eq_str_false.
    split; [intros [_ ->]; reflexivity | intros [= ->]; split; [discriminate | reflexivity]].
  - split; discriminate.
Qed.

Lemma counts_processing_spec vis e :
  counts_processing vis e = true <-> still_running vis e.
Proof.
  unfold counts_processing, still_running. destruct (file_status vis e) as [s|].
  - rewrite andb_true_iff, !negb_true_iff, !py_eq_str_false.
    split; [intros [Hc Hf]; exists s; auto | intros (s' & [= <-] & Hc & Hf); auto].
  - split; [discriminate | intros (s & Hs & _); discriminate].
Qed.

(** An entry counts under one heading at most. *)
Lemma counts_exclusive vis files :
  countb (counts_completed vis) files + countb (counts_failed vis) files
    + countb (counts_processing vis) files <= length files.
Proof.
  induction files as [|e files IH]; cbn [countb length]; [lia|].
  unfold counts_completed, counts_failed, counts_processing in *.
  destruct (file_status vis e) as [s|]; [|lia].
  destruct (py_eq s (VStr "completed")); destruct (py_eq s (VStr "failed")); cbn; lia.
Qed.

Lemma forallb_Forall_iff {A} (p : A -> bool) (P : A -> Prop) l :
  (forall x, p x = true <-> P x) -> forallb p l = true <-> Forall P l.
Proof.
  intros Hp. induction l as [|x l IH]; cbn [forallb].
  - split; [constructor | reflexivity].
  - rewrite andb_true_iff, Hp, IH. split; [intros []; constructor; assumption|].
    intros H. inversion H; subst. split; assumption.
Qed.

Lemma existsb_Exists_iff {A} (p : A -> bool) (P : A -> Prop) l :
  (forall x, p x = true <-> P x) -> existsb p l = true <-> Exists P l.
Proof.
  intros Hp. induction l as [|x l IH]; cbn [existsb].
  - split; [discriminate | intros H; inversion H].
  - rewrite orb_true_iff, Hp, IH. split.
    + intros [H|H]; [left | right]; assumption.
    + intros H. inversion H; subst; [left | right]; assumption.
Qed.

(** What the derived status says of the entries. *)
Lemma derive_status_reading vis files :
  let status :=
    derive_status (countb (counts_completed vis) files) (countb (counts_failed vis) files)
      (countb (counts_processing vis) files) (length files) in
  (status = "processing" <-> Exists (still_running vis) files) /\
  (status = "failed" <-> Forall (has_status vis "failed") files) /\
  (status = "completed" <->
     files <> [] /\ Forall (has_status vis "completed") files) /\
  (status = "partial" <->
     ~ Exists (still_running vis) files
     /\ ~ Forall (has_status vis "failed") files
     /\ ~ Forall (has_status vis "completed") files).
Proof.
  cbv zeta. unfold derive_status.
  pose proof (counts_exclusive vis files) as Hsum.
  pose proof (existsb_Exists_iff _ _ files (counts_processing_spec vis)) as Hp.
  pose proof (forallb_Forall_iff _ _ files (counts_failed_spec vis)) as Hf.
  pose proof (forallb_Forall_iff _ _ files (counts_completed_spec vis)) as Hc.
  rewrite <- countb_pos in Hp. rewrite <- countb_all in Hf, Hc.
  destruct (0 <? countb (counts_processing vis) files)%nat eqn:Ep.
  { apply Nat.ltb_lt in Ep.
    assert (HP : Exists (still_running vis) files) by (apply Hp; reflexivity).
    assert (Hnf : ~ Forall (has_status vis "failed") files).
    { intros HF. apply Hf, Nat.eqb_eq in HF. lia. }
    assert (Hnc : ~ Forall (has_status vis "completed") files).
    { intros HC. apply Hc, Nat.eqb_eq in HC. lia. }
    repeat split; try discriminate; try tauto. }
  assert (Hnp : ~ Exists (still_running vis) files).
  { intros HP. apply Hp in HP. discriminate. }
  destruct (countb (counts_failed vis) files =? length files)%nat eqn:Ef.
  { assert (HF : Forall (has_status vis "failed") files) by (apply Hf; reflexivity).
    apply Nat.eqb_eq in Ef.
    repeat split; try discriminate; try tauto.
    intros [Hne Hall]. apply Hc, Nat.eqb_eq in Hall.
    destruct files; [contradiction | cbn [length] in *; lia]. }
  assert (Hnf : ~ Forall (has_status vis "failed") files).
  { intros HF. apply Hf in HF. discriminate. }
  destruct (countb (counts_completed vis) files =? length files)%nat eqn:Ec.
  { assert (HC : Forall (has_status vis "completed") files) by (apply Hc; reflexivity).
    assert (Hne : files <> []).
    { intros ->. cbn in Ef. discriminate. }
    repeat split; try discriminate; try tauto. }
  assert (Hnc : ~ Forall (has_status vis "completed") files).
  { intros HC. apply Hc in HC. discriminate. }
  repeat split; try discriminate; try tauto.
Qed.

(** Reading the status of a batch: what the answer is made of. *)
Lemma get_batch_status_found batch_id st batch_info :
  batch_jobs st !! batch_id = Some batch_info ->
  let files := b_files batch_info in
  let vis := active_visualizations st in
  let status :=
    derive_status (countb (counts_completed vis) files) (countb (counts_failed vis) files)
      (countb (counts_processing vis) files) (length files) in
  let fields :=
    <["processing_files" := VInt (Z.of_nat (countb (counts_processing vis) files))]>
      (<["failed_files" := VInt (Z.of_nat (countb (counts_failed vis) files))]>
         (<["completed_files" := VInt (Z.of_nat (countb (counts_completed vis) files))]>
            (<["status" := VStr status]> (b_fields batch_info)))) in
  get_batch_status batch_id st =
  (Ok (mkBatch fields files (b_errors batch_info)),
   set_batch_jobs (insert batch_id (mkBatch fields files (b_errors batch_info))) st).
Proof.
  intros Hb. cbv zeta. unfold get_batch_status. rewrite Hb, tally_counts. reflexivity.
Qed.

(** X1. Reading the status of a batch a second time gives the same answer
    and leaves the state as the first reading left it; a reading changes
    nothing but the record of the batch it reads, and nothing at all when
    there is no such batch. *)
Theorem X1_batch_status_read_again batch_id st :
  get_batch_status batch_id (snd (get_batch_status batch_id st))
    = get_batch_status batch_id st /\
  active_visualizations (snd (get_batch_status batch_id st)) = active_visualizations st /\
  active_sessions (snd (get_batch_status batch_id st)) = active_sessions st /\
  active_datasets (snd (get_batch_status batch_id st)) = active_datasets st /\
  uploaded_files (snd (get_batch_status batch_id st)) = uploaded_files st /\
  (forall other, other <> batch_id ->
     batch_jobs (snd (get_batch_status batch_id st)) !! other = batch_jobs st !! other) /\
  (batch_jobs st !! batch_id = None ->
     get_batch_status batch_id st = (HTTPException 404 "Batch job not found", st)).
Proof.
  destruct (batch_jobs st !! batch_id) as [batch_info|] eqn:Hb.
  - pose proof (get_batch_status_found batch_id st batch_info Hb) as Hfirst.
    cbv zeta in Hfirst. rewrite Hfirst. cbn [snd].
    split; [|repeat split; try discriminate; intros other Hne; cbn;
             apply lookup_insert_ne; congruence].
    match goal with
    | |- get_batch_status _ (set_batch_jobs (insert _ ?b) _) = _ =>
        pose proof (get_batch_status_found batch_id
                      (set_batch_jobs (insert batch_id b) st) b) as Hsecond
    end.
    cbv zeta in Hsecond. rewrite Hsecond by (cbn; apply lookup_insert_eq).
    cbn [b_files b_fields b_errors active_visualizations set_batch_jobs batch_jobs].
    match goal with
    | |- (Ok (mkBatch ?again _ _), _) = (Ok (mkBatch ?once _ _), _) =>
        assert (Hsame : again = once)
    end.
    { rewrite (insert_id _ "status") by
        (rewrite !lookup_insert_ne by discriminate; apply lookup_insert_eq).
      rewrite (insert_id _ "completed_files") by
        (rewrite !lookup_insert_ne by discriminate; apply lookup_insert_eq).
      rewrite (insert_id _ "failed_files") by
        (rewrite !lookup_insert_ne by discriminate; apply lookup_insert_eq).
      rewrite (insert_id _ "processing_files") by apply lookup_insert_eq.
      reflexivity. }
    rewrite Hsame. unfold set_batch_jobs. cbn. rewrite insert_insert_eq. reflexivity.
  - unfold get_batch_status. rewrite Hb. cbn [snd]. rewrite Hb. repeat split; reflexivity.
Qed.

Lemma X1_batch_status_read_again_witness :
  batch_jobs (snd (get_batch_status "b" orphan_batch)) !! "c" = None /\
  get_batch_status "c" orphan_batch = (HTTPException 404 "Batch job not found", orphan_batch).
Proof.
  destruct (X1_batch_status_read_again "b" orphan_batch) as (_ & _ & _ & _ & _ & Hother & _).
  destruct (X1_batch_status_read_again "c" orphan_batch) as (_ & _ & _ & _ & _ & _ & Hnone).
  split.
  - rewrite (Hother "c") by discriminate. reflexivity.
  - apply Hnone. reflexivity.
Defined.

(** X2. What the status answered for a batch says of its entries:
    processing, that some entry has a Visualization Record that is
    neither completed nor failed; failed, that every entry has a record
    that failed (so also when there is no entry); completed, that there
    is an entry and every entry has a completed record; partial
    otherwise.  An entry without a record counts nowhere. *)
Theorem X2_batch_status_reading batch_id st b :
  fst (get_batch_status batch_id st) = Ok b ->
  let vis := active_visualizations st in
  let answered status := b_fields b !! "status" = Some (VStr status) in
  (answered "processing" <-> Exists (still_running vis) (b_files b)) /\
  (answered "failed" <-> Forall (has_status vis "failed") (b_files b)) /\
  (answered "completed" <->
     b_files b <> [] /\ Forall (has_status vis "completed") (b_files b)) /\
  (answered "partial" <->
     ~ Exists (still_running vis) (b_files b)
     /\ ~ Forall (has_status vis "failed") (b_files b)
     /\ ~ Forall (has_status vis "completed") (b_files b)).
Proof.
  intros Hok vis answered.
  destruct (batch_jobs st !! batch_id) as [batch_info|] eqn:Hb;
    [|unfold get_batch_status in Hok; rewrite Hb in Hok; discriminate].
  pose proof (get_batch_status_found batch_id st batch_info Hb) as Hfound.
  cbv zeta in Hfound. rewrite Hfound in Hok. injection Hok as <-.
  cbn [b_files]. fold vis.
  destruct (derive_status_reading vis (b_files batch_info)) as (Hp & Hf & Hc & Hpa).
  assert (Hstatus : forall status,
             answered status <->
             derive_status (countb (counts_completed vis) (b_files batch_info))
               (countb (counts_failed vis) (b_files batch_info))
               (countb (counts_processing vis) (b_files batch_info))
               (length (b_files batch_info)) = status).
  { intros status. unfold answered. cbn [b_fields].
    rewrite !lookup_insert_ne by discriminate. rewrite lookup_insert_eq.
    split; [intros [= Heq]; exact Heq | intros Heq; do 2 f_equal; exact Heq]. }
  pose proof (Hstatus "processing"). pose proof (Hstatus "failed").
  pose proof (Hstatus "completed"). pose proof (Hstatus "partial").
  cbv zeta in Hp, Hf, Hc, Hpa. tauto.
Qed.

Lemma X2_batch_status_reading_witness :
  Exists (still_running (active_visualizations (three_files "completed" "uploading" "failed")))
    [entry "j0"; entry "j1"; entry "j2"].
Proof.
  pose proof (get_batch_status_found "b" (three_files "completed" "uploading" "failed")
                (mkBatch (<["status" := VStr "processing"]> ∅)
                   [entry "j0"; entry "j1"; entry "j2"] [])) as Hfound.
  cbv zeta in Hfound.
  match type of Hfound with
  | _ -> _ = (Ok ?b, _) =>
      destruct (X2_batch_status_reading "b" (three_files "completed" "uploading" "failed") b)
        as (Hp & _)
  end.
  { rewrite Hfound; [reflexivity | by_decide]. }
  apply Hp. cbn [b_fields]. rewrite !lookup_insert_ne by discriminate.
  rewrite lookup_insert_eq. vm_compute. reflexivity.
Defined.

End BatchReadFacts.
(** ** Wind components: the patterns that decide *)

Module WindPatternFacts.
Import PyStr Wind.

Lemma is_prefix_chars p s c : is_prefix p s = true -> In c p -> In c s.
Proof.
  revert s. induction p as [|a p IH]; intros [|b s]; cbn [is_prefix]; try discriminate;
    [intros _ [] | intros _ []|].
  rewrite andb_true_iff. intros [Hab Hp] [<- | Hc].
  - apply Ascii.eqb_eq in Hab. left. symmetry. exact Hab.
  - right. apply IH; assumption.
Qed.

(** Every character of a substring occurs in the string. *)
Lemma is_sub_chars p s c : is_sub p s = true -> In c p -> In c s.
Proof.
  induction s as [|b s IH]; cbn [is_sub]; rewrite orb_true_iff.
  - intros [Hp | Hf]; [apply is_prefix_chars; exact Hp | discriminate].
  - intros [Hp | Hs] Hc; [apply (is_prefix_chars p); assumption|].
    right. apply IH; assumption.
Qed.

Lemma is_sub_char c s : is_sub [c] s = true <-> In c s.
Proof.
  split; [intros H; apply (is_sub_chars [c]); [exact H | left; reflexivity]|].
  induction s as [|b s IH]; [intros []|]. cbn [is_sub is_prefix].
  intros [-> | Hc].
  - rewrite Ascii.eqb_refl. destruct s; reflexivity.
  - rewrite (IH Hc). apply orb_true_r.
Qed.

(** A pattern that holds a character is not found where the character is
    not. *)
Lemma contains_needs c p s :
  In c (chars p) -> contains (String c EmptyString) s = false -> contains p s = false.
Proof.
  unfold contains. cbn [chars list_ascii_of_string]. intros Hc Hs.
  destruct (is_sub (chars p) (chars s)) eqn:Hp; [|reflexivity].
  rewrite <- Hs. symmetry. apply is_sub_char. apply (is_sub_chars (chars p)); assumption.
Qed.

(** X3. Of the eight patterns of an axis two decide: a variable is a
    candidate for u exactly when its lowercased name contains the letter u
    or the word eastward, and for v exactly when it contains the letter v
    or the word northward; the other patterns all hold that letter. *)
Theorem X3_wind_patterns_that_decide var :
  let var_lower := str (lower (chars var)) in
  matches u_patterns var = contains "u" var_lower || contains "eastward" var_lower /\
  matches v_patterns var = contains "v" var_lower || contains "northward" var_lower.
Proof.
  cbv zeta. unfold matches, u_patterns, v_patterns. cbn [existsb].
  set (s := str (lower (chars var))). split.
  - destruct (contains "u" s) eqn:Hu; [reflexivity|].
    rewrite (contains_needs "u" "u10" s), (contains_needs "u" "u_wind" s),
      (contains_needs "u" "u_component" s), (contains_needs "u" "ugrd" s),
      (contains_needs "u" "u-component" s), (contains_needs "u" "uas" s)
      by (try exact Hu; cbn; tauto).
    cbn. rewrite orb_false_r. reflexivity.
  - destruct (contains "v" s) eqn:Hv; [reflexivity|].
    rewrite (contains_needs "v" "v10" s), (contains_needs "v" "v_wind" s),
      (contains_needs "v" "v_component" s), (contains_needs "v" "vgrd" s),
      (contains_needs "v" "v-component" s), (contains_needs "v" "vas" s)
      by (try exact Hv; cbn; tauto).
    cbn. rewrite orb_false_r. reflexivity.
Qed.

End WindPatternFacts.
(** ** Names of uploaded files *)

Module FileNameFacts.
Import PyStr Ingest Validators.

Lemma is_prefix_app p s : is_prefix p s = true <-> exists rest, s = (p ++ rest)%list.
Proof.
  revert s. induction p as [|a p IH]; intros s; cbn [is_prefix].
  - split; [intros _; exists s; reflexivity | reflexivity].
  - destruct s as [|b s]; [split; [discriminate | intros [rest [=]]]|].
    rewrite andb_true_iff, Ascii.eqb_eq, IH. split.
    + intros [-> [rest ->]]. exists rest. reflexivity.
    + intros [rest [= -> ->]]. split; [reflexivity | exists rest; reflexivity].
Qed.

Lemma ends_with_app p s : ends_with p s = true <-> exists front, s = (front ++ p)%list.
Proof.
  unfold ends_with. rewrite is_prefix_app. split.
  - intros [rest H]. exists (rev rest).
    rewrite <- (rev_involutive s), H, rev_app_distr, rev_involutive. reflexivity.
  - intros [front ->]. exists (rev front). apply rev_app_distr.
Qed.

Lemma sanitize_safe c : safe_char (sanitize c) = true.
Proof. unfold sanitize. destruct (safe_char c) eqn:H; [exact H | reflexivity]. Qed.

Lemma sanitize_fixed l : Forall (fun c => safe_char c = true) l -> map sanitize l = l.
Proof.
  induction 1 as [|c l Hc _ IH]; [reflexivity|].
  cbn [map]. unfold sanitize at 1. rewrite Hc, IH. reflexivity.
Qed.

(** A name without a slash is one component. *)
Lemma split_on_absent sep s : ~ In sep s -> split_on sep s = [s].
Proof.
  induction s as [|c s IH]; [reflexivity|]. cbn [split_on In]. intros Hnot.
  destruct (Ascii.eqb_spec c sep) as [->|Hne]; [tauto|].
  rewrite IH by tauto. reflexivity.
Qed.

Lemma is_dot_long p : 2 <= length p -> is_dot p = false.
Proof.
  destruct p as [|a [|b p]]; cbn [length]; try lia. intros _.
  destruct a as [[] [] [] [] [] [] [] []]; reflexivity.
Qed.

Lemma path_name_plain s :
  ~ In "/"%char s -> 3 <= length s -> path_name s = s.
Proof.
  intros Hslash Hlen. unfold path_name. rewrite split_on_absent by exact Hslash.
  destruct s as [|a [|b [|c s]]]; cbn [length] in Hlen; try lia.
  cbn [List.filter nonempty andb]. rewrite is_dot_long by (cbn [length]; lia).
  reflexivity.
Qed.

Lemma safe_no_slash l : Forall (fun c => safe_char c = true) l -> ~ In "/"%char l.
Proof.
  induction 1 as [|c l Hc _ IH]; [intros []|]. intros [Heq | H]; [subst c; discriminate | tauto].
Qed.

Lemma Forall_rev_iff {A} (P : A -> Prop) l : Forall P (rev l) <-> Forall P l.
Proof.
  rewrite !List.Forall_forall.
  split; intros H x Hx; apply H; [apply in_rev in Hx | apply in_rev]; exact Hx.
Qed.

Lemma before_last_Forall (P : ascii -> Prop) sep s : Forall P s -> Forall P (before_last sep s).
Proof.
  intros Hs. unfold before_last.
  destruct (after_first sep (rev s)) as [r|] eqn:Hr; [|exact Hs].
  apply Forall_rev_iff. apply (NamingFacts.Forall_after_first P sep (rev s) r); [|exact Hr].
  apply Forall_rev_iff. exact Hs.
Qed.

(** The sanitised name of any upload. *)
Lemma safe_filename_shape name :
  Forall (fun c => safe_char c = true) (safe_filename name) /\
  ends_with (chars ".nc") (safe_filename name) = true.
Proof.
  unfold safe_filename.
  assert (Hsafe : Forall (fun c => safe_char c = true)
                    (map (fun c => if safe_char c then c else "_"%char)
                       (path_name (chars name)))).
  { apply Forall_map, Forall_forall. intros c _. apply sanitize_safe. }
  destruct (ends_with (chars ".nc") _) eqn:Hend; cbn [negb].
  - split; [exact Hsafe | exact Hend].
  - split.
    + apply Forall_app. split; [apply before_last_Forall; exact Hsafe|].
      repeat constructor.
    + apply ends_with_app. eexists. reflexivity.
Qed.

Lemma length_chars s : length (chars s) = String.length s.
Proof. induction s as [|c s IH]; [reflexivity|]. cbn. f_equal. exact IH. Qed.

Lemma ends_with_length p s : ends_with p s = true -> length p <= length s.
Proof. intros H. apply ends_with_app in H as [front ->]. rewrite length_app. lia. Qed.

(** A name that is sanitised already, ends in .nc and has no slash goes
    through unchanged. *)
Lemma safe_filename_fixed l :
  Forall (fun c => safe_char c = true) l ->
  ends_with (chars ".nc") l = true ->
  safe_filename (str l) = l.
Proof.
  intros Hsafe Hend. unfold safe_filename. rewrite NamingFacts.chars_str.
  rewrite path_name_plain.
  - change (fun c => if safe_char c then c else "_"%char) with sanitize.
    rewrite sanitize_fixed by exact Hsafe. rewrite Hend. reflexivity.
  - apply safe_no_slash. exact Hsafe.
  - apply ends_with_length in Hend. exact Hend.
Qed.

(** X4. Whatever the name of the upload, the name the pipeline saves it
    under holds only letters, digits, dots, hyphens and underscores (so no
    slash: the file stays in the upload directory), ends in .nc, and is a
    fixed point of the sanitising: sanitising it again changes nothing. *)
Theorem X4_safe_filename_shape name :
  let saved := safe_filename name in
  Forall (fun c => safe_char c = true) saved /\
  ~ In "/"%char saved /\
  ends_with (chars ".nc") saved = true /\
  safe_filename (str saved) = saved.
Proof.
  cbv zeta. destruct (safe_filename_shape name) as [Hsafe Hend].
  split; [exact Hsafe|]. split; [apply safe_no_slash; exact Hsafe|].
  split; [exact Hend|]. apply safe_filename_fixed; assumption.
Qed.

(** What [validate_netcdf_file] accepts. *)
Lemma validate_netcdf_file_valid filename :
  validate_netcdf_file filename = Valid <->
  ends_with (chars ".nc") (chars filename) = true /\
  existsb (fun char => contains char filename) invalid_chars = false /\
  String.length filename <= 255.
Proof.
  unfold validate_netcdf_file.
  destruct (ends_with _ _); cbn [negb]; [|split; [discriminate | intros [[=] _]]].
  destruct (existsb _ _); [split; [discriminate | intros (_ & [=] & _)]|].
  destruct (Nat.ltb_spec 255 (String.length filename)).
  - split; [discriminate | intros (_ & _ & Hle); lia].
  - split; [intros _; repeat split; lia | reflexivity].
Qed.

(** The saved name of a validated name. *)
Lemma safe_filename_of_valid filename :
  validate_netcdf_file filename = Valid ->
  safe_filename filename = map sanitize (chars filename).
Proof.
  intros Hvalid. apply validate_netcdf_file_valid in Hvalid as (Hend & Hchars & Hlen).
  assert (Hslash : ~ In "/"%char (chars filename)).
  { intros Hin. apply WindPatternFacts.is_sub_char in Hin.
    cbn [invalid_chars existsb] in Hchars. apply orb_false_iff in Hchars as [Hc _].
    unfold contains in Hc. cbn [chars list_ascii_of_string] in Hc. congruence. }
  unfold safe_filename.
  rewrite path_name_plain by (try exact Hslash; apply (ends_with_length _ _ Hend)).
  change (fun c => if safe_char c then c else "_"%char) with sanitize.
  apply ends_with_app in Hend as [front Hfront]. rewrite Hfront, map_app.
  replace (ends_with (chars ".nc") (map sanitize front ++ map sanitize (chars ".nc")))
    with true; [reflexivity|].
  symmetry. apply ends_with_app. exists (map sanitize front). reflexivity.
Qed.

Lemma sanitize_fixed_iff l :
  map sanitize l = l <-> Forall (fun c => safe_char c = true) l.
Proof.
  split; [|apply sanitize_fixed].
  induction l as [|c l IH]; [constructor|]. cbn [map]. intros [= Hc Hl].
  constructor; [|apply IH; exact Hl]. rewrite <- Hc. apply sanitize_safe.
Qed.

(** X5. A name that [validate_netcdf_file] accepts is saved character by
    character: it is at most 255 characters long, no directory part is cut
    off and no suffix is added, each character that is not a letter, a
    digit, a dot, a hyphen or an underscore becomes an underscore, and a
    name made of such characters only is saved under itself. *)
Theorem X5_validated_name_saved filename :
  validate_netcdf_file filename = Valid ->
  String.length filename <= 255 /\
  safe_filename filename = map sanitize (chars filename) /\
  length (safe_filename filename) = String.length filename /\
  (Forall (fun c => safe_char c = true) (chars filename) ->
   safe_filename filename = chars filename).
Proof.
  intros Hvalid. pose proof (safe_filename_of_valid filename Hvalid) as Hsaved.
  apply validate_netcdf_file_valid in Hvalid as (_ & _ & Hlen).
  split; [exact Hlen|]. split; [exact Hsaved|]. split.
  - rewrite Hsaved, length_map. apply length_chars.
  - intros Hsafe. rewrite Hsaved. apply sanitize_fixed. exact Hsafe.
Qed.

Lemma X5_validated_name_saved_witness :
  validate_netcdf_file "wind 2024.nc" = Valid /\
  safe_filename "wind 2024.nc" = chars "wind_2024.nc".
Proof.
  split; [reflexivity|].
  destruct (X5_validated_name_saved "wind 2024.nc") as (_ & Hsaved & _); [reflexivity|].
  rewrite Hsaved. reflexivity.
Defined.

End FileNameFacts.
(** ** Running a computation step by step *)

Module RunFacts.

(** *** Computations that return *)

Lemma ensures_bind {A B} (m : M A) (k : A -> M B) w Q :
  ensures m w (fun a w' => ensures (k a) w' Q) -> ensures (bind m k) w Q.
Proof. unfold ensures, bind. destruct (m w) as [[a|msg] w']; auto. Qed.

Lemma ensures_mono {A} (m : M A) w (Q Q' : A -> World -> Prop) :
  ensures m w Q -> (forall a w', Q a w' -> Q' a w') -> ensures m w Q'.
Proof. unfold ensures. destruct (m w) as [[a|msg] w']; auto. Qed.

Lemma ensures_ret {A} (a : A) w (Q : A -> World -> Prop) : Q a w -> ensures (ret a) w Q.
Proof. auto. Qed.

Lemma ensures_raise {A} msg w (Q : A -> World -> Prop) : ensures (raise msg) w Q.
Proof. exact I. Qed.

Lemma ensures_modify f w (Q : unit -> World -> Prop) : Q tt (f w) -> ensures (modify f) w Q.
Proof. auto. Qed.

Lemma ensures_bind_modify {B} f (k : unit -> M B) w Q :
  ensures (k tt) (f w) Q -> ensures (bind (modify f) k) w Q.
Proof. auto. Qed.

Lemma ensures_bind_gets {A B} (f : World -> A) (k : A -> M B) w Q :
  ensures (k (f w)) w Q -> ensures (bind (gets f) k) w Q.
Proof. auto. Qed.

Lemma ensures_bind_lift {A B} (e : Exc A) (k : A -> M B) w Q :
  (forall a, e = Returns a -> ensures (k a) w Q) -> ensures (bind (lift e) k) w Q.
Proof. unfold ensures, bind, lift. destruct e as [a|msg]; [intros H; apply (H a eq_refl) | auto]. Qed.

Lemma ensures_bind_item {B} d key (k : val -> M B) w Q :
  (forall v, d !! key = Some v -> ensures (k v) w Q) -> ensures (bind (item d key) k) w Q.
Proof.
  unfold ensures, bind, item. destruct (d !! key) as [v|]; [intros H; apply (H v eq_refl)|].
  intros _. exact I.
Qed.

(** One step of the run of a computation towards what it ensures. *)
Ltac run_step :=
  lazymatch goal with
  | |- ensures (bind (modify _) _) _ _ => apply ensures_bind_modify
  | |- ensures (bind (gets _) _) _ _ => apply ensures_bind_gets
  | |- ensures (bind (lift _) _) _ _ => apply ensures_bind_lift; intros ? ?
  | |- ensures (bind (item _ _) _) _ _ => apply ensures_bind_item; intros ? ?
  | |- ensures (bind _ _) _ _ => apply ensures_bind
  | |- ensures (modify _) _ _ => apply ensures_modify
  | |- ensures (ret _) _ _ => apply ensures_ret
  | |- ensures (raise _) _ _ => apply ensures_raise
  | |- ensures (if ?b then _ else _) _ _ =>
      let H := fresh "Hif" in destruct b eqn:H
  | |- ensures (match ?x with _ => _ end) _ _ =>
      let H := fresh "Hcase" in destruct x eqn:H
  end; cbv beta.

(** *** Computations that return or raise *)

Lemma leaves_bind {A B} (m : M A) (k : A -> M B) w Q :
  leaves m w (fun r w' =>
    match r with
    | Returns a => leaves (k a) w' Q
    | Raises msg => Q (Raises msg) w'
    end) ->
  leaves (bind m k) w Q.
Proof. unfold leaves, bind. destruct (m w) as [[a|msg] w']; auto. Qed.

Lemma leaves_mono {A} (m : M A) w (Q Q' : Exc A -> World -> Prop) :
  leaves m w Q -> (forall r w', Q r w' -> Q' r w') -> leaves m w Q'.
Proof. unfold leaves. auto. Qed.

Lemma leaves_bind_modify {B} f (k : unit -> M B) w Q :
  leaves (k tt) (f w) Q -> leaves (bind (modify f) k) w Q.
Proof. auto. Qed.

Lemma leaves_bind_gets {A B} (f : World -> A) (k : A -> M B) w Q :
  leaves (k (f w)) w Q -> leaves (bind (gets f) k) w Q.
Proof. auto. Qed.

Lemma leaves_bind_lift {A B} (e : Exc A) (k : A -> M B) w (Q : Exc B -> World -> Prop) :
  (forall a, e = Returns a -> leaves (k a) w Q) ->
  (forall msg, e = Raises msg -> Q (Raises msg) w) ->
  leaves (bind (lift e) k) w Q.
Proof.
  unfold leaves, bind, lift. destruct e as [a|msg]; intros Hr Hx;
    [apply (Hr a eq_refl) | apply (Hx msg eq_refl)].
Qed.

Lemma leaves_bind_item {B} d key (k : val -> M B) w (Q : Exc B -> World -> Prop) :
  (forall v, d !! key = Some v -> leaves (k v) w Q) ->
  (d !! key = None -> Q (Raises (key_error key)) w) ->
  leaves (bind (item d key) k) w Q.
Proof.
  unfold leaves, bind, item. destruct (d !! key) as [v|]; intros Hr Hx;
    [apply (Hr v eq_refl) | apply (Hx eq_refl)].
Qed.

Lemma leaves_try_except {A} (m : M A) h w (Q : Exc A -> World -> Prop) :
  leaves m w (fun r w' =>
    match r with
    | Returns a => Q (Returns a) w'
    | Raises msg => leaves (h msg) w' Q
    end) ->
  leaves (try_except m h) w Q.
Proof. unfold leaves, try_except. destruct (m w) as [[a|msg] w']; auto. Qed.

Lemma leaves_ret {A} (a : A) w (Q : Exc A -> World -> Prop) :
  Q (Returns a) w -> leaves (ret a) w Q.
Proof. auto. Qed.

Lemma leaves_raise {A} msg w (Q : Exc A -> World -> Prop) :
  Q (Raises msg) w -> leaves (raise msg) w Q.
Proof. auto. Qed.

Lemma leaves_modify f w (Q : Exc unit -> World -> Prop) :
  Q (Returns tt) (f w) -> leaves (modify f) w Q.
Proof. auto. Qed.

Ltac leave_step :=
  lazymatch goal with
  | |- leaves (bind (modify _) _) _ _ => apply leaves_bind_modify
  | |- leaves (bind (gets _) _) _ _ => apply leaves_bind_gets
  | |- leaves (bind (lift _) _) _ _ => apply leaves_bind_lift; intros ? ?
  | |- leaves (bind (item _ _) _) _ _ => apply leaves_bind_item; [intros ? ? | intros ?]
  | |- leaves (bind _ _) _ _ => apply leaves_bind
  | |- leaves (try_except _ _) _ _ => apply leaves_try_except
  | |- leaves (modify _) _ _ => apply leaves_modify
  | |- leaves (ret _) _ _ => apply leaves_ret
  | |- leaves (raise _) _ _ => apply leaves_raise
  | |- leaves (if ?b then _ else _) _ _ =>
      let H := fresh "Hif" in destruct b eqn:H
  | |- leaves (match ?x with _ => _ end) _ _ =>
      let H := fresh "Hcase" in destruct x eqn:H
  end; cbv beta iota.

End RunFacts.
(** ** What a run of the orchestrator may touch *)

Module IsolationFacts.
Import PyStr Orchestrator EffectFacts Isolation.

Lemma entry_only_refl job_id b : entry_only job_id b b.
Proof. repeat split. Qed.

Lemma entry_only_trans job_id b1 b2 b3 :
  entry_only job_id b1 b2 -> entry_only job_id b2 b3 -> entry_only job_id b1 b3.
Proof.
  intros (Hf & He & Hl & Hi & Hrest) (Hf' & He' & Hl' & Hi' & Hrest').
  repeat split; try congruence.
  intros i Hne. rewrite Hrest' by congruence. apply Hrest. exact Hne.
Qed.

Lemma only_job_refl job_id tileset_id batch_id w : only_job job_id tileset_id batch_id w w.
Proof.
  split; auto.
  - exists []. rewrite app_nil_r. reflexivity.
  - intros bid. destruct (batch_jobs (app w) !! bid); constructor. apply entry_only_refl.
Qed.

Lemma only_job_trans job_id tileset_id batch_id w1 w2 w3 :
  only_job job_id tileset_id batch_id w1 w2 -> only_job job_id tileset_id batch_id w2 w3 ->
  only_job job_id tileset_id batch_id w1 w3.
Proof.
  intros [] []. split; try congruence.
  - intros j Hj. rewrite other_viz1, other_viz0 by exact Hj. reflexivity.
  - intros j Hj. rewrite other_uploaded1, other_uploaded0 by exact Hj. reflexivity.
  - intros p Hp. rewrite other_recipes1, other_recipes0 by exact Hp. reflexivity.
  - destruct calls_added0 as [m1 H1], calls_added1 as [m2 H2]. exists (m1 ++ m2)%list.
    rewrite H2, H1, app_assoc. reflexivity.
  - intros bid Hb. rewrite other_batches1, other_batches0 by exact Hb. reflexivity.
  - intros bid. specialize (batch_entries0 bid). specialize (batch_entries1 bid).
    destruct batch_entries0 as [b1 b2 H12|]; inversion batch_entries1; subst; constructor.
    eapply entry_only_trans; eassumption.
Qed.

#[local] Instance only_job_preorder job_id tileset_id batch_id :
  PreOrder (only_job job_id tileset_id batch_id).
Proof.
  split; [intros w; apply only_job_refl | intros w1 w2 w3; apply only_job_trans].
Qed.

(** *** The steps of the orchestrator *)

Section Steps.
Variables (job_id tileset_id : string) (batch_id : option string).

Let R := only_job job_id tileset_id batch_id.

Lemma same_batch_entries (t : gmap string BatchRecord) bid :
  option_Forall2 (entry_only job_id) (t !! bid) (t !! bid).
Proof. destruct (t !! bid); constructor. apply entry_only_refl. Qed.

Lemma only_job_viz f w : R w (set_app (set_active_visualizations (alter f job_id)) w).
Proof.
  split; cbn; auto using same_batch_entries.
  - apply dom_alter_L.
  - intros j Hj. apply lookup_alter_ne. congruence.
  - exists []. rewrite app_nil_r. reflexivity.
Qed.

Lemma only_job_uploaded f w : R w (set_app (set_uploaded_files (alter f job_id)) w).
Proof.
  split; cbn; auto using same_batch_entries.
  - apply dom_alter_L.
  - intros j Hj. apply lookup_alter_ne. congruence.
  - exists []. rewrite app_nil_r. reflexivity.
Qed.

Lemma only_job_call call w : R w (set_remote_calls (fun l => (l ++ [call])%list) w).
Proof. split; cbn; auto using same_batch_entries. exists [call]. reflexivity. Qed.

Lemma only_job_recipe data w :
  R w (set_recipes (insert ("recipe_" ++ tileset_id ++ ".json") data) w).
Proof.
  split; cbn; auto using same_batch_entries.
  - intros p Hp. apply lookup_insert_ne. congruence.
  - exists []. rewrite app_nil_r. reflexivity.
Qed.

Lemma update_first_length {A} p f (l : list A) : length (update_first p f l) = length l.
Proof.
  induction l as [|x l IH]; [reflexivity|]. cbn [update_first].
  destruct (p x); cbn [length]; [|rewrite IH]; reflexivity.
Qed.

Lemma update_first_elsewhere {A} p f (l : list A) i :
  first_index p l <> Some i -> update_first p f l !! i = l !! i.
Proof.
  revert i. induction l as [|x l IH]; intros i; [reflexivity|].
  cbn [first_index update_first]. destruct (p x).
  - destruct i as [|i]; [congruence | reflexivity].
  - destruct i as [|i]; [reflexivity|]. cbn. intros Hne. apply IH.
    intros Hi. apply Hne. rewrite Hi. reflexivity.
Qed.

Lemma only_job_batch_entry f w :
  (forall file_info, dict_get (f file_info) "job_id" = dict_get file_info "job_id") ->
  R w (set_batch_entry batch_id job_id f w).
Proof.
  intros Hf. unfold set_batch_entry.
  destruct (truthy_opt batch_id) eqn:Htruthy; [|apply only_job_refl].
  destruct batch_id as [b|]; [|discriminate]. cbn [default].
  split; cbn; auto.
  - exists []. rewrite app_nil_r. reflexivity.
  - intros bid Hbid. apply lookup_alter_ne. congruence.
  - intros bid. destruct (decide (b = bid)) as [->|Hne].
    + rewrite lookup_alter_eq. destruct (batch_jobs (app w) !! bid) as [rec|]; constructor.
      repeat split; cbn [b_fields b_files b_errors].
      * apply update_first_length.
      * apply OrchestratorFacts.first_index_update_first. intros x.
        unfold is_job. rewrite Hf. reflexivity.
      * intros i. apply update_first_elsewhere.
    + rewrite lookup_alter_ne by exact Hne. apply same_batch_entries.
Qed.

End Steps.

(** The world after a chain of updates, one update at a time. *)
Ltac only_world :=
  lazymatch goal with
  | |- only_job _ _ _ ?w ?w => apply only_job_refl
  | |- only_job _ _ _ ?w (set_app (set_active_visualizations (alter _ _)) ?w1) =>
      apply (only_job_trans _ _ _ w w1); [|apply only_job_viz]
  | |- only_job _ _ _ ?w (set_app (set_uploaded_files (alter _ _)) ?w1) =>
      apply (only_job_trans _ _ _ w w1); [|apply only_job_uploaded]
  | |- only_job _ _ _ ?w (set_remote_calls _ ?w1) =>
      apply (only_job_trans _ _ _ w w1); [|apply only_job_call]
  | |- only_job _ _ _ ?w (set_recipes _ ?w1) =>
      apply (only_job_trans _ _ _ w w1); [|apply only_job_recipe]
  | |- only_job _ _ _ ?w (set_batch_entry _ _ _ ?w1) =>
      apply (only_job_trans _ _ _ w w1);
      [|apply only_job_batch_entry; intros ?;
        rewrite ?OrchestratorFacts.job_id_after_insert by discriminate; reflexivity]
  end.

Ltac only_step :=
  lazymatch goal with
  | |- only_job _ _ _ _ _ =>
      cbv beta zeta delta [record_failed refuse update_viz set_viz set_uploaded];
      repeat only_world
  | _ => respect_step
  end.

Section Run.
Variables (s : Settings) (c : Publisher).
Variables (file_path job_id tileset_id visualization_type : string).
Variable batch_id : option string.

Let R := only_job job_id tileset_id batch_id.

Lemma only_job_save_recipe_info result viz_info :
  respects R (save_recipe_info c tileset_id result viz_info).
Proof. unfold R, save_recipe_info. repeat only_step. Qed.

Lemma only_job_record_uploaded result : respects R (record_uploaded job_id result).
Proof. unfold R, record_uploaded. repeat only_step. Qed.

Ltac only_record :=
  lazymatch goal with
  | |- respects _ (save_recipe_info _ _ _ _) => apply only_job_save_recipe_info
  | |- respects _ (record_uploaded _ _) => apply only_job_record_uploaded
  | _ => only_step
  end.

Lemma only_job_raster_stage requested_format :
  respects R (raster_stage s c file_path job_id tileset_id batch_id requested_format).
Proof. unfold R, raster_stage. repeat only_record. Qed.

Lemma only_job_vector_stage requested_format actual_format :
  respects R
    (vector_stage c file_path job_id tileset_id batch_id requested_format actual_format).
Proof. unfold R, vector_stage. repeat only_record. Qed.

Lemma only_job_create_tileset_try :
  respects R
    (create_tileset_try s c file_path job_id tileset_id visualization_type batch_id).
Proof.
  unfold R, create_tileset_try.
  repeat lazymatch goal with
         | |- respects _ (raster_stage _ _ _ _ _ _ _) => apply only_job_raster_stage
         | |- respects _ (vector_stage _ _ _ _ _ _ _) => apply only_job_vector_stage
         | _ => only_step
         end.
Qed.

End Run.

(** X6. A run of the orchestrator touches what belongs to its job and
    nothing else, whatever the remote service does.  The disk, the
    scheduled tasks, the sessions and the datasets are as before; no
    Visualization Record or Uploaded File Record is added or removed and
    those of other jobs are unchanged; no sidecar is written or changed
    but [recipe_<tileset_id>.json]; calls are only added to the log of the
    remote service; other batches are unchanged, and in the batch of the
    job no entry changes but the first one that carries the job id. *)
Theorem X6_run_touches_only_its_job s c file_path job_id tileset_id visualization_type
    batch_id :
  respects (only_job job_id tileset_id batch_id)
    (create_mapbox_tileset_background s c file_path job_id tileset_id visualization_type
       batch_id).
Proof.
  unfold create_mapbox_tileset_background, on_exception.
  apply respects_try_except; [typeclasses eauto | apply only_job_create_tileset_try|].
  intros e. repeat only_step.
Qed.

End IsolationFacts.
(** ** The verdict of a run *)

Module VerdictFacts.
Import PyStr Orchestrator EffectFacts RunFacts Verdict.

(** *** Updates and the verdict *)

Section Updates.
Variables (job_id status : string).

Lemma viz_settled_set j k v w :
  viz_settled job_id status w -> k <> "status" ->
  viz_settled job_id status (set_viz j k v w).
Proof.
  intros Hw Hk viz. unfold set_viz. cbn.
  destruct (decide (j = job_id)) as [->|Hne].
  - rewrite lookup_alter_eq. destruct (active_visualizations (app w) !! job_id) as [r|] eqn:Hr;
      [|discriminate].
    intros [= <-]. rewrite lookup_insert_ne by congruence. apply Hw. exact Hr.
  - rewrite lookup_alter_ne by exact Hne. apply Hw.
Qed.

Lemma viz_settled_status w :
  viz_settled job_id status (set_viz job_id "status" (VStr status) w).
Proof.
  intros viz. unfold set_viz. cbn. rewrite lookup_alter_eq.
  destruct (active_visualizations (app w) !! job_id) as [r|]; [|discriminate].
  intros [= <-]. apply lookup_insert_eq.
Qed.

Lemma viz_settled_update changes w :
  changes !! "status" = Some (VStr status) ->
  viz_settled job_id status (update_viz job_id changes w).
Proof.
  intros Hc viz. unfold update_viz. cbn. rewrite lookup_alter_eq.
  destruct (active_visualizations (app w) !! job_id) as [r|]; [|discriminate].
  intros [= <-]. unfold dict_update. apply lookup_union_Some_l. exact Hc.
Qed.

Lemma uploaded_settled_set j k v w :
  uploaded_settled job_id status w -> k <> "processing_status" ->
  uploaded_settled job_id status (set_uploaded j k v w).
Proof.
  intros Hw Hk file_info. unfold set_uploaded. cbn.
  destruct (decide (j = job_id)) as [->|Hne].
  - rewrite lookup_alter_eq. destruct (uploaded_files (app w) !! job_id) as [r|] eqn:Hr;
      [|discriminate].
    intros [= <-]. rewrite lookup_insert_ne by congruence. apply Hw. exact Hr.
  - rewrite lookup_alter_ne by exact Hne. apply Hw.
Qed.

Lemma uploaded_settled_status w :
  uploaded_settled job_id status
    (set_uploaded job_id "processing_status" (VStr status) w).
Proof.
  intros file_info. unfold set_uploaded. cbn. rewrite lookup_alter_eq.
  destruct (uploaded_files (app w) !! job_id) as [r|]; [|discriminate].
  intros [= <-]. apply lookup_insert_eq.
Qed.

(** Updates of another table. *)
Lemma viz_settled_same w w' :
  active_visualizations (app w') = active_visualizations (app w) ->
  viz_settled job_id status w -> viz_settled job_id status w'.
Proof. unfold viz_settled. intros ->. auto. Qed.

Lemma uploaded_settled_same w w' :
  uploaded_files (app w') = uploaded_files (app w) ->
  uploaded_settled job_id status w -> uploaded_settled job_id status w'.
Proof. unfold uploaded_settled. intros ->. auto. Qed.

Lemma tables_after_batch_entry batch_id j f w :
  active_visualizations (app (set_batch_entry batch_id j f w))
    = active_visualizations (app w) /\
  uploaded_files (app (set_batch_entry batch_id j f w)) = uploaded_files (app w).
Proof. unfold set_batch_entry. destruct (truthy_opt batch_id); split; reflexivity. Qed.

End Updates.

(** The verdict of a chain of updates, read from the outermost update
    inwards. *)
Ltac settle :=
  lazymatch goal with
  | |- viz_settled _ _ (set_batch_entry _ _ _ ?w) =>
      apply (viz_settled_same _ _ w); [apply tables_after_batch_entry|]
  | |- uploaded_settled _ _ (set_batch_entry _ _ _ ?w) =>
      apply (uploaded_settled_same _ _ w); [apply tables_after_batch_entry|]
  | |- viz_settled _ _ (set_recipes _ ?w) => apply (viz_settled_same _ _ w); [reflexivity|]
  | |- uploaded_settled _ _ (set_recipes _ ?w) =>
      apply (uploaded_settled_same _ _ w); [reflexivity|]
  | |- viz_settled _ _ (set_remote_calls _ ?w) =>
      apply (viz_settled_same _ _ w); [reflexivity|]
  | |- uploaded_settled _ _ (set_remote_calls _ ?w) =>
      apply (uploaded_settled_same _ _ w); [reflexivity|]
  | |- viz_settled _ _ (set_uploaded _ _ _ ?w) =>
      apply (viz_settled_same _ _ w); [reflexivity|]
  | |- uploaded_settled _ _ (set_viz _ _ _ ?w) =>
      apply (uploaded_settled_same _ _ w); [reflexivity|]
  | |- uploaded_settled _ _ (update_viz _ _ ?w) =>
      apply (uploaded_settled_same _ _ w); [reflexivity|]
  | |- viz_settled ?j ?st (set_viz ?j "status" (VStr ?st) _) => apply viz_settled_status
  | |- uploaded_settled ?j ?st (set_uploaded ?j "processing_status" (VStr ?st) _) =>
      apply uploaded_settled_status
  | |- viz_settled _ _ (set_viz _ _ _ _) => apply viz_settled_set; [|discriminate]
  | |- uploaded_settled _ _ (set_uploaded _ _ _ _) =>
      apply uploaded_settled_set; [|discriminate]
  | |- viz_settled _ _ (update_viz _ _ _) => apply viz_settled_update; reflexivity
  end.

Lemma settled_refuse job_id reason w : settled_as job_id "failed" (refuse job_id reason w).
Proof. cbv beta zeta delta [refuse]. split; repeat settle. Qed.

Lemma settled_record_failed job_id batch_id error w :
  settled_as job_id "failed" (record_failed job_id batch_id error w).
Proof. cbv beta zeta delta [record_failed]. split; repeat settle. Qed.

Lemma viz_settled_absent job_id status w :
  has_viz job_id w = false -> viz_settled job_id status w.
Proof.
  unfold has_viz. intros H viz Hviz. apply bool_decide_eq_false in H.
  destruct H. rewrite Hviz. eexists. reflexivity.
Qed.

Lemma uploaded_settled_absent job_id status w :
  has_uploaded job_id w = false -> uploaded_settled job_id status w.
Proof.
  unfold has_uploaded. intros H file_info Hfile. apply bool_decide_eq_false in H.
  destruct H. rewrite Hfile. eexists. reflexivity.
Qed.

Ltac settle_absent :=
  first [ solve [apply viz_settled_absent; assumption]
        | solve [apply uploaded_settled_absent; assumption]
        | settle ].

(** The verdict at the end of a path. *)
Ltac verdict :=
  lazymatch goal with
  | |- _ \/ settled_as _ _ (record_failed _ _ _ _) => right; apply settled_record_failed
  | |- _ \/ settled_as _ _ (refuse _ _ _) => right; apply settled_refuse
  | |- settled_as _ _ _ \/ _ => left; split; repeat settle_absent
  end.

Section Stages.
Variables (s : Settings) (c : Publisher).
Variables (file_path job_id tileset_id visualization_type : string).
Variable batch_id : option string.

Let decided (w : World) : Prop :=
  settled_as job_id "completed" w \/ settled_as job_id "failed" w.

Lemma vector_stage_settles requested_format actual_format w :
  py_eq actual_format (VStr "raster-array") = false ->
  ensures
    (vector_stage c file_path job_id tileset_id batch_id requested_format actual_format) w
    (fun _ => decided).
Proof.
  intros Hformat. unfold decided.
  unfold vector_stage, save_recipe_info, record_uploaded. rewrite Hformat. cbn [negb].
  cbv zeta. repeat run_step; verdict.
Qed.

Lemma raster_stage_settles requested_format w :
  ensures (raster_stage s c file_path job_id tileset_id batch_id requested_format) w
    (fun flow w' =>
       match flow with
       | Return => decided w'
       | Continue actual_format => py_eq actual_format (VStr "raster-array") = false
       end).
Proof.
  unfold decided. unfold raster_stage, save_recipe_info, record_uploaded. cbv zeta.
  repeat run_step; cbv iota; try reflexivity; verdict.
Qed.

Lemma create_tileset_try_settles w :
  ensures (create_tileset_try s c file_path job_id tileset_id visualization_type batch_id) w
    (fun _ => decided).
Proof.
  unfold create_tileset_try.
  repeat lazymatch goal with
         | |- ensures (bind (raster_stage _ _ _ _ _ _ _) _) _ _ =>
             apply ensures_bind;
             apply (ensures_mono _ _ _ _ (raster_stage_settles _ _));
             intros [|actual_format] w' Hflow
         | |- ensures (vector_stage _ _ _ _ _ _ _) _ _ => apply vector_stage_settles; exact Hflow
         | |- ensures (ret tt) _ _ => apply ensures_ret; exact Hflow
         | |- ensures (modify (refuse _ _)) _ _ => apply ensures_modify; right; apply settled_refuse
         | _ => run_step
         end.
Qed.

End Stages.

(** X7. A run of the orchestrator leaves the job decided, whatever the
    settings, the disk and the remote service: when it is over, the
    Visualization Record of the job (if there is one) has status completed
    and its Uploaded File Record (if there is one) has processing status
    completed, or both have failed; the two never disagree and neither is
    left processing. *)
Theorem X7_run_decides_job s c file_path job_id tileset_id visualization_type batch_id w :
  let run :=
    create_mapbox_tileset_background s c file_path job_id tileset_id visualization_type
      batch_id in
  settled_as job_id "completed" (world_after run w) \/
  settled_as job_id "failed" (world_after run w).
Proof.
  cbv zeta. unfold world_after, create_mapbox_tileset_background, try_except.
  pose proof (create_tileset_try_settles s c file_path job_id tileset_id visualization_type
                batch_id w) as Hbody.
  unfold ensures in Hbody.
  destruct (create_tileset_try s c file_path job_id tileset_id visualization_type batch_id w)
    as [[[]|e] w1]; cbn [snd].
  - exact Hbody.
  - right. apply settled_record_failed.
Qed.

End VerdictFacts.
(** ** The calls a run makes to the remote service *)

Module CallsFacts.
Import PyStr Orchestrator EffectFacts RunFacts Verdict.

(** The log of calls after a chain of updates of the tables. *)
Ltac calls_same :=
  cbv beta zeta;
  rewrite ?OrchestratorFacts.calls_after_record_failed,
    ?(proj2 (OrchestratorFacts.viz_after_set_batch_entry _ _ _ _));
  try reflexivity.

Section Stages.
Variables (s : Settings) (c : Publisher).
Variables (file_path job_id tileset_id visualization_type : string).
Variable batch_id : option string.

Lemma vector_stage_one_call requested_format actual_format w :
  py_eq actual_format (VStr "raster-array") = false ->
  leaves
    (vector_stage c file_path job_id tileset_id batch_id requested_format actual_format) w
    (fun _ w' =>
       remote_calls w' = (remote_calls w ++ [VectorCall file_path tileset_id])%list).
Proof.
  intros Hformat.
  unfold vector_stage, save_recipe_info, record_uploaded. rewrite Hformat. cbn [negb].
  cbv zeta. repeat leave_step; calls_same.
Qed.

Lemma raster_stage_one_call requested_format w :
  py_eq requested_format (VStr "raster-array") && truthy (VStr (MAPBOX_TOKEN s)) = true ->
  leaves (raster_stage s c file_path job_id tileset_id batch_id requested_format) w
    (fun r w' =>
       remote_calls w' = (remote_calls w ++ [RasterCall file_path tileset_id])%list /\
       match r with
       | Returns (Continue actual_format) =>
           py_eq actual_format (VStr "raster-array") = false /\
           forall result success,
             create_raster_tileset c file_path tileset_id = Returns result ->
             result !! "success" = Some success -> truthy success = false
       | _ => True
       end).
Proof.
  intros Hasked.
  unfold raster_stage, save_recipe_info, record_uploaded. rewrite Hasked.
  cbv zeta. repeat leave_step;
    (split; [calls_same | first [exact I | split; [reflexivity | intros; congruence]]]).
Qed.

Lemma raster_stage_skipped requested_format w :
  py_eq requested_format (VStr "raster-array") && truthy (VStr (MAPBOX_TOKEN s)) = false ->
  raster_stage s c file_path job_id tileset_id batch_id requested_format w
  = (Returns (Continue VNone), w).
Proof. intros Hasked. unfold raster_stage. rewrite Hasked. reflexivity. Qed.

Lemma run_calls w :
  remote_calls
    (world_after
       (create_mapbox_tileset_background s c file_path job_id tileset_id visualization_type
          batch_id) w)
  = remote_calls
      (world_after
         (create_tileset_try s c file_path job_id tileset_id visualization_type batch_id) w).
Proof.
  unfold world_after, create_mapbox_tileset_background, try_except.
  destruct (create_tileset_try _ _ _ _ _ _ _ w) as [[[]|e] w1]; [reflexivity|].
  apply OrchestratorFacts.calls_after_record_failed.
Qed.

(** The body, once the checks have passed and the client is there. *)
Lemma body_stages w viz :
  truthy (VStr (MAPBOX_TOKEN s)) = true ->
  file_path ∈ disk w ->
  active_visualizations (app w) !! job_id = Some viz ->
  client_init c = Returns tt ->
  let requested_format := dict_get_or viz "requested_format" (VStr "vector") in
  create_tileset_try s c file_path job_id tileset_id visualization_type batch_id w =
  match raster_stage s c file_path job_id tileset_id batch_id requested_format w with
  | (Returns Return, w') => (Returns tt, w')
  | (Returns (Continue actual_format), w') =>
      vector_stage c file_path job_id tileset_id batch_id requested_format actual_format w'
  | (Raises msg, w') => (Raises msg, w')
  end.
Proof.
  intros Htoken Hdisk Hviz Hclient. cbv zeta.
  unfold create_tileset_try. rewrite Htoken. cbn [negb].
  unfold bind at 1. unfold gets at 1.
  rewrite (bool_decide_eq_true_2 _ Hdisk). cbn [negb].
  unfold bind at 1. unfold gets at 1. rewrite Hviz.
  unfold bind at 1. unfold lift at 1. rewrite Hclient.
  unfold bind at 1.
  destruct (raster_stage _ _ _ _ _ _ _ w) as [[[|actual_format]|msg] w']; reflexivity.
Qed.

End Stages.

(** X8. The calls a run makes to the remote service.  A run that stops
    at a check (no token, no file on disk, no Visualization Record, no
    client) makes none.  Otherwise a job that did not ask for raster-array
    makes the vector call and no other; a job that asked for it makes the
    raster call, after it at most the vector call, and no vector call when
    the raster call reported success. *)
Theorem X8_remote_calls_of_run s c file_path job_id tileset_id visualization_type
    batch_id w :
  let run :=
    create_mapbox_tileset_background s c file_path job_id tileset_id visualization_type
      batch_id in
  let calls := remote_calls (world_after run w) in
  let raster := RasterCall file_path tileset_id in
  let vector := VectorCall file_path tileset_id in
  (truthy (VStr (MAPBOX_TOKEN s)) = false \/ file_path ∉ disk w \/
   active_visualizations (app w) !! job_id = None \/
   (exists e, client_init c = Raises e) ->
   calls = remote_calls w) /\
  (forall viz,
     truthy (VStr (MAPBOX_TOKEN s)) = true ->
     file_path ∈ disk w ->
     active_visualizations (app w) !! job_id = Some viz ->
     client_init c = Returns tt ->
     let requested_format := dict_get_or viz "requested_format" (VStr "vector") in
     (py_eq requested_format (VStr "raster-array") = false ->
      calls = (remote_calls w ++ [vector])%list) /\
     (py_eq requested_format (VStr "raster-array") = true ->
      (calls = (remote_calls w ++ [raster])%list \/
       calls = (remote_calls w ++ [raster; vector])%list) /\
      (forall result success,
         create_raster_tileset c file_path tileset_id = Returns result ->
         result !! "success" = Some success -> truthy success = true ->
         calls = (remote_calls w ++ [raster])%list))).
Proof.
  cbv zeta. rewrite run_calls. split.
  - intros Hstop. unfold world_after, create_tileset_try.
    destruct (truthy (VStr (MAPBOX_TOKEN s))) eqn:Htoken; [|reflexivity].
    cbn [negb]. unfold bind at 1. unfold gets at 1.
    destruct (bool_decide (file_path ∈ disk w)) eqn:Hdisk; [|reflexivity].
    cbn [negb]. unfold bind at 1. unfold gets at 1.
    destruct (active_visualizations (app w) !! job_id) as [viz|] eqn:Hviz; [|reflexivity].
    unfold bind at 1. unfold lift at 1.
    destruct (client_init c) as [[]|e] eqn:Hclient; [|reflexivity].
    apply bool_decide_eq_true in Hdisk.
    destruct Hstop as [H | [H | [H | [e H]]]]; [discriminate | tauto | discriminate | discriminate].
  - intros viz Htoken Hdisk Hviz Hclient. unfold world_after.
    rewrite (body_stages s c file_path job_id tileset_id visualization_type batch_id w viz
               Htoken Hdisk Hviz Hclient).
    set (requested_format := dict_get_or viz "requested_format" (VStr "vector")).
    split; intros Hasked.
    + rewrite raster_stage_skipped by (rewrite Hasked; reflexivity).
      apply (vector_stage_one_call c file_path job_id tileset_id batch_id
               requested_format VNone w eq_refl).
    + pose proof (raster_stage_one_call s c file_path job_id tileset_id batch_id
                    requested_format w) as Hraster.
      unfold leaves in Hraster.
      destruct (raster_stage s c file_path job_id tileset_id batch_id requested_format w)
        as [[[|actual_format]|msg] w1]; cbn [fst snd] in Hraster;
        destruct Hraster as [Hcalls Hflow]; try (rewrite Hasked, Htoken; reflexivity).
      * unfold world_after. cbn [snd]. split; [left; exact Hcalls | intros; exact Hcalls].
      * destruct Hflow as [Hformat Hfailed].
        pose proof (vector_stage_one_call c file_path job_id tileset_id batch_id
                      requested_format actual_format w1 Hformat) as Hvector.
        unfold leaves in Hvector. unfold world_after.
        rewrite Hvector, Hcalls, <- app_assoc. split; [right; reflexivity|].
        intros result success Hresult Hsuccess Htruthy.
        rewrite (Hfailed result success Hresult Hsuccess) in Htruthy. discriminate.
      * unfold world_after. cbn [snd]. split; [left; exact Hcalls | intros; exact Hcalls].
Qed.

Lemma X8_remote_calls_of_run_witness :
  remote_calls
    (world_after
       (create_mapbox_tileset_background the_settings tier_limited_remote path job tileset
          "vector" None) vector_job)
  = [VectorCall path tileset] /\
  remote_calls
    (world_after
       (create_mapbox_tileset_background the_settings tier_limited_remote
          "/srv/uploads/gone.nc" job tileset "vector" None) vector_job)
  = [].
Proof.
  destruct (X8_remote_calls_of_run the_settings tier_limited_remote path job tileset
              "vector" None vector_job) as [_ Hgoes].
  destruct (Hgoes (<["requested_format" := VStr "vector"]>
                     (<["status" := VStr "processing"]> ∅)))
    as [Hvector _]; [reflexivity | by_decide | by_decide | reflexivity |].
  destruct (X8_remote_calls_of_run the_settings tier_limited_remote "/srv/uploads/gone.nc"
              job tileset "vector" None vector_job) as [Hstops _].
  split.
  - apply Hvector. by_decide.
  - apply Hstops. right. left. by_decide.
Defined.

End CallsFacts.
(** ** A file that cannot be ingested *)

Module IngestFaultFacts.
Import PyStr Ingest EffectFacts RunFacts Uploads.

Section Turn.
Context {A : Type} `{ArrayLib A} (env : Env A).
Variables (file : Upload) (job_id : string) (create_tileset : bool).
Variables (tileset_name : option string) (visualization_type : string).
Variables (batch_id : option string) (results : Results) (w : World).

Let file_path : string := saved_path env job_id (filename file).

Let turn : M Results :=
  try_except
    (ingest_file env file job_id create_tileset tileset_name visualization_type batch_id
       results)
    (on_file_error env file job_id results).

Let failed_with (msg : string) : Results :=
  mkResults (r_batch_id results) (total_files results) (processed_files results)
    (status results) (files results)
    (errors results ++ [<["filename" := VStr (filename file)]> (<["error" := VStr msg]> ∅)]).

Lemma turn_write_fails msg :
  write_fails env file_path = Some msg ->
  unlink_fails env file_path = false ->
  turn w = (Returns (failed_with msg), set_disk (fun d => d ∖ {[file_path]}) w).
Proof.
  intros Hwrite Hunlink. unfold turn, try_except, ingest_file, bind at 1, save_upload.
  fold file_path. rewrite Hwrite. unfold raise, on_file_error, bind, modify, ret.
  fold file_path. rewrite Hunlink. cbn [negb]. rewrite andb_true_r.
  f_equal. destruct (bool_decide (file_path ∈ disk w)) eqn:Hin; [reflexivity|].
  apply bool_decide_eq_false in Hin. destruct w as [a d r t c]. unfold set_disk. cbn in *.
  f_equal. symmetry. apply difference_disjoint_L, disjoint_singleton_r. exact Hin.
Qed.

Lemma turn_open_fails e :
  write_fails env file_path = None ->
  open_dataset env file_path = Raises e ->
  unlink_fails env file_path = false ->
  turn w = (Returns (failed_with (error_msg e)), set_disk (fun d => d ∖ {[file_path]}) w).
Proof.
  intros Hwrite Hopen Hunlink.
  unfold turn, try_except, ingest_file, bind at 1, save_upload.
  fold file_path. rewrite Hwrite. unfold modify at 1.
  unfold bind at 1, process_netcdf_file, try_except, bind at 1, lift. rewrite Hopen.
  unfold raise, on_file_error, bind, modify, ret.
  fold file_path. rewrite Hunlink. cbn [negb]. rewrite andb_true_r.
  rewrite bool_decide_eq_true_2 by (cbn; apply elem_of_union_l, elem_of_singleton; reflexivity).
  f_equal. destruct w as [a d r t c]. unfold set_disk. cbn. f_equal.
  apply set_eq. intros x. rewrite !elem_of_difference, elem_of_union. tauto.
Qed.

End Turn.

(** X9. A file that cannot be written, or that the reader cannot open, is
    passed over and leaves nothing behind: the loop goes on, the list of
    successes and the count are as before, the list of errors gets one
    entry with the name of the file and the message (of the write, or the
    message made of the reader's), the tables, the scheduled tasks, the
    sidecars and the log of remote calls are unchanged, and no file is
    left at the path (also none that was there before). *)
Theorem X9_faulty_file_leaves_nothing {A : Type} `{ArrayLib A} (env : Env A)
    (file : Upload) (job_id : string) (create_tileset : bool)
    (tileset_name : option string) (visualization_type : string)
    (batch_id : option string) (results : Results) (w : World) (msg : string) :
  let file_path := saved_path env job_id (filename file) in
  let turn :=
    try_except
      (ingest_file env file job_id create_tileset tileset_name visualization_type batch_id
         results)
      (on_file_error env file job_id results) in
  (write_fails env file_path = Some msg \/
   exists e, write_fails env file_path = None /\
             open_dataset env file_path = Raises e /\ msg = error_msg e) ->
  unlink_fails env file_path = false ->
  exists results',
    outcome turn w = Returns results' /\
    files results' = files results /\
    processed_files results' = processed_files results /\
    errors results'
      = (errors results
           ++ [<["filename" := VStr (filename file)]> (<["error" := VStr msg]> ∅)])%list /\
    app (world_after turn w) = app w /\
    scheduled (world_after turn w) = scheduled w /\
    recipes (world_after turn w) = recipes w /\
    remote_calls (world_after turn w) = remote_calls w /\
    disk (world_after turn w) = disk w ∖ {[file_path]}.
Proof.
  intros file_path turn Hfault Hunlink.
  assert (Hturn : exists results',
            turn w = (Returns results', set_disk (fun d => d ∖ {[file_path]}) w) /\
            files results' = files results /\
            processed_files results' = processed_files results /\
            errors results'
              = (errors results
                   ++ [<["filename" := VStr (filename file)]>
                         (<["error" := VStr msg]> ∅)])%list).
  { destruct Hfault as [Hwrite | (e & Hwrite & Hopen & ->)]; eexists; split;
      [apply (turn_write_fails env file job_id create_tileset tileset_name
                visualization_type batch_id results w msg Hwrite Hunlink)
      | repeat split
      | apply (turn_open_fails env file job_id create_tileset tileset_name
                 visualization_type batch_id results w e Hwrite Hopen Hunlink)
      | repeat split]. }
  destruct Hturn as (results' & Hrun & Hfiles & Hcount & Herrors).
  exists results'. unfold outcome, world_after. rewrite Hrun. repeat split; assumption.
Qed.

Lemma X9_faulty_file_leaves_nothing_witness :
  let turn :=
    try_except
      (ingest_file unreadable_env (mkUpload "x.nc" "CDF") "j1" true None "vector" None
         (fresh_results None 1))
      (on_file_error unreadable_env (mkUpload "x.nc" "CDF") "j1" (fresh_results None 1)) in
  exists results',
    outcome turn empty_world = Returns results' /\
    errors results'
      = [<["filename" := VStr "x.nc"]>
           (<["error" := VStr "NetCDF file could not be read. Please ensure it's a valid NetCDF format."]> ∅)] /\
    app (world_after turn empty_world) = empty_state.
Proof.
  cbv zeta.
  destruct (X9_faulty_file_leaves_nothing unreadable_env (mkUpload "x.nc" "CDF") "j1" true
              None "vector" None (fresh_results None 1) empty_world
              "NetCDF file could not be read. Please ensure it's a valid NetCDF format.")
    as (results' & Hout & _ & _ & Herrors & Happ & _).
  - right. eexists. split; [reflexivity|]. split; [reflexivity|]. reflexivity.
  - reflexivity.
  - exists results'. split; [exact Hout|]. split; [exact Herrors | exact Happ].
Defined.

End IngestFaultFacts.
(** ** The batch read after an upload *)

Module UploadReadFacts.
Import PyStr Ingest EffectFacts RunFacts Batch BatchRead Uploads.

Ltac lookup_inserts :=
  repeat first [rewrite lookup_insert_eq | rewrite lookup_insert_ne by discriminate].

Lemma has_status_insert vis job_id record status e :
  has_status vis status e ->
  record !! "status" = Some (VStr status) ->
  has_status (<[job_id := record]> vis) status e.
Proof.
  unfold has_status, file_status. intros He Hr.
  destruct (dict_get e "job_id") as [| | |j]; cbn [table_lookup] in *; try discriminate.
  destruct (decide (job_id = j)) as [->|Hne].
  - rewrite lookup_insert_eq. unfold dict_get_or. rewrite Hr. reflexivity.
  - rewrite lookup_insert_ne by exact Hne. exact He.
Qed.

Section Loop.
Context {A : Type} `{ArrayLib A} (env : Env A).
Variables (job_ids : list string) (create_tileset : bool).
Variables (tileset_names : option (list string)) (visualization_type : string).
Variable batch_id : option string.

Lemma turn_all_processing file job_id tileset_name results w :
  all_processing results w ->
  leaves
    (try_except
       (ingest_file env file job_id create_tileset tileset_name visualization_type batch_id
          results)
       (on_file_error env file job_id results)) w
    (fun r w' =>
       match r with
       | Returns results' => all_processing results' w'
       | Raises _ => True
       end).
Proof.
  intros Hall. unfold ingest_file, on_file_error, save_upload, process_netcdf_file.
  cbv zeta. repeat leave_step.
  all: try exact I.
  all: unfold all_processing; cbn.
  all: try (destruct (_ && _); exact Hall).
  all: apply Forall_app; split;
    [ eapply Forall_impl; [exact Hall|]; intros e He; apply has_status_insert;
      [exact He | lookup_inserts; reflexivity]
    | apply Forall_cons; split; [|apply Forall_nil; exact I];
      unfold has_status, file_status, dict_get;
      rewrite (lookup_union_Some_l _ _ _ (VStr job_id)) by (lookup_inserts; reflexivity);
      cbn [default from_option id table_lookup]; rewrite lookup_insert_eq;
      unfold dict_get_or; lookup_inserts; reflexivity ].
Qed.

Lemma process_each_all_processing todo i results w :
  all_processing results w ->
  leaves
    (process_each env i todo job_ids create_tileset tileset_names visualization_type
       batch_id results) w
    (fun r w' =>
       match r with
       | Returns results' => all_processing results' w'
       | Raises _ => True
       end).
Proof.
  revert i results w. induction todo as [|file rest IH]; intros i results w Hall;
    cbn [process_each].
  - exact Hall.
  - destruct (job_ids !! i) as [job_id|]; [|exact I].
    apply leaves_bind.
    apply (leaves_mono _ _ _ _ (turn_all_processing file job_id _ results w Hall)).
    intros [results'|msg] w' Hturn; [apply IH; exact Hturn | exact I].
Qed.

End Loop.

(** The loop that fills the file database leaves the other tables alone. *)
Lemma record_uploads_tables file_results i todo job_ids upload_dir batch_id w :
  let w' := world_after (record_uploads i file_results todo job_ids upload_dir batch_id) w in
  active_visualizations (app w') = active_visualizations (app w) /\
  batch_jobs (app w') = batch_jobs (app w) /\
  active_sessions (app w') = active_sessions (app w).
Proof.
  cbv zeta. unfold world_after.
  revert i w. induction file_results as [|file_result rest IH]; intros i w;
    cbn [record_uploads]; [repeat split|].
  unfold bind at 1.
  destruct (truthy (dict_get file_result "success")).
  - destruct (job_ids !! i) as [job_id|]; [|repeat split].
    destruct (todo !! i) as [file|]; [|repeat split].
    unfold modify at 1.
    match goal with
    | |- context [record_uploads (S i) rest todo job_ids upload_dir batch_id ?w1] =>
        destruct (IH (S i) w1) as (Hviz & Hbatch & Hsessions)
    end.
    split; [exact Hviz | split; [exact Hbatch | exact Hsessions]].
  - unfold ret at 1. apply IH.
Qed.

(** An upload that schedules no publication leaves the list of the
    background tasks as it is. *)
#[local] Instance same_tasks_preorder : PreOrder same_tasks.
Proof.
  split; [intros w; reflexivity|].
  intros w1 w2 w3 H12 H23. unfold same_tasks in *. congruence.
Qed.

Ltac quiet_step :=
  lazymatch goal with
  | |- same_tasks _ _ => reflexivity
  | _ => respect_step
  end.

Lemma record_uploads_quiet file_results i todo job_ids upload_dir batch_id :
  respects same_tasks (record_uploads i file_results todo job_ids upload_dir batch_id).
Proof.
  revert i. induction file_results as [|file_result rest IH]; intros i;
    cbn [record_uploads].
  - apply respects_ret. typeclasses eauto.
  - apply respects_bind; [typeclasses eauto | | intros _; apply IH].
    repeat quiet_step.
Qed.

Section Quiet.
Context {A : Type} `{ArrayLib A} (env : Env A).
Variables (job_ids : list string) (create_tileset : bool).
Variables (tileset_names : option (list string)) (visualization_type : string).
Hypothesis off : schedules env create_tileset = false.

Lemma process_each_quiet batch_id todo i results :
  respects same_tasks
    (process_each env i todo job_ids create_tileset tileset_names visualization_type
       batch_id results).
Proof.
  revert i results. induction todo as [|file rest IH]; intros i results; cbn [process_each].
  - apply respects_ret. typeclasses eauto.
  - destruct (job_ids !! i) as [job_id|]; [|apply respects_raise; typeclasses eauto].
    apply respects_bind; [typeclasses eauto | | intros results'; apply IH].
    unfold schedules in off.
    apply respects_try_except; [typeclasses eauto | | intros e].
    + unfold ingest_file, save_upload, process_netcdf_file. rewrite off. cbv zeta.
      repeat quiet_step.
    + unfold on_file_error. repeat quiet_step.
      destruct (bool_decide _ && _); reflexivity.
Qed.

Lemma upload_netcdf_batch_quiet todo batch_id :
  respects same_tasks
    (upload_netcdf_batch env todo job_ids create_tileset tileset_names visualization_type
       batch_id).
Proof.
  unfold upload_netcdf_batch, process_batch_upload.
  repeat lazymatch goal with
         | |- respects _ (process_each _ _ _ _ _ _ _ _ _) => apply process_each_quiet
         | |- respects _ (record_uploads _ _ _ _ _ _) => apply record_uploads_quiet
         | _ => quiet_step
         end.
Qed.

End Quiet.

(** The whole endpoint, step by step. *)
Lemma upload_netcdf_batch_runs {A : Type} `{ArrayLib A} (env : Env A)
    (todo : list Upload) (job_ids : list string) (create_tileset : bool)
    (tileset_names : option (list string)) (visualization_type batch_id : string)
    (w : World) :
  length todo <= length job_ids ->
  exists result w1 w2,
    process_batch_upload env todo job_ids create_tileset tileset_names visualization_type
      (Some batch_id) (register_batch batch_id (length todo) w) = (Returns result, w1) /\
    upload_netcdf_batch env todo job_ids create_tileset tileset_names visualization_type
      batch_id w = (Returns result, w2) /\
    record_uploads 0 (files result) todo job_ids (UPLOAD_DIR (settings env)) batch_id
      (set_app (set_batch_jobs
         (insert batch_id (batch_update (new_batch batch_id (length todo)) result))) w1)
    = (Returns tt, w2) /\
    length (files result) + length (errors result) = length todo /\
    status result = overall_status (length (files result)) (length todo).
Proof.
  intros Hlen.
  destruct (IngestFacts.process_batch_upload_returns env todo job_ids create_tileset
              tileset_names visualization_type batch_id
              (register_batch batch_id (length todo) w) Hlen)
    as (result & w1 & Hrun & Hsame & Htotal & Hcount & Hstatus).
  assert (Hstored : batch_jobs (app w1) !! batch_id
                    = Some (new_batch batch_id (length todo))).
  { rewrite Hsame. apply IngestFacts.stored_after_register. }
  destruct (IngestFacts.record_uploads_returns (files result) 0 todo job_ids
              (UPLOAD_DIR (settings env)) batch_id
              (set_app (set_batch_jobs
                 (insert batch_id (batch_update (new_batch batch_id (length todo)) result)))
                 w1))
    as (w2 & Hrecord & Hsame2); [lia | lia |].
  exists result, w1, w2. split; [exact Hrun|]. split; [|repeat split; assumption].
  unfold upload_netcdf_batch.
  unfold bind at 1. unfold modify at 1.
  rewrite (run_bind _ _ _ _ _ Hrun).
  unfold bind at 1. unfold gets at 1. rewrite Hstored.
  unfold bind at 1. unfold modify at 1.
  rewrite (run_bind _ _ _ _ _ Hrecord). reflexivity.
Qed.

Lemma processing_still_running vis e : has_status vis "processing" e -> still_running vis e.
Proof. intros He. exists (VStr "processing"). split; [exact He|]. split; discriminate. Qed.

(** X10. The read of a batch after an upload that schedules no
    publication (the upload asks for no tileset, or the Mapbox token or
    user name is not set).  With a job id for every file the upload
    returns, with the status completed, partial or failed by the count of
    the files that went through, and it adds no background task; the read
    of the batch that follows answers with the same entries and the
    status processing when at least one file went through, whatever the
    upload answered, and failed when none did (also for a batch of no
    files, which the upload calls completed). *)
Theorem X10_read_after_upload {A : Type} `{ArrayLib A} (env : Env A)
    (todo : list Upload) (job_ids : list string) (create_tileset : bool)
    (tileset_names : option (list string)) (visualization_type batch_id : string)
    (w : World) :
  length todo <= length job_ids ->
  schedules env create_tileset = false ->
  let run :=
    upload_netcdf_batch env todo job_ids create_tileset tileset_names visualization_type
      batch_id in
  exists result b,
    outcome run w = Returns result /\
    status result = overall_status (length (files result)) (length todo) /\
    scheduled (world_after run w) = scheduled w /\
    fst (get_batch_status batch_id (app (world_after run w))) = Ok b /\
    b_files b = files result /\
    b_fields b !! "status"
      = Some (VStr match files result with [] => "failed" | _ :: _ => "processing" end).
Proof.
  intros Hlen Hoff run.
  pose proof (upload_netcdf_batch_quiet env job_ids create_tileset tileset_names
                visualization_type Hoff todo batch_id w) as Hquiet.
  destruct (upload_netcdf_batch_runs env todo job_ids create_tileset tileset_names
              visualization_type batch_id w Hlen)
    as (result & w1 & w2 & Hloop & Hrun & Hrecord & _ & Hstatus).
  pose proof (record_uploads_tables (files result) 0 todo job_ids
                (UPLOAD_DIR (settings env)) batch_id
                (set_app (set_batch_jobs
                   (insert batch_id (batch_update (new_batch batch_id (length todo)) result)))
                   w1)) as Htables.
  cbv zeta in Htables. unfold world_after in Htables. rewrite Hrecord in Htables.
  cbn [snd] in Htables. destruct Htables as (Hviz & Hbatch & _). cbn in Hviz, Hbatch.
  assert (Hall : all_processing result w1).
  { unfold process_batch_upload in Hloop.
    pose proof (process_each_all_processing env job_ids create_tileset tileset_names
                  visualization_type (Some batch_id) todo 0
                  (fresh_results (Some batch_id) (length todo))
                  (register_batch batch_id (length todo) w)) as Hinv.
    unfold leaves in Hinv. unfold bind in Hloop.
    destruct (process_each env 0 todo job_ids create_tileset tileset_names
                visualization_type (Some batch_id)
                (fresh_results (Some batch_id) (length todo))
                (register_batch batch_id (length todo) w)) as [[r|msg] w'];
      [|discriminate].
    injection Hloop as <- <-. apply Hinv. constructor. }
  assert (Hstored : batch_jobs (app w2) !! batch_id
                    = Some (batch_update (new_batch batch_id (length todo)) result)).
  { rewrite Hbatch. apply lookup_insert_eq. }
  pose proof (BatchReadFacts.get_batch_status_found batch_id (app w2) _ Hstored) as Hread.
  cbv zeta in Hread.
  eexists result, _. unfold run, outcome, world_after.
  unfold same_tasks, world_after in Hquiet. rewrite Hrun in Hquiet |- *. cbn [fst snd] in *.
  rewrite Hread. cbn [fst].
  split; [reflexivity|]. split; [exact Hstatus|]. split; [exact Hquiet|].
  split; [reflexivity|].
  split; [reflexivity|]. cbn [b_fields batch_update b_files].
  lookup_inserts. do 2 f_equal.
  destruct (BatchReadFacts.derive_status_reading (active_visualizations (app w2))
              (files result)) as (Hprocessing & Hfailed & _).
  unfold all_processing in Hall. rewrite <- Hviz in Hall.
  destruct (files result) as [|e rest].
  - apply Hfailed. constructor.
  - apply Hprocessing. left. apply processing_still_running.
    apply Forall_cons in Hall. apply Hall.
Qed.

Lemma X10_read_after_upload_witness :
  exists result b,
    outcome (upload_netcdf_batch sample_env two_files two_jobs false None "vector" "b1")
      empty_world = Returns result /\
    status result = "completed" /\
    scheduled
      (world_after (upload_netcdf_batch sample_env two_files two_jobs false None "vector"
                      "b1") empty_world) = [] /\
    fst (get_batch_status "b1"
           (app (world_after
                   (upload_netcdf_batch sample_env two_files two_jobs false None "vector"
                      "b1") empty_world))) = Ok b /\
    b_fields b !! "status" = Some (VStr "processing").
Proof.
  destruct (X10_read_after_upload sample_env two_files two_jobs false None "vector" "b1"
              empty_world)
    as (result & b & Hout & Hstatus & Htasks & Hread & Hfiles & Hanswer);
    [cbn; lia | reflexivity|].
  exists result, b. split; [exact Hout|].
  assert (Hlength :
            match outcome
                    (upload_netcdf_batch sample_env two_files two_jobs false None "vector"
                       "b1") empty_world with
            | Returns r => (length (files r) =? 2)%nat
            | Raises _ => false
            end = true) by (vm_compute; reflexivity).
  rewrite Hout in Hlength. apply Nat.eqb_eq in Hlength.
  split; [rewrite Hstatus, Hlength; reflexivity|]. split; [exact Htasks|].
  split; [exact Hread|].
  rewrite Hanswer. destruct (files result); [discriminate | reflexivity].
Defined.

End UploadReadFacts.
(** ** The file database after a batch upload *)

Module FileDatabaseFacts.
Import PyStr Ingest EffectFacts RunFacts Uploads.

Ltac lookup_inserts :=
  repeat first [rewrite lookup_insert_eq | rewrite lookup_insert_ne by discriminate].

(** The loop of the file database: the record of position [k] goes under
    the job id of position [k] with the name of the file of position [k],
    and no other key changes. *)
Lemma record_uploads_positions file_results i todo job_ids upload_dir batch_id w :
  Forall (fun file_result => truthy (dict_get file_result "success") = true) file_results ->
  NoDup job_ids ->
  i + length file_results <= length job_ids ->
  i + length file_results <= length todo ->
  let w' := world_after (record_uploads i file_results todo job_ids upload_dir batch_id) w in
  (forall k job_id file file_result,
     file_results !! k = Some file_result ->
     job_ids !! (i + k) = Some job_id -> todo !! (i + k) = Some file ->
     exists record,
       uploaded_files (app w') !! job_id = Some record /\
       record !! "id" = Some (VStr job_id) /\
       record !! "original_filename" = Some (VStr (filename file)) /\
       record !! "file_path"
         = Some (VStr (upload_dir ++ "/" ++ job_id ++ "_" ++ filename file)) /\
       record !! "tileset_id" = Some (dict_get file_result "tileset_id")) /\
  (forall job_id,
     (forall k, i <= k < i + length file_results -> job_ids !! k <> Some job_id) ->
     uploaded_files (app w') !! job_id = uploaded_files (app w) !! job_id).
Proof.
  intros Hall Hnodup. cbv zeta. unfold world_after.
  revert i w. induction Hall as [|file_result rest Hsuccess _ IH]; intros i w Hjobs Htodo;
    cbn [record_uploads length] in *.
  - split; [intros k job_id file file_result [=] | reflexivity].
  - unfold bind at 1. rewrite Hsuccess.
    destruct (lookup_lt_is_Some_2 job_ids i) as [job_i Hjob]; [lia|].
    destruct (lookup_lt_is_Some_2 todo i) as [file_i Hfile]; [lia|].
    rewrite Hjob, Hfile. unfold modify at 1.
    match goal with
    | |- context [record_uploads (S i) rest todo job_ids upload_dir batch_id ?w1] =>
        destruct (IH (S i) w1) as [Hthere Helse]; [lia | lia |]
    end.
    split.
    + intros [|k] job_id file fr Hfr Hj Hf.
      * rewrite Nat.add_0_r in Hj, Hf. cbn in Hfr.
        assert (job_id = job_i) by congruence. assert (file = file_i) by congruence.
        assert (fr = file_result) by congruence. subst.
        rewrite Helse.
        -- cbn. rewrite lookup_insert_eq. eexists. split; [reflexivity|].
           repeat split; lookup_inserts; reflexivity.
        -- intros k Hk Hjk.
           assert (k = i) by (eapply NoDup_lookup; eassumption). lia.
      * apply (Hthere k job_id file fr Hfr); [rewrite <- Hj | rewrite <- Hf]; f_equal; lia.
    + intros job_id Hother. rewrite Helse by (intros k Hk; apply Hother; lia).
      cbn. apply lookup_insert_ne. intros ->. apply (Hother i); [lia | exact Hjob].
Qed.

Section Loop.
Context {A : Type} `{ArrayLib A} (env : Env A).
Variables (job_ids : list string) (create_tileset : bool).
Variables (tileset_names : option (list string)) (visualization_type : string).
Variable batch_id : option string.

(** A turn of the loop of the pipeline adds entries that say success and
    leaves the file database alone. *)
Lemma turn_all_successes file job_id tileset_name results w :
  all_successes results ->
  leaves
    (try_except
       (ingest_file env file job_id create_tileset tileset_name visualization_type batch_id
          results)
       (on_file_error env file job_id results)) w
    (fun r w' =>
       match r with
       | Returns results' =>
           all_successes results' /\ uploaded_files (app w') = uploaded_files (app w)
       | Raises _ => True
       end).
Proof.
  intros Hall. unfold ingest_file, on_file_error, save_upload, process_netcdf_file.
  cbv zeta. repeat leave_step.
  all: try exact I.
  all: unfold all_successes; cbn.
  all: try (split; [exact Hall | destruct (_ && _); reflexivity]).
  all: split; [|reflexivity]; apply Forall_app; split; [exact Hall|];
    apply Forall_cons; split; [|apply Forall_nil; exact I];
    unfold dict_get;
    rewrite (lookup_union_Some_l _ _ _ (VBool true)) by (lookup_inserts; reflexivity);
    reflexivity.
Qed.

Lemma process_each_all_successes todo i results w :
  all_successes results ->
  leaves
    (process_each env i todo job_ids create_tileset tileset_names visualization_type
       batch_id results) w
    (fun r w' =>
       match r with
       | Returns results' =>
           all_successes results' /\ uploaded_files (app w') = uploaded_files (app w)
       | Raises _ => True
       end).
Proof.
  revert i results w. induction todo as [|file rest IH]; intros i results w Hall;
    cbn [process_each].
  - split; [exact Hall | reflexivity].
  - destruct (job_ids !! i) as [job_id|]; [|exact I].
    apply leaves_bind.
    apply (leaves_mono _ _ _ _ (turn_all_successes file job_id _ results w Hall)).
    intros [results'|msg] w' Hturn; [|exact I]. destruct Hturn as [Hall' Hsame].
    apply (leaves_mono _ _ _ _ (IH (S i) results' w' Hall')).
    intros [results2|msg] w2; [|auto]. intros [Hall2 Hsame2]. split; [exact Hall2|].
    congruence.
Qed.

End Loop.

(** X11. The file database after a batch upload goes by position, not by
    job.  With distinct job ids, one for every file: for each position [k]
    below the number of files that went through, the Uploaded File Record
    is stored under the job id of position [k] of the request, with the
    name and the path of the file of position [k] of the request, and
    with the tileset id of the [k]-th file that went through; the job ids
    of the later positions get no record, whether their files went
    through or not. *)
Theorem X11_file_database_by_position {A : Type} `{ArrayLib A} (env : Env A)
    (todo : list Upload) (job_ids : list string) (create_tileset : bool)
    (tileset_names : option (list string)) (visualization_type batch_id : string)
    (w : World) :
  length todo <= length job_ids ->
  NoDup job_ids ->
  let run :=
    upload_netcdf_batch env todo job_ids create_tileset tileset_names visualization_type
      batch_id in
  exists result,
    outcome run w = Returns result /\
    (forall k job_id file file_result,
       files result !! k = Some file_result ->
       job_ids !! k = Some job_id -> todo !! k = Some file ->
       exists record,
         uploaded_files (app (world_after run w)) !! job_id = Some record /\
         record !! "id" = Some (VStr job_id) /\
         record !! "original_filename" = Some (VStr (filename file)) /\
         record !! "file_path"
           = Some (VStr (UPLOAD_DIR (settings env) ++ "/" ++ job_id ++ "_"
                         ++ filename file)) /\
         record !! "tileset_id" = Some (dict_get file_result "tileset_id")) /\
    (forall k job_id,
       length (files result) <= k -> job_ids !! k = Some job_id ->
       uploaded_files (app (world_after run w)) !! job_id
       = uploaded_files (app w) !! job_id).
Proof.
  intros Hlen Hnodup run.
  destruct (UploadReadFacts.upload_netcdf_batch_runs env todo job_ids create_tileset
              tileset_names visualization_type batch_id w Hlen)
    as (result & w1 & w2 & Hloop & Hrun & Hrecord & Htotal & _).
  assert (Hinv : all_successes result /\ uploaded_files (app w1) = uploaded_files (app w)).
  { unfold process_batch_upload in Hloop.
    pose proof (process_each_all_successes env job_ids create_tileset tileset_names
                  visualization_type (Some batch_id) todo 0
                  (fresh_results (Some batch_id) (length todo))
                  (register_batch batch_id (length todo) w)) as Hinv.
    unfold leaves in Hinv. unfold bind in Hloop.
    destruct (process_each env 0 todo job_ids create_tileset tileset_names
                visualization_type (Some batch_id)
                (fresh_results (Some batch_id) (length todo))
                (register_batch batch_id (length todo) w)) as [[r|msg] w'];
      [|discriminate].
    injection Hloop as <- <-. apply Hinv. constructor. }
  destruct Hinv as [Hall Hsame].
  destruct (record_uploads_positions (files result) 0 todo job_ids
              (UPLOAD_DIR (settings env)) batch_id
              (set_app (set_batch_jobs
                 (insert batch_id (batch_update (new_batch batch_id (length todo)) result)))
                 w1) Hall Hnodup) as [Hthere Helse]; [lia | lia |].
  unfold world_after in Hthere, Helse. rewrite Hrecord in Hthere, Helse.
  cbn [snd] in Hthere, Helse.
  exists result. unfold run, outcome, world_after. rewrite Hrun. cbn [fst snd].
  split; [reflexivity|]. split.
  - intros k job_id file file_result Hk Hjob Hfile.
    apply (Hthere k job_id file file_result Hk Hjob Hfile).
  - intros k job_id Hk Hjob. rewrite Helse.
    + cbn. rewrite Hsame. reflexivity.
    + intros k' Hk' Hjob'.
      assert (k' = k) by (eapply NoDup_lookup; eassumption). lia.
Qed.

Lemma X11_file_database_by_position_witness :
  let after :=
    world_after
      (upload_netcdf_batch first_fails_env two_files two_jobs false None "vector" "b1")
      empty_world in
  (exists record,
     uploaded_files (app after) !! "b1_0_20240101120000" = Some record /\
     record !! "original_filename" = Some (VStr "a.nc") /\
     record !! "tileset_id" = Some (VStr "wxb_b1_1_20240101120000_01011200")) /\
  uploaded_files (app after) !! "b1_1_20240101120000" = None.
Proof.
  cbv zeta.
  destruct (X11_file_database_by_position first_fails_env two_files two_jobs false None
              "vector" "b1" empty_world) as (result & Hout & Hthere & Helse);
    [cbn; lia | by_decide |].
  assert (Hfirst :
            match outcome
                    (upload_netcdf_batch first_fails_env two_files two_jobs false None
                       "vector" "b1") empty_world with
            | Returns r =>
                bool_decide
                  (length (files r) = 1 /\
                   (files r !! 0 ≫= fun e => e !! "tileset_id")
                   = Some (VStr "wxb_b1_1_20240101120000_01011200"))
            | Raises _ => false
            end = true) by (vm_compute; reflexivity).
  rewrite Hout in Hfirst. apply bool_decide_eq_true in Hfirst as [Hlength Htileset].
  destruct (files result) as [|file_result rest] eqn:Hfiles; [discriminate|].
  cbn in Htileset. split.
  - destruct (Hthere 0 "b1_0_20240101120000" (mkUpload "a.nc" "CDF") file_result)
      as (record & Hrecord & _ & Hname & _ & Hid); [reflexivity | reflexivity | reflexivity |].
    exists record. split; [exact Hrecord|]. split; [exact Hname|].
    rewrite Hid. unfold dict_get. rewrite Htileset. reflexivity.
  - rewrite (Helse 1 "b1_1_20240101120000"); [reflexivity | cbn in *; lia | reflexivity].
Defined.

End FileDatabaseFacts.
(** ** Deleting visualizations and batches *)

Module DeleteFacts.
Import PyStr EffectFacts RunFacts Deletes.

(** *** The steps *)

(** The attempt to delete the uploaded file does nothing. *)
Lemma delete_uploaded_file_nothing viz_info w :
  delete_uploaded_file viz_info w = (Returns tt, w).
Proof. reflexivity. Qed.

Lemma forget_job_runs job w :
  forget_job job w =
  (Returns tt,
   set_app (set_uploaded_files (delete job))
     (set_app (set_active_sessions (delete job))
        (set_app (set_active_visualizations (delete job)) w))).
Proof. reflexivity. Qed.

Lemma outside_kept_refl w : outside_kept w w.
Proof. repeat split. Qed.

Lemma outside_kept_app f w : outside_kept w (set_app f w) <->
  active_datasets (f (app w)) = active_datasets (app w).
Proof. unfold outside_kept. cbn. tauto. Qed.

Lemma names_cons file_info rest job :
  names (file_info :: rest) job <->
  (job <> "" /\ file_info !! "job_id" = Some (VStr job)) \/ names rest job.
Proof.
  unfold names. cbn [In]. split.
  - intros (Hjob & e & [<- | Hin] & He); [left; auto | right; eauto].
  - intros [[Hjob He] | (Hjob & e & Hin & He)]; split; eauto.
Qed.

Lemma dict_get_str (d : gmap string val) key s :
  dict_get d key = VStr s <-> d !! key = Some (VStr s).
Proof.
  unfold dict_get. destruct (d !! key) as [v|]; cbn; split; congruence.
Qed.

Lemma size_before_delete {A} (m : gmap string A) i x :
  m !! i = Some x -> size m = S (size (delete i m)).
Proof.
  intros Hi. rewrite <- (insert_delete_id m i x Hi) at 1.
  apply map_size_insert_None, lookup_delete_eq.
Qed.

(** The loop of a batch delete, entry by entry. *)
Lemma delete_entries_runs entries deleted_count w :
  exists n w',
    delete_entries entries deleted_count w = (Returns n, w') /\
    outside_kept w w' /\
    batch_jobs (app w') = batch_jobs (app w) /\
    n + size (active_visualizations (app w'))
      = deleted_count + size (active_visualizations (app w)) /\
    (forall job, names entries job -> active_visualizations (app w') !! job = None) /\
    (forall job, names entries job -> is_Some (active_visualizations (app w) !! job) ->
       active_sessions (app w') !! job = None /\ uploaded_files (app w') !! job = None) /\
    (forall job, ~ names entries job \/ active_visualizations (app w) !! job = None ->
       active_visualizations (app w') !! job = active_visualizations (app w) !! job /\
       active_sessions (app w') !! job = active_sessions (app w) !! job /\
       uploaded_files (app w') !! job = uploaded_files (app w) !! job).
Proof.
  revert deleted_count w. induction entries as [|file_info rest IH]; intros deleted_count w;
    cbn [delete_entries].
  - exists deleted_count, w. split; [reflexivity|]. split; [apply outside_kept_refl|].
    split; [reflexivity|]. split; [reflexivity|].
    split; [intros job (_ & e & [] & _)|]. split; [intros job (_ & e & [] & _)|].
    intros job _. repeat split.
  - unfold bind at 1. unfold gets at 1.
    assert (Hskip :
      (forall job, job <> "" -> file_info !! "job_id" = Some (VStr job) ->
                   active_visualizations (app w) !! job = None) ->
      exists n w',
        delete_entries rest deleted_count w = (Returns n, w') /\
        outside_kept w w' /\
        batch_jobs (app w') = batch_jobs (app w) /\
        n + size (active_visualizations (app w'))
          = deleted_count + size (active_visualizations (app w)) /\
        (forall job, names (file_info :: rest) job ->
           active_visualizations (app w') !! job = None) /\
        (forall job, names (file_info :: rest) job ->
           is_Some (active_visualizations (app w) !! job) ->
           active_sessions (app w') !! job = None /\ uploaded_files (app w') !! job = None) /\
        (forall job, ~ names (file_info :: rest) job
                     \/ active_visualizations (app w) !! job = None ->
           active_visualizations (app w') !! job = active_visualizations (app w) !! job /\
           active_sessions (app w') !! job = active_sessions (app w) !! job /\
           uploaded_files (app w') !! job = uploaded_files (app w) !! job)).
    { intros Habsent.
      destruct (IH deleted_count w) as (n & w' & Hrun & Hout & Hbatch & Hsize & Hviz & Hrest
                                        & Hsame).
      exists n, w'. split; [exact Hrun|]. split; [exact Hout|]. split; [exact Hbatch|].
      split; [exact Hsize|]. split; [|split].
      - intros job Hjob. apply names_cons in Hjob as [[Hne Hhead] | Hnamed];
          [|apply Hviz; exact Hnamed].
        destruct (Hsame job) as (-> & _); [right | ]; apply Habsent; assumption.
      - intros job Hjob [viz Hsome]. apply names_cons in Hjob as [[Hne Hhead] | Hnamed].
        + rewrite (Habsent job Hne Hhead) in Hsome. discriminate.
        + apply Hrest; [exact Hnamed | eexists; exact Hsome].
      - intros job [Hnot | Hnone]; apply Hsame; [left | right; exact Hnone].
        intros Hnamed. apply Hnot, names_cons. right. exact Hnamed. }
    destruct (dict_get file_info "job_id") as [| | |job] eqn:Hid;
      try (apply Hskip; intros job Hne Hjob; apply dict_get_str in Hjob; congruence).
    destruct (truthy (VStr job)) eqn:Htruthy.
    2: { apply Hskip. intros job' Hne Hjob'. apply dict_get_str in Hjob'.
         assert (job' = job) by congruence. subst job'.
         cbn in Htruthy. apply negb_false_iff, String.eqb_eq in Htruthy. contradiction. }
    cbn [table_lookup].
    destruct (active_visualizations (app w) !! job) as [viz_info|] eqn:Hviz_job.
    2: { apply Hskip. intros job' Hne Hjob'. apply dict_get_str in Hjob'.
         assert (job' = job) by congruence. subst job'. exact Hviz_job. }
    unfold bind at 1. rewrite delete_uploaded_file_nothing.
    unfold bind at 1. rewrite forget_job_runs.
    match goal with
    | |- context [delete_entries rest (S deleted_count) ?w1] =>
        destruct (IH (S deleted_count) w1)
          as (n & w' & Hrun & Hout & Hbatch & Hsize & Hviz & Hrest & Hsame)
    end.
    cbn in Hout, Hbatch, Hsize, Hrest, Hsame.
    apply dict_get_str in Hid.
    assert (Hjob_ne : job <> "").
    { cbn in Htruthy. apply negb_true_iff, String.eqb_neq in Htruthy. exact Htruthy. }
    exists n, w'. split; [exact Hrun|]. split; [exact Hout|]. split; [exact Hbatch|].
    split; [rewrite (size_before_delete _ _ _ Hviz_job); lia|].
    assert (Hgone : active_visualizations (app w') !! job = None
                    /\ active_sessions (app w') !! job = None
                    /\ uploaded_files (app w') !! job = None).
    { destruct (Hsame job) as (-> & -> & ->); [right; apply lookup_delete_eq|].
      rewrite !lookup_delete_eq. repeat split. }
    split; [|split].
    + intros j Hj. destruct (decide (j = job)) as [->|Hne]; [apply Hgone|].
      apply Hviz. apply names_cons in Hj as [[_ Hhead] | Hnamed]; [congruence | exact Hnamed].
    + intros j Hj Hsome. destruct (decide (j = job)) as [->|Hne]; [split; apply Hgone|].
      apply Hrest.
      * apply names_cons in Hj as [[_ Hhead] | Hnamed]; [congruence | exact Hnamed].
      * rewrite lookup_delete_ne by congruence. exact Hsome.
    + intros j Hj. destruct (decide (j = job)) as [->|Hne].
      * destruct Hj as [Hnot | Hnone]; [|congruence].
        destruct Hnot. apply names_cons. left. auto.
      * destruct (Hsame j) as (-> & -> & ->).
        { destruct Hj as [Hnot | Hnone]; [left | right].
          - intros Hnamed. apply Hnot, names_cons. right. exact Hnamed.
          - rewrite lookup_delete_ne by congruence. exact Hnone. }
        rewrite !lookup_delete_ne by congruence. repeat split.
Qed.

Lemma delete_visualization_runs job_id w :
  delete_visualization job_id w =
  match active_visualizations (app w) !! job_id with
  | None => (Returns (HTTPException 404 "Visualization not found"), w)
  | Some _ =>
      (Returns (Ok (<["success" := VBool true]>
                      (<["message" := VStr "Visualization deleted"]> ∅))),
       set_app (set_uploaded_files (delete job_id))
         (set_app (set_active_sessions (delete job_id))
            (set_app (set_active_visualizations (delete job_id)) w)))
  end.
Proof.
  unfold delete_visualization, bind at 1, gets at 1.
  destruct (active_visualizations (app w) !! job_id); reflexivity.
Qed.

Lemma delete_batch_runs batch_id w :
  delete_batch batch_id w =
  match batch_jobs (app w) !! batch_id with
  | None => (Returns (HTTPException 404 "Batch not found"), w)
  | Some batch_info =>
      match delete_entries (b_files batch_info) 0 w with
      | (Returns deleted_count, w') =>
          (Returns (Ok (<["success" := VBool true]>
                          (<["message" := VStr ("Batch deleted. Removed "
                                                ++ str_nat deleted_count
                                                ++ " visualizations.")]>
                             (<["deleted_count" := VInt (Z.of_nat deleted_count)]> ∅)))),
           set_app (set_batch_jobs (delete batch_id)) w')
      | (Raises msg, w') => (Raises msg, w')
      end
  end.
Proof.
  unfold delete_batch, bind at 1, gets at 1.
  destruct (batch_jobs (app w) !! batch_id) as [batch_info|]; [|reflexivity].
  unfold bind at 1.
  destruct (delete_entries (b_files batch_info) 0 w) as [[n|msg] w']; reflexivity.
Qed.

(** X12. Deleting a visualization or a batch removes no file.  On every
    path the disk is as it was before, the uploaded file of every deleted
    Visualization Record included; the sidecars, the scheduled tasks, the
    log of remote calls and the datasets are as before too. *)
Theorem X12_deletes_leave_the_files job_id batch_id w :
  outside_kept w (world_after (delete_visualization job_id) w) /\
  outside_kept w (world_after (delete_batch batch_id) w).
Proof.
  unfold world_after. split.
  - rewrite delete_visualization_runs.
    destruct (active_visualizations (app w) !! job_id); repeat split.
  - rewrite delete_batch_runs.
    destruct (batch_jobs (app w) !! batch_id) as [batch_info|]; [|repeat split].
    destruct (delete_entries_runs (b_files batch_info) 0 w)
      as (n & w' & -> & Hout & _). exact Hout.
Qed.

(** X13. What a batch delete removes and counts.  For a batch that is
    there: the Batch Record is removed and a second delete answers 404;
    every job that an entry names (by a job id that is a string and not
    empty) has no Visualization Record afterwards, and if it had one, no
    session and no Uploaded File Record either; a job that no entry names,
    or that had no Visualization Record, keeps all three as they were;
    and the count answered is the number of Visualization Records
    removed, so a job named twice counts once. *)
Theorem X13_delete_batch_removes batch_id w batch_info :
  batch_jobs (app w) !! batch_id = Some batch_info ->
  let run := delete_batch batch_id in
  let w' := world_after run w in
  let named := names (b_files batch_info) in
  exists deleted_count,
    outcome run w
    = Returns (Ok (<["success" := VBool true]>
                     (<["message" := VStr ("Batch deleted. Removed " ++ str_nat deleted_count
                                           ++ " visualizations.")]>
                        (<["deleted_count" := VInt (Z.of_nat deleted_count)]> ∅)))) /\
    deleted_count + size (active_visualizations (app w'))
      = size (active_visualizations (app w)) /\
    batch_jobs (app w') = delete batch_id (batch_jobs (app w)) /\
    outcome run w' = Returns (HTTPException 404 "Batch not found") /\
    (forall job, named job -> active_visualizations (app w') !! job = None) /\
    (forall job, named job -> is_Some (active_visualizations (app w) !! job) ->
       active_sessions (app w') !! job = None /\ uploaded_files (app w') !! job = None) /\
    (forall job, ~ named job \/ active_visualizations (app w) !! job = None ->
       active_visualizations (app w') !! job = active_visualizations (app w) !! job /\
       active_sessions (app w') !! job = active_sessions (app w) !! job /\
       uploaded_files (app w') !! job = uploaded_files (app w) !! job).
Proof.
  intros Hbatch run w' named. subst run w' named. unfold outcome, world_after.
  rewrite !delete_batch_runs, Hbatch.
  destruct (delete_entries_runs (b_files batch_info) 0 w)
    as (n & w1 & -> & _ & Hbatches & Hsize & Hviz & Hrest & Hsame).
  cbn [fst snd]. exists n. split; [reflexivity|]. split; [exact Hsize|].
  split; [cbn; rewrite Hbatches; reflexivity|]. split.
  { cbn. rewrite lookup_delete_eq. reflexivity. }
  split; [exact Hviz|]. split; [exact Hrest | exact Hsame].
Qed.

Lemma X13_delete_batch_removes_witness :
  let w' := world_after (delete_batch "b") two_job_batch in
  outcome (delete_batch "b") two_job_batch
  = Returns (Ok (<["success" := VBool true]>
                   (<["message" := VStr "Batch deleted. Removed 2 visualizations."]>
                      (<["deleted_count" := VInt 2]> ∅)))) /\
  active_visualizations (app w') !! "j1" = None /\
  uploaded_files (app w') !! "j0" = None /\
  is_Some (uploaded_files (app w') !! "j9").
Proof.
  cbv zeta.
  destruct (X13_delete_batch_removes "b" two_job_batch
              (mkBatch ∅ [<["job_id" := VStr "j0"]> ∅; <["job_id" := VStr "j1"]> ∅;
                          <["job_id" := VStr "j0"]> ∅; <["job_id" := VStr "gone"]> ∅] []))
    as (n & Hout & Hsize & _ & _ & Hviz & Hrest & Hsame); [by_decide|].
  assert (Hn : n = 2).
  { assert (Hcount : match outcome (delete_batch "b") two_job_batch with
                     | Returns (Ok body) => body !! "deleted_count"
                     | _ => None
                     end = Some (VInt 2)) by (vm_compute; reflexivity).
    rewrite Hout in Hcount. rewrite lookup_insert_ne in Hcount by discriminate.
    rewrite lookup_insert_ne in Hcount by discriminate.
    rewrite lookup_insert_eq in Hcount. injection Hcount as Hcount. lia. }
  subst n. split; [exact Hout|]. split; [|split].
  - apply Hviz. split; [discriminate|]. eexists. split; [right; left; reflexivity|].
    reflexivity.
  - apply Hrest; [|by_decide]. split; [discriminate|]. eexists.
    split; [left; reflexivity | reflexivity].
  - destruct (Hsame "j9") as (_ & _ & ->); [|by_decide].
    left. intros (_ & e & Hin & He).
    cbn in Hin. destruct Hin as [<- | [<- | [<- | [<- | []]]]]; discriminate.
Defined.

(** *** A batch after one of its visualizations is deleted *)

Lemma derive_status_cases completed failed processing total :
  let status := Batch.derive_status completed failed processing total in
  status = "processing" \/ status = "failed" \/ status = "completed" \/ status = "partial".
Proof.
  cbv zeta. unfold Batch.derive_status.
  destruct (0 <? processing)%nat; [auto|].
  destruct (failed =? total)%nat; [auto|].
  destruct (completed =? total)%nat; auto.
Qed.

(** X14. Deleting the visualization of a job leaves the batches as they
    are, the entry of the job included; from then on the read of a batch
    with such an entry answers processing or partial, never completed and
    never failed, whatever the other jobs of the batch have come to. *)
Theorem X14_batch_after_deleted_visualization job_id batch_id w batch_info file_info :
  is_Some (active_visualizations (app w) !! job_id) ->
  batch_jobs (app w) !! batch_id = Some batch_info ->
  In file_info (b_files batch_info) ->
  file_info !! "job_id" = Some (VStr job_id) ->
  let w' := world_after (delete_visualization job_id) w in
  batch_jobs (app w') = batch_jobs (app w) /\
  exists b,
    fst (Batch.get_batch_status batch_id (app w')) = Ok b /\
    b_files b = b_files batch_info /\
    (b_fields b !! "status" = Some (VStr "processing") \/
     b_fields b !! "status" = Some (VStr "partial")).
Proof.
  intros [viz Hviz] Hbatch Hin Hjob. cbv zeta. unfold world_after.
  rewrite delete_visualization_runs, Hviz. cbn [snd]. split; [reflexivity|].
  match goal with
  | |- context [Batch.get_batch_status batch_id ?st] =>
      pose proof (BatchReadFacts.get_batch_status_found batch_id st batch_info Hbatch)
        as Hread;
      set (vis := active_visualizations st) in *
  end.
  cbv zeta in Hread. rewrite Hread. cbn [fst]. eexists. split; [reflexivity|].
  cbn [b_files b_fields]. split; [reflexivity|].
  rewrite !lookup_insert_ne by discriminate. rewrite lookup_insert_eq.
  destruct (BatchReadFacts.derive_status_reading vis (b_files batch_info))
    as (_ & Hfailed & Hcompleted & _).
  assert (Hnone : forall status, ~ Forall (BatchRead.has_status vis status) (b_files batch_info)).
  { intros status Hall. rewrite List.Forall_forall in Hall. specialize (Hall file_info Hin).
    unfold BatchRead.has_status, Batch.file_status, dict_get in Hall. rewrite Hjob in Hall.
    cbn in Hall. unfold vis in Hall. cbn in Hall. rewrite lookup_delete_eq in Hall.
    discriminate. }
  match goal with
  | |- context [Batch.derive_status ?c ?f ?p ?t] =>
      destruct (derive_status_cases c f p t) as [Hs | [Hs | [Hs | Hs]]]
  end.
  - left. rewrite Hs. reflexivity.
  - apply Hfailed in Hs. destruct (Hnone _ Hs).
  - apply Hcompleted in Hs as [_ Hs]. destruct (Hnone _ Hs).
  - right. rewrite Hs. reflexivity.
Qed.

Lemma X14_batch_after_deleted_visualization_witness :
  exists b,
    fst (Batch.get_batch_status "b"
           (app (world_after (delete_visualization "j1")
                   (mkWorld (Batch.three_files "completed" "completed" "completed")
                      ∅ ∅ [] [])))) = Ok b /\
    (b_fields b !! "status" = Some (VStr "processing") \/
     b_fields b !! "status" = Some (VStr "partial")).
Proof.
  destruct (X14_batch_after_deleted_visualization "j1" "b"
              (mkWorld (Batch.three_files "completed" "completed" "completed") ∅ ∅ [] [])
              (mkBatch (<["status" := VStr "processing"]> ∅)
                 [Batch.entry "j0"; Batch.entry "j1"; Batch.entry "j2"] [])
              (Batch.entry "j1"))
    as (_ & b & Hread & _ & Hstatus);
    [by_decide | by_decide | right; left; reflexivity | by_decide |].
  exists b. split; [exact Hread | exact Hstatus].
Defined.

End DeleteFacts.
(** ** Deleting a list of files *)

Module DeleteFilesFacts.
Import PyStr Files Deletes.

(** One call of the cleanup: it removes the three records of the file, or
    it leaves the world as it is. *)
Lemma cleanup_step denied file_id w :
  match delete_file_and_cleanup denied file_id w with
  | (Returns true, w') =>
      is_Some (uploaded_files (app w) !! file_id) /\
      active_visualizations (app w') = delete file_id (active_visualizations (app w)) /\
      active_sessions (app w') = delete file_id (active_sessions (app w)) /\
      uploaded_files (app w') = delete file_id (uploaded_files (app w))
  | (_, w') => w' = w
  end.
Proof.
  unfold delete_file_and_cleanup.
  destruct (uploaded_files (app w) !! file_id) as [file_info|] eqn:Hfile; [|reflexivity].
  destruct (file_info !! "file_path") as [[| | |file_path]|]; try reflexivity.
  destruct (_ && _); [reflexivity|].
  cbn. repeat split. eexists. reflexivity.
Qed.

Lemma cleanup_not_found denied file_id w :
  uploaded_files (app w) !! file_id = None ->
  delete_file_and_cleanup denied file_id w = (Returns false, w).
Proof. intros Hnone. unfold delete_file_and_cleanup. rewrite Hnone. reflexivity. Qed.

Lemma delete_each_runs denied file_ids deleted errors w :
  exists more_deleted more_errors w',
    delete_each denied file_ids deleted errors w
    = ((deleted ++ more_deleted)%list, (errors ++ more_errors)%list, w') /\
    length more_deleted + length more_errors = length file_ids /\
    NoDup more_deleted /\
    (forall file_id, In file_id more_deleted ->
       In file_id file_ids /\ is_Some (uploaded_files (app w) !! file_id)
       /\ removed file_id w') /\
    (forall file_id, uploaded_files (app w) !! file_id = None ->
       uploaded_files (app w') !! file_id = None) /\
    (forall file_id, removed file_id w -> removed file_id w') /\
    (forall file_id, In file_id file_ids -> uploaded_files (app w) !! file_id = None ->
       In (not_found file_id) more_errors) /\
    (forall file_id, ~ In file_id file_ids ->
       uploaded_files (app w') !! file_id = uploaded_files (app w) !! file_id /\
       active_visualizations (app w') !! file_id
         = active_visualizations (app w) !! file_id /\
       active_sessions (app w') !! file_id = active_sessions (app w) !! file_id).
Proof.
  revert deleted errors w. induction file_ids as [|file_id rest IH]; intros deleted errors w;
    cbn [delete_each].
  - exists [], [], w. rewrite !app_nil_r. split; [reflexivity|]. split; [reflexivity|].
    split; [constructor|]. split; [intros file_id []|].
    split; [auto|]. split; [auto|]. split; [intros file_id []|]. intros file_id _. auto.
  - pose proof (cleanup_step denied file_id w) as Hstep.
    destruct (delete_file_and_cleanup denied file_id w) as [[[|]|e] w1] eqn:Hcall.
    + destruct Hstep as (Hthere & Hviz & Hsessions & Huploaded).
      destruct (IH (deleted ++ [file_id])%list errors w1)
        as (d & e & w' & Hrun & Hlen & Hnodup & Hdeleted & Hnone & Hremoved & Hfound & Hother).
      assert (Hgone : removed file_id w1).
      { unfold removed. rewrite Hviz, Hsessions, Huploaded, !lookup_delete_eq. auto. }
      exists (file_id :: d), e, w'. rewrite <- app_assoc in Hrun.
      split; [exact Hrun|]. split; [cbn; lia|]. split; [|split; [|split; [|split; [|split]]]].
      * apply NoDup_cons. split; [|exact Hnodup]. intros Hin.
        apply list_elem_of_In in Hin.
        destruct (Hdeleted file_id Hin) as (_ & [x Hx] & _).
        destruct Hgone as [Hgone _]. congruence.
      * intros x [<- | Hin].
        -- split; [left; reflexivity|]. split; [exact Hthere | apply Hremoved, Hgone].
        -- destruct (Hdeleted x Hin) as (Hrest & [y Hy] & Hx).
           split; [right; exact Hrest|]. split; [|exact Hx].
           rewrite Huploaded in Hy. destruct (decide (file_id = x)) as [->|Hne].
           ++ rewrite lookup_delete_eq in Hy. discriminate.
           ++ rewrite lookup_delete_ne in Hy by exact Hne. eexists. exact Hy.
      * intros x Hx. apply Hnone. rewrite Huploaded.
        destruct (decide (file_id = x)) as [->|Hne];
          [apply lookup_delete_eq | rewrite lookup_delete_ne by exact Hne; exact Hx].
      * intros x (Hu & Hv & Hs). apply Hremoved. unfold removed.
        rewrite Hviz, Hsessions, Huploaded.
        destruct (decide (file_id = x)) as [->|Hne];
          [rewrite !lookup_delete_eq | rewrite !lookup_delete_ne by exact Hne]; auto.
      * intros x [<- | Hin] Hx; [destruct Hthere as [y Hy]; congruence|].
        apply Hfound; [exact Hin|]. rewrite Huploaded.
        destruct (decide (file_id = x)) as [->|Hne];
          [apply lookup_delete_eq | rewrite lookup_delete_ne by exact Hne; exact Hx].
      * intros x Hx. cbn [In] in Hx.
        destruct (Hother x) as (-> & -> & ->); [tauto|].
        rewrite Hviz, Hsessions, Huploaded, !lookup_delete_ne by tauto. auto.
    + subst w1.
      destruct (IH deleted (errors ++ [not_found file_id])%list w)
        as (d & e & w' & Hrun & Hlen & Hnodup & Hdeleted & Hnone & Hremoved & Hfound & Hother).
      eexists d, (_ :: e), w'. rewrite <- app_assoc in Hrun.
      split; [exact Hrun|]. split; [cbn; lia|]. split; [exact Hnodup|].
      split; [|split; [exact Hnone|split; [exact Hremoved|split]]].
      * intros x Hin. destruct (Hdeleted x Hin) as (? & ? & ?). cbn [In]. auto.
      * intros x [<- | Hin] Hx; [left; reflexivity | right; apply Hfound; assumption].
      * intros x Hx. apply Hother. cbn [In] in Hx. tauto.
    + subst w1.
      destruct (IH deleted
                  (errors ++ [<["file_id" := VStr file_id]> (<["error" := VStr e]> ∅)])%list
                  w)
        as (d & e' & w' & Hrun & Hlen & Hnodup & Hdeleted & Hnone & Hremoved & Hfound & Hother).
      eexists d, (_ :: e'), w'. rewrite <- app_assoc in Hrun.
      split; [exact Hrun|]. split; [cbn; lia|]. split; [exact Hnodup|].
      split; [|split; [exact Hnone|split; [exact Hremoved|split]]].
      * intros x Hin. destruct (Hdeleted x Hin) as (? & ? & ?). cbn [In]. auto.
      * intros x [<- | Hin] Hx; [|right; apply Hfound; assumption].
        rewrite (cleanup_not_found denied file_id w Hx) in Hcall. discriminate.
      * intros x Hx. apply Hother. cbn [In] in Hx. tauto.
Qed.

(** X15. Deleting a list of files.  Every id of the list ends in exactly
    one of the two lists of the answer; success says that some file was
    deleted; no id is deleted twice (a repeated id is reported as not
    found); a deleted id was in the list and in the file database, and
    afterwards has no Uploaded File Record, no Visualization Record and no
    session; an id of the list that is not in the file database is
    reported with the error File not found; and the records of the ids
    that are not in the list are untouched. *)
Theorem X15_delete_files_batch_partition denied file_ids w :
  let response := fst (delete_files_batch denied file_ids w) in
  let w' := snd (delete_files_batch denied file_ids w) in
  length (deleted response) + length (errors response) = length file_ids /\
  (success response = true <-> deleted response <> []) /\
  NoDup (deleted response) /\
  (forall file_id, In file_id (deleted response) ->
     In file_id file_ids /\ is_Some (uploaded_files (app w) !! file_id)
     /\ removed file_id w') /\
  (forall file_id, In file_id file_ids -> uploaded_files (app w) !! file_id = None ->
     In (not_found file_id) (errors response)) /\
  (forall file_id, ~ In file_id file_ids ->
     uploaded_files (app w') !! file_id = uploaded_files (app w) !! file_id /\
     active_visualizations (app w') !! file_id = active_visualizations (app w) !! file_id /\
     active_sessions (app w') !! file_id = active_sessions (app w) !! file_id).
Proof.
  cbv zeta. unfold delete_files_batch.
  destruct (delete_each_runs denied file_ids [] [] w)
    as (d & e & w' & -> & Hlen & Hnodup & Hdeleted & _ & _ & Hfound & Hother).
  cbn [fst snd deleted errors success app]. split; [exact Hlen|]. split.
  { destruct d; cbn; split; congruence. }
  split; [exact Hnodup|]. split; [exact Hdeleted|]. split; [exact Hfound | exact Hother].
Qed.

Lemma X15_delete_files_batch_partition_witness :
  removed "j0" (snd (delete_files_batch ∅ ["j0"; "zz"; "j0"] two_job_batch)) /\
  In (not_found "zz") (errors (fst (delete_files_batch ∅ ["j0"; "zz"; "j0"] two_job_batch))).
Proof.
  destruct (X15_delete_files_batch_partition ∅ ["j0"; "zz"; "j0"] two_job_batch)
    as (_ & _ & _ & Hdeleted & Hfound & _).
  split.
  - apply Hdeleted. vm_compute. left. reflexivity.
  - apply Hfound; [right; left; reflexivity | by_decide].
Defined.

End DeleteFilesFacts.
(** ** Sidecars: writing, looking up, deleting *)

Module RecipeFacts.
Import PyStr Files Recipes Orchestrator.

(** *** Strings *)

Lemma chars_app a b : chars (a ++ b) = (chars a ++ chars b)%list.
Proof.
  unfold chars. induction a as [|c a IH]; [reflexivity|].
  change (c :: list_ascii_of_string (a ++ b)
          = c :: (list_ascii_of_string a ++ list_ascii_of_string b)%list).
  f_equal. exact IH.
Qed.

Lemma split_on_nonempty sep s : split_on sep s <> [].
Proof.
  induction s as [|c s IH]; cbn [split_on]; [discriminate|].
  destruct (Ascii.eqb c sep); [discriminate|]. destruct (split_on sep s); discriminate.
Qed.

(** Splitting at a separator splits the list of parts. *)
Lemma split_on_app_sep sep a b :
  split_on sep (a ++ sep :: b) = (split_on sep a ++ split_on sep b)%list.
Proof.
  induction a as [|c a IH]; rewrite ?app_nil_l, <- ?app_comm_cons; cbn [split_on].
  - rewrite Ascii.eqb_refl. reflexivity.
  - destruct (Ascii.eqb c sep); [rewrite IH; reflexivity|]. rewrite IH.
    pose proof (split_on_nonempty sep a) as Hne.
    destruct (split_on sep a) as [|p ps]; [contradiction | reflexivity].
Qed.

Lemma is_sub_prefix p s : is_prefix p s = true -> is_sub p s = true.
Proof. intros H. destruct s; cbn [is_sub]; rewrite H; reflexivity. Qed.

Lemma is_sub_here p rest : is_sub p (p ++ rest) = true.
Proof.
  apply is_sub_prefix. apply (proj2 (FileNameFacts.is_prefix_app p (p ++ rest))).
  exists rest. reflexivity.
Qed.

Lemma is_sub_refl p : is_sub p p = true.
Proof. rewrite <- (app_nil_r p) at 2. apply is_sub_here. Qed.

Lemma is_sub_app before p rest : is_sub p (before ++ p ++ rest) = true.
Proof.
  induction before as [|c before IH]; [rewrite app_nil_l; apply is_sub_here|].
  rewrite <- app_comm_cons. cbn [is_sub]. rewrite IH. apply orb_true_r.
Qed.

Lemma is_sub_inside p s : is_sub p s = true <-> exists before rest, s = (before ++ p ++ rest)%list.
Proof.
  split; [|intros (before & rest & ->); apply is_sub_app].
  induction s as [|c s IH]; cbn [is_sub]; rewrite orb_true_iff.
  - intros [Hp | Hf]; [|discriminate].
    apply FileNameFacts.is_prefix_app in Hp as [rest Hrest]. exists [], rest. exact Hrest.
  - intros [Hp | Hs].
    + apply FileNameFacts.is_prefix_app in Hp as [rest Hrest]. exists [], rest. exact Hrest.
    + destruct (IH Hs) as (before & rest & ->). exists (c :: before), rest. reflexivity.
Qed.

(** The sidecar of a tileset is found by the glob for any part of its
    id. *)
Lemma glob_finds_containing id tileset_id :
  is_sub (chars id) (chars tileset_id) = true ->
  glob_id_json id (recipe_name tileset_id) = true.
Proof.
  intros Hsub. unfold glob_id_json, recipe_name. rewrite !chars_app.
  apply andb_true_iff. split.
  - apply FileNameFacts.ends_with_app. exists (chars "recipe_" ++ chars tileset_id)%list.
    rewrite <- app_assoc. reflexivity.
  - rewrite !length_app. change (length (chars ".json")) with 5.
    replace (length (chars "recipe_") + (length (chars tileset_id) + 5) - 5)
      with (length (chars "recipe_" ++ chars tileset_id)%list) by (rewrite length_app; lia).
    rewrite app_assoc, firstn_app, Nat.sub_diag, firstn_all. cbn [firstn]. rewrite app_nil_r.
    apply is_sub_inside in Hsub as (before & rest & ->).
    rewrite app_assoc. apply is_sub_app.
Qed.

Lemma short_id_of_remote username tileset_id :
  ~ In "."%char (chars tileset_id) ->
  short_id (username ++ "." ++ tileset_id) = tileset_id.
Proof.
  intros Hdot. unfold short_id.
  assert (Hchars : chars (username ++ "." ++ tileset_id)
                   = (chars username ++ "."%char :: chars tileset_id)%list).
  { rewrite chars_app. reflexivity. }
  replace (contains "." (username ++ "." ++ tileset_id)) with true.
  - rewrite Hchars, split_on_app_sep, (FileNameFacts.split_on_absent _ _ Hdot).
    rewrite last_snoc. cbn. unfold str. apply string_of_list_ascii_of_string.
  - symmetry. unfold contains. rewrite Hchars.
    apply (is_sub_app (chars username) ["."%char] (chars tileset_id)).
Qed.

(** *** The first file the glob finds *)

Lemma first_match {A} (f : A -> bool) (l : list A) x :
  In x l -> f x = true ->
  exists y rest, List.filter f l = y :: rest /\ In y l /\ f y = true.
Proof.
  intros Hin Hx.
  destruct (List.filter f l) as [|y rest] eqn:Hfilter.
  - assert (Hfx : In x (List.filter f l)) by (apply filter_In; auto).
    rewrite Hfilter in Hfx. destruct Hfx.
  - assert (Hy : In y (List.filter f l)) by (rewrite Hfilter; left; reflexivity).
    apply filter_In in Hy as [Hy Hfy]. eauto.
Qed.

Ltac lookup_inserts :=
  repeat first [rewrite lookup_insert_eq | rewrite lookup_insert_ne by discriminate].

(** The sidecar that is written. *)
Lemma save_recipe_info_saves c tileset_id result viz_info w mapbox_tileset :
  result !! "tileset_id" = Some mapbox_tileset ->
  recipe_write_fails c (recipe_name tileset_id) = false ->
  exists data,
    recipes (world_after (save_recipe_info c tileset_id result viz_info) w)
      = <[recipe_name tileset_id := data]> (recipes w) /\
    data !! "tileset_id" = Some (VStr tileset_id) /\
    data !! "mapbox_tileset" = Some mapbox_tileset /\
    data !! "requested_format"
      = Some (dict_get_or viz_info "requested_format" (VStr "vector")) /\
    data !! "format" = data !! "actual_format" /\
    (data !! "is_raster_array" = Some (VBool true) <->
     data !! "format" = Some (VStr "raster-array")).
Proof.
  intros Hremote Hwrite.
  unfold world_after, save_recipe_info, bind, item. rewrite Hremote.
  unfold ret. fold (recipe_name tileset_id). rewrite Hwrite. unfold modify. cbn [snd].
  eexists. split; [reflexivity|].
  repeat split; lookup_inserts; try reflexivity.
  - intros [= Hflag]. f_equal.
    apply (proj1 (BatchReadFacts.py_eq_str _ _)). exact Hflag.
  - intros [= ->]. reflexivity.
Qed.

(** X16. From the publication of a tileset to its lookup.  When the
    sidecar of a tileset is written (the remote result carries the remote
    tileset id, the write goes through), the id has no dot, and no other
    sidecar of the directory has the id in its name, the lookup by the
    remote id, whatever the username before the dot, finds the sidecar:
    with the tileset id, the remote id, the same value under format and
    actual_format, the requested format of the Visualization Record, and
    is_raster_array telling whether the format is raster-array. *)
Theorem X16_recipe_round_trip c tileset_id result viz_info w listing unreadable username
    mapbox_tileset :
  plain_id tileset_id ->
  ~ In "."%char (chars tileset_id) ->
  result !! "tileset_id" = Some mapbox_tileset ->
  recipe_write_fails c (recipe_name tileset_id) = false ->
  let w' := world_after (save_recipe_info c tileset_id result viz_info) w in
  lists listing w' ->
  recipe_name tileset_id ∉ unreadable ->
  (forall name, is_Some (recipes w !! name) -> glob_id_json tileset_id name = true ->
                name = recipe_name tileset_id) ->
  exists data,
    get_recipe_info listing unreadable (username ++ "." ++ tileset_id) w' = Some data /\
    data !! "tileset_id" = Some (VStr tileset_id) /\
    data !! "mapbox_tileset" = Some mapbox_tileset /\
    data !! "requested_format"
      = Some (dict_get_or viz_info "requested_format" (VStr "vector")) /\
    data !! "format" = data !! "actual_format" /\
    (data !! "is_raster_array" = Some (VBool true) <->
     data !! "format" = Some (VStr "raster-array")).
Proof.
  intros _ Hdot Hremote Hwrite w' [_ Hlisting] Hreadable Hunique.
  destruct (save_recipe_info_saves c tileset_id result viz_info w mapbox_tileset Hremote
              Hwrite) as (data & Hrecipes & Hfields).
  fold w' in Hrecipes.
  exists data. split; [|exact Hfields].
  unfold get_recipe_info. rewrite (short_id_of_remote username tileset_id Hdot).
  unfold glob_recipes.
  destruct (first_match (glob_id_json tileset_id) listing (recipe_name tileset_id))
    as (name & rest & -> & Hin & Hglob).
  { apply Hlisting. rewrite Hrecipes, lookup_insert_eq. eexists. reflexivity. }
  { apply glob_finds_containing, is_sub_refl. }
  assert (Hname : name = recipe_name tileset_id).
  { apply Hlisting in Hin. rewrite Hrecipes in Hin.
    destruct (decide (name = recipe_name tileset_id)) as [Heq|Hne]; [exact Heq|].
    rewrite lookup_insert_ne in Hin by congruence. apply Hunique; assumption. }
  subst name. rewrite bool_decide_eq_false_2 by exact Hreadable.
  rewrite Hrecipes. apply lookup_insert_eq.
Qed.

Lemma X16_recipe_round_trip_witness :
  exists data,
    get_recipe_info ["recipe_wx_wind_01011200.json"] ∅ "weather.wx_wind_01011200"
      (world_after
         (save_recipe_info tier_limited_remote "wx_wind_01011200"
            (<["success" := VBool true]>
               (<["tileset_id" := VStr "weather.wx_wind_01011200"]> ∅)) ∅)
         empty_world) = Some data /\
    data !! "mapbox_tileset" = Some (VStr "weather.wx_wind_01011200").
Proof.
  destruct (X16_recipe_round_trip tier_limited_remote "wx_wind_01011200"
              (<["success" := VBool true]>
                 (<["tileset_id" := VStr "weather.wx_wind_01011200"]> ∅)) ∅
              empty_world ["recipe_wx_wind_01011200.json"] ∅ "weather"
              (VStr "weather.wx_wind_01011200"))
    as (data & Hget & _ & Hremote & _).
  - split; [discriminate|]. apply Forall_forall. intros ch Hch.
    apply list_elem_of_In in Hch. vm_compute in Hch.
    repeat (destruct Hch as [<- | Hch]; [reflexivity|]). destruct Hch.
  - intros Hin. apply WindPatternFacts.is_sub_char in Hin. vm_compute in Hin. discriminate.
  - by_decide.
  - reflexivity.
  - split; [apply NoDup_singleton|]. intros name. split.
    + intros [<- | []]. by_decide.
    + intros [data Hdata]. left.
      destruct (decide ("recipe_wx_wind_01011200.json" = name)) as [Heq|Hne]; [exact Heq|].
      destruct (save_recipe_info_saves tier_limited_remote "wx_wind_01011200"
                  (<["success" := VBool true]>
                     (<["tileset_id" := VStr "weather.wx_wind_01011200"]> ∅)) ∅
                  empty_world (VStr "weather.wx_wind_01011200"))
        as (saved & Hsaved & _); [by_decide | reflexivity |].
      rewrite Hsaved in Hdata. rewrite lookup_insert_ne in Hdata by exact Hne.
      discriminate.
  - apply not_elem_of_empty.
  - intros name [data Hdata]. cbn in Hdata. discriminate.
  - exists data. split; [exact Hget | exact Hremote].
Defined.

(** *** Deleting sidecars *)

Lemma unlink_each_runs denied recipe_files deleted w :
  let flag := fst (unlink_each denied recipe_files deleted w) in
  let w' := snd (unlink_each denied recipe_files deleted w) in
  app w' = app w /\ disk w' = disk w /\
  (forall name, In name recipe_files -> name ∉ denied -> recipes w' !! name = None) /\
  (forall name, ~ In name recipe_files \/ name ∈ denied ->
     recipes w' !! name = recipes w !! name) /\
  (forall name, recipes w !! name = None -> recipes w' !! name = None) /\
  (flag = true <->
   deleted = true \/
   exists name, In name recipe_files /\ (name ∉ denied) /\ is_Some (recipes w !! name)).
Proof.
  cbv zeta. revert deleted w.
  induction recipe_files as [|recipe_file rest IH]; intros deleted w; cbn [unlink_each fst snd].
  - split; [reflexivity|]. split; [reflexivity|]. split; [intros name []|].
    split; [reflexivity|]. split; [auto|].
    split; [intros H; left; exact H | intros [H | (name & [] & _)]; exact H].
  - destruct (bool_decide (recipe_file ∈ denied)) eqn:Hdenied; cbn [orb].
    + apply bool_decide_eq_true in Hdenied.
      destruct (IH deleted w) as (Happ & Hdisk & Hgone & Hkept & Hnone & Hflag).
      split; [exact Happ|]. split; [exact Hdisk|]. split; [|split; [|split]].
      * intros name [<- | Hin] Hfree; [contradiction | apply Hgone; assumption].
      * intros name [Hout | Hin]; apply Hkept; [left | right; exact Hin].
        intros Hrest. apply Hout. right. exact Hrest.
      * exact Hnone.
      * rewrite Hflag. split; intros [H | (name & Hin & Hfree & Hthere)]; auto.
        -- right. exists name. split; [right; exact Hin | auto].
        -- right. destruct Hin as [<- | Hin]; [contradiction|]. eauto.
    + apply bool_decide_eq_false in Hdenied.
      destruct (bool_decide (is_Some (recipes w !! recipe_file))) eqn:Hthere; cbn [negb].
      * apply bool_decide_eq_true in Hthere.
        destruct (IH true (set_recipes (delete recipe_file) w))
          as (Happ & Hdisk & Hgone & Hkept & Hnone & Hflag).
        cbn in Happ, Hdisk, Hkept, Hnone.
        split; [exact Happ|]. split; [exact Hdisk|]. split; [|split; [|split]].
        -- intros name [<- | Hin] Hfree; [|apply Hgone; assumption].
           apply Hnone, lookup_delete_eq.
        -- intros name Hname.
           assert (Hne : recipe_file <> name).
           { intros ->. destruct Hname as [Hout | Hin]; [|contradiction].
             apply Hout. left. reflexivity. }
           rewrite Hkept, lookup_delete_ne by (try exact Hne; cbn [In] in Hname; tauto).
           reflexivity.
        -- intros name Hname. apply Hnone.
           destruct (decide (recipe_file = name)) as [->|Hne];
             [apply lookup_delete_eq | rewrite lookup_delete_ne by exact Hne; exact Hname].
        -- rewrite Hflag. split; [intros _ | intros _; left; reflexivity].
           right. exists recipe_file. split; [left; reflexivity | auto].
      * apply bool_decide_eq_false in Hthere.
        destruct (IH deleted w) as (Happ & Hdisk & Hgone & Hkept & Hnone & Hflag).
        split; [exact Happ|]. split; [exact Hdisk|]. split; [|split; [|split]].
        -- intros name [<- | Hin] Hfree; [|apply Hgone; assumption].
           apply Hnone. destruct (recipes w !! recipe_file) eqn:Hr; [|reflexivity].
           destruct Hthere. eexists. reflexivity.
        -- intros name [Hout | Hin]; apply Hkept; [left | right; exact Hin].
           intros Hrest. apply Hout. right. exact Hrest.
        -- exact Hnone.
        -- rewrite Hflag. split; intros [H | (name & Hin & Hfree & Hsome)]; auto.
           ++ right. exists name. split; [right; exact Hin | auto].
           ++ right. destruct Hin as [<- | Hin]; [contradiction|]. eauto.
Qed.

Lemma short_id_plain tileset_id :
  ~ In "."%char (chars tileset_id) -> short_id tileset_id = tileset_id.
Proof.
  intros Hdot. unfold short_id, contains.
  destruct (is_sub (chars ".") (chars tileset_id)) eqn:Hsub; [|reflexivity].
  destruct Hdot. apply WindPatternFacts.is_sub_char. exact Hsub.
Qed.

(** X17. Deleting the sidecars of a tileset id.  Every sidecar whose name
    holds the id and whose unlink is not refused is removed, so also the
    sidecar of any other tileset whose id contains the given one; the
    sidecars that do not hold the id, the tables and the disk are
    untouched; the answer is true exactly when a sidecar that was there
    was removed; and when no unlink is refused a lookup of the id
    afterwards finds nothing. *)
Theorem X17_delete_recipe_removes listing denied tileset_id w :
  plain_id tileset_id ->
  lists listing w ->
  let flag := fst (delete_recipe listing denied tileset_id w) in
  let w' := snd (delete_recipe listing denied tileset_id w) in
  (forall name, glob_id_json tileset_id name = true -> name ∉ denied ->
     recipes w' !! name = None) /\
  (forall other, is_sub (chars tileset_id) (chars other) = true ->
     recipe_name other ∉ denied -> recipes w' !! recipe_name other = None) /\
  (forall name, glob_id_json tileset_id name = false \/ name ∈ denied ->
     recipes w' !! name = recipes w !! name) /\
  (flag = true <->
   exists name, glob_id_json tileset_id name = true /\ (name ∉ denied)
                /\ is_Some (recipes w !! name)) /\
  app w' = app w /\ disk w' = disk w /\
  (denied = ∅ -> ~ In "."%char (chars tileset_id) ->
   forall listing' unreadable, lists listing' w' ->
     get_recipe_info listing' unreadable tileset_id w' = None).
Proof.
  intros _ [_ Hlisting]. cbv zeta. unfold delete_recipe.
  destruct (unlink_each_runs denied (glob_recipes listing tileset_id) false w)
    as (Happ & Hdisk & Hgone & Hkept & Hnone & Hflag).
  assert (Hfound : forall name, glob_id_json tileset_id name = true -> name ∉ denied ->
            recipes (snd (unlink_each denied (glob_recipes listing tileset_id) false w))
              !! name = None).
  { intros name Hglob Hfree.
    destruct (recipes w !! name) as [data|] eqn:Hdata; [|apply Hnone; exact Hdata].
    apply Hgone; [|exact Hfree]. apply filter_In. split; [|exact Hglob].
    apply Hlisting. eexists. exact Hdata. }
  split; [exact Hfound|]. split.
  { intros other Hsub. apply Hfound, glob_finds_containing, Hsub. }
  split.
  { intros name [Hglob | Hdenied]; apply Hkept; [left | right; exact Hdenied].
    intros Hin. apply filter_In in Hin as [_ Hin]. congruence. }
  split.
  { rewrite Hflag. split.
    - intros [H | (name & Hin & Hfree & Hthere)]; [discriminate|].
      apply filter_In in Hin as [_ Hglob]. eauto.
    - intros (name & Hglob & Hfree & Hthere). right. exists name.
      split; [|auto]. apply filter_In. split; [apply Hlisting; exact Hthere | exact Hglob]. }
  split; [exact Happ|]. split; [exact Hdisk|].
  intros -> Hdot listing' unreadable [_ Hlisting'].
  unfold get_recipe_info. rewrite (short_id_plain _ Hdot). unfold glob_recipes.
  destruct (List.filter (glob_id_json tileset_id) listing') as [|name rest] eqn:Hfilter;
    [reflexivity|].
  assert (Hin : In name (List.filter (glob_id_json tileset_id) listing'))
    by (rewrite Hfilter; left; reflexivity).
  apply filter_In in Hin as [Hin Hglob]. apply Hlisting' in Hin as [data Hdata].
  rewrite (Hfound name Hglob) in Hdata by apply not_elem_of_empty. discriminate.
Qed.

Lemma X17_delete_recipe_removes_witness :
  fst (delete_recipe ["recipe_wx_a.json"; "recipe_wx_ab.json"] ∅ "wx_a" two_sidecars) = true /\
  recipes (snd (delete_recipe ["recipe_wx_a.json"; "recipe_wx_ab.json"] ∅ "wx_a"
                  two_sidecars)) !! recipe_name "wx_ab" = None.
Proof.
  destruct (X17_delete_recipe_removes ["recipe_wx_a.json"; "recipe_wx_ab.json"] ∅ "wx_a"
              two_sidecars) as (_ & Hother & _ & Hflag & _).
  - split; [discriminate|]. apply Forall_forall. intros ch Hch.
    apply list_elem_of_In in Hch. vm_compute in Hch.
    repeat (destruct Hch as [<- | Hch]; [reflexivity|]). destruct Hch.
  - split; [by_decide|]. intros name. split.
    + intros [<- | [<- | []]]; by_decide.
    + intros [data Hdata]. cbn [two_sidecars recipes] in Hdata.
      destruct (decide ("recipe_wx_a.json" = name)) as [Heq|Hne]; [left; exact Heq|].
      rewrite lookup_insert_ne in Hdata by exact Hne.
      destruct (decide ("recipe_wx_ab.json" = name)) as [Heq|Hne'];
        [right; left; exact Heq|].
      rewrite lookup_insert_ne in Hdata by exact Hne'. discriminate.
  - split.
    + apply Hflag. exists "recipe_wx_a.json". split; [reflexivity|].
      split; [apply not_elem_of_empty | by_decide].
    + apply Hother; [reflexivity | apply not_elem_of_empty].
Defined.

End RecipeFacts.
(** ** A publication that succeeds *)

Module PublishFacts.
Import PyStr Orchestrator EffectFacts RunFacts Recipes Publish.

Ltac lookup_inserts :=
  repeat first [rewrite lookup_insert_eq | rewrite lookup_insert_ne by discriminate].

(** *** The records after the last steps *)

Lemma record_uploaded_fields job_id result mapbox_tileset w :
  result !! "tileset_id" = Some mapbox_tileset ->
  let w' := world_after (record_uploaded job_id result) w in
  uploaded_files (app w')
  = alter (insert "tileset_id" mapbox_tileset) job_id
      (alter (insert "processing_status" (VStr "completed")) job_id (uploaded_files (app w)))
  /\ active_visualizations (app w') = active_visualizations (app w)
  /\ batch_jobs (app w') = batch_jobs (app w)
  /\ recipes w' = recipes w.
Proof.
  intros Hremote. cbv zeta.
  unfold world_after, record_uploaded, bind, gets, modify, item. rewrite Hremote.
  unfold has_uploaded.
  destruct (uploaded_files (app w) !! job_id) as [file_info|] eqn:Hfile.
  - rewrite bool_decide_eq_true_2 by (eexists; reflexivity). cbn. repeat split.
  - rewrite bool_decide_eq_false_2 by (intros [x Hx]; discriminate). cbn.
    repeat split. symmetry.
    rewrite (alter_id _ (uploaded_files (app w)) job_id) by (intros x Hx; congruence).
    apply alter_id. intros x Hx. congruence.
Qed.

Lemma save_recipe_info_world c tileset_id result viz_info mapbox_tileset w :
  result !! "tileset_id" = Some mapbox_tileset ->
  let w' := world_after (save_recipe_info c tileset_id result viz_info) w in
  app w' = app w /\
  (recipe_write_fails c (recipe_name tileset_id) = false ->
   exists data,
     recipes w' = <[recipe_name tileset_id := data]> (recipes w) /\
     data !! "mapbox_tileset" = Some mapbox_tileset /\
     data !! "format" = Some (recorded_format result) /\
     data !! "requested_format"
       = Some (dict_get_or viz_info "requested_format" (VStr "vector"))).
Proof.
  intros Hremote. cbv zeta.
  unfold world_after, save_recipe_info, bind, item. rewrite Hremote.
  unfold ret. fold (recipe_name tileset_id).
  destruct (recipe_write_fails c (recipe_name tileset_id)).
  - split; [reflexivity | discriminate].
  - unfold modify. cbn [snd]. split; [reflexivity|]. intros _.
    eexists. split; [reflexivity|]. repeat split; lookup_inserts; reflexivity.
Qed.

Lemma batch_entry_completed bid job_id w b :
  bid <> "" ->
  batch_jobs (app w) !! bid = Some b ->
  is_Some (first_index (is_job job_id) (b_files b)) ->
  batch_entry_field
    (set_batch_entry (Some bid) job_id (insert "status" (VStr "completed")) w)
    bid job_id "status" = Some (VStr "completed").
Proof.
  intros Hbid Hb [i Hi]. unfold batch_entry_field, set_batch_entry, truthy_opt.
  apply String.eqb_neq in Hbid. rewrite Hbid. cbn.
  rewrite lookup_alter_eq, Hb. cbn.
  rewrite OrchestratorFacts.first_index_update_first, Hi; cbn.
  - rewrite (OrchestratorFacts.update_first_at _ _ _ _ Hi).
    destruct (OrchestratorFacts.first_index_lookup _ _ _ Hi) as [e He]. rewrite He. cbn.
    apply lookup_insert_eq.
  - intros x. unfold is_job.
    rewrite OrchestratorFacts.job_id_after_insert by discriminate. reflexivity.
Qed.

Section Vector.
Variables (s : Settings) (c : Publisher).
Variables (file_path job_id tileset_id visualization_type : string).
Variable batch_id : option string.
Variables (w : World) (viz result : gmap string val) (success mapbox_tileset : val).

Hypothesis token : truthy (VStr (MAPBOX_TOKEN s)) = true.
Hypothesis on_disk : file_path ∈ disk w.
Hypothesis registered : active_visualizations (app w) !! job_id = Some viz.
Hypothesis requested :
  py_eq (dict_get_or viz "requested_format" (VStr "vector")) (VStr "raster-array") = false.
Hypothesis client : client_init c = Returns tt.
Hypothesis published : process_netcdf_to_tileset c file_path tileset_id = Returns result.
Hypothesis answered : result !! "success" = Some success.
Hypothesis succeeded : truthy success = true.
Hypothesis remote_id : result !! "tileset_id" = Some mapbox_tileset.

Let changes : gmap string val :=
  <["mapbox_tileset" := mapbox_tileset]> (
  <["status" := VStr "completed"]> (
  <["format" := VStr "vector"]> (
  <["actual_format" := VStr "vector"]> (
  <["source_layer" := dict_get_or result "source_layer" (VStr "weather_data")]> (
  <["recipe_id" := dict_get result "recipe_id"]> (
  <["publish_job_id" := dict_get result "publish_job_id"]> ∅)))))).

Let updated : World :=
  update_viz job_id changes
    (set_remote_calls (fun l => (l ++ [VectorCall file_path tileset_id])%list) w).

Lemma vector_request_runs :
  create_mapbox_tileset_background s c file_path job_id tileset_id visualization_type
    batch_id w
  = (Returns tt,
     set_batch_entry batch_id job_id (insert "status" (VStr "completed"))
       (world_after (record_uploaded job_id result)
          (world_after (save_recipe_info c tileset_id result (viz_of job_id updated))
             updated))).
Proof.
  unfold create_mapbox_tileset_background, try_except.
  rewrite (CallsFacts.body_stages s c file_path job_id tileset_id visualization_type
             batch_id w viz token on_disk registered client).
  rewrite CallsFacts.raster_stage_skipped by (rewrite requested; reflexivity).
  unfold vector_stage. change (py_eq VNone (VStr "raster-array")) with false.
  cbv beta iota delta [bind modify lift gets ret item negb]. rewrite published.
  cbv beta iota. rewrite answered. cbv beta iota. rewrite succeeded.
  unfold has_viz. cbn [app set_remote_calls].
  rewrite (bool_decide_eq_true_2 _ (mk_is_Some _ _ registered)).
  rewrite remote_id, requested. cbv beta iota.
  fold changes. fold updated.
  destruct (OrchestratorFacts.save_recipe_info_runs c tileset_id result
              (viz_of job_id updated) mapbox_tileset updated remote_id)
    as (w2 & Hsave & _).
  unfold world_after. rewrite Hsave. cbn [snd].
  destruct (OrchestratorFacts.record_uploaded_runs job_id result mapbox_tileset w2 remote_id)
    as (w3 & Hrecord & _).
  rewrite Hrecord. reflexivity.
Qed.

Let final : World :=
  set_batch_entry batch_id job_id (insert "status" (VStr "completed"))
    (world_after (record_uploaded job_id result)
       (world_after (save_recipe_info c tileset_id result (viz_of job_id updated))
          updated)).

Lemma vector_request_viz :
  active_visualizations (app final) !! job_id = Some (dict_update viz changes).
Proof.
  unfold final.
  rewrite (proj1 (OrchestratorFacts.viz_after_set_batch_entry _ _ _ _)).
  destruct (record_uploaded_fields job_id result mapbox_tileset
              (world_after (save_recipe_info c tileset_id result (viz_of job_id updated))
                 updated) remote_id) as (_ & -> & _).
  destruct (save_recipe_info_world c tileset_id result (viz_of job_id updated)
              mapbox_tileset updated remote_id) as [-> _].
  unfold updated, update_viz. cbn. rewrite lookup_alter_eq, registered. reflexivity.
Qed.

Lemma vector_request_uploaded file_info :
  uploaded_files (app w) !! job_id = Some file_info ->
  uploaded_files (app final) !! job_id
  = Some (<["tileset_id" := mapbox_tileset]>
            (<["processing_status" := VStr "completed"]> file_info)).
Proof.
  intros Hfile. unfold final.
  rewrite (proj2 (VerdictFacts.tables_after_batch_entry _ _ _ _)).
  destruct (record_uploaded_fields job_id result mapbox_tileset
              (world_after (save_recipe_info c tileset_id result (viz_of job_id updated))
                 updated) remote_id) as (-> & _).
  destruct (save_recipe_info_world c tileset_id result (viz_of job_id updated)
              mapbox_tileset updated remote_id) as [-> _].
  unfold updated, update_viz. cbn. rewrite !lookup_alter_eq, Hfile. reflexivity.
Qed.

Lemma vector_request_batch bid b :
  batch_id = Some bid -> bid <> "" ->
  batch_jobs (app w) !! bid = Some b ->
  is_Some (first_index (is_job job_id) (b_files b)) ->
  batch_entry_field final bid job_id "status" = Some (VStr "completed").
Proof.
  intros Hbatch Hbid Hb Hentry. unfold final. rewrite Hbatch.
  apply (batch_entry_completed bid job_id _ b Hbid); [|exact Hentry].
  destruct (record_uploaded_fields job_id result mapbox_tileset
              (world_after (save_recipe_info c tileset_id result (viz_of job_id updated))
                 updated) remote_id) as (_ & _ & -> & _).
  destruct (save_recipe_info_world c tileset_id result (viz_of job_id updated)
              mapbox_tileset updated remote_id) as [-> _].
  exact Hb.
Qed.

Lemma vector_request_sidecar :
  recipe_write_fails c (recipe_name tileset_id) = false ->
  exists data,
    recipes final !! recipe_name tileset_id = Some data /\
    data !! "mapbox_tileset" = Some mapbox_tileset /\
    data !! "format" = Some (recorded_format result) /\
    data !! "requested_format"
      = Some (dict_get_or viz "requested_format" (VStr "vector")).
Proof.
  intros Hwrite.
  destruct (save_recipe_info_world c tileset_id result (viz_of job_id updated)
              mapbox_tileset updated remote_id) as [_ Hsaved].
  destruct (Hsaved Hwrite) as (data & Hrecipes & Hremote & Hformat & Hrequested).
  exists data. split; [|split; [exact Hremote | split; [exact Hformat|]]].
  - unfold final, set_batch_entry. 
    assert (Hrec : forall w0 f, recipes (set_app f w0) = recipes w0) by reflexivity.
    destruct (record_uploaded_fields job_id result mapbox_tileset
                (world_after (save_recipe_info c tileset_id result (viz_of job_id updated))
                   updated) remote_id) as (_ & _ & _ & Hkept).
    destruct (truthy_opt batch_id); [rewrite Hrec|]; rewrite Hkept, Hrecipes;
      apply lookup_insert_eq.
  - rewrite Hrequested. unfold viz_of, updated, update_viz. cbn.
    rewrite lookup_alter_eq, registered. cbn. unfold dict_get_or, dict_update, changes.
    rewrite lookup_union_r by (lookup_inserts; apply lookup_empty). reflexivity.
Qed.

End Vector.

(** X18. A publication in the vector format that succeeds.  With a token,
    the file on disk, a Visualization Record that did not ask for
    raster-array, a client, and a vector call that reports success with a
    remote tileset id: the run returns; the Visualization Record ends
    completed with format and actual_format vector and the remote id, and
    its fallback flag and warning are as they were; the Uploaded File
    Record, if there is one, ends completed with the remote id as its
    tileset id; the entry of the job in its batch ends completed; and the
    sidecar, if it can be written, holds the remote id and the format
    read from the remote result, which is raster-array when the remote id
    holds the word raster, though the record says vector. *)
Theorem X18_vector_publication s c file_path job_id tileset_id visualization_type batch_id
    w viz result success mapbox_tileset :
  truthy (VStr (MAPBOX_TOKEN s)) = true ->
  file_path ∈ disk w ->
  active_visualizations (app w) !! job_id = Some viz ->
  py_eq (dict_get_or viz "requested_format" (VStr "vector")) (VStr "raster-array") = false ->
  client_init c = Returns tt ->
  process_netcdf_to_tileset c file_path tileset_id = Returns result ->
  result !! "success" = Some success ->
  truthy success = true ->
  result !! "tileset_id" = Some mapbox_tileset ->
  let run :=
    create_mapbox_tileset_background s c file_path job_id tileset_id visualization_type
      batch_id in
  let w' := world_after run w in
  outcome run w = Returns tt /\
  viz_field w' job_id "status" = Some (VStr "completed") /\
  viz_field w' job_id "format" = Some (VStr "vector") /\
  viz_field w' job_id "actual_format" = Some (VStr "vector") /\
  viz_field w' job_id "mapbox_tileset" = Some mapbox_tileset /\
  viz_field w' job_id "format_fallback" = viz !! "format_fallback" /\
  viz_field w' job_id "warning" = viz !! "warning" /\
  (forall file_info, uploaded_files (app w) !! job_id = Some file_info ->
     uploaded_field w' job_id "processing_status" = Some (VStr "completed") /\
     uploaded_field w' job_id "tileset_id" = Some mapbox_tileset) /\
  (forall bid b, batch_id = Some bid -> bid <> "" ->
     batch_jobs (app w) !! bid = Some b ->
     is_Some (first_index (is_job job_id) (b_files b)) ->
     batch_entry_field w' bid job_id "status" = Some (VStr "completed")) /\
  (recipe_write_fails c (recipe_name tileset_id) = false ->
   exists data,
     recipes w' !! recipe_name tileset_id = Some data /\
     data !! "mapbox_tileset" = Some mapbox_tileset /\
     data !! "format" = Some (recorded_format result) /\
     data !! "requested_format"
       = Some (dict_get_or viz "requested_format" (VStr "vector"))).
Proof.
  intros Htoken Hdisk Hviz Hrequested Hclient Hpublished Hanswered Hsucceeded Hremote.
  cbv zeta. unfold outcome, world_after at 1 2 3 4 5 6 7 8 9 10.
  rewrite (vector_request_runs s c file_path job_id tileset_id visualization_type batch_id
             w viz result success mapbox_tileset Htoken Hdisk Hviz Hrequested Hclient
             Hpublished Hanswered Hsucceeded Hremote).
  cbn [fst snd].
  pose proof (vector_request_viz c file_path job_id tileset_id batch_id w viz result
                mapbox_tileset Hviz Hremote) as Hfinal.
  split; [reflexivity|].
  unfold viz_field. rewrite Hfinal. cbn [mbind option_bind]. unfold dict_update.
  repeat (split; [first [ apply lookup_union_Some_l; lookup_inserts; reflexivity
                        | apply lookup_union_r; lookup_inserts; apply lookup_empty ]|]).
  split; [|split].
  - intros file_info Hfile. unfold uploaded_field.
    rewrite (vector_request_uploaded c file_path job_id tileset_id batch_id w result
               mapbox_tileset Hremote file_info Hfile).
    cbn [mbind option_bind]. split; lookup_inserts; reflexivity.
  - intros bid b Hbatch Hbid Hb Hentry.
    apply (vector_request_batch c file_path job_id tileset_id batch_id w result
             mapbox_tileset Hremote bid b Hbatch Hbid Hb Hentry).
  - intros Hwrite.
    apply (vector_request_sidecar c file_path job_id tileset_id batch_id w viz result
             mapbox_tileset Hviz Hremote Hwrite).
Qed.

Lemma X18_vector_publication_witness :
  let w' :=
    world_after
      (create_mapbox_tileset_background the_settings raster_named_remote path job tileset
         "vector" None) Verdict.vector_job in
  viz_field w' job "format" = Some (VStr "vector") /\
  exists data,
    recipes w' !! recipe_name tileset = Some data /\
    data !! "format" = Some (VStr "raster-array").
Proof.
  cbv zeta.
  destruct (X18_vector_publication the_settings raster_named_remote path job tileset
              "vector" None Verdict.vector_job
              (<["requested_format" := VStr "vector"]>
                 (<["status" := VStr "processing"]> ∅))
              (<["success" := VBool true]>
                 (<["tileset_id" := VStr ("rasterlab." ++ tileset)]> ∅))
              (VBool true) (VStr ("rasterlab." ++ tileset)))
    as (_ & _ & Hformat & _ & _ & _ & _ & _ & _ & Hsidecar);
    [reflexivity | by_decide | by_decide | by_decide | reflexivity | reflexivity
    | by_decide | reflexivity | by_decide |].
  split; [exact Hformat|].
  destruct Hsidecar as (data & Hdata & _ & Hrecorded & _); [reflexivity|].
  exists data. split; [exact Hdata|]. rewrite Hrecorded. reflexivity.
Defined.

Section Raster.
Variables (s : Settings) (c : Publisher).
Variables (file_path job_id tileset_id visualization_type : string).
Variable batch_id : option string.
Variables (w : World) (viz result : gmap string val) (success mapbox_tileset : val).

Hypothesis token : truthy (VStr (MAPBOX_TOKEN s)) = true.
Hypothesis on_disk : file_path ∈ disk w.
Hypothesis registered : active_visualizations (app w) !! job_id = Some viz.
Hypothesis requested : viz !! "requested_format" = Some (VStr "raster-array").
Hypothesis client : client_init c = Returns tt.
Hypothesis published : create_raster_tileset c file_path tileset_id = Returns result.
Hypothesis answered : result !! "success" = Some success.
Hypothesis succeeded : truthy success = true.
Hypothesis remote_id : result !! "tileset_id" = Some mapbox_tileset.

Let changes : gmap string val :=
  <["mapbox_tileset" := mapbox_tileset]> (
  <["status" := VStr "completed"]> (
  <["format" := VStr "raster-array"]> (
  <["actual_format" := VStr "raster-array"]> (
  <["requested_format" := VStr "raster-array"]> (
  <["source_layer" := dict_get_or result "source_layer" (VStr "10winds")]> (
  <["recipe_id" := dict_get result "recipe_id"]> (
  <["publish_job_id" := dict_get result "publish_job_id"]> ∅))))))).

Let updated : World :=
  update_viz job_id changes
    (set_remote_calls (fun l => (l ++ [RasterCall file_path tileset_id])%list) w).

Let final : World :=
  set_batch_entry batch_id job_id (insert "status" (VStr "completed"))
    (world_after (record_uploaded job_id result)
       (world_after (save_recipe_info c tileset_id result (viz_of job_id updated))
          updated)).

Lemma raster_request_runs :
  create_mapbox_tileset_background s c file_path job_id tileset_id visualization_type
    batch_id w
  = (Returns tt, final).
Proof.
  unfold create_mapbox_tileset_background, try_except.
  rewrite (CallsFacts.body_stages s c file_path job_id tileset_id visualization_type
             batch_id w viz token on_disk registered client).
  unfold dict_get_or. rewrite requested. cbn [default from_option id].
  unfold raster_stage. rewrite token.
  change (py_eq (VStr "raster-array") (VStr "raster-array")) with true.
  cbv beta iota delta [bind modify lift gets ret item andb]. rewrite published.
  cbv beta iota. rewrite answered. cbv beta iota. rewrite succeeded.
  unfold has_viz. cbn [app set_remote_calls].
  rewrite (bool_decide_eq_true_2 _ (mk_is_Some _ _ registered)).
  rewrite remote_id. cbv beta iota.
  fold changes. fold updated.
  destruct (OrchestratorFacts.save_recipe_info_runs c tileset_id result
              (viz_of job_id updated) mapbox_tileset updated remote_id)
    as (w2 & Hsave & _).
  unfold final, world_after. rewrite Hsave. cbn [snd].
  destruct (OrchestratorFacts.record_uploaded_runs job_id result mapbox_tileset w2 remote_id)
    as (w3 & Hrecord & _).
  rewrite Hrecord. reflexivity.
Qed.

Lemma raster_request_tables :
  active_visualizations (app final) !! job_id = Some (dict_update viz changes) /\
  remote_calls final = (remote_calls w ++ [RasterCall file_path tileset_id])%list /\
  (forall file_info, uploaded_files (app w) !! job_id = Some file_info ->
     uploaded_files (app final) !! job_id
     = Some (<["tileset_id" := mapbox_tileset]>
               (<["processing_status" := VStr "completed"]> file_info))) /\
  (forall bid b, batch_id = Some bid -> bid <> "" ->
     batch_jobs (app w) !! bid = Some b ->
     is_Some (first_index (is_job job_id) (b_files b)) ->
     batch_entry_field final bid job_id "status" = Some (VStr "completed")) /\
  (recipe_write_fails c (recipe_name tileset_id) = false ->
   exists data,
     recipes final !! recipe_name tileset_id = Some data /\
     data !! "mapbox_tileset" = Some mapbox_tileset /\
     data !! "format" = Some (recorded_format result)).
Proof.
  destruct (record_uploaded_fields job_id result mapbox_tileset
              (world_after (save_recipe_info c tileset_id result (viz_of job_id updated))
                 updated) remote_id) as (Hup & Hviz & Hbatch & Hrec).
  destruct (save_recipe_info_world c tileset_id result (viz_of job_id updated)
              mapbox_tileset updated remote_id) as [Happ Hsaved].
  split; [|split; [|split; [|split]]].
  - unfold final. rewrite (proj1 (OrchestratorFacts.viz_after_set_batch_entry _ _ _ _)).
    rewrite Hviz, Happ. unfold updated, update_viz. cbn.
    rewrite lookup_alter_eq, registered. reflexivity.
  - unfold final. rewrite (proj2 (OrchestratorFacts.viz_after_set_batch_entry _ _ _ _)).
    rewrite OrchestratorFacts.record_uploaded_calls.
    destruct (OrchestratorFacts.save_recipe_info_runs c tileset_id result
                (viz_of job_id updated) mapbox_tileset updated remote_id)
      as (w2 & Hsave & _ & Hcalls).
    unfold world_after. rewrite Hsave. cbn [snd]. rewrite Hcalls. reflexivity.
  - intros file_info Hfile. unfold final.
    rewrite (proj2 (VerdictFacts.tables_after_batch_entry _ _ _ _)).
    rewrite Hup, Happ. unfold updated, update_viz. cbn.
    rewrite !lookup_alter_eq, Hfile. reflexivity.
  - intros bid b Hbid Hne Hb Hentry. unfold final. rewrite Hbid.
    apply (batch_entry_completed bid job_id _ b Hne); [|exact Hentry].
    rewrite Hbatch, Happ. exact Hb.
  - intros Hwrite. destruct (Hsaved Hwrite) as (data & Hrecipes & Hremote & Hformat & _).
    exists data. split; [|split; [exact Hremote | exact Hformat]].
    unfold final, set_batch_entry.
    assert (Hset : forall w0 f, recipes (set_app f w0) = recipes w0) by reflexivity.
    destruct (truthy_opt batch_id); [rewrite Hset|]; rewrite Hrec, Hrecipes;
      apply lookup_insert_eq.
Qed.

End Raster.

(** X19. A publication in the raster-array format that succeeds.  With a
    token, the file on disk, a Visualization Record that asked for
    raster-array, a client, and a raster call that reports success with a
    remote tileset id: the run returns after the raster call alone; the
    Visualization Record ends completed with format, actual_format and
    requested_format raster-array and the remote id, without a warning or
    a fallback flag added; the Uploaded File Record and the entry of the
    job in its batch end completed; and the sidecar, if it can be written,
    holds the format read from the remote result, which is vector when the
    result names no format and its id does not hold the word raster. *)
Theorem X19_raster_publication s c file_path job_id tileset_id visualization_type batch_id
    w viz result success mapbox_tileset :
  truthy (VStr (MAPBOX_TOKEN s)) = true ->
  file_path ∈ disk w ->
  active_visualizations (app w) !! job_id = Some viz ->
  viz !! "requested_format" = Some (VStr "raster-array") ->
  client_init c = Returns tt ->
  create_raster_tileset c file_path tileset_id = Returns result ->
  result !! "success" = Some success ->
  truthy success = true ->
  result !! "tileset_id" = Some mapbox_tileset ->
  let run :=
    create_mapbox_tileset_background s c file_path job_id tileset_id visualization_type
      batch_id in
  let w' := world_after run w in
  outcome run w = Returns tt /\
  remote_calls w' = (remote_calls w ++ [RasterCall file_path tileset_id])%list /\
  viz_field w' job_id "status" = Some (VStr "completed") /\
  viz_field w' job_id "format" = Some (VStr "raster-array") /\
  viz_field w' job_id "actual_format" = Some (VStr "raster-array") /\
  viz_field w' job_id "requested_format" = Some (VStr "raster-array") /\
  viz_field w' job_id "mapbox_tileset" = Some mapbox_tileset /\
  viz_field w' job_id "format_fallback" = viz !! "format_fallback" /\
  viz_field w' job_id "warning" = viz !! "warning" /\
  (forall file_info, uploaded_files (app w) !! job_id = Some file_info ->
     uploaded_field w' job_id "processing_status" = Some (VStr "completed") /\
     uploaded_field w' job_id "tileset_id" = Some mapbox_tileset) /\
  (forall bid b, batch_id = Some bid -> bid <> "" ->
     batch_jobs (app w) !! bid = Some b ->
     is_Some (first_index (is_job job_id) (b_files b)) ->
     batch_entry_field w' bid job_id "status" = Some (VStr "completed")) /\
  (recipe_write_fails c (recipe_name tileset_id) = false ->
   exists data,
     recipes w' !! recipe_name tileset_id = Some data /\
     data !! "mapbox_tileset" = Some mapbox_tileset /\
     data !! "format" = Some (recorded_format result)).
Proof.
  intros Htoken Hdisk Hviz Hrequested Hclient Hpublished Hanswered Hsucceeded Hremote.
  cbv zeta. unfold outcome, world_after at 1 2 3 4 5 6 7 8 9 10 11 12.
  rewrite (raster_request_runs s c file_path job_id tileset_id visualization_type batch_id
             w viz result success mapbox_tileset Htoken Hdisk Hviz Hrequested Hclient
             Hpublished Hanswered Hsucceeded Hremote).
  cbn [fst snd].
  destruct (raster_request_tables c file_path job_id tileset_id batch_id w viz result
              mapbox_tileset Hviz Hremote)
    as (Hfinal & Hcalls & Hup & Hentry & Hsidecar).
  split; [reflexivity|]. split; [exact Hcalls|].
  unfold viz_field. rewrite Hfinal. cbn [mbind option_bind]. unfold dict_update.
  repeat (split; [first [ apply lookup_union_Some_l; lookup_inserts; reflexivity
                        | apply lookup_union_r; lookup_inserts; apply lookup_empty ]|]).
  split; [|split; [exact Hentry | exact Hsidecar]].
  intros file_info Hfile. unfold uploaded_field. rewrite (Hup file_info Hfile).
  cbn [mbind option_bind]. split; lookup_inserts; reflexivity.
Qed.

Lemma X19_raster_publication_witness :
  let w' :=
    world_after
      (create_mapbox_tileset_background the_settings
         (mkPublisher (Returns tt)
            (fun _ tileset_id =>
               Returns (<["success" := VBool true]>
                          (<["tileset_id" := VStr ("weather." ++ tileset_id)]> ∅)))
            (fun _ _ => Raises "not asked") (fun _ => false))
         path job tileset "raster-array" (Some "b1")) raster_job in
  viz_field w' job "format" = Some (VStr "raster-array") /\
  batch_entry_field w' "b1" job "status" = Some (VStr "completed") /\
  exists data,
    recipes w' !! recipe_name tileset = Some data /\
    data !! "format" = Some (VStr "vector").
Proof.
  cbv zeta.
  destruct (X19_raster_publication the_settings
              (mkPublisher (Returns tt)
                 (fun _ tileset_id =>
                    Returns (<["success" := VBool true]>
                               (<["tileset_id" := VStr ("weather." ++ tileset_id)]> ∅)))
                 (fun _ _ => Raises "not asked") (fun _ => false))
              path job tileset "raster-array" (Some "b1") raster_job
              (<["requested_format" := VStr "raster-array"]>
                 (<["status" := VStr "processing"]> ∅))
              (<["success" := VBool true]>
                 (<["tileset_id" := VStr ("weather." ++ tileset)]> ∅))
              (VBool true) (VStr ("weather." ++ tileset)))
    as (_ & _ & _ & Hformat & _ & _ & _ & _ & _ & _ & Hentry & Hsidecar);
    [reflexivity | by_decide | by_decide | by_decide | reflexivity | reflexivity
    | by_decide | reflexivity | by_decide |].
  split; [exact Hformat|]. split.
  - apply (Hentry "b1"
             (mkBatch (<["status" := VStr "processing"]> ∅)
                [<["job_id" := VStr job]> (<["status" := VStr "processing"]> ∅)] []));
      [reflexivity | discriminate | by_decide | by_decide].
  - destruct Hsidecar as (data & Hdata & _ & Hrecorded); [reflexivity|].
    exists data. split; [exact Hdata|]. rewrite Hrecorded. reflexivity.
Defined.

End PublishFacts.
(** ** Reloading the file database *)

Module FileDatabaseReloadFacts.
Import PyStr Ingest FileDatabase.

Ltac lookup_inserts :=
  repeat first [rewrite lookup_insert_eq | rewrite lookup_insert_ne by discriminate].

(** *** Splitting and joining *)

Lemma split_on_first_part sep s : ~ In sep (hd [] (split_on sep s)).
Proof.
  induction s as [|c s IH]; cbn [split_on]; [intros []|].
  destruct (Ascii.eqb_spec c sep) as [->|Hne]; [intros []|].
  destruct (split_on sep s) as [|p ps]; cbn [hd] in *.
  - intros [Hc | []]. congruence.
  - intros [Hc | Hp]; [congruence | exact (IH Hp)].
Qed.

Lemma join_split_on sep s : join sep (split_on sep s) = s.
Proof.
  induction s as [|c s IH]; [reflexivity|]. cbn [split_on].
  pose proof (RecipeFacts.split_on_nonempty sep s) as Hne.
  destruct (Ascii.eqb_spec c sep) as [->|Hc].
  - cbn [join]. destruct (split_on sep s) as [|p ps]; [contradiction|].
    rewrite IH. reflexivity.
  - destruct (split_on sep s) as [|p ps]; [contradiction|].
    cbn [join] in *. destruct ps as [|q ps]; rewrite <- IH; reflexivity.
Qed.

Lemma after_first_app_absent sep a b :
  ~ In sep a -> after_first sep (a ++ sep :: b) = Some b.
Proof.
  induction a as [|c a IH]; intros Hnot; [cbn; rewrite Ascii.eqb_refl; reflexivity|].
  rewrite <- app_comm_cons. cbn [after_first].
  destruct (Ascii.eqb_spec c sep) as [->|Hne]; [destruct Hnot; left; reflexivity|].
  apply IH. intros Hin. apply Hnot. right. exact Hin.
Qed.

(** What precedes the last separator. *)
Lemma before_last_app sep a b :
  ~ In sep b -> before_last sep (a ++ sep :: b) = a.
Proof.
  intros Hnot. unfold before_last.
  rewrite rev_app_distr. cbn [rev]. rewrite <- app_assoc.
  change ([sep] ++ rev a)%list with (sep :: rev a).
  rewrite after_first_app_absent by (rewrite <- in_rev; exact Hnot).
  apply rev_involutive.
Qed.

(** The stem of a name that ends in .nc and is longer than that. *)
Lemma stem_nc front : front <> [] -> stem (front ++ chars ".nc") = front.
Proof.
  intros Hfront. unfold stem.
  change (chars ".nc") with ["."; "n"; "c"]%char.
  rewrite before_last_app by (intros [H | [H | []]]; discriminate).
  rewrite length_app. cbn [length].
  destruct front as [|c front]; [contradiction|]. cbn [nonempty andb].
  replace (_ <? _)%nat with true; [reflexivity|].
  symmetry. apply Nat.ltb_lt. cbn [length]. lia.
Qed.

(** The name the pipeline saves a file under, taken apart again. *)
Lemma saved_name_parts job_id filename :
  ~ In "_"%char (chars job_id) ->
  file_id_of (str (saved_name job_id filename)) = job_id /\
  original_filename_of (str (saved_name job_id filename)) = str (safe_filename filename).
Proof.
  intros Hjob. unfold file_id_of, original_filename_of.
  rewrite NamingFacts.chars_str. unfold saved_name.
  destruct (FileNameFacts.safe_filename_shape filename) as [_ Hend].
  apply FileNameFacts.ends_with_app in Hend as [front Hfront]. rewrite Hfront.
  replace (chars job_id ++ "_"%char :: front ++ chars ".nc")%list
    with ((chars job_id ++ "_"%char :: front) ++ chars ".nc")%list
    by (rewrite <- app_assoc; reflexivity).
  rewrite stem_nc by (destruct (chars job_id); discriminate).
  rewrite RecipeFacts.split_on_app_sep, (FileNameFacts.split_on_absent _ _ Hjob).
  change ([chars job_id] ++ split_on "_" front)%list
    with (chars job_id :: split_on "_" front).
  cbn [hd tl]. split.
  - unfold str. apply string_of_list_ascii_of_string.
  - rewrite join_split_on. reflexivity.
Qed.

(** *** The loop *)

Section Loop.
Variables (upload_dir : string) (vis : gmap string (gmap string val)).

Lemma load_entries_app first others uploaded :
  load_entries upload_dir vis (first ++ others) uploaded
  = load_entries upload_dir vis others (load_entries upload_dir vis first uploaded).
Proof.
  revert uploaded. induction first as [|[name stat] rest IH]; intros uploaded;
    [reflexivity|].
  rewrite <- app_comm_cons. cbn [load_entries].
  destruct (ends_with _ _); [|apply IH]. destruct stat; apply IH.
Qed.

(** A key that no entry of the directory gives is left as it was. *)
Lemma load_entries_other entries uploaded file_id :
  Forall (fun entry => loaded entry -> file_id_of (fst entry) <> file_id) entries ->
  load_entries upload_dir vis entries uploaded !! file_id = uploaded !! file_id.
Proof.
  revert uploaded. induction entries as [|[name stat] rest IH]; intros uploaded Hall;
    [reflexivity|].
  apply Forall_cons in Hall as [Hhead Hrest]. cbn [load_entries].
  destruct (ends_with (chars ".nc") (chars name)) eqn:Hend; [|apply IH; exact Hrest].
  destruct stat as [st|msg]; [|apply IH; exact Hrest].
  rewrite IH by exact Hrest. apply lookup_insert_ne. apply Hhead.
  split; [exact Hend | exists st; reflexivity].
Qed.

(** Every record comes from the records before the loop or from an entry
    of the directory. *)
Lemma load_entries_from entries uploaded file_id record :
  load_entries upload_dir vis entries uploaded !! file_id = Some record ->
  uploaded !! file_id = Some record \/
  exists name st,
    In (name, Returns st) entries /\ ends_with (chars ".nc") (chars name) = true /\
    file_id = file_id_of name /\ record = file_record upload_dir vis name st.
Proof.
  revert uploaded. induction entries as [|[name stat] rest IH]; intros uploaded;
    cbn [load_entries]; [auto|].
  assert (Hlater : forall acc,
            load_entries upload_dir vis rest acc !! file_id = Some record ->
            acc !! file_id = Some record \/
            exists name' st,
              In (name', Returns st) ((name, stat) :: rest) /\
              ends_with (chars ".nc") (chars name') = true /\
              file_id = file_id_of name' /\ record = file_record upload_dir vis name' st).
  { intros acc Hacc. destruct (IH acc Hacc) as [H | (n & st & Hin & H)]; [left; exact H|].
    right. exists n, st. split; [right; exact Hin | exact H]. }
  destruct (ends_with (chars ".nc") (chars name)) eqn:Hend; [|apply Hlater].
  destruct stat as [st|msg]; [|apply Hlater].
  intros Hrecord. destruct (Hlater _ Hrecord) as [Hacc | H]; [|right; exact H].
  destruct (decide (file_id_of name = file_id)) as [<-|Hne].
  - rewrite lookup_insert_eq in Hacc. injection Hacc as <-.
    right. exists name, st. split; [left; reflexivity | auto].
  - rewrite lookup_insert_ne in Hacc by exact Hne. left. exact Hacc.
Qed.

(** A key that holds a record holds one after the loop. *)
Lemma load_entries_kept entries uploaded file_id :
  is_Some (uploaded !! file_id) ->
  is_Some (load_entries upload_dir vis entries uploaded !! file_id).
Proof.
  revert uploaded. induction entries as [|[name stat] rest IH]; intros uploaded Hthere;
    [exact Hthere|].
  cbn [load_entries].
  destruct (ends_with (chars ".nc") (chars name)); [|apply IH; exact Hthere].
  destruct stat as [st|msg]; [|apply IH; exact Hthere]. apply IH.
  destruct (decide (file_id_of name = file_id)) as [->|Hne];
    [rewrite lookup_insert_eq; eexists; reflexivity
    | rewrite lookup_insert_ne by exact Hne; exact Hthere].
Qed.

(** Every entry that is loaded has a record under its key. *)
Lemma load_entries_there entries uploaded name st :
  In (name, Returns st) entries -> ends_with (chars ".nc") (chars name) = true ->
  is_Some (load_entries upload_dir vis entries uploaded !! file_id_of name).
Proof.
  intros Hin Hend. revert uploaded.
  induction entries as [|[name' stat] rest IH]; intros uploaded; [destruct Hin|].
  cbn [load_entries]. destruct Hin as [Hhead | Hrest].
  - injection Hhead as -> ->. rewrite Hend. apply load_entries_kept.
    rewrite lookup_insert_eq. eexists. reflexivity.
  - destruct (ends_with (chars ".nc") (chars name')); [|apply IH; exact Hrest].
    destruct stat; apply IH; exact Hrest.
Qed.

End Loop.

(** X20. A reload of the file database keeps nothing of what was there:
    every Uploaded File Record afterwards is the one made for a file of
    the upload directory whose name ends in .nc and whose stat went
    through, stored under the part of the file's stem before its first
    underscore, so no key holds an underscore and no record is stored
    under a job id that holds one; every such file has a record under its
    key; and nothing but the file database changes. *)
Theorem X20_reload_from_directory s entries w :
  let w' := load_file_database s entries w in
  let made := file_record (UPLOAD_DIR s) (active_visualizations (app w)) in
  (forall file_id record, uploaded_files (app w') !! file_id = Some record ->
     ~ In "_"%char (chars file_id) /\
     exists name st,
       In (name, Returns st) entries /\ ends_with (chars ".nc") (chars name) = true /\
       file_id = file_id_of name /\ record = made name st) /\
  (forall name st, In (name, Returns st) entries ->
     ends_with (chars ".nc") (chars name) = true ->
     is_Some (uploaded_files (app w') !! file_id_of name)) /\
  active_visualizations (app w') = active_visualizations (app w) /\
  active_sessions (app w') = active_sessions (app w) /\
  batch_jobs (app w') = batch_jobs (app w) /\
  disk w' = disk w /\ recipes w' = recipes w.
Proof.
  cbv zeta. unfold load_file_database. cbn.
  split; [|split; [|repeat split]].
  - intros file_id record Hrecord.
    apply load_entries_from in Hrecord as [Hempty | (name & st & Hin & Hend & -> & ->)];
      [rewrite lookup_empty in Hempty; discriminate|].
    split; [|eauto 10].
    unfold file_id_of. rewrite NamingFacts.chars_str. apply split_on_first_part.
  - intros name st Hin Hend. apply (load_entries_there _ _ entries ∅ name st Hin Hend).
Qed.

Lemma X20_reload_from_directory_witness :
  let w' :=
    load_file_database (mkSettings "uploads" "sk.token" "weather")
      [("20240101120000_wind.nc", Returns (mkStat 3 "2024-01-01T12:00:00"));
       ("b1_0_20240101120000_a.nc", Returns (mkStat 3 "2024-01-01T12:00:00"));
       ("notes.txt", Returns (mkStat 1 "2024-01-01T12:00:00"))]
      Files.published_upload in
  is_Some (uploaded_files (app w') !! "20240101120000") /\
  is_Some (uploaded_files (app w') !! "b1") /\
  uploaded_files (app w') !! "b1_0_20240101120000" = None.
Proof.
  cbv zeta.
  destruct (X20_reload_from_directory (mkSettings "uploads" "sk.token" "weather")
              [("20240101120000_wind.nc", Returns (mkStat 3 "2024-01-01T12:00:00"));
               ("b1_0_20240101120000_a.nc", Returns (mkStat 3 "2024-01-01T12:00:00"));
               ("notes.txt", Returns (mkStat 1 "2024-01-01T12:00:00"))]
              Files.published_upload) as (Hkeys & Hthere & _).
  split; [|split].
  - apply (Hthere "20240101120000_wind.nc" (mkStat 3 "2024-01-01T12:00:00"));
      [left; reflexivity | reflexivity].
  - apply (Hthere "b1_0_20240101120000_a.nc" (mkStat 3 "2024-01-01T12:00:00"));
      [right; left; reflexivity | reflexivity].
  - match goal with
    | |- ?m !! ?k = None => destruct (m !! k) as [record|] eqn:Hrecord; [|reflexivity]
    end.
    destruct (Hkeys _ _ Hrecord) as [Hnot _]. destruct Hnot.
    apply WindPatternFacts.is_sub_char. reflexivity.
Defined.

(** X21. From a single upload to the reload.  A file that the pipeline
    saved for a job whose id has no underscore is found again by a reload
    under that job id, if no later file of the directory gives the same
    key: the record holds the saved name and the path of the saved file,
    as original file name the sanitised name (not the name that was
    uploaded), and as processing status the status of the Visualization
    Record of the job, or unknown when there is none (as after the
    visualization was deleted). *)
Theorem X21_reload_finds_single_upload s entries before after w job_id filename st :
  ~ In "_"%char (chars job_id) ->
  let name := str (saved_name job_id filename) in
  entries = (before ++ (name, Returns st) :: after)%list ->
  Forall (fun entry => loaded entry -> file_id_of (fst entry) <> job_id) after ->
  let w' := load_file_database s entries w in
  exists record,
    uploaded_files (app w') !! job_id = Some record /\
    record !! "id" = Some (VStr job_id) /\
    record !! "filename" = Some (VStr name) /\
    record !! "file_path" = Some (VStr (UPLOAD_DIR s ++ "/" ++ name)) /\
    record !! "original_filename" = Some (VStr (str (safe_filename filename))) /\
    record !! "processing_status"
      = Some match active_visualizations (app w) !! job_id with
             | Some viz_info => dict_get_or viz_info "status" (VStr "unknown")
             | None => VStr "unknown"
             end.
Proof.
  intros Hjob name -> Hafter. cbv zeta. unfold load_file_database. cbn.
  destruct (saved_name_parts job_id filename Hjob) as [Hid Horiginal]. fold name in Hid, Horiginal.
  rewrite load_entries_app. cbn [load_entries].
  replace (ends_with (chars ".nc") (chars name)) with true.
  2: { symmetry. unfold name. rewrite NamingFacts.chars_str. unfold saved_name.
       destruct (FileNameFacts.safe_filename_shape filename) as [_ Hend].
       apply FileNameFacts.ends_with_app in Hend as [front ->].
       apply FileNameFacts.ends_with_app. exists (chars job_id ++ "_"%char :: front)%list.
       rewrite <- app_assoc. reflexivity. }
  rewrite load_entries_other by exact Hafter.
  rewrite Hid, lookup_insert_eq. eexists. split; [reflexivity|].
  unfold file_record. rewrite Hid, Horiginal.
  repeat split; lookup_inserts; reflexivity.
Qed.

Lemma X21_reload_finds_single_upload_witness :
  exists record,
    uploaded_files
      (app (load_file_database (mkSettings "uploads" "sk.token" "weather")
              [("20240101120000_my_file.nc", Returns (mkStat 3 "2024-01-01T12:00:00"))]
              empty_world)) !! "20240101120000" = Some record /\
    record !! "original_filename" = Some (VStr "my_file.nc") /\
    record !! "processing_status" = Some (VStr "unknown").
Proof.
  destruct (X21_reload_finds_single_upload (mkSettings "uploads" "sk.token" "weather")
              [("20240101120000_my_file.nc", Returns (mkStat 3 "2024-01-01T12:00:00"))]
              [] [] empty_world "20240101120000" "my file.nc"
              (mkStat 3 "2024-01-01T12:00:00"))
    as (record & Hrecord & _ & _ & _ & Horiginal & Hstatus).
  - intros Hin. apply WindPatternFacts.is_sub_char in Hin. vm_compute in Hin. discriminate.
  - reflexivity.
  - constructor.
  - exists record. split; [exact Hrecord|]. split; [exact Horiginal | exact Hstatus].
Defined.

End FileDatabaseReloadFacts.
(** ** The upload of a single file *)

Module SingleUploadFacts.
Import PyStr Ingest Validators SingleUpload EffectFacts RunFacts.

Ltac lookup_inserts :=
  repeat first [rewrite lookup_insert_eq | rewrite lookup_insert_ne by discriminate].

(** A file that is written and read goes through: its entry joins the
    list of successes, the file is on disk and its Visualization Record is
    there, processing. *)
Lemma ingest_file_goes_through {A : Type} `{ArrayLib A} (env : Env A) file job_id
    create_tileset tileset_name visualization_type batch_id results w ds :
  write_fails env (saved_path env job_id (filename file)) = None ->
  open_dataset env (saved_path env job_id (filename file)) = Returns ds ->
  exists file_result w',
    ingest_file env file job_id create_tileset tileset_name visualization_type batch_id
      results w
    = (Returns (mkResults (r_batch_id results) (total_files results)
                  (processed_files results + 1) (status results)
                  (files results ++ [file_result]) (errors results)), w') /\
    file_result !! "job_id" = Some (VStr job_id) /\
    file_result !! "success" = Some (VBool true) /\
    is_Some (file_result !! "tileset_id") /\
    disk w' = {[saved_path env job_id (filename file)]} ∪ disk w /\
    uploaded_files (app w') = uploaded_files (app w) /\
    viz_field w' job_id "file_path"
      = Some (VStr (saved_path env job_id (filename file))) /\
    viz_field w' job_id "status" = Some (VStr "processing").
Proof.
  intros Hwrite Hopen.
  assert (Hleaves :
    leaves
      (ingest_file env file job_id create_tileset tileset_name visualization_type batch_id
         results) w
      (fun r w' =>
         exists file_result,
           r = Returns (mkResults (r_batch_id results) (total_files results)
                          (processed_files results + 1) (status results)
                          (files results ++ [file_result]) (errors results)) /\
           file_result !! "job_id" = Some (VStr job_id) /\
           file_result !! "success" = Some (VBool true) /\
           is_Some (file_result !! "tileset_id") /\
           disk w' = {[saved_path env job_id (filename file)]} ∪ disk w /\
           uploaded_files (app w') = uploaded_files (app w) /\
           viz_field w' job_id "file_path"
             = Some (VStr (saved_path env job_id (filename file))) /\
           viz_field w' job_id "status" = Some (VStr "processing"))).
  { unfold ingest_file, save_upload, process_netcdf_file. rewrite Hwrite, Hopen.
    cbv zeta. repeat leave_step; try congruence.
    all: eexists; split; [reflexivity|].
    all: split; [apply lookup_union_Some_l; lookup_inserts; reflexivity|].
    all: split; [apply lookup_union_Some_l; lookup_inserts; reflexivity|].
    all: split; [eexists; apply lookup_union_Some_l; lookup_inserts; reflexivity|].
    all: split; [reflexivity|]. all: split; [reflexivity|].
    all: unfold viz_field; cbn; rewrite lookup_insert_eq; cbn;
      split; lookup_inserts; reflexivity. }
  unfold leaves in Hleaves.
  destruct (ingest_file env file job_id create_tileset tileset_name visualization_type
              batch_id results w) as [r w'].
  cbn [fst snd] in Hleaves. destruct Hleaves as (file_result & -> & Hfacts).
  exists file_result, w'. split; [reflexivity | exact Hfacts].
Qed.

Lemma chars_inj a b : chars a = chars b -> a = b.
Proof.
  intros Heq. rewrite <- (string_of_list_ascii_of_string a),
    <- (string_of_list_ascii_of_string b). unfold chars in Heq. rewrite Heq. reflexivity.
Qed.

(** The path the upload records is the path of the saved file exactly
    when the sanitising left the name as it was. *)
Lemma recorded_path_saved {A : Type} (env : Env A) job_id name :
  UPLOAD_DIR (settings env) ++ "/" ++ job_id ++ "_" ++ name = saved_path env job_id name
  <-> safe_filename name = chars name.
Proof.
  unfold saved_path, saved_name. split.
  - intros Heq. apply (f_equal chars) in Heq.
    rewrite !RecipeFacts.chars_app, NamingFacts.chars_str in Heq.
    do 2 apply app_inv_head in Heq.
    change (chars "_" ++ chars name)%list with ("_"%char :: chars name) in Heq.
    apply app_inv_head in Heq. injection Heq as Heq. symmetry. exact Heq.
  - intros Heq. apply chars_inj. rewrite !RecipeFacts.chars_app, NamingFacts.chars_str, Heq.
    reflexivity.
Qed.

Section Upload.
Context {A : Type} `{ArrayLib A} (env : Env A).
Variables (max_file_size : nat) (too_large job_id : string) (file : Upload).
Variables (create_tileset : bool) (tileset_name : option string).
Variables (visualization_type : string) (w : World).

Let run : M (Response (gmap string val)) :=
  upload_netcdf env max_file_size too_large job_id file create_tileset tileset_name
    visualization_type.

Let names : option (list string) :=
  if truthy_opt tileset_name then Some [default "" tileset_name] else None.

Hypothesis valid : validate_netcdf_file (filename file) = Valid.
Hypothesis small : String.length (content file) <= max_file_size.

(** The endpoint after its checks: the one turn of the loop, then the
    file database. *)
Lemma upload_netcdf_turn :
  run w =
  match
    try_except
      (ingest_file env file job_id create_tileset (name_at names 0) visualization_type None
         (fresh_results None 1))
      (on_file_error env file job_id (fresh_results None 1)) w
  with
  | (Returns results, w1) =>
      match files results with
      | file_result :: _ =>
          (Returns (Ok file_result),
           if truthy (dict_get file_result "success") then
             set_app (set_uploaded_files (insert job_id (
               <["id" := VStr job_id]> (
               <["filename" := VStr (job_id ++ "_" ++ filename file)]> (
               <["original_filename" := VStr (filename file)]> (
               <["size" := VInt (Z.of_nat (String.length (content file)))]> (
               <["status" := VStr "active"]> (
               <["tileset_id" := dict_get file_result "tileset_id"]> (
               <["job_id" := VStr job_id]> (
               <["processing_status" :=
                   dict_get_or file_result "status" (VStr "processing")]> (
               <["file_path" :=
                   VStr (UPLOAD_DIR (settings env) ++ "/" ++ job_id ++ "_"
                         ++ filename file)]> ∅))))))))))) w1
           else w1)
      | [] => (Returns (HTTPException 500 "Failed to process file"), w1)
      end
  | (Raises msg, w1) => (Raises msg, w1)
  end.
Proof.
  unfold run, upload_netcdf. rewrite valid.
  replace (max_file_size <? String.length (content file))%nat with false
    by (symmetry; apply Nat.ltb_ge; exact small).
  fold names. unfold process_batch_upload. cbn [process_each length].
  change ([job_id] !! 0) with (Some job_id).
  unfold bind at 1 2 3.
  destruct (try_except _ _ w) as [[results|msg] w1]; [|reflexivity].
  unfold ret at 1 2. cbn [close_results files].
  destruct (files results) as [|file_result rest]; [reflexivity|].
  unfold bind. destruct (truthy (dict_get file_result "success")); reflexivity.
Qed.

End Upload.

(** A single upload that is written and read: the answer, the two
    records and the disk. *)
Lemma upload_netcdf_through {A : Type} `{ArrayLib A} (env : Env A)
    (max_file_size : nat) (too_large job_id : string) (file : Upload)
    (create_tileset : bool) (tileset_name : option string) (visualization_type : string)
    (w : World) (ds : Dataset A) :
  let run :=
    upload_netcdf env max_file_size too_large job_id file create_tileset tileset_name
      visualization_type in
  let saved := saved_path env job_id (filename file) in
  let recorded := UPLOAD_DIR (settings env) ++ "/" ++ job_id ++ "_" ++ filename file in
  validate_netcdf_file (filename file) = Valid ->
  String.length (content file) <= max_file_size ->
  write_fails env saved = None ->
  open_dataset env saved = Returns ds ->
  exists file_result record,
    outcome run w = Returns (Ok file_result) /\
    file_result !! "job_id" = Some (VStr job_id) /\
    uploaded_files (app (world_after run w)) !! job_id = Some record /\
    record !! "file_path" = Some (VStr recorded) /\
    record !! "original_filename" = Some (VStr (filename file)) /\
    viz_field (world_after run w) job_id "file_path" = Some (VStr saved) /\
    viz_field (world_after run w) job_id "status" = Some (VStr "processing") /\
    disk (world_after run w) = {[saved]} ∪ disk w /\
    (recorded = saved <->
     Forall (fun c => safe_char c = true) (chars (filename file))).
Proof.
  cbv zeta. intros Hvalid Hsmall Hwrite Hopen.
  unfold outcome, world_after.
  rewrite (upload_netcdf_turn env max_file_size too_large job_id file create_tileset
             tileset_name visualization_type w Hvalid Hsmall).
  match goal with
  | |- context [ingest_file env file job_id create_tileset ?name visualization_type None
                  ?results] =>
      destruct (ingest_file_goes_through env file job_id create_tileset name
                  visualization_type None results w ds Hwrite Hopen)
        as (file_result & w1 & Hturn & Hjob & Hsuccess & _ & Hdisk & Hup & Hpath & Hstatus)
  end.
  assert (Htruthy : truthy (dict_get file_result "success") = true)
    by (unfold dict_get; rewrite Hsuccess; reflexivity).
  unfold try_except. rewrite Hturn. cbn [files fresh_results].
  change ([] ++ [file_result])%list with [file_result].
  cbv beta iota. rewrite Htruthy. cbn [fst snd].
  exists file_result. eexists. split; [reflexivity|]. split; [exact Hjob|].
  split; [cbn; apply lookup_insert_eq|].
  split; [lookup_inserts; reflexivity|]. split; [lookup_inserts; reflexivity|].
  split; [exact Hpath|]. split; [exact Hstatus|]. split; [exact Hdisk|].
  rewrite recorded_path_saved, (FileNameFacts.safe_filename_of_valid _ Hvalid).
  apply FileNameFacts.sanitize_fixed_iff.
Qed.

(** A delete that goes through takes the recorded path off the disk, and
    nothing else. *)
Lemma delete_file_disk denied file_id w file_info file_path :
  uploaded_files (app w) !! file_id = Some file_info ->
  file_info !! "file_path" = Some (VStr file_path) ->
  file_path ∉ denied ->
  exists body w',
    Files.delete_file denied file_id w = (Ok body, w') /\
    body !! "success" = Some (VBool true) /\
    disk w' = disk w ∖ {[file_path]} /\
    active_visualizations (app w') !! file_id = None /\
    uploaded_files (app w') !! file_id = None.
Proof.
  intros Hfile Hpath Hfree. unfold Files.delete_file, Files.delete_file_and_cleanup.
  rewrite Hfile, Hpath.
  rewrite (bool_decide_eq_false_2 (file_path ∈ denied)) by exact Hfree.
  rewrite andb_false_r. eexists _, _. split; [reflexivity|]. cbn.
  split; [reflexivity|]. split; [reflexivity|].
  split; apply lookup_delete_eq.
Qed.

(** X22. The paths of a single upload.  A name that the validator turns
    down, or a content over the size limit, is answered 400 and nothing
    changes.  A file that is written and read is answered with its entry:
    the Visualization Record holds the path of the saved file and the file
    is on disk, while the Uploaded File Record stored under the job id
    holds the path made of the name as it was uploaded, which is the path
    of the saved file exactly when the name holds no character that the
    sanitising replaces.  A file that cannot be written or read is
    answered 500 Failed to process file and leaves no record and no
    file. *)
Theorem X22_single_upload_paths {A : Type} `{ArrayLib A} (env : Env A)
    (max_file_size : nat) (too_large job_id : string) (file : Upload)
    (create_tileset : bool) (tileset_name : option string) (visualization_type : string)
    (w : World) :
  let run :=
    upload_netcdf env max_file_size too_large job_id file create_tileset tileset_name
      visualization_type in
  let saved := saved_path env job_id (filename file) in
  let recorded := UPLOAD_DIR (settings env) ++ "/" ++ job_id ++ "_" ++ filename file in
  (forall error, validate_netcdf_file (filename file) = Invalid error ->
     run w = (Returns (HTTPException 400 error), w)) /\
  (validate_netcdf_file (filename file) = Valid ->
   max_file_size < String.length (content file) ->
   run w = (Returns (HTTPException 400 too_large), w)) /\
  (validate_netcdf_file (filename file) = Valid ->
   String.length (content file) <= max_file_size ->
   write_fails env saved = None ->
   forall ds, open_dataset env saved = Returns ds ->
   exists file_result record,
     outcome run w = Returns (Ok file_result) /\
     file_result !! "job_id" = Some (VStr job_id) /\
     uploaded_files (app (world_after run w)) !! job_id = Some record /\
     record !! "file_path" = Some (VStr recorded) /\
     record !! "original_filename" = Some (VStr (filename file)) /\
     viz_field (world_after run w) job_id "file_path" = Some (VStr saved) /\
     viz_field (world_after run w) job_id "status" = Some (VStr "processing") /\
     disk (world_after run w) = {[saved]} ∪ disk w /\
     (recorded = saved <->
      Forall (fun c => safe_char c = true) (chars (filename file)))) /\
  (validate_netcdf_file (filename file) = Valid ->
   String.length (content file) <= max_file_size ->
   (is_Some (write_fails env saved) \/
    write_fails env saved = None /\ exists e, open_dataset env saved = Raises e) ->
   unlink_fails env saved = false ->
   outcome run w = Returns (HTTPException 500 "Failed to process file") /\
   app (world_after run w) = app w /\
   disk (world_after run w) = disk w ∖ {[saved]}).
Proof.
  cbv zeta. split; [|split; [|split]].
  - intros error Hinvalid. unfold upload_netcdf. rewrite Hinvalid. reflexivity.
  - intros Hvalid Hlarge. unfold upload_netcdf. rewrite Hvalid.
    replace (max_file_size <? String.length (content file))%nat with true
      by (symmetry; apply Nat.ltb_lt; exact Hlarge).
    reflexivity.
  - intros Hvalid Hsmall Hwrite ds Hopen.
    exact (upload_netcdf_through env max_file_size too_large job_id file create_tileset
             tileset_name visualization_type w ds Hvalid Hsmall Hwrite Hopen).
  - intros Hvalid Hsmall Hfault Hunlink.
    unfold outcome, world_after.
    rewrite (upload_netcdf_turn env max_file_size too_large job_id file create_tileset
               tileset_name visualization_type w Hvalid Hsmall).
    destruct Hfault as [[msg Hwrite] | (Hwrite & e & Hopen)].
    + rewrite (IngestFaultFacts.turn_write_fails env file job_id create_tileset _
                 visualization_type None _ w msg Hwrite Hunlink).
      cbn. repeat split.
    + rewrite (IngestFaultFacts.turn_open_fails env file job_id create_tileset _
                 visualization_type None _ w e Hwrite Hopen Hunlink).
      cbn. repeat split.
Qed.

Lemma X22_single_upload_paths_witness :
  let run :=
    upload_netcdf sample_env 1000 "File too large. Maximum size is 500.0MB"
      "20240101120000" (mkUpload "my file.nc" "CDF") false None "vector" in
  exists record,
    uploaded_files (app (world_after run empty_world)) !! "20240101120000" = Some record /\
    record !! "file_path" = Some (VStr "/srv/uploads/20240101120000_my file.nc") /\
    viz_field (world_after run empty_world) "20240101120000" "file_path"
      = Some (VStr "/srv/uploads/20240101120000_my_file.nc").
Proof.
  cbv zeta.
  destruct (X22_single_upload_paths sample_env 1000 "File too large. Maximum size is 500.0MB"
              "20240101120000" (mkUpload "my file.nc" "CDF") false None "vector"
              empty_world) as (_ & _ & Hthrough & _).
  destruct (Hthrough eq_refl) with (ds := wind_dataset)
    as (file_result & record & _ & _ & Hrecord & Hpath & _ & Hviz & _);
    [cbn; lia | reflexivity | reflexivity |].
  exists record. split; [exact Hrecord|]. split; [exact Hpath | exact Hviz].
Defined.

(** X23. Deleting a file right after its single upload.  The delete
    answers with success and the Uploaded File Record and the Visualization
    Record of the job are gone, but what leaves the disk is the recorded
    path: the saved file is still there afterwards exactly when the name
    held a character that the sanitising replaced. *)
Theorem X23_delete_after_single_upload {A : Type} `{ArrayLib A} (env : Env A)
    (max_file_size : nat) (too_large job_id : string) (file : Upload)
    (create_tileset : bool) (tileset_name : option string) (visualization_type : string)
    (denied : gset string) (w : World) (ds : Dataset A) :
  let run :=
    upload_netcdf env max_file_size too_large job_id file create_tileset tileset_name
      visualization_type in
  let saved := saved_path env job_id (filename file) in
  let recorded := UPLOAD_DIR (settings env) ++ "/" ++ job_id ++ "_" ++ filename file in
  validate_netcdf_file (filename file) = Valid ->
  String.length (content file) <= max_file_size ->
  write_fails env saved = None ->
  open_dataset env saved = Returns ds ->
  recorded ∉ denied ->
  exists body w',
    Files.delete_file denied job_id (world_after run w) = (Ok body, w') /\
    body !! "success" = Some (VBool true) /\
    uploaded_files (app w') !! job_id = None /\
    active_visualizations (app w') !! job_id = None /\
    disk w' = ({[saved]} ∪ disk w) ∖ {[recorded]} /\
    (saved ∈ disk w' <->
     ~ Forall (fun c => safe_char c = true) (chars (filename file))).
Proof.
  cbv zeta. intros Hvalid Hsmall Hwrite Hopen Hfree.
  destruct (upload_netcdf_through env max_file_size too_large job_id file create_tileset
              tileset_name visualization_type w ds Hvalid Hsmall Hwrite Hopen)
    as (file_result & record & _ & _ & Hrecord & Hpath & _ & _ & _ & Hdisk & Hsame).
  destruct (delete_file_disk denied job_id _ record _ Hrecord Hpath Hfree)
    as (body & w' & Hdelete & Hbody & Hdisk' & Hviz & Hup).
  exists body, w'. split; [exact Hdelete|]. split; [exact Hbody|].
  split; [exact Hup|]. split; [exact Hviz|].
  rewrite Hdisk in Hdisk'. split; [exact Hdisk'|].
  rewrite Hdisk', <- Hsame. split.
  - intros Hin Heq. apply elem_of_difference in Hin as [_ Hout].
    apply Hout, elem_of_singleton. symmetry. exact Heq.
  - intros Hne. apply elem_of_difference. split.
    + apply elem_of_union_l, elem_of_singleton. reflexivity.
    + intros Heq. apply elem_of_singleton in Heq. apply Hne. symmetry. exact Heq.
Qed.

Lemma X23_delete_after_single_upload_witness :
  let run :=
    upload_netcdf sample_env 1000 "File too large. Maximum size is 500.0MB"
      "20240101120000" (mkUpload "my file.nc" "CDF") false None "vector" in
  exists body w',
    Files.delete_file ∅ "20240101120000" (world_after run empty_world) = (Ok body, w') /\
    uploaded_files (app w') !! "20240101120000" = None /\
    "/srv/uploads/20240101120000_my_file.nc" ∈ disk w'.
Proof.
  cbv zeta.
  destruct (X23_delete_after_single_upload sample_env 1000
              "File too large. Maximum size is 500.0MB" "20240101120000"
              (mkUpload "my file.nc" "CDF") false None "vector" ∅ empty_world wind_dataset)
    as (body & w' & Hdelete & _ & Hup & _ & _ & Hdisk);
    [reflexivity | cbn; lia | reflexivity | reflexivity | apply not_elem_of_empty |].
  exists body, w'. split; [exact Hdelete|]. split; [exact Hup|].
  apply Hdisk. intros Hall.
  change (Forall (fun c => safe_char c = true) ("m" :: "y" :: " " :: chars "file.nc")%char)
    in Hall.
  apply Forall_cons in Hall as [_ Hall]. apply Forall_cons in Hall as [_ Hall].
  apply Forall_cons in Hall as [Hspace _]. discriminate Hspace.
Defined.

End SingleUploadFacts.
